(** * CloudScope storage adapters: a shallow embedding

    The development follows [src/adapters/storage]: the file-backed, the
    SQLite and the Memgraph repositories behind the [AssetRepository] and
    [RelationshipRepository] ports, together with the domain models they
    persist.  Python objects become records, dictionaries become [gmap]s,
    methods become state-passing functions that return a [result], and
    [try]/[except] becomes [try_except] over an explicit exception value. *)

From stdpp Require Import base gmap strings list fin_maps numbers.
From Stdlib Require Import ZArith QArith Qabs Qcanon Qround.

Open Scope string_scope.

(** ** Exceptions *)

(** The exception classes that the adapters raise or catch.  The first block
    is [ports/repository.py]; the rest are the Python, [sqlite3] and [neo4j]
    classes the adapters meet. *)
Inductive exn_class : Set :=
  | RepositoryError
  | AssetNotFoundError
  | RelationshipNotFoundError
  | DuplicateAssetError
  | DuplicateRelationshipError
  | ValueError
  | KeyError
  | TypeError
  | AttributeError
  | ImportError
  | Sqlite3Error
  | Sqlite3IntegrityError
  | Sqlite3OperationalError
  | ServiceUnavailable.

Global Instance exn_class_eq_dec : EqDecision exn_class.
Proof. solve_decision. Defined.

(** The direct base class, [None] standing for [Exception]. *)
Definition base_class (c : exn_class) : option exn_class :=
  match c with
  | AssetNotFoundError | RelationshipNotFoundError
  | DuplicateAssetError | DuplicateRelationshipError => Some RepositoryError
  | Sqlite3IntegrityError | Sqlite3OperationalError => Some Sqlite3Error
  | _ => None
  end.

(** [issubclass c d], as an [except d] clause tests it. *)
Definition issubclass (c d : exn_class) : bool :=
  bool_decide (c = d) || bool_decide (base_class c = Some d).

Record exn : Set := Exn { exn_cls : exn_class; exn_msg : string }.

Global Instance exn_eq_dec : EqDecision exn.
Proof. solve_decision. Defined.

(** [isinstance(e, d)] *)
Definition isinstance (e : exn) (d : exn_class) : bool := issubclass (exn_cls e) d.

Inductive result (A : Type) : Type :=
  | Ok (a : A)
  | Raise (e : exn).
Arguments Ok {A} a.
Arguments Raise {A} e.

Definition is_ok {A} (r : result A) : bool :=
  match r with Ok _ => true | Raise _ => false end.

Definition raised_class {A} (r : result A) : option exn_class :=
  match r with Ok _ => None | Raise e => Some (exn_cls e) end.

Definition result_bind {A B} (r : result A) (f : A → result B) : result B :=
  match r with Ok a => f a | Raise e => Raise e end.

Global Instance result_ret : MRet result := λ A a, Ok a.
Global Instance result_mbind : MBind result := λ A B f r, result_bind r f.

(** ** Methods as state transformers

    A method of an object whose mutable world is [S] is a function
    [S → S * result A]: an exception keeps every effect made before it, as in
    Python (nothing is undone by unwinding). *)
Definition M (S A : Type) : Type := S → S * result A.

Definition M_ret {S A} (a : A) : M S A := λ s, (s, Ok a).
Definition M_bind {S A B} (m : M S A) (k : A → M S B) : M S B :=
  λ s, match m s with
       | (s', Ok a) => k a s'
       | (s', Raise e) => (s', Raise e)
       end.

Global Instance M_mret S : MRet (M S) := λ A a, M_ret a.
Global Instance M_mbind S : MBind (M S) := λ A B k m, M_bind m k.
Global Instance M_fmap S : FMap (M S) := λ A B f m, M_bind m (λ a, M_ret (f a)).

Definition raise {S A} (c : exn_class) (msg : string) : M S A :=
  λ s, (s, Raise (Exn c msg)).
Definition reraise {S A} (e : exn) : M S A := λ s, (s, Raise e).
Definition get {S} : M S S := λ s, (s, Ok s).
Definition gets {S A} (f : S → A) : M S A := λ s, (s, Ok (f s)).
Definition modify {S} (f : S → S) : M S unit := λ s, (f s, Ok tt).
Definition lift_result {S A} (r : result A) : M S A := λ s, (s, r).

(** [try: body except ...: handler e]; the handler decides by [isinstance]
    whether it takes the exception. *)
Definition try_except {S A} (body : M S A) (handler : exn → M S A) : M S A :=
  λ s, match body s with
       | (s', Ok a) => (s', Ok a)
       | (s', Raise e) => handler e s'
       end.

(** [for x in xs: body x], stopping at the first exception. *)
Fixpoint for_each {S A} (xs : list A) (body : A → M S unit) : M S unit :=
  match xs with
  | [] => mret tt
  | x :: xs' => body x ≫= λ _, for_each xs' body
  end.

(** The same loop over a pure accumulator that may raise. *)
Fixpoint fold_result {A B} (f : B → A → result B) (acc : B) (xs : list A) : result B :=
  match xs with
  | [] => Ok acc
  | x :: xs' => f acc x ≫= λ acc', fold_result f acc' xs'
  end.

(** ** Logging *)

Inductive log_level : Set := DEBUG | INFO | WARNING | ERROR.

Global Instance log_level_eq_dec : EqDecision log_level.
Proof. solve_decision. Defined.

Definition log_record : Set := log_level * string.

(** ** Strings *)

(** [needle in haystack] on strings. *)
Fixpoint contains (needle haystack : string) : bool :=
  String.prefix needle haystack ||
  match haystack with
  | EmptyString => false
  | String _ rest => contains needle rest
  end.

(** [sep.join(parts)] *)
Fixpoint join (sep : string) (parts : list string) : string :=
  match parts with
  | [] => ""
  | [p] => p
  | p :: ps => p +:+ sep +:+ join sep ps
  end.

(** [s.lower()] for a string of ASCII characters: only [A] to [Z] change.
    (Beyond ASCII [str.lower] follows the Unicode tables; statements that
    depend on it are made for [ascii_only] strings.) *)
Definition lower_ascii (c : Ascii.ascii) : Ascii.ascii :=
  let n := Ascii.nat_of_ascii c in
  if bool_decide (65 ≤ n ≤ 90)%nat then Ascii.ascii_of_nat (n + 32) else c.

Fixpoint lower (s : string) : string :=
  match s with
  | EmptyString => EmptyString
  | String c rest => String (lower_ascii c) (lower rest)
  end.

Fixpoint ascii_only (s : string) : bool :=
  match s with
  | EmptyString => true
  | String c rest => bool_decide (Ascii.nat_of_ascii c < 128)%nat && ascii_only rest
  end.

(** The ids that name a file of their own in their shard directory.  The
    stores build the path of an entity with [pathlib] from the id itself: a
    [/] in the id is read as a directory separator, so the file of such an
    id lies in a directory that is never created, or is the file of another
    id; an id that starts with [..] leads out of [base_path]; and a file
    name holds no NUL character and at most 255 bytes.  The path functions
    of the two file-backed stores below are exact for the other ids, and the
    statements about paths are made for them. *)
Definition plain_id (id : string) : bool :=
  negb (contains "/" id)
  && negb (contains (String Ascii.zero EmptyString) id)
  && negb (String.prefix ".." id)
  && bool_decide (String.length id ≤ 240)%nat.

(** [d.get(key)] on a literal dictionary of strings, written as the list
    of its items. *)
Fixpoint assoc_get (key : string) (d : list (string * string)) : option string :=
  match d with
  | [] => None
  | (k, v) :: d' => if bool_decide (key = k) then Some v else assoc_get key d'
  end.

(** ** Domain models ([src/domain/models]) *)

(** [datetime] values are points on the integer time line; [isoformat] and
    [fromisoformat] are inverse on them.  Floats are exact rationals.  Values
    of [properties] and [metadata] are kept as their JSON text. *)
Abbreviation datetime := Z (only parsing).
Abbreviation pydict := (gmap string string) (only parsing).

Definition Qc_of_Z (z : Z) : Qc := Q2Qc (inject_Z z).

Module Relationship.

Record t : Type := mk {
  source_id : string;
  target_id : string;
  relationship_type : string;
  relationship_id : string;
  properties : pydict;
  confidence : Qc;
  created_at : datetime;
  updated_at : datetime;
  discovered_by : string;
  discovery_method : string
}.

Global Instance eq_dec : EqDecision t.
Proof. solve_decision. Defined.

Definition set_updated_at (now : datetime) (r : t) : t :=
  mk (source_id r) (target_id r) (relationship_type r) (relationship_id r)
     (properties r) (confidence r) (created_at r) now
     (discovered_by r) (discovery_method r).

Definition allowed_types : list string :=
  [ "depends_on"; "connects_to"; "contains"; "contained_by"; "uses";
    "used_by"; "manages"; "managed_by"; "secures"; "secured_by";
    "backs_up"; "backed_up_by"; "replicates_to"; "replicated_from";
    "load_balances"; "load_balanced_by"; "monitors"; "monitored_by";
    "owns"; "owned_by" ].

Definition allowed_methods : list string :=
  [ "explicit"; "implicit"; "inferred"; "discovered" ].

Definition value_error {A} (msg : string) : result A := Raise (Exn ValueError msg).

Definition validate (r : t) : result bool :=
  if bool_decide (source_id r = "") then value_error "Source ID is required"
  else if bool_decide (target_id r = "") then value_error "Target ID is required"
  else if bool_decide (relationship_type r = "")
    then value_error "Relationship type is required"
  else if bool_decide (source_id r = target_id r)
    then value_error "Self-relationships are not allowed"
  else if negb (bool_decide (relationship_type r ∈ allowed_types))
    then value_error ("Invalid relationship type: " +:+ relationship_type r)
  else if negb (bool_decide (0 ≤ confidence r ∧ confidence r ≤ 1)%Qc)
    then value_error "Confidence must be between 0 and 1"
  else if negb (bool_decide (discovery_method r ∈ allowed_methods))
    then value_error ("Invalid discovery method: " +:+ discovery_method r)
  else Ok true.

Definition get_direction (r : t) : string :=
  let ty := relationship_type r in
  if bool_decide (ty ∈ [ "depends_on"; "uses"; "contains"; "manages"; "secures";
                         "backs_up"; "replicates_to"; "load_balances";
                         "monitors"; "owns" ]) then "outbound"
  else if bool_decide (ty ∈ [ "used_by"; "contained_by"; "managed_by";
                              "secured_by"; "backed_up_by"; "replicated_from";
                              "load_balanced_by"; "monitored_by"; "owned_by" ])
    then "inbound"
  else if bool_decide (ty = "connects_to") then "bidirectional"
  else "unknown".

(** The JSON object written by [to_dict]: the fields and the computed
    [direction]. *)
Record dict : Type := mk_dict {
  d_fields : t;
  d_direction : string
}.

Global Instance dict_eq_dec : EqDecision dict.
Proof. solve_decision. Defined.

Definition to_dict (r : t) : dict := mk_dict r (get_direction r).

(** [from_dict] drops [direction] and calls the constructor, whose
    [__post_init__] validates.  A stored [relationship_id] is never empty
    (it names the file), so the uuid branch of [__post_init__] does not
    arise. *)
Definition from_dict (d : dict) : result t :=
  validate (d_fields d) ≫= λ _, Ok (d_fields d).

(** The methods that change a relationship return the changed object;
    [now] is the reading of [datetime.utcnow()]. *)
Definition set_confidence (c : Qc) (r : t) : t :=
  mk (source_id r) (target_id r) (relationship_type r) (relationship_id r)
     (properties r) c (created_at r) (updated_at r)
     (discovered_by r) (discovery_method r).

Definition set_properties (ps : pydict) (r : t) : t :=
  mk (source_id r) (target_id r) (relationship_type r) (relationship_id r)
     ps (confidence r) (created_at r) (updated_at r)
     (discovered_by r) (discovery_method r).

Definition inverse_types : list (string * string) :=
  [ ("depends_on", "used_by"); ("uses", "used_by"); ("contains", "contained_by");
    ("manages", "managed_by"); ("secures", "secured_by");
    ("backs_up", "backed_up_by"); ("replicates_to", "replicated_from");
    ("load_balances", "load_balanced_by"); ("monitors", "monitored_by");
    ("owns", "owned_by") ].

Definition is_inverse_of (self other : t) : bool :=
  if bool_decide (source_id self = target_id other)
     && bool_decide (target_id self = source_id other)
  then
    if bool_decide (assoc_get (relationship_type self) inverse_types
                    = Some (relationship_type other)) then true
    else if bool_decide (assoc_get (relationship_type other) inverse_types
                         = Some (relationship_type self)) then true
    else false
  else false.

Definition update_confidence (now : datetime) (new_confidence : Qc) (r : t) : result t :=
  if negb (bool_decide (0 ≤ new_confidence ∧ new_confidence ≤ 1)%Qc)
  then value_error "Confidence must be between 0 and 1"
  else Ok (set_updated_at now (set_confidence new_confidence r)).

Definition add_property (now : datetime) (key value : string) (r : t) : t :=
  set_updated_at now (set_properties (<[key := value]> (properties r)) r).

Definition remove_property (now : datetime) (key : string) (r : t) : t * bool :=
  if bool_decide (is_Some (properties r !! key))
  then (set_updated_at now (set_properties (delete key (properties r)) r), true)
  else (r, false).

(** [__eq__] between two relationships: the key fields. *)
Definition eqb (self other : t) : bool :=
  bool_decide (source_id self = source_id other)
  && bool_decide (target_id self = target_id other)
  && bool_decide (relationship_type self = relationship_type other).

End Relationship.

Module Asset.

Record t : Type := mk {
  asset_id : string;
  asset_type : string;
  provider : string;
  name : string;
  properties : pydict;
  tags : pydict;
  relationships : list Relationship.t;
  metadata : pydict;
  created_at : datetime;
  updated_at : datetime;
  discovered_at : datetime;
  status : string;
  health : string;
  compliance_status : string;
  risk_score : Qc;
  estimated_cost : Qc
}.

Global Instance eq_dec : EqDecision t.
Proof. solve_decision. Defined.

Definition set_updated_at (now : datetime) (a : t) : t :=
  mk (asset_id a) (asset_type a) (provider a) (name a) (properties a) (tags a)
     (relationships a) (metadata a) (created_at a) now (discovered_at a)
     (status a) (health a) (compliance_status a) (risk_score a)
     (estimated_cost a).

Definition set_relationships (rs : list Relationship.t) (a : t) : t :=
  mk (asset_id a) (asset_type a) (provider a) (name a) (properties a) (tags a)
     rs (metadata a) (created_at a) (updated_at a) (discovered_at a)
     (status a) (health a) (compliance_status a) (risk_score a)
     (estimated_cost a).

Definition allowed_types : list string :=
  [ "compute"; "storage"; "network"; "database";
    "container"; "function"; "identity"; "security" ].

Definition allowed_providers : list string :=
  [ "aws"; "azure"; "gcp"; "kubernetes"; "onprem"; "hybrid"; "custom" ].

Definition allowed_statuses : list string :=
  [ "active"; "inactive"; "terminated"; "unknown" ].

Definition value_error {A} (msg : string) : result A := Raise (Exn ValueError msg).

Definition validate (a : t) : result bool :=
  if bool_decide (asset_type a = "") then value_error "Asset type is required"
  else if bool_decide (provider a = "") then value_error "Provider is required"
  else if bool_decide (name a = "") then value_error "Asset name is required"
  else if negb (bool_decide (asset_type a ∈ allowed_types))
    then value_error ("Invalid asset type: " +:+ asset_type a)
  else if negb (bool_decide (provider a ∈ allowed_providers))
    then value_error ("Invalid provider: " +:+ provider a)
  else if negb (bool_decide (status a ∈ allowed_statuses))
    then value_error ("Invalid status: " +:+ status a)
  else if negb (bool_decide (0 ≤ risk_score a ∧ risk_score a ≤ Qc_of_Z 100)%Qc)
    then value_error "Risk score must be between 0 and 100"
  else Ok true.

(** The JSON object written by [to_dict]: every field but [relationships],
    of which only the count is kept. *)
Record dict : Type := mk_dict {
  d_fields : t;
  d_relationship_count : nat
}.

Global Instance dict_eq_dec : EqDecision dict.
Proof. solve_decision. Defined.

Definition to_dict (a : t) : dict :=
  mk_dict (set_relationships [] a) (length (relationships a)).

(** [from_dict] pops [relationship_count] and calls the constructor, which
    starts from an empty [relationships] list and validates.  A stored
    [asset_id] is never empty (it names the file), so the uuid branch of
    [__post_init__] does not arise. *)
Definition from_dict (d : dict) : result t :=
  let a := set_relationships [] (d_fields d) in
  validate a ≫= λ _, Ok a.

(** The methods that change an asset return the changed object; [now] is
    the reading of [datetime.utcnow()]. *)
Definition set_properties (ps : pydict) (a : t) : t :=
  mk (asset_id a) (asset_type a) (provider a) (name a) ps (tags a)
     (relationships a) (metadata a) (created_at a) (updated_at a) (discovered_at a)
     (status a) (health a) (compliance_status a) (risk_score a)
     (estimated_cost a).

Definition set_tags (ts : pydict) (a : t) : t :=
  mk (asset_id a) (asset_type a) (provider a) (name a) (properties a) ts
     (relationships a) (metadata a) (created_at a) (updated_at a) (discovered_at a)
     (status a) (health a) (compliance_status a) (risk_score a)
     (estimated_cost a).

Definition set_risk_score (q : Qc) (a : t) : t :=
  mk (asset_id a) (asset_type a) (provider a) (name a) (properties a) (tags a)
     (relationships a) (metadata a) (created_at a) (updated_at a) (discovered_at a)
     (status a) (health a) (compliance_status a) q
     (estimated_cost a).

(** The test of the duplicate loop of [add_relationship]. *)
Definition same_link (r1 r2 : Relationship.t) : bool :=
  bool_decide (Relationship.source_id r1 = Relationship.source_id r2)
  && bool_decide (Relationship.target_id r1 = Relationship.target_id r2)
  && bool_decide (Relationship.relationship_type r1 = Relationship.relationship_type r2).

Definition add_relationship (now : datetime) (relationship : Relationship.t) (a : t)
  : result t :=
  if negb (bool_decide (Relationship.source_id relationship = asset_id a))
     && negb (bool_decide (Relationship.target_id relationship = asset_id a))
  then value_error "Relationship must involve this asset"
  else if existsb (λ existing, same_link existing relationship) (relationships a)
  then Ok a
  else Ok (set_updated_at now
             (set_relationships (relationships a ++ [relationship])%list a)).

Definition remove_relationship (now : datetime) (relationship_id : string) (a : t)
  : t * bool :=
  let initial_count := length (relationships a) in
  let a := set_relationships
             (filter (λ r, Relationship.relationship_id r ≠ relationship_id)
                     (relationships a)) a in
  if bool_decide (length (relationships a) < initial_count)%nat
  then (set_updated_at now a, true)
  else (a, false).

(** [self.properties.update(properties)]: the new entries win. *)
Definition update_properties (now : datetime) (ps : pydict) (a : t) : t :=
  set_updated_at now (set_properties (ps ∪ properties a) a).

Definition add_tag (now : datetime) (key value : string) (a : t) : t :=
  set_updated_at now (set_tags (<[key := value]> (tags a)) a).

Definition remove_tag (now : datetime) (key : string) (a : t) : t * bool :=
  if bool_decide (is_Some (tags a !! key))
  then (set_updated_at now (set_tags (delete key (tags a)) a), true)
  else (a, false).

(** [(later - earlier).days], the time line counted in microseconds: the
    whole days of the difference, rounded down. *)
Definition timedelta_days (later earlier : datetime) : Z :=
  ((later - earlier) `div` 86400000000)%Z.

Definition compliance_scores : list (string * Qc) :=
  [ ("compliant", 0%Qc); ("non_compliant", Qc_of_Z 30); ("unknown", Qc_of_Z 20) ].

Definition health_scores : list (string * Qc) :=
  [ ("healthy", 0%Qc); ("degraded", Qc_of_Z 15); ("unhealthy", Qc_of_Z 25);
    ("unknown", Qc_of_Z 10) ].

(** [scores.get(key, dflt)] *)
Fixpoint score_get (key : string) (dflt : Qc) (scores : list (string * Qc)) : Qc :=
  match scores with
  | [] => dflt
  | (k, v) :: scores' => if bool_decide (key = k) then v else score_get key dflt scores'
  end.

Definition Qc_max (x y : Qc) : Qc := if bool_decide (x < y)%Qc then y else x.
Definition Qc_min (x y : Qc) : Qc := if bool_decide (y < x)%Qc then y else x.

(** The score before it is clamped. *)
Definition raw_risk_score (now : datetime) (a : t) : Qc :=
  let score := 0%Qc in
  let score := if bool_decide (365 < timedelta_days now (created_at a))%Z
               then (score + Qc_of_Z 10)%Qc else score in
  let score := if bool_decide (tags a = ∅) then (score + Qc_of_Z 15)%Qc else score in
  let score := (score + score_get (compliance_status a) (Qc_of_Z 20) compliance_scores)%Qc in
  let score := (score + score_get (health a) (Qc_of_Z 10) health_scores)%Qc in
  if bool_decide (10 < length (relationships a))%nat
  then (score + Qc_of_Z 10)%Qc else score.

(** [calculate_risk_score]: the asset with its new [risk_score], and the
    value returned. *)
Definition calculate_risk_score (now : datetime) (a : t) : t * Qc :=
  let score := Qc_min (Qc_of_Z 100) (Qc_max 0%Qc (raw_risk_score now a)) in
  (set_risk_score score a, score).

End Asset.

(** ** Values returned by the statistics methods *)

(** The result of [get_statistics] and [get_graph_statistics] is a Python
    dictionary; keys keep their insertion order. *)
#[local] Unset Elimination Schemes.
Inductive pyvalue : Type :=
  | PInt (z : Z)
  | PFloat (q : Qc)
  | PStr (s : string)
  | PBool (b : bool)
  | PList (l : list pyvalue)
  | PDict (d : list (string * pyvalue)).
#[local] Set Elimination Schemes.

(** [d.get(key)] on an association list with unique keys. *)
Fixpoint dict_get (key : string) (d : list (string * pyvalue)) : option pyvalue :=
  match d with
  | [] => None
  | (k, v) :: d' => if bool_decide (k = key) then Some v else dict_get key d'
  end.

Definition dict_keys (d : list (string * pyvalue)) : list string := d.*1.

(** [d[key] = v]: replace in place or append. *)
Fixpoint dict_set (key : string) (v : pyvalue) (d : list (string * pyvalue))
  : list (string * pyvalue) :=
  match d with
  | [] => [(key, v)]
  | (k, w) :: d' => if bool_decide (k = key) then (k, v) :: d'
                    else (k, w) :: dict_set key v d'
  end.

(** The integer nearest to [y]; the even one of the two when [y] lies
    half-way. *)
Definition round_half_even (y : Q) : Z :=
  let lo := Qfloor y in
  match (y - inject_Z lo ?= 1 # 2)%Q with
  | Lt => lo
  | Gt => (lo + 1)%Z
  | Eq => if Z.even lo then lo else (lo + 1)%Z
  end.

(** [2 ** k] for an integer [k]. *)
Definition Qpow2 (k : Z) : Q :=
  match k with
  | Z0 => 1%Q
  | Zpos p => inject_Z (2 ^ Zpos p)
  | Zneg p => (1 # (2 ^ p)%positive)%Q
  end.

(** The Python float of a rational, as [int / int] and the SQL engines
    compute it: the binary64 number nearest to [x], the one with the even
    significand when two are equally near.  A binary64 number has 53
    significant bits; below [2 ** -1022] it is a multiple of [2 ** -1074].
    Quotients of counts stay far below the largest float, so overflow is not
    modelled. *)
Definition binary64 (x : Q) : Q :=
  let a := Qabs x in
  if Qeq_bool a 0 then 0%Q
  else
    let e0 := (Z.log2 (Qnum a) - Z.log2 (Zpos (Qden a)))%Z in
    let e := if Qle_bool (Qpow2 e0) a then e0 else (e0 - 1)%Z in
    let ulp := Qpow2 (Z.max e (-1022) - 52) in
    let m := round_half_even (a / ulp) in
    if Qle_bool 0 x then (inject_Z m * ulp)%Q else (- (inject_Z m * ulp))%Q.

(** [round(x, ndigits)] on the float of [x]: the decimal with [ndigits]
    places nearest to the binary64 number (not to the rational it came
    from), the even one when the float lies exactly half-way.  The result
    stands for the float nearest to that decimal. *)
Definition py_round (x : Qc) (ndigits : nat) : Qc :=
  let scale := (10 ^ Z.of_nat ndigits)%Z in
  Q2Qc (inject_Z (round_half_even (binary64 (this x) * inject_Z scale))
        / inject_Z scale).

(** Filters accepted by [find_all] and [count]: the keys a backend looks at,
    each present or not.  Other keys are ignored by every backend. *)
Record asset_filters : Type := mk_asset_filters {
  f_asset_type : option string;
  f_provider : option string;
  f_status : option string;
  f_min_risk_score : option Qc;
  f_max_risk_score : option Qc;
  f_tags : option pydict
}.

(** [not filters]: [None] or the empty dictionary. *)
Definition filters_falsy (filters : option asset_filters) : bool :=
  match filters with
  | None => true
  | Some f =>
      bool_decide (f_asset_type f = None) && bool_decide (f_provider f = None)
      && bool_decide (f_status f = None) && bool_decide (f_min_risk_score f = None)
      && bool_decide (f_max_risk_score f = None) && bool_decide (f_tags f = None)
  end.

Definition only_asset_type (ty : string) : asset_filters :=
  mk_asset_filters (Some ty) None None None None None.
Definition only_provider (p : string) : asset_filters :=
  mk_asset_filters None (Some p) None None None None.

(** [if limit and n >= limit] and [if offset and n < offset]: [None] and [0]
    are both falsy. *)
Definition truthy (n : option nat) : option nat :=
  match n with Some (S k) => Some (S k) | _ => None end.

(** ** Secondary indices of the file-backed store *)

(** An index file is a JSON object from a key to a list of ids. *)
Abbreviation index := (gmap string (list string)) (only parsing).

Fixpoint remove_first (x : string) (l : list string) : list string :=
  match l with
  | [] => []
  | y :: l' => if bool_decide (x = y) then l' else y :: remove_first x l'
  end.

(** [l.remove(x)] *)
Definition list_remove (x : string) (l : list string) : result (list string) :=
  if bool_decide (x ∈ l) then Ok (remove_first x l)
  else Raise (Exn ValueError "list.remove(x): x not in list").

(** The [remove] branch of [_update_index] for one key. *)
Definition index_remove (key id : string) (idx : index) : result index :=
  match idx !! key with
  | Some ids =>
      ids' ← list_remove id ids;
      Ok (if bool_decide (ids' = []) then delete key idx else <[key := ids']> idx)
  | None => Ok idx
  end.

(** The add branch of [_update_index] for one key. *)
Definition index_add (key id : string) (idx : index) : index :=
  let ids := default [] (idx !! key) in
  if bool_decide (id ∈ ids) then <[key := ids]> idx else <[key := (ids ++ [id])%list]> idx.

Definition index_update (remove : bool) (key id : string) (idx : index) : result index :=
  if remove then index_remove key id idx else Ok (index_add key id idx).

(** [f"{tag_key}={tag_value}"] *)
Definition tag_str (kv : string * string) : string := kv.1 +:+ "=" +:+ kv.2.

(** The loop of [_update_index] over [asset.tags.items()].  The dictionary
    is walked in the order of [map_to_list]; the outcome does not depend on
    the order. *)
Definition update_tag_index (remove : bool) (tags : pydict) (id : string)
    (idx : index) : result index :=
  fold_result (λ idx kv, index_update remove (tag_str kv) id idx) idx (map_to_list tags).

(** [{k: len(v) for k, v in idx.items()}] *)
Definition index_cardinalities (idx : index) : pyvalue :=
  PDict ((λ kv, (kv.1, PInt (Z.of_nat (length kv.2)))) <$> map_to_list idx).

(** A path below [base_path]: the shard directory and the file name.  For
    a [plain_id] this is the path the source computes, the shard directory
    exists once the path has been asked for ([mkdir(exist_ok=True)]), and
    different ids have different paths. *)
Abbreviation path := (string * string)%type (only parsing).

Definition ends_with (suffix s : string) : bool :=
  let n := String.length s in
  let k := String.length suffix in
  bool_decide (k ≤ n)%nat && bool_decide (String.substring (n - k) k s = suffix).

(** ** File-backed asset repository ([file_repository.py]) *)

Module FileBasedAssetRepository.

(** The directory tree below [base_path]: the entity files by path and the
    three JSON index files of [.indices]; [log] is what [self.logger]
    received.  The in-process lock is not modelled (one thread). *)
Record t : Type := mk {
  base_path : string;
  compress : bool;
  files : gmap path Asset.dict;
  type_index : index;
  provider_index : index;
  tag_index : index;
  log : list log_record
}.

Definition set_files (f : gmap path Asset.dict) (r : t) : t :=
  mk (base_path r) (compress r) f (type_index r) (provider_index r) (tag_index r) (log r).
Definition set_type_index (i : index) (r : t) : t :=
  mk (base_path r) (compress r) (files r) i (provider_index r) (tag_index r) (log r).
Definition set_provider_index (i : index) (r : t) : t :=
  mk (base_path r) (compress r) (files r) (type_index r) i (tag_index r) (log r).
Definition set_tag_index (i : index) (r : t) : t :=
  mk (base_path r) (compress r) (files r) (type_index r) (provider_index r) i (log r).
Definition add_log (rec : log_record) (r : t) : t :=
  mk (base_path r) (compress r) (files r) (type_index r) (provider_index r)
     (tag_index r) (log r ++ [rec])%list.

Definition logger (lvl : log_level) (msg : string) : M t unit :=
  modify (add_log (lvl, msg)).

(** [__init__] on a fresh directory: no entity file, three empty indices. *)
Definition init (base : string) (compress : bool) : t :=
  mk base compress ∅ ∅ ∅ ∅ [].

Definition extension (r : t) : string :=
  if compress r then ".json.gz" else ".json".

Definition _get_asset_path (r : t) (asset_id : string) : path :=
  let subdir := if bool_decide (2 ≤ String.length asset_id)%nat
                then String.substring 0 2 asset_id else "00" in
  (subdir, asset_id +:+ extension r).

(** Writing goes through a temporary file and a rename, so a write is one
    step of the model.  The temporary file lies beside the target, in the
    shard directory [_get_asset_path] has made: for the path of a
    [plain_id] the write cannot fail for want of a directory. *)
Definition _write_json (p : path) (data : Asset.dict) : M t unit :=
  modify (λ r, set_files (<[p := data]> (files r)) r).

Definition path_exists (p : path) : M t bool :=
  gets (λ r, bool_decide (is_Some (files r !! p))).

(** [_read_json] of an entity file that exists. *)
Definition _read_json (p : path) : M t Asset.dict :=
  λ r, match files r !! p with
       | Some d => (r, Ok d)
       | None => (r, Raise (Exn ValueError "No such file or directory"))
       end.

Definition _update_index (asset : Asset.t) (remove : bool) : M t unit :=
  let id := Asset.asset_id asset in
  type_idx ← gets type_index;
  type_idx ← lift_result (index_update remove (Asset.asset_type asset) id type_idx);
  modify (set_type_index type_idx);;
  provider_idx ← gets provider_index;
  provider_idx ← lift_result (index_update remove (Asset.provider asset) id provider_idx);
  modify (set_provider_index provider_idx);;
  tag_idx ← gets tag_index;
  tag_idx ← lift_result (update_tag_index remove (Asset.tags asset) id tag_idx);
  modify (set_tag_index tag_idx).

Definition save (asset : Asset.t) : M t Asset.t :=
  let id := Asset.asset_id asset in
  try_except
    (asset_path ← gets (λ r, _get_asset_path r id);
     present ← path_exists asset_path;
     (if present : bool
      then raise DuplicateAssetError ("Asset " +:+ id +:+ " already exists")
      else mret tt);;
     _write_json asset_path (Asset.to_dict asset);;
     _update_index asset false;;
     logger INFO ("Saved asset " +:+ id);;
     mret asset)
    (λ e,
     logger ERROR ("Failed to save asset " +:+ id +:+ ": " +:+ exn_msg e);;
     raise RepositoryError ("Failed to save asset: " +:+ exn_msg e)).

Fixpoint save_batch_loop (assets : list Asset.t)
    (saved_assets : list Asset.t) (errors : list string)
  : M t (list Asset.t * list string) :=
  match assets with
  | [] => mret (saved_assets, errors)
  | asset :: rest =>
      acc ← try_except
        (a ← save asset; mret ((saved_assets ++ [a])%list, errors))
        (λ e,
         if isinstance e DuplicateAssetError
         then logger WARNING ("Skipping duplicate asset " +:+ Asset.asset_id asset);;
              mret (saved_assets, errors)
         else mret (saved_assets,
                    (errors ++ [Asset.asset_id asset +:+ ": " +:+ exn_msg e])%list));
      save_batch_loop rest acc.1 acc.2
  end.

Definition save_batch (assets : list Asset.t) : M t (list Asset.t) :=
  acc ← save_batch_loop assets [] [];
  if negb (bool_decide (acc.2 = [])) && bool_decide (acc.1 = [])
  then raise RepositoryError ("Batch save failed: " +:+ join "; " acc.2)
  else mret acc.1.

Definition find_by_id (asset_id : string) : M t (option Asset.t) :=
  try_except
    (asset_path ← gets (λ r, _get_asset_path r asset_id);
     present ← path_exists asset_path;
     if present : bool
     then data ← _read_json asset_path;
          a ← lift_result (Asset.from_dict data);
          mret (Some a)
     else mret None)
    (λ e,
     logger ERROR ("Failed to find asset " +:+ asset_id +:+ ": " +:+ exn_msg e);;
     raise RepositoryError ("Failed to find asset: " +:+ exn_msg e)).

(** The loop shared by [find_by_type], [find_by_provider] and
    [find_by_tags]: look every id up, keep the ones found. *)
Fixpoint find_each (asset_ids : list string) (assets : list Asset.t)
  : M t (list Asset.t) :=
  match asset_ids with
  | [] => mret assets
  | asset_id :: rest =>
      found ← find_by_id asset_id;
      find_each rest (match found with
                      | Some a => (assets ++ [a])%list
                      | None => assets
                      end)
  end.

Definition _matches_filters (asset : Asset.t) (filters : option asset_filters) : bool :=
  match filters with
  | None => true
  | Some f =>
      filters_falsy filters
      || (from_option (λ v, bool_decide (Asset.asset_type asset = v)) true (f_asset_type f)
          && from_option (λ v, bool_decide (Asset.provider asset = v)) true (f_provider f)
          && from_option (λ v, bool_decide (Asset.status asset = v)) true (f_status f)
          && from_option (λ v, negb (bool_decide (Asset.risk_score asset < v)%Qc)) true
               (f_min_risk_score f)
          && from_option (λ v, negb (bool_decide (v < Asset.risk_score asset)%Qc)) true
               (f_max_risk_score f)
          && from_option
               (λ ts, forallb (λ kv, bool_decide (Asset.tags asset !! kv.1 = Some kv.2))
                        (map_to_list ts))
               true (f_tags f))
  end.

(** [base_path.iterdir()] restricted to the shard directories (names not
    starting with a dot), then [subdir.glob("*" + extension)] in each.
    The order is the file system's; the model lists the shards, and the
    files of a shard, in the order of the underlying map. *)
Definition listing (r : t) : list path :=
  let entries := (map_to_list (files r)).*1 in
  let subdirs := filter (λ sd, ¬ String.prefix "." sd) (remove_dups (entries.*1)) in
  subdirs ≫= λ sd, filter (λ p, p.1 = sd ∧ ends_with (extension r) p.2) entries.

Fixpoint find_all_loop (entries : list path) (filters : option asset_filters)
    (limit offset : option nat) (count : nat) (assets : list Asset.t)
  : M t (list Asset.t) :=
  match entries with
  | [] => mret assets
  | asset_file :: rest =>
      if from_option (λ off, bool_decide (count < off)%nat) false (truthy offset)
      then find_all_loop rest filters limit offset (S count) assets
      else if from_option (λ lim, bool_decide (lim ≤ length assets)%nat) false (truthy limit)
      then mret assets
      else
        data ← _read_json asset_file;
        asset ← lift_result (Asset.from_dict data);
        find_all_loop rest filters limit offset (S count)
          (if _matches_filters asset filters then (assets ++ [asset])%list else assets)
  end.

Definition find_all (filters : option asset_filters) (limit offset : option nat)
  : M t (list Asset.t) :=
  try_except
    (entries ← gets listing;
     find_all_loop entries filters limit offset 0 [])
    (λ e,
     logger ERROR ("Failed to find assets: " +:+ exn_msg e);;
     raise RepositoryError ("Failed to find assets: " +:+ exn_msg e)).

Definition find_by_type (asset_type : string) : M t (list Asset.t) :=
  try_except
    (type_idx ← gets type_index;
     find_each (default [] (type_idx !! asset_type)) [])
    (λ e,
     logger ERROR ("Failed to find assets by type: " +:+ exn_msg e);;
     raise RepositoryError ("Failed to find assets by type: " +:+ exn_msg e)).

Definition find_by_provider (provider : string) : M t (list Asset.t) :=
  try_except
    (provider_idx ← gets provider_index;
     find_each (default [] (provider_idx !! provider)) [])
    (λ e,
     logger ERROR ("Failed to find assets by provider: " +:+ exn_msg e);;
     raise RepositoryError ("Failed to find assets by provider: " +:+ exn_msg e)).

(** The running intersection of [find_by_tags]; [None] is Python's [None]. *)
Definition matching_ids_step (tag_idx : index) (matching_ids : option (gset string))
    (kv : string * string) : option (gset string) :=
  let tag_asset_ids : gset string := list_to_set (default [] (tag_idx !! tag_str kv)) in
  match matching_ids with
  | None => Some tag_asset_ids
  | Some ids => Some (ids ∩ tag_asset_ids)
  end.

Definition find_by_tags (tags : pydict) : M t (list Asset.t) :=
  try_except
    (tag_idx ← gets tag_index;
     let matching_ids := foldl (matching_ids_step tag_idx) None (map_to_list tags) in
     match matching_ids with
     | None => mret []
     | Some ids =>
         if bool_decide (ids = ∅) then mret []
         else find_each (elements ids) []
     end)
    (λ e,
     logger ERROR ("Failed to find assets by tags: " +:+ exn_msg e);;
     raise RepositoryError ("Failed to find assets by tags: " +:+ exn_msg e)).

(** The test of [update] on the indexed fields: type, provider or tags
    changed.  Dictionaries compare as maps. *)
Definition indexed_fields_differ (old_asset asset : Asset.t) : bool :=
  negb (bool_decide (Asset.asset_type old_asset = Asset.asset_type asset))
  || negb (bool_decide (Asset.provider old_asset = Asset.provider asset))
  || negb (bool_decide (Asset.tags old_asset = Asset.tags asset)).

(** [update]; [now] is the reading of [datetime.utcnow()]. *)
Definition update (now : datetime) (asset : Asset.t) : M t Asset.t :=
  let id := Asset.asset_id asset in
  try_except
    (asset_path ← gets (λ r, _get_asset_path r id);
     present ← path_exists asset_path;
     (if present : bool then mret tt
      else raise AssetNotFoundError ("Asset " +:+ id +:+ " not found"));;
     old_data ← _read_json asset_path;
     old_asset ← lift_result (Asset.from_dict old_data);
     let asset := Asset.set_updated_at now asset in
     _write_json asset_path (Asset.to_dict asset);;
     (if indexed_fields_differ old_asset asset
      then _update_index old_asset true;; _update_index asset false
      else mret tt);;
     logger INFO ("Updated asset " +:+ id);;
     mret asset)
    (λ e,
     logger ERROR ("Failed to update asset " +:+ id +:+ ": " +:+ exn_msg e);;
     raise RepositoryError ("Failed to update asset: " +:+ exn_msg e)).

Fixpoint update_batch_loop (now : datetime) (assets : list Asset.t)
    (updated_assets : list Asset.t) (errors : list string)
  : M t (list Asset.t * list string) :=
  match assets with
  | [] => mret (updated_assets, errors)
  | asset :: rest =>
      acc ← try_except
        (a ← update now asset; mret ((updated_assets ++ [a])%list, errors))
        (λ e,
         if isinstance e AssetNotFoundError
         then mret (updated_assets,
                    (errors ++ [Asset.asset_id asset +:+ ": not found"])%list)
         else mret (updated_assets,
                    (errors ++ [Asset.asset_id asset +:+ ": " +:+ exn_msg e])%list));
      update_batch_loop now rest acc.1 acc.2
  end.

(** One clock reading serves the whole batch. *)
Definition update_batch (now : datetime) (assets : list Asset.t) : M t (list Asset.t) :=
  acc ← update_batch_loop now assets [] [];
  if negb (bool_decide (acc.2 = [])) && bool_decide (acc.1 = [])
  then raise RepositoryError ("Batch update failed: " +:+ join "; " acc.2)
  else mret acc.1.

Definition unlink (p : path) : M t unit :=
  modify (λ r, set_files (base.delete p (files r)) r).

Definition delete (asset_id : string) : M t bool :=
  try_except
    (asset_path ← gets (λ r, _get_asset_path r asset_id);
     present ← path_exists asset_path;
     if present : bool
     then data ← _read_json asset_path;
          asset ← lift_result (Asset.from_dict data);
          unlink asset_path;;
          _update_index asset true;;
          logger INFO ("Deleted asset " +:+ asset_id);;
          mret true
     else mret false)
    (λ e,
     logger ERROR ("Failed to delete asset " +:+ asset_id +:+ ": " +:+ exn_msg e);;
     raise RepositoryError ("Failed to delete asset: " +:+ exn_msg e)).

Fixpoint delete_batch_loop (asset_ids : list string) (deleted_count : nat) : M t nat :=
  match asset_ids with
  | [] => mret deleted_count
  | asset_id :: rest =>
      n ← try_except
        (deleted ← delete asset_id;
         mret (if deleted : bool then S deleted_count else deleted_count))
        (λ e,
         logger WARNING ("Failed to delete asset " +:+ asset_id +:+ ": " +:+ exn_msg e);;
         mret deleted_count);
      delete_batch_loop rest n
  end.

Definition delete_batch (asset_ids : list string) : M t nat :=
  delete_batch_loop asset_ids 0.

Definition count (filters : option asset_filters) : M t nat :=
  assets ← find_all filters None None;
  mret (length assets).

Definition exists_ (asset_id : string) : M t bool :=
  asset_path ← gets (λ r, _get_asset_path r asset_id);
  path_exists asset_path.

Definition limit_reached (limit : option nat) (results : list Asset.t) : bool :=
  from_option (λ lim, bool_decide (lim ≤ length results)%nat) false (truthy limit).

(** The loop of [search].  The name test ends the iteration for an asset
    ([continue]); the property and the tag tests each append on their
    own. *)
Fixpoint search_loop (query_lower : string) (limit : option nat)
    (assets results : list Asset.t) : list Asset.t :=
  match assets with
  | [] => results
  | asset :: rest =>
      if contains query_lower (lower (Asset.name asset)) then
        let results := (results ++ [asset])%list in
        if limit_reached limit results then results
        else search_loop query_lower limit rest results
      else
        let in_properties :=
          existsb (λ kv, contains query_lower (lower kv.2))
                  (map_to_list (Asset.properties asset)) in
        let results := if in_properties then (results ++ [asset])%list else results in
        if in_properties && limit_reached limit results then results
        else
          let in_tags :=
            existsb (λ kv, contains query_lower (lower kv.1)
                           || contains query_lower (lower kv.2))
                    (map_to_list (Asset.tags asset)) in
          let results := if in_tags then (results ++ [asset])%list else results in
          if in_tags && limit_reached limit results then results
          else search_loop query_lower limit rest results
  end.

Definition search (query : string) (limit : option nat) : M t (list Asset.t) :=
  assets ← find_all None None None;
  mret (search_loop (lower query) limit assets []).

Section statistics.

(** [asset_file.stat().st_size]: the size on disk of the encoded (and
    possibly gzip-compressed) JSON text is the encoder's business. *)
Variable st_size : Asset.dict → Z.

Definition storage_size (r : t) : Z :=
  foldr Z.add 0%Z
    ((λ p, from_option st_size 0%Z (files r !! p)) <$> listing r).

Definition get_statistics : M t (list (string * pyvalue)) :=
  try_except
    (type_idx ← gets type_index;
     provider_idx ← gets provider_index;
     tag_idx ← gets tag_index;
     let all_asset_ids : gset string :=
       list_to_set (concat ((map_to_list type_idx).*2)) in
     total_size ← gets storage_size;
     r ← get;
     mret [ ("total_assets", PInt (Z.of_nat (size all_asset_ids)));
            ("by_type", index_cardinalities type_idx);
            ("by_provider", index_cardinalities provider_idx);
            ("unique_tags", PInt (Z.of_nat (size tag_idx)));
            ("storage_path", PStr (base_path r));
            ("compressed", PBool (compress r));
            ("storage_size_bytes", PInt total_size);
            ("storage_size_mb",
             PFloat (py_round (Qc_of_Z total_size / Qc_of_Z (1024 * 1024)) 2)) ])
    (λ e,
     logger ERROR ("Failed to get statistics: " +:+ exn_msg e);;
     raise RepositoryError ("Failed to get statistics: " +:+ exn_msg e)).

End statistics.

End FileBasedAssetRepository.

(** Sample entities used by the examples. *)
Module Sample.

Definition asset (id ty provider : string) (tags : list (string * string)) : Asset.t :=
  Asset.mk id ty provider ("name-" +:+ id) ∅ (list_to_map tags) [] ∅
           0%Z 0%Z 0%Z "active" "healthy" "unknown" 0%Qc 0%Qc.

Definition relationship (id src tgt ty : string) : Relationship.t :=
  Relationship.mk src tgt ty id ∅ 1%Qc 0%Z 0%Z "manual" "explicit".

Definition fresh_store : FileBasedAssetRepository.t :=
  FileBasedAssetRepository.init "./data/assets" true.

End Sample.

(** Filters accepted by [count] of the file-backed relationship store: the
    keys [_relationship_matches_filters] looks at, each present or not, and
    whether the dictionary has a key besides those. *)
Record relationship_filters : Type := mk_relationship_filters {
  f_source_id : option string;
  f_target_id : option string;
  f_relationship_type : option string;
  f_min_confidence : option Qc;
  f_other_keys : bool
}.

(** [not filters]: [None] or the empty dictionary. *)
Definition relationship_filters_falsy (filters : option relationship_filters) : bool :=
  match filters with
  | None => true
  | Some f =>
      bool_decide (f_source_id f = None) && bool_decide (f_target_id f = None)
      && bool_decide (f_relationship_type f = None)
      && bool_decide (f_min_confidence f = None) && negb (f_other_keys f)
  end.


(** ** File-backed relationship repository ([file_repository.py]) *)

Module FileBasedRelationshipRepository.

(** As for assets: relationship files by path, and the index files
    [by_source], [by_target] and [by_type] from a key to relationship ids. *)
Record t : Type := mk {
  base_path : string;
  compress : bool;
  files : gmap path Relationship.dict;
  source_index : index;
  target_index : index;
  type_index : index;
  log : list log_record
}.

Definition set_files (f : gmap path Relationship.dict) (r : t) : t :=
  mk (base_path r) (compress r) f (source_index r) (target_index r) (type_index r) (log r).
Definition set_source_index (i : index) (r : t) : t :=
  mk (base_path r) (compress r) (files r) i (target_index r) (type_index r) (log r).
Definition set_target_index (i : index) (r : t) : t :=
  mk (base_path r) (compress r) (files r) (source_index r) i (type_index r) (log r).
Definition set_type_index (i : index) (r : t) : t :=
  mk (base_path r) (compress r) (files r) (source_index r) (target_index r) i (log r).
Definition add_log (rec : log_record) (r : t) : t :=
  mk (base_path r) (compress r) (files r) (source_index r) (target_index r)
     (type_index r) (log r ++ [rec])%list.

Definition logger (lvl : log_level) (msg : string) : M t unit :=
  modify (add_log (lvl, msg)).

Definition init (base : string) (compress : bool) : t :=
  mk base compress ∅ ∅ ∅ ∅ [].

Definition extension (r : t) : string :=
  if compress r then ".json.gz" else ".json".

(** As for assets: the path the source computes for a [plain_id], in a
    shard directory that exists once the path has been asked for. *)
Definition _get_relationship_path (r : t) (relationship_id : string) : path :=
  let subdir := if bool_decide (3 ≤ String.length relationship_id)%nat
                then String.substring 0 3 relationship_id else "rel" in
  (subdir, relationship_id +:+ extension r).

Definition _write_json (p : path) (data : Relationship.dict) : M t unit :=
  modify (λ r, set_files (<[p := data]> (files r)) r).

Definition path_exists (p : path) : M t bool :=
  gets (λ r, bool_decide (is_Some (files r !! p))).

Definition _read_json (p : path) : M t Relationship.dict :=
  λ r, match files r !! p with
       | Some d => (r, Ok d)
       | None => (r, Raise (Exn ValueError "No such file or directory"))
       end.

Definition unlink (p : path) : M t unit :=
  modify (λ r, set_files (base.delete p (files r)) r).

Definition _update_index (relationship : Relationship.t) (remove : bool) : M t unit :=
  let id := Relationship.relationship_id relationship in
  source_idx ← gets source_index;
  source_idx ← lift_result
    (index_update remove (Relationship.source_id relationship) id source_idx);
  modify (set_source_index source_idx);;
  target_idx ← gets target_index;
  target_idx ← lift_result
    (index_update remove (Relationship.target_id relationship) id target_idx);
  modify (set_target_index target_idx);;
  type_idx ← gets type_index;
  type_idx ← lift_result
    (index_update remove (Relationship.relationship_type relationship) id type_idx);
  modify (set_type_index type_idx).

Definition find_by_id (relationship_id : string) : M t (option Relationship.t) :=
  try_except
    (rel_path ← gets (λ r, _get_relationship_path r relationship_id);
     present ← path_exists rel_path;
     if present : bool
     then data ← _read_json rel_path;
          rel ← lift_result (Relationship.from_dict data);
          mret (Some rel)
     else mret None)
    (λ e,
     logger ERROR ("Failed to find relationship " +:+ relationship_id +:+ ": "
                   +:+ exn_msg e);;
     raise RepositoryError ("Failed to find relationship: " +:+ exn_msg e)).

Fixpoint find_each (rel_ids : list string) (relationships : list Relationship.t)
  : M t (list Relationship.t) :=
  match rel_ids with
  | [] => mret relationships
  | rel_id :: rest =>
      found ← find_by_id rel_id;
      find_each rest (match found with
                      | Some rel => (relationships ++ [rel])%list
                      | None => relationships
                      end)
  end.

Definition find_by_source (source_id : string) : M t (list Relationship.t) :=
  try_except
    (source_idx ← gets source_index;
     find_each (default [] (source_idx !! source_id)) [])
    (λ e,
     logger ERROR ("Failed to find relationships by source: " +:+ exn_msg e);;
     raise RepositoryError ("Failed to find relationships by source: " +:+ exn_msg e)).

Definition _find_exact_relationship (source_id target_id relationship_type : string)
  : M t (option Relationship.t) :=
  rels ← find_by_source source_id;
  mret (head (filter (λ rel, Relationship.target_id rel = target_id
                             ∧ Relationship.relationship_type rel = relationship_type)
                     rels)).

Definition save (relationship : Relationship.t) : M t Relationship.t :=
  let id := Relationship.relationship_id relationship in
  try_except
    (rel_path ← gets (λ r, _get_relationship_path r id);
     present ← path_exists rel_path;
     (if present : bool
      then raise DuplicateRelationshipError ("Relationship " +:+ id +:+ " already exists")
      else mret tt);;
     existing ← _find_exact_relationship
                  (Relationship.source_id relationship)
                  (Relationship.target_id relationship)
                  (Relationship.relationship_type relationship);
     match existing with
     | Some ex =>
         raise DuplicateRelationshipError
           ("Relationship already exists: " +:+ Relationship.relationship_id ex)
     | None => mret tt
     end;;
     _write_json rel_path (Relationship.to_dict relationship);;
     _update_index relationship false;;
     logger INFO ("Saved relationship " +:+ id);;
     mret relationship)
    (λ e,
     logger ERROR ("Failed to save relationship: " +:+ exn_msg e);;
     raise RepositoryError ("Failed to save relationship: " +:+ exn_msg e)).

Definition delete (relationship_id : string) : M t bool :=
  try_except
    (rel_path ← gets (λ r, _get_relationship_path r relationship_id);
     present ← path_exists rel_path;
     if present : bool
     then data ← _read_json rel_path;
          relationship ← lift_result (Relationship.from_dict data);
          unlink rel_path;;
          _update_index relationship true;;
          logger INFO ("Deleted relationship " +:+ relationship_id);;
          mret true
     else mret false)
    (λ e,
     logger ERROR ("Failed to delete relationship: " +:+ exn_msg e);;
     raise RepositoryError ("Failed to delete relationship: " +:+ exn_msg e)).

Fixpoint save_batch_loop (relationships : list Relationship.t)
    (saved_relationships : list Relationship.t) (errors : list string)
  : M t (list Relationship.t * list string) :=
  match relationships with
  | [] => mret (saved_relationships, errors)
  | relationship :: rest =>
      acc ← try_except
        (rel ← save relationship; mret ((saved_relationships ++ [rel])%list, errors))
        (λ e,
         if isinstance e DuplicateRelationshipError
         then logger WARNING ("Skipping duplicate relationship "
                              +:+ Relationship.relationship_id relationship);;
              mret (saved_relationships, errors)
         else mret (saved_relationships,
                    (errors ++ [Relationship.relationship_id relationship
                                +:+ ": " +:+ exn_msg e])%list));
      save_batch_loop rest acc.1 acc.2
  end.

Definition save_batch (relationships : list Relationship.t)
  : M t (list Relationship.t) :=
  acc ← save_batch_loop relationships [] [];
  if negb (bool_decide (acc.2 = [])) && bool_decide (acc.1 = [])
  then raise RepositoryError ("Batch save failed: " +:+ join "; " acc.2)
  else mret acc.1.

Definition find_by_target (target_id : string) : M t (list Relationship.t) :=
  try_except
    (target_idx ← gets target_index;
     find_each (default [] (target_idx !! target_id)) [])
    (λ e,
     logger ERROR ("Failed to find relationships by target: " +:+ exn_msg e);;
     raise RepositoryError ("Failed to find relationships by target: " +:+ exn_msg e)).

(** The loop of [find_by_asset]: keep the first relationship of each id. *)
Fixpoint unseen (rels : list Relationship.t) (seen : gset string)
    (all_rels : list Relationship.t) : list Relationship.t :=
  match rels with
  | [] => all_rels
  | rel :: rest =>
      if bool_decide (Relationship.relationship_id rel ∈ seen)
      then unseen rest seen all_rels
      else unseen rest ({[Relationship.relationship_id rel]} ∪ seen) (all_rels ++ [rel])%list
  end.

Definition find_by_asset (asset_id : string) : M t (list Relationship.t) :=
  source_rels ← find_by_source asset_id;
  target_rels ← find_by_target asset_id;
  mret (unseen (source_rels ++ target_rels)%list ∅ []).

Definition find_by_type (relationship_type : string) : M t (list Relationship.t) :=
  try_except
    (type_idx ← gets type_index;
     find_each (default [] (type_idx !! relationship_type)) [])
    (λ e,
     logger ERROR ("Failed to find relationships by type: " +:+ exn_msg e);;
     raise RepositoryError ("Failed to find relationships by type: " +:+ exn_msg e)).

Definition find_between (asset_id1 asset_id2 : string) : M t (list Relationship.t) :=
  from1 ← find_by_source asset_id1;
  let relationships := filter (λ rel, Relationship.target_id rel = asset_id2) from1 in
  from2 ← find_by_source asset_id2;
  mret (relationships
        ++ filter (λ rel, Relationship.target_id rel = asset_id1) from2)%list.

Definition indexed_fields_differ (old_rel relationship : Relationship.t) : bool :=
  negb (bool_decide (Relationship.source_id old_rel = Relationship.source_id relationship))
  || negb (bool_decide (Relationship.target_id old_rel
                        = Relationship.target_id relationship))
  || negb (bool_decide (Relationship.relationship_type old_rel
                        = Relationship.relationship_type relationship)).

(** [update]; [now] is the reading of [datetime.utcnow()]. *)
Definition update (now : datetime) (relationship : Relationship.t) : M t Relationship.t :=
  let id := Relationship.relationship_id relationship in
  try_except
    (rel_path ← gets (λ r, _get_relationship_path r id);
     present ← path_exists rel_path;
     (if present : bool then mret tt
      else raise RelationshipNotFoundError ("Relationship " +:+ id +:+ " not found"));;
     old_data ← _read_json rel_path;
     old_rel ← lift_result (Relationship.from_dict old_data);
     let relationship := Relationship.set_updated_at now relationship in
     _write_json rel_path (Relationship.to_dict relationship);;
     (if indexed_fields_differ old_rel relationship
      then _update_index old_rel true;; _update_index relationship false
      else mret tt);;
     logger INFO ("Updated relationship " +:+ id);;
     mret relationship)
    (λ e,
     logger ERROR ("Failed to update relationship: " +:+ exn_msg e);;
     raise RepositoryError ("Failed to update relationship: " +:+ exn_msg e)).

Fixpoint delete_each (relationships : list Relationship.t) (deleted_count : nat)
  : M t nat :=
  match relationships with
  | [] => mret deleted_count
  | rel :: rest =>
      deleted ← delete (Relationship.relationship_id rel);
      delete_each rest (if deleted : bool then S deleted_count else deleted_count)
  end.

Definition delete_by_asset (asset_id : string) : M t nat :=
  relationships ← find_by_asset asset_id;
  delete_each relationships 0.

(** [base_path.iterdir()] without the names that start with a dot, then
    [subdir.glob("*" + extension)] in each, in the order of the underlying
    map. *)
Definition listing (r : t) : list path :=
  let entries := (map_to_list (files r)).*1 in
  let subdirs := filter (λ sd, ¬ String.prefix "." sd) (remove_dups (entries.*1)) in
  subdirs ≫= λ sd, filter (λ p, p.1 = sd ∧ ends_with (extension r) p.2) entries.

(** [_relationship_matches_filters] reads the file as written, without the
    constructor; a file that cannot be read matches nothing. *)
Definition _relationship_matches_filters (rel_path : path) (f : relationship_filters)
  : M t bool :=
  gets (λ r,
    match files r !! rel_path with
    | Some data =>
        let rel := Relationship.d_fields data in
        from_option (λ v, bool_decide (Relationship.source_id rel = v)) true (f_source_id f)
        && from_option (λ v, bool_decide (Relationship.target_id rel = v)) true
             (f_target_id f)
        && from_option (λ v, bool_decide (Relationship.relationship_type rel = v)) true
             (f_relationship_type f)
        && from_option (λ v, negb (bool_decide (Relationship.confidence rel < v)%Qc)) true
             (f_min_confidence f)
    | None => false
    end).

Fixpoint count_files (entries : list path) (f : relationship_filters) (count : nat)
  : M t nat :=
  match entries with
  | [] => mret count
  | rel_file :: rest =>
      matches ← _relationship_matches_filters rel_file f;
      count_files rest f (if matches : bool then S count else count)
  end.

Definition count (filters : option relationship_filters) : M t nat :=
  match filters with
  | Some f =>
      if relationship_filters_falsy filters
      then source_idx ← gets source_index;
           mret (sum_list (length <$> (map_to_list source_idx).*2))
      else entries ← gets listing;
           count_files entries f 0
  | None =>
      source_idx ← gets source_index;
      mret (sum_list (length <$> (map_to_list source_idx).*2))
  end.

Definition index_degree (idx : index) (node : string) : nat :=
  length (default [] (idx !! node)).

Definition get_graph_statistics : M t (list (string * pyvalue)) :=
  try_except
    (source_idx ← gets source_index;
     target_idx ← gets target_index;
     type_idx ← gets type_index;
     let nodes : gset string := dom source_idx ∪ dom target_idx in
     let total_edges := sum_list (length <$> (map_to_list source_idx).*2) in
     let degrees :=
       (λ node, (index_degree source_idx node + index_degree target_idx node)%nat)
         <$> elements nodes in
     let avg_degree :=
       if bool_decide (nodes = ∅) then PInt 0
       else PFloat (py_round (Qc_of_Z (Z.of_nat (sum_list degrees))
                              / Qc_of_Z (Z.of_nat (size nodes))) 2) in
     mret [ ("node_count", PInt (Z.of_nat (size nodes)));
            ("edge_count", PInt (Z.of_nat total_edges));
            ("relationship_types", PList (PStr <$> (map_to_list type_idx).*1));
            ("average_degree", avg_degree);
            ("max_degree", PInt (Z.of_nat (max_list degrees)));
            ("by_type", index_cardinalities type_idx) ])
    (λ e,
     logger ERROR ("Failed to get graph statistics: " +:+ exn_msg e);;
     raise RepositoryError ("Failed to get graph statistics: " +:+ exn_msg e)).

End FileBasedRelationshipRepository.

(** ** The embedded relational store ([sqlite_repository.py]) *)

Module SQLite.

(** The three tables of [_init_database].  A row of [assets] holds the
    columns of [_asset_to_row] (an asset without its [relationships]); a row
    of [asset_tags] is [(asset_id, tag_key, tag_value)]. *)
Record database : Type := mk_database {
  assets : list Asset.t;
  asset_tags : list (string * string * string);
  relationships : list Relationship.t
}.

Definition empty : database := mk_database [] [] [].

(** A [SQLiteConnection] with the database file it opens, and the log of
    the repository that owns it. *)
Record t : Type := mk {
  pragmas : list (string * string);
  db : database;
  log : list log_record
}.

Definition set_db (d : database) (w : t) : t := mk (pragmas w) d (log w).
Definition add_log (rec : log_record) (w : t) : t :=
  mk (pragmas w) (db w) (log w ++ [rec])%list.

Definition logger (lvl : log_level) (msg : string) : M t unit :=
  modify (add_log (lvl, msg)).

Definition default_pragmas : list (string * string) :=
  [ ("journal_mode", "WAL"); ("synchronous", "NORMAL"); ("cache_size", "-64000");
    ("temp_store", "MEMORY"); ("foreign_keys", "ON") ].

(** [SQLiteConnection.__init__]: [pragmas or {...}] on a new database
    file. *)
Definition init (pragmas : option (list (string * string))) : t :=
  mk (match pragmas with
      | None | Some [] => default_pragmas
      | Some ps => ps
      end) empty [].

(** The number a run of decimal digits at the head of [s] denotes. *)
Fixpoint leading_number (s : string) (acc : Z) : Z :=
  match s with
  | String c rest =>
      let n := Z.of_nat (Ascii.nat_of_ascii c) in
      if bool_decide (48 ≤ n ≤ 57)%Z then leading_number rest (10 * acc + (n - 48))%Z
      else acc
  | EmptyString => acc
  end.

Definition hex_digit (c : Ascii.ascii) : option Z :=
  let n := Z.of_nat (Ascii.nat_of_ascii c) in
  if bool_decide (48 ≤ n ≤ 57)%Z then Some (n - 48)%Z
  else if bool_decide (65 ≤ n ≤ 70)%Z then Some (n - 55)%Z
  else if bool_decide (97 ≤ n ≤ 102)%Z then Some (n - 87)%Z
  else None.

(** The number a run of hexadecimal digits at the head of [s] denotes. *)
Fixpoint leading_hex (s : string) (acc : Z) : Z :=
  match s with
  | String c rest =>
      match hex_digit c with
      | Some d => leading_hex rest (16 * acc + d)%Z
      | None => acc
      end
  | EmptyString => acc
  end.

(** The integer the engine reads at the head of a value: decimal, or
    hexadecimal after [0x]; 0 when it does not fit 31 bits. *)
Definition leading_int32 (v : string) : Z :=
  let x := match v with
           | String z (String c (String d rest)) =>
               if bool_decide (String z (String c EmptyString) ∈ ["0x"; "0X"])
                  && bool_decide (is_Some (hex_digit d))
               then leading_hex (String d rest) 0
               else leading_number v 0
           | _ => leading_number v 0
           end in
  if bool_decide (x ≤ 2147483647)%Z then x else 0%Z.

(** What the engine makes of the value of a boolean pragma, written as one
    bare word or number.  A value that starts with a digit is read as an
    integer and kept as one byte; of the other values [on], [yes] and
    [true], in any case, switch the setting on, and everything else
    switches it off. *)
Definition pragma_flag (v : string) : bool :=
  match v with
  | String c _ =>
      let n := Z.of_nat (Ascii.nat_of_ascii c) in
      if bool_decide (48 ≤ n ≤ 57)%Z
      then negb (bool_decide (leading_int32 v `mod` 256 = 0)%Z)
      else bool_decide (lower v ∈ ["on"; "yes"; "true"])
  | EmptyString => false
  end.

(** Whether the engine enforces foreign keys on a connection.  SQLite
    leaves them off until a [PRAGMA foreign_keys] switches them on;
    [get_connection] runs the pragmas in the order of the dictionary, the
    engine reads pragma names without regard to case, and the last
    assignment stands. *)
Definition foreign_keys (w : t) : bool :=
  match list.last (filter (λ kv, lower kv.1 = "foreign_keys") (pragmas w)) with
  | Some kv => pragma_flag kv.2
  | None => false
  end.

(** [with self.connection.get_connection() as conn: body]: commit when the
    body ends normally, roll back and re-raise when it raises. *)
Definition get_connection {A} (body : M t A) : M t A :=
  λ w, match body w with
       | (w', Ok a) => (w', Ok a)
       | (w', Raise e) => (set_db (db w) w', Raise e)
       end.

Definition integrity_error {A} (msg : string) : M t A := raise Sqlite3IntegrityError msg.

Definition asset_ids (d : database) : list string := Asset.asset_id <$> assets d.

(** [SELECT 1 FROM assets WHERE asset_id = ?] *)
Definition select_asset_exists (asset_id : string) : M t bool :=
  gets (λ w, bool_decide (asset_id ∈ asset_ids (db w))).

(** [SELECT * FROM assets WHERE asset_id = ?] *)
Definition select_asset (asset_id : string) : M t (option Asset.t) :=
  gets (λ w, head (filter (λ a, Asset.asset_id a = asset_id) (assets (db w)))).

(** [INSERT INTO assets (...) VALUES (...)] *)
Definition insert_asset (row : Asset.t) : M t unit :=
  present ← select_asset_exists (Asset.asset_id row);
  if present : bool then integrity_error "UNIQUE constraint failed: assets.asset_id"
  else modify (λ w, set_db (mk_database (assets (db w) ++ [row])%list
                              (asset_tags (db w)) (relationships (db w))) w).

(** [INSERT INTO asset_tags (asset_id, tag_key, tag_value) VALUES (?, ?, ?)] *)
Definition insert_asset_tag (asset_id tag_key tag_value : string) : M t unit :=
  w ← get;
  if bool_decide ((asset_id, tag_key) ∈ (asset_tags (db w)).*1)
  then integrity_error
         "UNIQUE constraint failed: asset_tags.asset_id, asset_tags.tag_key"
  else if foreign_keys w && negb (bool_decide (asset_id ∈ asset_ids (db w)))
  then integrity_error "FOREIGN KEY constraint failed"
  else modify (set_db (mk_database (assets (db w))
                         (asset_tags (db w) ++ [(asset_id, tag_key, tag_value)])%list
                         (relationships (db w)))).

(** [DELETE FROM asset_tags WHERE asset_id = ?] *)
Definition delete_asset_tags (asset_id : string) : M t unit :=
  modify (λ w, set_db (mk_database (assets (db w))
                         (filter (λ row, row.1.1 ≠ asset_id) (asset_tags (db w)))
                         (relationships (db w))) w).

(** [UPDATE assets SET ... WHERE asset_id = ?] with the columns of [row],
    whose [asset_id] column is the one searched for. *)
Definition update_asset (row : Asset.t) : M t unit :=
  modify (λ w, set_db (mk_database
                         ((λ a, if bool_decide (Asset.asset_id a = Asset.asset_id row)
                                then row else a) <$> assets (db w))
                         (asset_tags (db w)) (relationships (db w))) w).

(** [DELETE FROM assets WHERE asset_id IN (...)], returning [rowcount].
    With foreign keys enforced the [ON DELETE CASCADE] clauses remove the
    tag rows and the relationships of the deleted assets. *)
Definition delete_assets (ids : list string) : M t nat :=
  w ← get;
  let d := db w in
  let gone := filter (λ a, Asset.asset_id a ∈ ids) (assets d) in
  let kept := filter (λ a, Asset.asset_id a ∉ ids) (assets d) in
  let dead := Asset.asset_id <$> gone in
  modify (set_db
    (if foreign_keys w
     then mk_database kept
            (filter (λ row, row.1.1 ∉ dead) (asset_tags d))
            (filter (λ r, ¬ (Relationship.source_id r ∈ dead
                             ∨ Relationship.target_id r ∈ dead)) (relationships d))
     else mk_database kept (asset_tags d) (relationships d)));;
  mret (length gone).

(** [SELECT 1 FROM relationships WHERE relationship_id = ?] *)
Definition select_relationship_exists (relationship_id : string) : M t bool :=
  gets (λ w, bool_decide
               (relationship_id ∈ Relationship.relationship_id <$> relationships (db w))).

(** [SELECT * FROM relationships WHERE relationship_id = ?] *)
Definition select_relationship (relationship_id : string) : M t (option Relationship.t) :=
  gets (λ w, head (filter (λ r, Relationship.relationship_id r = relationship_id)
                          (relationships (db w)))).

Definition same_edge (r1 r2 : Relationship.t) : Prop :=
  Relationship.source_id r1 = Relationship.source_id r2
  ∧ Relationship.target_id r1 = Relationship.target_id r2
  ∧ Relationship.relationship_type r1 = Relationship.relationship_type r2.

Global Instance same_edge_dec r1 r2 : Decision (same_edge r1 r2).
Proof. unfold same_edge. apply _. Defined.

(** [INSERT INTO relationships (...) VALUES (...)]: the primary key and the
    [UNIQUE(source_id, target_id, relationship_type)] constraint are checked
    on the row, the foreign keys when the statement ends. *)
Definition insert_relationship (row : Relationship.t) : M t unit :=
  w ← get;
  let d := db w in
  if bool_decide (Relationship.relationship_id row
                  ∈ Relationship.relationship_id <$> relationships d)
  then integrity_error "UNIQUE constraint failed: relationships.relationship_id"
  else if bool_decide (Exists (same_edge row) (relationships d))
  then integrity_error
         ("UNIQUE constraint failed: relationships.source_id, "
          +:+ "relationships.target_id, relationships.relationship_type")
  else if foreign_keys w
          && negb (bool_decide (Relationship.source_id row ∈ asset_ids d)
                   && bool_decide (Relationship.target_id row ∈ asset_ids d))
  then integrity_error "FOREIGN KEY constraint failed"
  else modify (set_db (mk_database (assets d) (asset_tags d)
                         (relationships d ++ [row])%list)).

End SQLite.

Module SQLiteAssetRepository.
Import SQLite.

Definition _asset_to_row (asset : Asset.t) : Asset.t := Asset.set_relationships [] asset.

(** [_row_to_asset]: the constructor sees the four required columns (and
    validates them against the default status and risk score); the other
    fields are assigned afterwards, unchecked. *)
Definition _row_to_asset (row : Asset.t) : result Asset.t :=
  Asset.validate
    (Asset.mk (Asset.asset_id row) (Asset.asset_type row) (Asset.provider row)
              (Asset.name row) ∅ ∅ [] ∅ 0%Z 0%Z 0%Z
              "active" "healthy" "unknown" 0%Qc 0%Qc) ≫= λ _,
  Ok (Asset.set_relationships [] row).

(** [except sqlite3.Error as e]: other exceptions pass through. *)
Definition except_sqlite3 {A} (what : string) (wrapped : string) (e : exn) : M t A :=
  if isinstance e Sqlite3Error
  then logger ERROR (what +:+ ": " +:+ exn_msg e);;
       raise RepositoryError (wrapped +:+ ": " +:+ exn_msg e)
  else reraise e.

Definition insert_tags (asset : Asset.t) : M t unit :=
  for_each (map_to_list (Asset.tags asset))
           (λ kv, insert_asset_tag (Asset.asset_id asset) kv.1 kv.2).

Definition save (asset : Asset.t) : M t Asset.t :=
  let id := Asset.asset_id asset in
  try_except
    (get_connection
       (existing ← select_asset_exists id;
        (if existing : bool
         then raise DuplicateAssetError ("Asset " +:+ id +:+ " already exists")
         else mret tt);;
        insert_asset (_asset_to_row asset);;
        insert_tags asset;;
        logger INFO ("Saved asset " +:+ id);;
        mret asset))
    (except_sqlite3 ("Failed to save asset " +:+ id) "Failed to save asset").

(** The loop of [save_batch]; [None] is a [continue] or a swallowed
    exception, leaving [saved_assets] as it was. *)
Fixpoint save_batch_loop (assets : list Asset.t) (saved_assets : list Asset.t)
  : M t (list Asset.t) :=
  match assets with
  | [] => mret saved_assets
  | asset :: rest =>
      let id := Asset.asset_id asset in
      saved ← try_except
        (existing ← select_asset_exists id;
         if existing : bool
         then logger WARNING ("Skipping duplicate asset " +:+ id);;
              mret saved_assets
         else insert_asset (_asset_to_row asset);;
              insert_tags asset;;
              mret (saved_assets ++ [asset])%list)
        (λ e,
         logger ERROR ("Failed to save asset " +:+ id +:+ ": " +:+ exn_msg e);;
         if bool_decide (saved_assets = []) then reraise e else mret saved_assets);
      save_batch_loop rest saved
  end.

Definition save_batch (assets : list Asset.t) : M t (list Asset.t) :=
  try_except
    (get_connection (save_batch_loop assets []))
    (except_sqlite3 "Batch save failed" "Batch save failed").

Definition find_by_id (asset_id : string) : M t (option Asset.t) :=
  try_except
    (get_connection
       (row ← select_asset asset_id;
        match row with
        | None => mret None
        | Some row => a ← lift_result (_row_to_asset row); mret (Some a)
        end))
    (except_sqlite3 ("Failed to find asset " +:+ asset_id) "Failed to find asset").

(** The query of [find_by_tags]: a join of [assets] and [asset_tags], one
    [(tag_key = ? AND tag_value = ?)] per requested tag joined by [OR],
    grouped by asset, keeping the groups whose number of distinct matching
    keys is [len(tags)].  With no condition the text reads
    [WHERE  GROUP BY], which the parser rejects. *)
Definition select_by_tags (tag_conditions : list (string * string)) (n : nat)
  : M t (list Asset.t) :=
  if bool_decide (tag_conditions = [])
  then raise Sqlite3OperationalError "near GROUP: syntax error"
  else gets (λ w,
    filter (λ a,
              length (remove_dups
                ((filter (λ row, row.1.1 = Asset.asset_id a
                                 ∧ (row.1.2, row.2) ∈ tag_conditions)
                         (asset_tags (db w))).*1.*2)) = n)
           (assets (db w))).

Definition find_by_tags (tags : pydict) : M t (list Asset.t) :=
  try_except
    (get_connection
       (let tag_conditions := map_to_list tags in
        rows ← select_by_tags tag_conditions (size tags);
        lift_result (mapM (M := result) _row_to_asset rows)))
    (except_sqlite3 "Failed to find assets by tags" "Failed to find assets by tags").

Definition update (now : datetime) (asset : Asset.t) : M t Asset.t :=
  let id := Asset.asset_id asset in
  try_except
    (get_connection
       (existing ← select_asset_exists id;
        (if existing : bool then mret tt
         else raise AssetNotFoundError ("Asset " +:+ id +:+ " not found"));;
        let asset := Asset.set_updated_at now asset in
        update_asset (_asset_to_row asset);;
        delete_asset_tags id;;
        insert_tags asset;;
        logger INFO ("Updated asset " +:+ id);;
        mret asset))
    (except_sqlite3 ("Failed to update asset " +:+ id) "Failed to update asset").

Definition delete (asset_id : string) : M t bool :=
  try_except
    (get_connection
       (rowcount ← delete_assets [asset_id];
        if bool_decide (0 < rowcount)%nat
        then logger INFO ("Deleted asset " +:+ asset_id);; mret true
        else mret false))
    (except_sqlite3 ("Failed to delete asset " +:+ asset_id) "Failed to delete asset").

Definition delete_batch (asset_ids : list string) : M t nat :=
  try_except
    (get_connection
       (deleted_count ← delete_assets asset_ids;
        logger INFO "Deleted assets";;
        mret deleted_count))
    (except_sqlite3 "Batch delete failed" "Batch delete failed").

(** [count]: the filters of the query; [tags] is not among them. *)
Definition count_matches (filters : option asset_filters) (a : Asset.t) : bool :=
  match filters with
  | None => true
  | Some f =>
      from_option (λ v, bool_decide (Asset.asset_type a = v)) true (f_asset_type f)
      && from_option (λ v, bool_decide (Asset.provider a = v)) true (f_provider f)
      && from_option (λ v, bool_decide (Asset.status a = v)) true (f_status f)
      && from_option (λ v, bool_decide (v ≤ Asset.risk_score a)%Qc) true (f_min_risk_score f)
      && from_option (λ v, bool_decide (Asset.risk_score a ≤ v)%Qc) true (f_max_risk_score f)
  end.

Definition count (filters : option asset_filters) : M t nat :=
  try_except
    (get_connection
       (gets (λ w, length (filter (λ a, count_matches filters a) (assets (db w))))))
    (except_sqlite3 "Failed to count assets" "Failed to count assets").

Definition exists_ (asset_id : string) : M t bool :=
  try_except
    (get_connection (select_asset_exists asset_id))
    (except_sqlite3 "Failed to check asset existence" "Failed to check asset existence").

End SQLiteAssetRepository.

(** SQL aggregates over a column: [NULL] on no rows. *)
Definition sql_avg (xs : list Qc) : option Qc :=
  match xs with
  | [] => None
  | _ => Some (foldr Qcplus 0%Qc xs / Qc_of_Z (Z.of_nat (length xs)))%Qc
  end.

Definition sql_max (xs : list Z) : option Z :=
  match xs with
  | [] => None
  | x :: xs' => Some (foldr Z.max x xs')
  end.

Definition sql_min (xs : list Z) : option Z :=
  match xs with
  | [] => None
  | x :: xs' => Some (foldr Z.min x xs')
  end.

Definition sql_max_real (xs : list Qc) : option Qc :=
  match xs with
  | [] => None
  | x :: xs' => Some (foldr (λ a b, if bool_decide (a ≤ b)%Qc then b else a) x xs')
  end.

Definition sql_min_real (xs : list Qc) : option Qc :=
  match xs with
  | [] => None
  | x :: xs' => Some (foldr (λ a b, if bool_decide (a ≤ b)%Qc then a else b) x xs')
  end.

(** [x or 0] on a nullable integer or real, and [round(x or 0, n)]. *)
Definition int_or_zero (x : option Z) : pyvalue := PInt (default 0%Z x).

Definition real_or_zero (x : option Qc) : pyvalue :=
  match x with
  | Some q => if bool_decide (q = 0%Qc) then PInt 0 else PFloat q
  | None => PInt 0
  end.

Definition round_or_zero (x : option Qc) (ndigits : nat) : pyvalue :=
  match x with
  | Some q => if bool_decide (q = 0%Qc) then PInt 0 else PFloat (py_round q ndigits)
  | None => PInt 0
  end.

(** [SELECT key, COUNT( * ) ... GROUP BY key] as a dictionary. *)
Definition group_count (keys : list string) : list (string * pyvalue) :=
  (λ k, (k, PInt (Z.of_nat (length (filter (λ k', k' = k) keys))))) <$> remove_dups keys.

Module SQLiteRelationshipRepository.
Import SQLite.

Definition _relationship_to_row (relationship : Relationship.t) : Relationship.t :=
  relationship.

(** [_row_to_relationship] calls the constructor, which validates. *)
Definition _row_to_relationship (row : Relationship.t) : result Relationship.t :=
  Relationship.validate row ≫= λ _, Ok row.

Definition save (relationship : Relationship.t) : M t Relationship.t :=
  let id := Relationship.relationship_id relationship in
  try_except
    (get_connection
       (existing ← select_relationship_exists id;
        (if existing : bool
         then raise DuplicateRelationshipError
                ("Relationship " +:+ id +:+ " already exists")
         else mret tt);;
        insert_relationship (_relationship_to_row relationship);;
        logger INFO ("Saved relationship " +:+ id);;
        mret relationship))
    (λ e,
     if isinstance e Sqlite3IntegrityError then
       if contains "UNIQUE constraint failed" (exn_msg e)
       then raise DuplicateRelationshipError
              "Relationship already exists between these assets"
       else raise RepositoryError ("Failed to save relationship: " +:+ exn_msg e)
     else if isinstance e Sqlite3Error then
       logger ERROR ("Failed to save relationship: " +:+ exn_msg e);;
       raise RepositoryError ("Failed to save relationship: " +:+ exn_msg e)
     else reraise e).

Definition find_by_id (relationship_id : string) : M t (option Relationship.t) :=
  try_except
    (get_connection
       (row ← select_relationship relationship_id;
        match row with
        | None => mret None
        | Some row => r ← lift_result (_row_to_relationship row); mret (Some r)
        end))
    (λ e,
     if isinstance e Sqlite3Error then
       logger ERROR ("Failed to find relationship " +:+ relationship_id +:+ ": "
                     +:+ exn_msg e);;
       raise RepositoryError ("Failed to find relationship: " +:+ exn_msg e)
     else reraise e).

(** The ids of the [UNION ALL] of the source and the target columns. *)
Definition endpoints (d : database) : list string :=
  ((Relationship.source_id <$> relationships d)
   ++ (Relationship.target_id <$> relationships d))%list.

(** The [node_degrees] common table: one degree per distinct endpoint. *)
Definition node_degrees (d : database) : list Z :=
  (λ n, Z.of_nat (length (filter (λ n', n' = n) (endpoints d))))
    <$> remove_dups (endpoints d).

Definition get_graph_statistics : M t (list (string * pyvalue)) :=
  try_except
    (get_connection
       (d ← gets db;
        let total := length (relationships d) in
        let node_count := length (remove_dups (endpoints d)) in
        let by_type := group_count (Relationship.relationship_type <$> relationships d) in
        let degrees := node_degrees d in
        let confidences := Relationship.confidence <$> relationships d in
        mret [ ("node_count", PInt (Z.of_nat node_count));
               ("edge_count", PInt (Z.of_nat total));
               ("relationship_types", PList (PStr <$> dict_keys by_type));
               ("by_type", PDict by_type);
               ("degree_statistics",
                PDict [ ("average", round_or_zero (sql_avg (Qc_of_Z <$> degrees)) 2);
                        ("max", int_or_zero (sql_max degrees));
                        ("min", int_or_zero (sql_min degrees)) ]);
               ("confidence_statistics",
                PDict [ ("average", round_or_zero (sql_avg confidences) 2);
                        ("min", real_or_zero (sql_min_real confidences));
                        ("max", real_or_zero (sql_max_real confidences)) ]) ]))
    (λ e,
     if isinstance e Sqlite3Error then
       logger ERROR ("Failed to get graph statistics: " +:+ exn_msg e);;
       raise RepositoryError ("Failed to get graph statistics: " +:+ exn_msg e)
     else reraise e).

End SQLiteRelationshipRepository.

(** ** The asset port ([ports/repository.py])

    A call of one method of the abstract [AssetRepository], and what it
    returns.  [now] is the clock reading an [update] takes. *)
Module AssetRepository.

Inductive call : Type :=
  | Save (asset : Asset.t)
  | SaveBatch (assets : list Asset.t)
  | FindById (asset_id : string)
  | FindAll (filters : option asset_filters) (limit offset : option nat)
  | FindByType (asset_type : string)
  | FindByProvider (provider : string)
  | FindByTags (tags : pydict)
  | Update (now : datetime) (asset : Asset.t)
  | UpdateBatch (now : datetime) (assets : list Asset.t)
  | Delete (asset_id : string)
  | DeleteBatch (asset_ids : list string)
  | Count (filters : option asset_filters)
  | Exists (asset_id : string)
  | Search (text : string) (limit : option nat)
  | GetStatistics.

Inductive reply : Type :=
  | AnAsset (asset : Asset.t)
  | Assets (assets : list Asset.t)
  | MaybeAsset (asset : option Asset.t)
  | Flag (b : bool)
  | Number (n : Z)
  | Statistics (stats : list (string * pyvalue)).

(** The file-backed implementation of the port. *)
Definition file_backed (st_size : Asset.dict → Z) (c : call)
  : M FileBasedAssetRepository.t reply :=
  match c with
  | Save asset => AnAsset <$> FileBasedAssetRepository.save asset
  | SaveBatch assets => Assets <$> FileBasedAssetRepository.save_batch assets
  | FindById asset_id => MaybeAsset <$> FileBasedAssetRepository.find_by_id asset_id
  | FindAll filters limit offset =>
      Assets <$> FileBasedAssetRepository.find_all filters limit offset
  | FindByType asset_type => Assets <$> FileBasedAssetRepository.find_by_type asset_type
  | FindByProvider provider =>
      Assets <$> FileBasedAssetRepository.find_by_provider provider
  | FindByTags tags => Assets <$> FileBasedAssetRepository.find_by_tags tags
  | Update now asset => AnAsset <$> FileBasedAssetRepository.update now asset
  | UpdateBatch now assets => Assets <$> FileBasedAssetRepository.update_batch now assets
  | Delete asset_id => Flag <$> FileBasedAssetRepository.delete asset_id
  | DeleteBatch asset_ids =>
      (λ n, Number (Z.of_nat n)) <$> FileBasedAssetRepository.delete_batch asset_ids
  | Count filters => (λ n, Number (Z.of_nat n)) <$> FileBasedAssetRepository.count filters
  | Exists asset_id => Flag <$> FileBasedAssetRepository.exists_ asset_id
  | Search text limit => Assets <$> FileBasedAssetRepository.search text limit
  | GetStatistics => Statistics <$> FileBasedAssetRepository.get_statistics st_size
  end.

End AssetRepository.

(** ** The graph-backed store with fallback ([memgraph_repository.py]) *)

(** Configuration dictionaries are string-keyed. *)
Definition config_get (key dflt : string) (config : pydict) : string :=
  default dflt (config !! key).

Module MemgraphAssetRepository.

(** One [WHERE] condition of [find_all] and [count]. *)
Inductive where_clause : Type :=
  | WAssetType (v : string)
  | WProvider (v : string)
  | WStatus (v : string)
  | WMinRisk (v : Qc)
  | WMaxRisk (v : Qc).

(** The Cypher statements the repository sends, by their text and
    parameters. *)
Inductive query : Type :=
  (** [MATCH (a:Asset {asset_id: $asset_id}) RETURN a] *)
  | MatchAsset (asset_id : string)
  (** [CREATE (a:Asset) SET a = $props] *)
  | CreateAsset (props : Asset.t)
  (** [MATCH (a:Asset {asset_id: $asset_id}) SET a = $props] *)
  | SetAsset (asset_id : string) (props : Asset.t)
  (** [MATCH (a:Asset {asset_id: $asset_id}) DELETE a RETURN COUNT(a) as deleted] *)
  | DeleteAsset (asset_id : string)
  (** [MATCH (a:Asset) WHERE a.asset_id IN $asset_ids DELETE a RETURN COUNT(a)] *)
  | DeleteAssets (asset_ids : list string)
  (** [MATCH (a:Asset) WHERE ... RETURN a ORDER BY a.created_at DESC SKIP s LIMIT l] *)
  | MatchAssets (clauses : list where_clause) (skip limit : option nat)
  (** [MATCH (a:Asset) RETURN a] *)
  | MatchAllAssets
  (** [MATCH (a:Asset) WHERE ... RETURN COUNT(a) as count] *)
  | CountAssets (clauses : list where_clause)
  (** [MATCH (a:Asset {asset_id: $asset_id}) RETURN COUNT(a) as count] *)
  | CountAsset (asset_id : string)
  (** [MATCH (a:Asset) WHERE a.name CONTAINS $query RETURN a ORDER BY ... LIMIT l] *)
  | SearchAssets (text : string) (limit : option nat)
  (** the grouped counts and the risk aggregate of [get_statistics] *)
  | CountByType
  | CountByProvider
  | RiskStatistics.

(** What a statement answers: node property maps, a count, grouped counts,
    or the risk aggregate (average, minimum, maximum, high-risk count). *)
Inductive answer : Type :=
  | Nodes (nodes : list Asset.t)
  | Count (n : Z)
  | Groups (groups : list (string * Z))
  | Risk (avg_risk min_risk max_risk : option Qc) (high_risk : Z).

Definition nodes_of (a : answer) : result (list Asset.t) :=
  match a with
  | Nodes l => Ok l
  | _ => Raise (Exn KeyError "a")
  end.

Definition count_of (a : answer) : result Z :=
  match a with
  | Count n => Ok n
  | _ => Raise (Exn KeyError "count")
  end.

Definition groups_of (a : answer) : result (list (string * Z)) :=
  match a with
  | Groups g => Ok g
  | _ => Raise (Exn KeyError "count")
  end.

Section with_server.

(** The remote database as the driver shows it: [connect] is the
    construction of a [MemgraphConnection], [session_run] the execution
    of one statement in a session. *)
Context {G : Type}.
Variable connect : G → result unit.
Variable session_run : query → G → G * result answer.
Variable st_size : Asset.dict → Z.

Record t : Type := mk {
  uri : string;
  server : G;
  _available : bool;
  fallback_repository : option FileBasedAssetRepository.t;
  log : list log_record
}.

Definition set_server (g : G) (r : t) : t :=
  mk (uri r) g (_available r) (fallback_repository r) (log r).
Definition set_fallback (f : FileBasedAssetRepository.t) (r : t) : t :=
  mk (uri r) (server r) (_available r) (Some f) (log r).
Definition add_log (rec : log_record) (r : t) : t :=
  mk (uri r) (server r) (_available r) (fallback_repository r) (log r ++ [rec])%list.

Definition logger (lvl : log_level) (msg : string) : M t unit :=
  modify (add_log (lvl, msg)).

(** [__init__]: the fallback is built first, from a non-empty
    configuration whose [type] is (or defaults to) [file]; then the
    connection is attempted. *)
Definition init (g : G) (connection_config : pydict)
    (fallback_config : option pydict) : result t :=
  let configured := match fallback_config with
                    | Some c => negb (bool_decide (c = ∅))
                    | None => false
                    end in
  let fallback :=
    match fallback_config with
    | Some c =>
        if configured && bool_decide (config_get "type" "file" c = "file")
        then Some (FileBasedAssetRepository.init
                     (config_get "path" "./fallback/assets" c) true)
        else None
    | None => None
    end in
  let log0 := if configured
              then [(INFO, "Fallback repository configured: "
                           +:+ config_get "type" "file" (default ∅ fallback_config))]
              else [] in
  let uri := config_get "uri" "bolt://localhost:7687" connection_config in
  match connect g with
  | Ok _ => Ok (mk uri g true fallback log0)
  | Raise e =>
      let log1 := (log0 ++ [(ERROR, "Failed to connect to Memgraph: " +:+ exn_msg e)])%list in
      match fallback with
      | Some _ => Ok (mk uri g false fallback log1)
      | None => Raise (Exn RepositoryError "Memgraph unavailable and no fallback configured")
      end
  end.

Definition _use_fallback (r : t) : bool :=
  negb (_available r) && bool_decide (is_Some (fallback_repository r)).

(** A call [self.fallback_repository.method(...)]. *)
Definition on_fallback {A} (m : M FileBasedAssetRepository.t A) : M t A :=
  λ r, match fallback_repository r with
       | Some f => let '(f', res) := m f in (set_fallback f' r, res)
       | None => (r, Raise (Exn AttributeError
                              "'NoneType' object has no attribute"))
       end.

(** [session.run(...)] inside [with self.connection.get_session()]. *)
Definition run (q : query) : M t answer :=
  λ r, let '(g', res) := session_run q (server r) in (set_server g' r, res).

Definition _asset_to_node (asset : Asset.t) : Asset.t := Asset.set_relationships [] asset.

Definition _node_to_asset (node : Asset.t) : result Asset.t :=
  Asset.validate
    (Asset.mk (Asset.asset_id node) (Asset.asset_type node) (Asset.provider node)
              (Asset.name node) ∅ ∅ [] ∅ 0%Z 0%Z 0%Z
              "active" "healthy" "unknown" 0%Qc 0%Qc) ≫= λ _,
  Ok (Asset.set_relationships [] node).

(** The shape shared by every method: [degraded] when [_use_fallback()],
    else the graph, and on any exception [recovery] if a fallback
    repository is held. *)
Definition with_fallback {A} (what wrapped : string)
    (primary : M t A) (degraded recovery : M t A) : M t A :=
  λ r, if _use_fallback r then degraded r
       else try_except primary
              (λ e,
               logger ERROR (what +:+ ": " +:+ exn_msg e);;
               fb ← gets fallback_repository;
               if bool_decide (is_Some fb) then recovery
               else raise RepositoryError (wrapped +:+ ": " +:+ exn_msg e)) r.

Definition save (asset : Asset.t) : M t Asset.t :=
  let id := Asset.asset_id asset in
  with_fallback "Failed to save asset to Memgraph" "Failed to save asset"
    (res ← run (MatchAsset id);
     nodes ← lift_result (nodes_of res);
     (if bool_decide (nodes = []) then mret tt
      else raise DuplicateAssetError ("Asset " +:+ id +:+ " already exists"));;
     run (CreateAsset (_asset_to_node asset));;
     logger INFO ("Saved asset " +:+ id +:+ " to Memgraph");;
     mret asset)
    (on_fallback (FileBasedAssetRepository.save asset))
    (logger INFO "Using fallback repository";;
     on_fallback (FileBasedAssetRepository.save asset)).

Fixpoint save_batch_loop (assets : list Asset.t) (saved_assets : list Asset.t)
  : M t (list Asset.t) :=
  match assets with
  | [] => mret saved_assets
  | asset :: rest =>
      let id := Asset.asset_id asset in
      saved ← try_except
        (res ← run (MatchAsset id);
         nodes ← lift_result (nodes_of res);
         if bool_decide (nodes = [])
         then run (CreateAsset (_asset_to_node asset));;
              mret (saved_assets ++ [asset])%list
         else logger WARNING ("Skipping duplicate asset " +:+ id);;
              mret saved_assets)
        (λ e,
         logger ERROR ("Failed to save asset " +:+ id +:+ ": " +:+ exn_msg e);;
         if bool_decide (saved_assets = []) then reraise e else mret saved_assets);
      save_batch_loop rest saved
  end.

Definition save_batch (assets : list Asset.t) : M t (list Asset.t) :=
  with_fallback "Batch save failed in Memgraph" "Batch save failed"
    (save_batch_loop assets [])
    (on_fallback (FileBasedAssetRepository.save_batch assets))
    (on_fallback (FileBasedAssetRepository.save_batch assets)).

Definition find_by_id (asset_id : string) : M t (option Asset.t) :=
  with_fallback "Failed to find asset in Memgraph" "Failed to find asset"
    (res ← run (MatchAsset asset_id);
     nodes ← lift_result (nodes_of res);
     match nodes with
     | [] => mret None
     | node :: _ => a ← lift_result (_node_to_asset node); mret (Some a)
     end)
    (on_fallback (FileBasedAssetRepository.find_by_id asset_id))
    (on_fallback (FileBasedAssetRepository.find_by_id asset_id)).

Definition find_all_clauses (filters : option asset_filters) : list where_clause :=
  match filters with
  | None => []
  | Some f =>
      (from_option (λ v, [WAssetType v]) [] (f_asset_type f)
       ++ from_option (λ v, [WProvider v]) [] (f_provider f)
       ++ from_option (λ v, [WStatus v]) [] (f_status f)
       ++ from_option (λ v, [WMinRisk v]) [] (f_min_risk_score f)
       ++ from_option (λ v, [WMaxRisk v]) [] (f_max_risk_score f))%list
  end.

Definition find_all (filters : option asset_filters) (limit offset : option nat)
  : M t (list Asset.t) :=
  with_fallback "Failed to find assets in Memgraph" "Failed to find assets"
    (res ← run (MatchAssets (find_all_clauses filters) (truthy offset) (truthy limit));
     nodes ← lift_result (nodes_of res);
     lift_result (mapM (M := result) _node_to_asset nodes))
    (on_fallback (FileBasedAssetRepository.find_all filters limit offset))
    (on_fallback (FileBasedAssetRepository.find_all filters limit offset)).

Definition find_by_type (asset_type : string) : M t (list Asset.t) :=
  find_all (Some (only_asset_type asset_type)) None None.

Definition find_by_provider (provider : string) : M t (list Asset.t) :=
  find_all (Some (only_provider provider)) None None.

Definition find_by_tags (tags : pydict) : M t (list Asset.t) :=
  with_fallback "Failed to find assets by tags" "Failed to find assets by tags"
    (res ← run MatchAllAssets;
     nodes ← lift_result (nodes_of res);
     assets ← lift_result (mapM (M := result) _node_to_asset nodes);
     mret (filter (λ asset, map_Forall (λ k v, Asset.tags asset !! k = Some v) tags)
                  assets))
    (on_fallback (FileBasedAssetRepository.find_by_tags tags))
    (on_fallback (FileBasedAssetRepository.find_by_tags tags)).

Definition update (now : datetime) (asset : Asset.t) : M t Asset.t :=
  let id := Asset.asset_id asset in
  with_fallback "Failed to update asset in Memgraph" "Failed to update asset"
    (res ← run (MatchAsset id);
     nodes ← lift_result (nodes_of res);
     (if bool_decide (nodes = [])
      then raise AssetNotFoundError ("Asset " +:+ id +:+ " not found")
      else mret tt);;
     let asset := Asset.set_updated_at now asset in
     run (SetAsset id (_asset_to_node asset));;
     logger INFO ("Updated asset " +:+ id +:+ " in Memgraph");;
     mret asset)
    (on_fallback (FileBasedAssetRepository.update now asset))
    (on_fallback (FileBasedAssetRepository.update now asset)).

Fixpoint update_batch_loop (now : datetime) (assets : list Asset.t)
    (updated_assets : list Asset.t) : M t (list Asset.t) :=
  match assets with
  | [] => mret updated_assets
  | asset :: rest =>
      let id := Asset.asset_id asset in
      updated ← try_except
        (res ← run (MatchAsset id);
         nodes ← lift_result (nodes_of res);
         if bool_decide (nodes = [])
         then logger WARNING ("Asset " +:+ id +:+ " not found");;
              mret updated_assets
         else let asset := Asset.set_updated_at now asset in
              run (SetAsset id (_asset_to_node asset));;
              mret (updated_assets ++ [asset])%list)
        (λ e,
         logger ERROR ("Failed to update asset " +:+ id +:+ ": " +:+ exn_msg e);;
         if bool_decide (updated_assets = []) then reraise e else mret updated_assets);
      update_batch_loop now rest updated
  end.

Definition update_batch (now : datetime) (assets : list Asset.t) : M t (list Asset.t) :=
  with_fallback "Batch update failed" "Batch update failed"
    (update_batch_loop now assets [])
    (on_fallback (FileBasedAssetRepository.update_batch now assets))
    (on_fallback (FileBasedAssetRepository.update_batch now assets)).

Definition delete (asset_id : string) : M t bool :=
  with_fallback "Failed to delete asset" "Failed to delete asset"
    (res ← run (DeleteAsset asset_id);
     deleted ← lift_result (count_of res);
     (if bool_decide (0 < deleted)%Z
      then logger INFO ("Deleted asset " +:+ asset_id +:+ " from Memgraph")
      else mret tt);;
     mret (bool_decide (0 < deleted)%Z))
    (on_fallback (FileBasedAssetRepository.delete asset_id))
    (on_fallback (FileBasedAssetRepository.delete asset_id)).

Definition delete_batch (asset_ids : list string) : M t Z :=
  with_fallback "Batch delete failed" "Batch delete failed"
    (res ← run (DeleteAssets asset_ids);
     deleted_count ← lift_result (count_of res);
     logger INFO "Deleted assets from Memgraph";;
     mret deleted_count)
    (on_fallback (Z.of_nat <$> FileBasedAssetRepository.delete_batch asset_ids))
    (on_fallback (Z.of_nat <$> FileBasedAssetRepository.delete_batch asset_ids)).

Definition count_clauses (filters : option asset_filters) : list where_clause :=
  match filters with
  | None => []
  | Some f =>
      (from_option (λ v, [WAssetType v]) [] (f_asset_type f)
       ++ from_option (λ v, [WProvider v]) [] (f_provider f)
       ++ from_option (λ v, [WStatus v]) [] (f_status f))%list
  end.

Definition count (filters : option asset_filters) : M t Z :=
  with_fallback "Failed to count assets" "Failed to count assets"
    (res ← run (CountAssets (count_clauses filters));
     lift_result (count_of res))
    (on_fallback (Z.of_nat <$> FileBasedAssetRepository.count filters))
    (on_fallback (Z.of_nat <$> FileBasedAssetRepository.count filters)).

Definition exists_ (asset_id : string) : M t bool :=
  with_fallback "Failed to check asset existence" "Failed to check asset existence"
    (res ← run (CountAsset asset_id);
     n ← lift_result (count_of res);
     mret (bool_decide (0 < n)%Z))
    (on_fallback (FileBasedAssetRepository.exists_ asset_id))
    (on_fallback (FileBasedAssetRepository.exists_ asset_id)).

Definition search (text : string) (limit : option nat) : M t (list Asset.t) :=
  with_fallback "Search failed" "Search failed"
    (res ← run (SearchAssets text (truthy limit));
     nodes ← lift_result (nodes_of res);
     lift_result (mapM (M := result) _node_to_asset nodes))
    (on_fallback (FileBasedAssetRepository.search text limit))
    (on_fallback (FileBasedAssetRepository.search text limit)).

(** [stats["storage"]["fallback_active"] = True] *)
Definition flag_fallback_active (stats : list (string * pyvalue))
  : result (list (string * pyvalue)) :=
  match dict_get "storage" stats with
  | None => Raise (Exn KeyError "'storage'")
  | Some (PDict storage) =>
      Ok (dict_set "storage"
            (PDict (dict_set "fallback_active" (PBool true) storage)) stats)
  | Some _ => Raise (Exn TypeError "object does not support item assignment")
  end.

Definition fallback_statistics : M t (list (string * pyvalue)) :=
  stats ← on_fallback (FileBasedAssetRepository.get_statistics st_size);
  lift_result (flag_fallback_active stats).

Definition risk_statistics (a : answer) : result pyvalue :=
  match a with
  | Risk avg_risk min_risk max_risk high_risk =>
      Ok (PDict [ ("average", round_or_zero avg_risk 2);
                  ("min", real_or_zero min_risk);
                  ("max", real_or_zero max_risk);
                  ("high_risk_count", PInt high_risk) ])
  | _ => Raise (Exn KeyError "avg_risk")
  end.

Definition groups_dict (groups : list (string * Z)) : pyvalue :=
  PDict ((λ kv, (kv.1, PInt kv.2)) <$> groups).

Definition get_statistics : M t (list (string * pyvalue)) :=
  with_fallback "Failed to get statistics" "Failed to get statistics"
    (res ← run (CountAssets []);
     total ← lift_result (count_of res);
     res ← run CountByType;
     by_type ← lift_result (groups_of res);
     res ← run CountByProvider;
     by_provider ← lift_result (groups_of res);
     res ← run RiskStatistics;
     risk ← lift_result (risk_statistics res);
     r ← get;
     mret [ ("total_assets", PInt total);
            ("by_type", groups_dict by_type);
            ("by_provider", groups_dict by_provider);
            ("risk_statistics", risk);
            ("storage", PDict [ ("type", PStr "memgraph");
                                ("uri", PStr (uri r));
                                ("connected", PBool (_available r));
                                ("fallback_active", PBool false) ]) ])
    fallback_statistics
    fallback_statistics.

(** The graph-backed implementation of the port. *)
Definition invoke (c : AssetRepository.call) : M t AssetRepository.reply :=
  match c with
  | AssetRepository.Save asset => AssetRepository.AnAsset <$> save asset
  | AssetRepository.SaveBatch assets => AssetRepository.Assets <$> save_batch assets
  | AssetRepository.FindById asset_id => AssetRepository.MaybeAsset <$> find_by_id asset_id
  | AssetRepository.FindAll filters limit offset =>
      AssetRepository.Assets <$> find_all filters limit offset
  | AssetRepository.FindByType asset_type => AssetRepository.Assets <$> find_by_type asset_type
  | AssetRepository.FindByProvider provider =>
      AssetRepository.Assets <$> find_by_provider provider
  | AssetRepository.FindByTags tags => AssetRepository.Assets <$> find_by_tags tags
  | AssetRepository.Update now asset => AssetRepository.AnAsset <$> update now asset
  | AssetRepository.UpdateBatch now assets =>
      AssetRepository.Assets <$> update_batch now assets
  | AssetRepository.Delete asset_id => AssetRepository.Flag <$> delete asset_id
  | AssetRepository.DeleteBatch asset_ids =>
      AssetRepository.Number <$> delete_batch asset_ids
  | AssetRepository.Count filters => AssetRepository.Number <$> count filters
  | AssetRepository.Exists asset_id => AssetRepository.Flag <$> exists_ asset_id
  | AssetRepository.Search text limit => AssetRepository.Assets <$> search text limit
  | AssetRepository.GetStatistics => AssetRepository.Statistics <$> get_statistics
  end.

End with_server.

Arguments t : clear implicits.

End MemgraphAssetRepository.

Module MemgraphRelationshipRepository.

(** The remote graph: [Asset] nodes (their property maps) and
    [RELATIONSHIP] edges.  The uniqueness constraint of [_init_database]
    makes [asset_id] name a node, so an edge records the ids of its two
    end nodes; a [Relationship.t] carries them with the edge properties of
    [_relationship_to_edge].  [online] says whether the server answers. *)
Record graph : Type := mk_graph {
  online : bool;
  nodes : list Asset.t;
  edges : list Relationship.t
}.

Definition node_ids (g : graph) : list string := Asset.asset_id <$> nodes g.

Inductive query : Type :=
  (** [MATCH (a1:Asset {asset_id: $source_id})
            -[r:RELATIONSHIP {relationship_type: $rel_type}]->
            (a2:Asset {asset_id: $target_id}) RETURN r] *)
  | MatchEdge (source_id target_id rel_type : string)
  (** [MATCH (a1:Asset {asset_id: $source_id})
      MATCH (a2:Asset {asset_id: $target_id})
      CREATE (a1)-[r:RELATIONSHIP $props]->(a2)] *)
  | CreateEdge (source_id target_id : string) (props : Relationship.t)
  (** [MATCH (a1:Asset)-[r:RELATIONSHIP {relationship_id: $rel_id}]->(a2:Asset)
      RETURN r, a1.asset_id as source_id, a2.asset_id as target_id] *)
  | MatchEdgeById (rel_id : string)
  (** [MATCH (a:Asset) OPTIONAL MATCH (a)-[r:RELATIONSHIP]-()
      RETURN COUNT(DISTINCT a) as node_count, COUNT(r) / 2 as edge_count] *)
  | CountNodesAndEdges
  (** [MATCH ()-[r:RELATIONSHIP]->() RETURN r.relationship_type, COUNT(r)] *)
  | CountEdgesByType
  (** [MATCH (a:Asset) OPTIONAL MATCH (a)-[r:RELATIONSHIP]-()
      WITH a, COUNT(r) as degree RETURN AVG(degree), MAX(degree), MIN(degree)] *)
  | DegreeStatistics
  (** the variable-length path query for connected components *)
  | ComponentStatistics.

Inductive answer : Type :=
  | Edges (rows : list Relationship.t)
  | Counts (node_count edge_count : Z)
  | Groups (groups : list (string * pyvalue))
  | Degrees (avg_degree : option Qc) (max_degree min_degree : option Z)
  | Components (num_components largest_component : option Z).

(** The edges that touch a node, in either direction. *)
Definition degree (g : graph) (asset_id : string) : Z :=
  Z.of_nat (length (filter (λ e, Relationship.source_id e = asset_id
                                 ∨ Relationship.target_id e = asset_id) (edges g))).

Definition occurrences (x : string) (l : list string) : nat :=
  length (filter (λ y, y = x) l).

Section with_components.

(** The answer of the connected-components query is left to the server. *)
Variable component_statistics : graph → option Z * option Z.

(** What the server does with one statement.  A [CREATE] after two
    [MATCH]es runs once per pair of matched nodes: not at all when either
    end is missing. *)
Definition execute (q : query) (g : graph) : graph * answer :=
  match q with
  | MatchEdge source_id target_id rel_type =>
      (g, Edges (filter (λ e, Relationship.source_id e = source_id
                              ∧ Relationship.target_id e = target_id
                              ∧ Relationship.relationship_type e = rel_type)
                        (edges g)))
  | CreateEdge source_id target_id props =>
      let pairs := (occurrences source_id (node_ids g)
                    * occurrences target_id (node_ids g))%nat in
      (mk_graph (online g) (nodes g) (edges g ++ replicate pairs props)%list, Edges [])
  | MatchEdgeById rel_id =>
      (g, Edges (filter (λ e, Relationship.relationship_id e = rel_id) (edges g)))
  | CountNodesAndEdges =>
      (g, Counts (Z.of_nat (length (nodes g)))
                 (foldr Z.add 0%Z (degree g <$> node_ids g) / 2)%Z)
  | CountEdgesByType =>
      (g, Groups (group_count (Relationship.relationship_type <$> edges g)))
  | DegreeStatistics =>
      let degrees := degree g <$> node_ids g in
      (g, Degrees (sql_avg (Qc_of_Z <$> degrees)) (sql_max degrees) (sql_min degrees))
  | ComponentStatistics =>
      (g, Components (component_statistics g).1 (component_statistics g).2)
  end.

(** [session.run]: the driver raises when the server does not answer. *)
Definition session_run (q : query) (g : graph) : graph * result answer :=
  if online g
  then let '(g', a) := execute q g in (g', Ok a)
  else (g, Raise (Exn ServiceUnavailable "Unable to retrieve routing information")).

Record t : Type := mk {
  server : graph;
  _available : bool;
  fallback_repository : option FileBasedRelationshipRepository.t;
  log : list log_record
}.

Definition set_server (g : graph) (r : t) : t :=
  mk g (_available r) (fallback_repository r) (log r).
Definition set_fallback (f : FileBasedRelationshipRepository.t) (r : t) : t :=
  mk (server r) (_available r) (Some f) (log r).
Definition add_log (rec : log_record) (r : t) : t :=
  mk (server r) (_available r) (fallback_repository r) (log r ++ [rec])%list.

Definition logger (lvl : log_level) (msg : string) : M t unit :=
  modify (add_log (lvl, msg)).

Definition _use_fallback (r : t) : bool :=
  negb (_available r) && bool_decide (is_Some (fallback_repository r)).

Definition on_fallback {A} (m : M FileBasedRelationshipRepository.t A) : M t A :=
  λ r, match fallback_repository r with
       | Some f => let '(f', res) := m f in (set_fallback f' r, res)
       | None => (r, Raise (Exn AttributeError
                              "'NoneType' object has no attribute"))
       end.

Definition run (q : query) : M t answer :=
  λ r, let '(g', res) := session_run q (server r) in (set_server g' r, res).

Definition edges_of (a : answer) : result (list Relationship.t) :=
  match a with
  | Edges l => Ok l
  | _ => Raise (Exn KeyError "r")
  end.

Definition with_fallback {A} (what wrapped : string)
    (primary : M t A) (secondary : M t A) : M t A :=
  λ r, if _use_fallback r then secondary r
       else try_except primary
              (λ e,
               logger ERROR (what +:+ ": " +:+ exn_msg e);;
               fb ← gets fallback_repository;
               if bool_decide (is_Some fb) then secondary
               else raise RepositoryError (wrapped +:+ ": " +:+ exn_msg e)) r.

Definition _relationship_to_edge (relationship : Relationship.t) : Relationship.t :=
  relationship.

Definition _edge_to_relationship (edge : Relationship.t) : result Relationship.t :=
  Relationship.validate edge ≫= λ _, Ok edge.

Definition save (relationship : Relationship.t) : M t Relationship.t :=
  with_fallback "Failed to save relationship" "Failed to save relationship"
    (res ← run (MatchEdge (Relationship.source_id relationship)
                          (Relationship.target_id relationship)
                          (Relationship.relationship_type relationship));
     rows ← lift_result (edges_of res);
     (if bool_decide (rows = []) then mret tt
      else raise DuplicateRelationshipError "Relationship already exists");;
     run (CreateEdge (Relationship.source_id relationship)
                     (Relationship.target_id relationship)
                     (_relationship_to_edge relationship));;
     logger INFO ("Saved relationship " +:+ Relationship.relationship_id relationship);;
     mret relationship)
    (on_fallback (FileBasedRelationshipRepository.save relationship)).

Definition find_by_id (relationship_id : string) : M t (option Relationship.t) :=
  with_fallback "Failed to find relationship" "Failed to find relationship"
    (res ← run (MatchEdgeById relationship_id);
     rows ← lift_result (edges_of res);
     match rows with
     | [] => mret None
     | edge :: _ => rel ← lift_result (_edge_to_relationship edge); mret (Some rel)
     end)
    (on_fallback (FileBasedRelationshipRepository.find_by_id relationship_id)).

(** [round((2 * e) / (n * (n - 1)) if n > 1 else 0, 4)] *)
Definition density (node_count edge_count : Z) : pyvalue :=
  if bool_decide (1 < node_count)%Z
  then PFloat (py_round (Qc_of_Z (2 * edge_count)
                         / Qc_of_Z (node_count * (node_count - 1))) 4)
  else PInt 0.

Definition get_graph_statistics : M t (list (string * pyvalue)) :=
  with_fallback "Failed to get graph statistics" "Failed to get graph statistics"
    (counts ← run CountNodesAndEdges;
     by_type ← run CountEdgesByType;
     degree_stats ← run DegreeStatistics;
     component_stats ← run ComponentStatistics;
     match counts, by_type, degree_stats, component_stats with
     | Counts node_count edge_count, Groups by_type,
       Degrees avg_degree max_degree min_degree,
       Components num_components largest_component =>
         mret [ ("node_count", PInt node_count);
                ("edge_count", PInt edge_count);
                ("relationship_types", PList (PStr <$> dict_keys by_type));
                ("by_type", PDict by_type);
                ("degree_statistics",
                 PDict [ ("average", round_or_zero avg_degree 2);
                         ("max", int_or_zero max_degree);
                         ("min", int_or_zero min_degree) ]);
                ("graph_properties",
                 PDict [ ("connected_components",
                          PInt (match num_components with
                                | Some n => if bool_decide (n = 0%Z) then 1%Z else n
                                | None => 1%Z
                                end));
                         ("largest_component_size", int_or_zero largest_component);
                         ("density", density node_count edge_count) ]) ]
     | _, _, _, _ => raise KeyError "node_count"
     end)
    (on_fallback FileBasedRelationshipRepository.get_graph_statistics).

End with_components.

End MemgraphRelationshipRepository.

(** * Vocabulary of the statements *)

Module Predicates.

(** An entity file exists for the id of [asset]. *)
Definition stored (r : FileBasedAssetRepository.t) (asset : Asset.t) : Prop :=
  is_Some (FileBasedAssetRepository.files r
             !! FileBasedAssetRepository._get_asset_path r (Asset.asset_id asset)).

(** [id] is listed in the index under the keys [keys] and under no other,
    every key of [keys] is present, and the lists of the index are
    duplicate-free and non-empty. *)
Definition indexed_under (idx : index) (id : string) (keys : list string) : Prop :=
  (∀ k, k ∈ keys → is_Some (idx !! k))
  ∧ ∀ k ids, idx !! k = Some ids → NoDup ids ∧ ids ≠ [] ∧ (id ∈ ids ↔ k ∈ keys).

(** [id] is in no list of the index, and no list is empty. *)
Definition unindexed (idx : index) (id : string) : Prop :=
  ∀ k ids, idx !! k = Some ids → (id ∉ ids) ∧ ids ≠ [].

(** The three indices list the asset under its type, its provider and its
    tag keys, and no two of its tags render to the same key. *)
Definition consistent (r : FileBasedAssetRepository.t) (asset : Asset.t) : Prop :=
  indexed_under (FileBasedAssetRepository.type_index r) (Asset.asset_id asset)
    [Asset.asset_type asset]
  ∧ indexed_under (FileBasedAssetRepository.provider_index r) (Asset.asset_id asset)
      [Asset.provider asset]
  ∧ indexed_under (FileBasedAssetRepository.tag_index r) (Asset.asset_id asset)
      (tag_str <$> map_to_list (Asset.tags asset))
  ∧ NoDup (tag_str <$> map_to_list (Asset.tags asset)).

(** The two checks of the file-backed [save] of a relationship pass: no
    file of that id, and no relationship of the same type between the same
    assets under the source index. *)
Definition new_to_store (r : FileBasedRelationshipRepository.t) (rel : Relationship.t)
  : Prop :=
  FileBasedRelationshipRepository.files r
    !! FileBasedRelationshipRepository._get_relationship_path r
         (Relationship.relationship_id rel) = None
  ∧ FileBasedRelationshipRepository._find_exact_relationship
      (Relationship.source_id rel) (Relationship.target_id rel)
      (Relationship.relationship_type rel) r = (r, Ok None).

(** Neither the primary key nor the uniqueness constraint of the
    [relationships] table is in the way. *)
Definition new_to_database (d : SQLite.database) (rel : Relationship.t) : Prop :=
  (Relationship.relationship_id rel
     ∉ Relationship.relationship_id <$> SQLite.relationships d)
  ∧ ¬ Exists (SQLite.same_edge rel) (SQLite.relationships d).

(** Every edge joins two nodes of the graph. *)
Definition wf_graph (g : MemgraphRelationshipRepository.graph) : Prop :=
  ∀ e, e ∈ MemgraphRelationshipRepository.edges g →
       Relationship.source_id e ∈ MemgraphRelationshipRepository.node_ids g
       ∧ Relationship.target_id e ∈ MemgraphRelationshipRepository.node_ids g.

(** The call of the file-backed store that ends up answering a call made to
    the degraded graph store: the same call, except that the graph store
    implements [find_by_type] and [find_by_provider] through its own
    [find_all]. *)
Definition delegated (c : AssetRepository.call) : AssetRepository.call :=
  match c with
  | AssetRepository.FindByType asset_type =>
      AssetRepository.FindAll (Some (only_asset_type asset_type)) None None
  | AssetRepository.FindByProvider provider =>
      AssetRepository.FindAll (Some (only_provider provider)) None None
  | _ => c
  end.

(** No statement gets through to the server. *)
Definition unreachable {G : Type}
    (session_run : MemgraphAssetRepository.query → G
                   → G * result MemgraphAssetRepository.answer) : Prop :=
  ∀ q g, ∃ e, session_run q g = (g, Raise e).

(** [m], run on a graph repository that holds the file store [f], returns
    what [fm] returns on [f] and leaves the repository holding the store
    [fm] leaves. *)
Definition agrees {G A : Type} (m : M (MemgraphAssetRepository.t G) A)
    (fm : M FileBasedAssetRepository.t A) : Prop :=
  ∀ r f, MemgraphAssetRepository.fallback_repository r = Some f →
         (m r).2 = (fm f).2
         ∧ MemgraphAssetRepository.fallback_repository (m r).1 = Some (fm f).1.

(** [m] always raises, and does not touch the fallback store. *)
Definition fails {G A : Type} (m : M (MemgraphAssetRepository.t G) A) : Prop :=
  ∀ r, ∃ e, (m r).2 = Raise e
            ∧ MemgraphAssetRepository.fallback_repository (m r).1
              = MemgraphAssetRepository.fallback_repository r.

(** The warnings [save_batch] logs when it skips [assets]. *)
Definition skipped (assets : list Asset.t) : list log_record :=
  (λ a, (WARNING, "Skipping duplicate asset " +:+ Asset.asset_id a)) <$> assets.

(** The key under which [add_relationship] looks for a duplicate. *)
Definition link_key (r : Relationship.t) : string * string * string :=
  (Relationship.source_id r, Relationship.target_id r, Relationship.relationship_type r).

(** The lists of an index are duplicate-free and non-empty, and [id] is in
    the list of [k] exactly when [listed k id]. *)
Definition index_lists (idx : index) (listed : string → string → Prop) : Prop :=
  (∀ k ids, idx !! k = Some ids → NoDup ids ∧ ids ≠ [])
  ∧ (∀ k id, id ∈ default [] (idx !! k) ↔ listed k id).

(** The keys of the tag index an asset is listed under. *)
Definition tag_keys (a : Asset.t) : list string :=
  tag_str <$> map_to_list (Asset.tags a).

(** The file-backed store [r] holds exactly the assets [ents], by id: each
    has a non-empty id, is valid, stored without relationships and has tags
    that render to distinct keys; the entity files are those of [ents], each at the path of
    its id; and each index lists the ids of [ents] under the keys of their
    assets.  The log is not constrained. *)
Record represents (r : FileBasedAssetRepository.t) (ents : gmap string Asset.t) : Prop := {
  rep_entities : ∀ id a, ents !! id = Some a →
    Asset.asset_id a = id ∧ id ≠ "" ∧ Asset.relationships a = []
    ∧ Asset.validate a = Ok true ∧ NoDup (tag_keys a);
  rep_files : ∀ p d, FileBasedAssetRepository.files r !! p = Some d →
    ents !! Asset.asset_id (Asset.d_fields d) = Some (Asset.d_fields d)
    ∧ p = FileBasedAssetRepository._get_asset_path r (Asset.asset_id (Asset.d_fields d));
  rep_stored : ∀ id a, ents !! id = Some a →
    ∃ d, FileBasedAssetRepository.files r
           !! FileBasedAssetRepository._get_asset_path r id = Some d
         ∧ Asset.d_fields d = a;
  rep_type : index_lists (FileBasedAssetRepository.type_index r)
               (λ k id, ∃ a, ents !! id = Some a ∧ Asset.asset_type a = k);
  rep_provider : index_lists (FileBasedAssetRepository.provider_index r)
               (λ k id, ∃ a, ents !! id = Some a ∧ Asset.provider a = k);
  rep_tags : index_lists (FileBasedAssetRepository.tag_index r)
               (λ k id, ∃ a, ents !! id = Some a ∧ k ∈ tag_keys a)
}.

(** The assets the entity files at [entries] hold. *)
Definition decoded (r : FileBasedAssetRepository.t) (entries : list (string * string))
  : list Asset.t :=
  omap (λ p, Asset.d_fields <$> FileBasedAssetRepository.files r !! p) entries.

(** The error [update_batch] records for an asset that has no entity
    file. *)
Definition update_error (a : Asset.t) : string :=
  Asset.asset_id a +:+ ": "
  +:+ ("Failed to update asset: " +:+ ("Asset " +:+ Asset.asset_id a +:+ " not found")).

(** Every id of [m] names a file of its own: the condition under which a
    store of the model stands for a directory on disk. *)
Definition plain_ids {A} (m : gmap string A) : Prop :=
  ∀ id, is_Some (m !! id) → plain_id id = true.

(** The constraints of the schema hold in [d]: the primary keys of [assets]
    and [asset_tags], and the foreign keys of [asset_tags] and
    [relationships] into [assets]. *)
Definition integrity (d : SQLite.database) : Prop :=
  NoDup (SQLite.asset_ids d)
  ∧ NoDup ((SQLite.asset_tags d).*1)
  ∧ (∀ row, row ∈ SQLite.asset_tags d → row.1.1 ∈ SQLite.asset_ids d)
  ∧ (∀ rel, rel ∈ SQLite.relationships d →
       Relationship.source_id rel ∈ SQLite.asset_ids d
       ∧ Relationship.target_id rel ∈ SQLite.asset_ids d).

(** The rows of [asset_tags] that [save] and [update] insert for an asset. *)
Definition tag_rows (a : Asset.t) : list (string * string * string) :=
  (λ kv, (Asset.asset_id a, kv.1, kv.2)) <$> map_to_list (Asset.tags a).

(** Settings that say nothing on foreign keys: the other default pragmas
    and their usual alternatives. *)
Definition other_pragmas : list (string * string) :=
  [ ("journal_mode", "WAL"); ("journal_mode", "DELETE"); ("journal_mode", "TRUNCATE");
    ("journal_mode", "PERSIST"); ("synchronous", "OFF"); ("synchronous", "NORMAL");
    ("synchronous", "FULL"); ("cache_size", "-64000"); ("temp_store", "DEFAULT");
    ("temp_store", "FILE"); ("temp_store", "MEMORY") ].

(** The connection of [w] was made with pragmas that leave the foreign keys
    as the engine has them at first: not enforced. *)
Definition foreign_keys_unset (w : SQLite.t) : Prop :=
  ∀ kv, kv ∈ SQLite.pragmas w → kv ∈ other_pragmas.

(** The file-backed relationship store [r] holds exactly the relationships
    [rels], by id: each has a non-empty id and is valid; the files are those
    of [rels], each at the path of its id and holding what [to_dict] writes;
    and each index lists the ids of [rels] under the source, the target and
    the type of their relationships.  The log is not constrained. *)
Record represents_links (r : FileBasedRelationshipRepository.t)
    (rels : gmap string Relationship.t) : Prop := {
  links_entities : ∀ id x, rels !! id = Some x →
    Relationship.relationship_id x = id ∧ id ≠ "" ∧ Relationship.validate x = Ok true;
  links_files : ∀ p d, FileBasedRelationshipRepository.files r !! p = Some d →
    ∃ x, rels !! Relationship.relationship_id x = Some x
         ∧ d = Relationship.to_dict x
         ∧ p = FileBasedRelationshipRepository._get_relationship_path r
                 (Relationship.relationship_id x);
  links_stored : ∀ id x, rels !! id = Some x →
    FileBasedRelationshipRepository.files r
      !! FileBasedRelationshipRepository._get_relationship_path r id
    = Some (Relationship.to_dict x);
  links_source : index_lists (FileBasedRelationshipRepository.source_index r)
               (λ k id, ∃ x, rels !! id = Some x ∧ Relationship.source_id x = k);
  links_target : index_lists (FileBasedRelationshipRepository.target_index r)
               (λ k id, ∃ x, rels !! id = Some x ∧ Relationship.target_id x = k);
  links_type : index_lists (FileBasedRelationshipRepository.type_index r)
               (λ k id, ∃ x, rels !! id = Some x ∧ Relationship.relationship_type x = k)
}.

(** No two relationships of [rels] join the same assets by the same type. *)
Definition unique_links (rels : gmap string Relationship.t) : Prop :=
  ∀ id1 id2 x y, rels !! id1 = Some x → rels !! id2 = Some y →
    link_key x = link_key y → id1 = id2.

(** What the file-backed [save] of a relationship refuses: an id that is
    stored, or a link that a stored relationship already makes. *)
Definition known_link (rels : gmap string Relationship.t) (rel : Relationship.t) : Prop :=
  is_Some (rels !! Relationship.relationship_id rel)
  ∨ ∃ y, rels !! Relationship.relationship_id y = Some y ∧ link_key y = link_key rel.


(** [asset_id] is an end of [x]. *)
Definition involves (asset_id : string) (x : Relationship.t) : Prop :=
  Relationship.source_id x = asset_id ∨ Relationship.target_id x = asset_id.

Global Instance involves_dec asset_id x : Decision (involves asset_id x).
Proof. unfold involves. apply _. Defined.


End Predicates.

(** * Stores used in the examples *)

(** The unreachable server of the examples: the connection attempt and every
    statement raise [ServiceUnavailable]. *)
Module Unreachable.

Definition connect (g : unit) : result unit :=
  Raise (Exn ServiceUnavailable "Couldn't connect to localhost:7687").

Definition session_run (q : MemgraphAssetRepository.query) (g : unit)
  : unit * result MemgraphAssetRepository.answer :=
  (g, Raise (Exn ServiceUnavailable "Couldn't connect to localhost:7687")).

Definition st_size (d : Asset.dict) : Z := 512.

Definition connection_config : pydict := list_to_map [("uri", "bolt://unreachable:7687")].

Definition fallback_config : pydict :=
  list_to_map [("type", "file"); ("path", "./fallback/assets")].

(** The file store the degraded repository holds after construction. *)
Definition store : FileBasedAssetRepository.t :=
  FileBasedAssetRepository.init "./fallback/assets" true.

(** The repository after construction. *)
Definition repository : MemgraphAssetRepository.t unit :=
  MemgraphAssetRepository.mk "bolt://unreachable:7687" tt false (Some store)
    [ (INFO, "Fallback repository configured: file");
      (ERROR, "Failed to connect to Memgraph: Couldn't connect to localhost:7687") ].

End Unreachable.

(** Two tags of one asset can render to the same index key: [f"{k}={v}"]
    gives [a=b=c] for both ["a=b": "c"] and ["a": "b=c"].  When another asset
    shares that key, removing the first asset from the tag index meets the
    key twice and the second [list.remove] raises [ValueError]. *)
Module Collision.

Definition x : Asset.t := Sample.asset "x1" "compute" "aws" [("a=b", "c"); ("a", "b=c")].
Definition y : Asset.t := Sample.asset "y1" "compute" "aws" [("a", "b=c")].

(** [x] with its tags replaced. *)
Definition x' : Asset.t := Sample.asset "x1" "compute" "aws" [("env", "prod")].

(** A fresh store after [save(x)] and [save(y)]. *)
Definition store : FileBasedAssetRepository.t :=
  (FileBasedAssetRepository.save y (FileBasedAssetRepository.save x Sample.fresh_store).1).1.

End Collision.

(** Two assets of one type and provider, and a new version of the first
    that differs in its tags only. *)
Module TagsOnly.

Definition x : Asset.t := Sample.asset "x1" "compute" "aws" [("env", "dev")].
Definition y : Asset.t := Sample.asset "y1" "compute" "aws" [].
Definition x' : Asset.t := Sample.asset "x1" "compute" "aws" [("env", "prod")].


Definition store : FileBasedAssetRepository.t :=
  (FileBasedAssetRepository.save y (FileBasedAssetRepository.save x Sample.fresh_store).1).1.

End TagsOnly.

(** Stores for the graph statistics. *)
Module GraphStatistics.

(** The keys of the dictionary each backend returns. *)
Definition file_keys : list string :=
  ["node_count"; "edge_count"; "relationship_types"; "average_degree"; "max_degree";
   "by_type"].

Definition sqlite_keys : list string :=
  ["node_count"; "edge_count"; "relationship_types"; "by_type"; "degree_statistics";
   "confidence_statistics"].

Definition memgraph_keys : list string :=
  ["node_count"; "edge_count"; "relationship_types"; "by_type"; "degree_statistics";
   "graph_properties"].

(** [stats[key].keys()] and [stats[key][sub]] for a nested dictionary. *)
Definition sub_keys (key : string) (stats : list (string * pyvalue)) : option (list string) :=
  match dict_get key stats with
  | Some (PDict d) => Some (dict_keys d)
  | _ => None
  end.

Definition sub_get (key sub : string) (stats : list (string * pyvalue)) : option pyvalue :=
  match dict_get key stats with
  | Some (PDict d) => dict_get sub d
  | _ => None
  end.

(** A density entry anywhere in the dictionary or one level below. *)
Definition has_density (stats : list (string * pyvalue)) : bool :=
  bool_decide ("density" ∈ dict_keys stats)
  || existsb (λ kv, match kv.2 with
                    | PDict d => bool_decide ("density" ∈ dict_keys d)
                    | _ => false
                    end) stats.

(** A minimum degree entry, under any of the names the backends use. *)
Definition has_min_degree (stats : list (string * pyvalue)) : bool :=
  bool_decide ("min_degree" ∈ dict_keys stats)
  || match sub_keys "degree_statistics" stats with
     | Some keys => bool_decide ("min" ∈ keys)
     | None => false
     end.

(** The store of the examples: assets [a1], [a2], [a3] and one relationship
    from [a1] to [a2]. *)
Definition rel : Relationship.t := Sample.relationship "rel-1" "a1" "a2" "depends_on".

Definition file_store : FileBasedRelationshipRepository.t :=
  (FileBasedRelationshipRepository.save rel
     (FileBasedRelationshipRepository.init "./data/relationships" true)).1.

Definition database : SQLite.t :=
  let a i := Sample.asset i "compute" "aws" [] in
  let w1 := (SQLiteAssetRepository.save (a "a1") (SQLite.init None)).1 in
  let w2 := (SQLiteAssetRepository.save (a "a2") w1).1 in
  let w3 := (SQLiteAssetRepository.save (a "a3") w2).1 in
  (SQLiteRelationshipRepository.save rel w3).1.

Definition graph_store : MemgraphRelationshipRepository.t :=
  let a i := Sample.asset i "compute" "aws" [] in
  MemgraphRelationshipRepository.mk
    (MemgraphRelationshipRepository.mk_graph true [a "a1"; a "a2"; a "a3"] [rel])
    true None [].

Definition no_components (g : MemgraphRelationshipRepository.graph) : option Z * option Z :=
  (None, None).

End GraphStatistics.

(** A store with one asset, and assets to add to it. *)
Module Inventory.

Definition a1 : Asset.t := Sample.asset "a1" "compute" "aws" [("env", "prod")].
Definition a2 : Asset.t :=
  Sample.asset "a2" "storage" "gcp" [("env", "prod"); ("tier", "gold")].

(** A new version of [a1], of another type and with other tags. *)
Definition a1' : Asset.t := Sample.asset "a1" "database" "aws" [("env", "dev")].

(** A fresh store after [save(a1)], and the assets it holds. *)
Definition store : FileBasedAssetRepository.t :=
  (FileBasedAssetRepository.save a1 Sample.fresh_store).1.

Definition entities : gmap string Asset.t := {[ "a1" := a1 ]}.

End Inventory.

Module Broken.

(** An asset whose status was changed to a value [validate] rejects. *)
Definition asset : Asset.t :=
  Asset.mk "b1" "compute" "aws" "name-b1" ∅ ∅ [] ∅ 0%Z 0%Z 0%Z
           "retired" "healthy" "unknown" 0%Qc 0%Qc.

End Broken.

(** A SQLite repository opened with pragmas of the caller's that do not
    switch foreign keys on, after [save] of an asset with one tag. *)
Module WithoutForeignKeys.

Definition fresh : SQLite.t := SQLite.init (Some [("journal_mode", "DELETE")]).

Definition a1 : Asset.t := Sample.asset "a1" "compute" "aws" [("env", "prod")].

Definition store : SQLite.t := (SQLiteAssetRepository.save a1 fresh).1.

End WithoutForeignKeys.

(** A relationship store with one relationship, and relationships to offer
    to it. *)
Module Links.

Definition r1 : Relationship.t := Sample.relationship "rel-1" "a1" "a2" "depends_on".
Definition r2 : Relationship.t := Sample.relationship "rel-2" "a2" "a3" "uses".
(** The link of [r1] under another id. *)
Definition r1_again : Relationship.t := Sample.relationship "rel-9" "a1" "a2" "depends_on".
(** [r1] pointed at another asset. *)
Definition r1_moved : Relationship.t := Sample.relationship "rel-1" "a1" "a3" "uses".

Definition store : FileBasedRelationshipRepository.t :=
  (FileBasedRelationshipRepository.save r1
     (FileBasedRelationshipRepository.init "./data/relationships" true)).1.

Definition stored : gmap string Relationship.t := {[ "rel-1" := r1 ]}.

End Links.

(** * Properties *)

(** ** Running monadic code *)

Lemma run_bind {S A B} (m : M S A) (k : A → M S B) (s : S) :
  (m ≫= k) s = match m s with
               | (s', Ok a) => k a s'
               | (s', Raise e) => (s', Raise e)
               end.
Proof. reflexivity. Qed.

Lemma run_gets {S A} (f : S → A) (s : S) : gets f s = (s, Ok (f s)).
Proof. reflexivity. Qed.

Lemma run_get {S} (s : S) : get s = (s, Ok s).
Proof. reflexivity. Qed.

Lemma run_mret {S A} (a : A) (s : S) : (mret a : M S A) s = (s, Ok a).
Proof. reflexivity. Qed.

Lemma run_raise {S A} (c : exn_class) (msg : string) (s : S) :
  (raise c msg : M S A) s = (s, Raise (Exn c msg)).
Proof. reflexivity. Qed.

Lemma run_reraise {S A} (e : exn) (s : S) : (reraise e : M S A) s = (s, Raise e).
Proof. reflexivity. Qed.

Lemma run_modify {S} (f : S → S) (s : S) : modify f s = (f s, Ok tt).
Proof. reflexivity. Qed.

Lemma run_lift_result {S A} (r : result A) (s : S) : lift_result r s = (s, r).
Proof. reflexivity. Qed.

Lemma run_fmap {S A B} (f : A → B) (m : M S A) (s : S) :
  (f <$> m) s = match m s with
                | (s', Ok a) => (s', Ok (f a))
                | (s', Raise e) => (s', Raise e)
                end.
Proof. reflexivity. Qed.

Ltac mrun :=
  repeat (rewrite ?run_bind, ?run_gets, ?run_get, ?run_mret, ?run_raise,
            ?run_reraise, ?run_modify, ?run_lift_result;
          cbv beta iota).

(** ** Duplicates in the file-backed store *)

Module FileBasedAssetRepositoryFacts.
Import FileBasedAssetRepository Predicates.

(** The [DuplicateAssetError] raised inside [save] is caught by its own
    [except Exception] clause and leaves as a plain [RepositoryError]; only
    the log changes. *)
Lemma save_stored r asset :
  stored r asset →
  ∃ msg,
    save asset r =
      (add_log (ERROR, "Failed to save asset " +:+ Asset.asset_id asset
                       +:+ ": " +:+ msg) r,
       Raise (Exn RepositoryError ("Failed to save asset: " +:+ msg))).
Proof.
  intros Hs. eexists. unfold save, try_except, path_exists, logger. mrun.
  rewrite bool_decide_eq_true_2 by exact Hs. mrun. reflexivity.
Qed.

Lemma stored_add_log r rec asset : stored r asset → stored (add_log rec r) asset.
Proof. done. Qed.

(** Over a batch of stored assets the loop of [save_batch] saves nothing
    and records one error per asset: none of them reaches the
    [except DuplicateAssetError] clause. *)
Lemma save_batch_loop_stored assets :
  ∀ r saved errors,
    Forall (stored r) assets →
    ∃ r' errors',
      save_batch_loop assets saved errors r = (r', Ok (saved, (errors ++ errors')%list))
      ∧ length errors' = length assets
      ∧ files r' = files r.
Proof.
  induction assets as [|asset rest IH]; intros r saved errors Hall.
  - exists r, []. rewrite app_nil_r. done.
  - inversion Hall as [|? ? Hs Hrest]; subst.
    destruct (save_stored r asset Hs) as [msg Hsave].
    cbn [save_batch_loop]. unfold try_except. mrun. rewrite Hsave.
    unfold logger. mrun. cbn.
    destruct (IH (add_log (ERROR, "Failed to save asset " +:+ Asset.asset_id asset
                                  +:+ ": " +:+ msg) r) saved
                (errors ++ [Asset.asset_id asset +:+ ": "
                            +:+ ("Failed to save asset: " +:+ msg)])%list)
      as (r' & errors' & Hloop & Hlen & Hfiles).
    { rewrite Forall_forall in Hrest |- *. intros a Ha. apply stored_add_log. auto. }
    exists r', ([Asset.asset_id asset +:+ ": " +:+ ("Failed to save asset: " +:+ msg)]
                ++ errors')%list.
    split; [|split].
    + rewrite app_assoc. exact Hloop.
    + cbn. by rewrite Hlen.
    + by rewrite Hfiles.
Qed.

End FileBasedAssetRepositoryFacts.

(** C2.  The claim asks every backend to raise the distinguishable
    [DuplicateAssetError] when an [asset_id] is saved twice.  In the
    file-backed store the second [save] of a stored asset raises a
    [RepositoryError] that is not a [DuplicateAssetError]: the duplicate error
    is raised inside the [try] whose [except Exception] wraps it. *)
Theorem file_save_duplicate_raises_generic_error
    (r : FileBasedAssetRepository.t) (asset : Asset.t) :
  Predicates.stored r asset →
  ∃ e, (FileBasedAssetRepository.save asset r).2 = Raise e
       ∧ exn_cls e = RepositoryError
       ∧ isinstance e DuplicateAssetError = false.
Proof.
  intros Hs.
  destruct (FileBasedAssetRepositoryFacts.save_stored r asset Hs) as [msg ->].
  eexists. split; [reflexivity|]. split; reflexivity.
Qed.

Lemma file_save_duplicate_raises_generic_error_witness :
  let a1 := Sample.asset "a1" "compute" "aws" [("env", "prod")] in
  let store := (FileBasedAssetRepository.save a1 Sample.fresh_store).1 in
  Predicates.stored store a1
  ∧ ∃ e, (FileBasedAssetRepository.save a1 store).2 = Raise e
         ∧ exn_cls e = RepositoryError
         ∧ isinstance e DuplicateAssetError = false.
Proof.
  intros a1 store.
  assert (Hs : Predicates.stored store a1).
  { vm_compute. eexists. reflexivity. }
  split; [exact Hs|].
  exact (file_save_duplicate_raises_generic_error store a1 Hs).
Defined.

(** C3.  The claim asks [save_batch] to skip duplicates with a warning and
    to return the empty list for a batch made of duplicates only.  In the
    file-backed store such a batch raises: every duplicate surfaces from
    [save] as a plain [RepositoryError], misses the
    [except DuplicateAssetError] clause, is recorded in [errors], and with
    nothing saved the batch ends in [raise RepositoryError]. *)
Theorem file_save_batch_of_duplicates_raises
    (r : FileBasedAssetRepository.t) (assets : list Asset.t) :
  assets ≠ [] →
  Forall (Predicates.stored r) assets →
  raised_class (FileBasedAssetRepository.save_batch assets r).2 = Some RepositoryError.
Proof.
  intros Hne Hall.
  destruct (FileBasedAssetRepositoryFacts.save_batch_loop_stored assets r [] [] Hall)
    as (r' & errors' & Hloop & Hlen & _).
  unfold FileBasedAssetRepository.save_batch. mrun. rewrite Hloop. cbn [fst snd app].
  destruct errors' as [|e errors'].
  - destruct assets; [done | discriminate Hlen].
  - reflexivity.
Qed.

Lemma file_save_batch_of_duplicates_raises_witness :
  let a1 := Sample.asset "a1" "compute" "aws" [("env", "prod")] in
  let store := (FileBasedAssetRepository.save a1 Sample.fresh_store).1 in
  [a1] ≠ []
  ∧ Forall (Predicates.stored store) [a1]
  ∧ raised_class (FileBasedAssetRepository.save_batch [a1] store).2 = Some RepositoryError.
Proof.
  intros a1 store.
  assert (Hne : [a1] ≠ []) by discriminate.
  assert (Hall : Forall (Predicates.stored store) [a1]).
  { constructor; [|constructor]. vm_compute. eexists. reflexivity. }
  split; [exact Hne|]. split; [exact Hall|].
  exact (file_save_batch_of_duplicates_raises store [a1] Hne Hall).
Defined.

(** ** Tag queries with no tag *)

(** C10.  With the empty tag map the file-backed [find_by_tags] returns the
    empty list in every state (the running intersection stays [None] and the
    guard returns [[]]), while the SQLite one raises [RepositoryError]: its
    query has no condition after [WHERE], the engine rejects it, and the
    [sqlite3] error is wrapped.  Neither changes the store. *)
Theorem find_by_tags_of_no_tags :
  (∀ r : FileBasedAssetRepository.t,
      FileBasedAssetRepository.find_by_tags ∅ r = (r, Ok []))
  ∧ (∀ w : SQLite.t,
       ∃ e, (SQLiteAssetRepository.find_by_tags ∅ w).2 = Raise e
            ∧ exn_cls e = RepositoryError
            ∧ SQLite.db (SQLiteAssetRepository.find_by_tags ∅ w).1 = SQLite.db w).
Proof.
  split.
  - intros r. unfold FileBasedAssetRepository.find_by_tags, try_except. mrun.
    rewrite map_to_list_empty. reflexivity.
  - intros w.
    unfold SQLiteAssetRepository.find_by_tags, try_except, SQLite.get_connection,
      SQLiteAssetRepository.select_by_tags. mrun.
    rewrite map_to_list_empty. cbn. eexists. split; [reflexivity|]. split; reflexivity.
Qed.

(** ** Relationships whose end nodes are missing from the graph *)

Module MemgraphRelationshipRepositoryFacts.
Import MemgraphRelationshipRepository Predicates.

Lemma occurrences_0 (x : string) (l : list string) : x ∉ l → occurrences x l = 0%nat.
Proof.
  intros Hx. unfold occurrences.
  induction l as [|y l IH]; [done|].
  rewrite filter_cons. apply not_elem_of_cons in Hx as [Hne Hl].
  rewrite decide_False by congruence. auto.
Qed.

Lemma filter_nil_intro {A} (P : A → Prop) `{∀ x, Decision (P x)} (l : list A) :
  (∀ x, x ∈ l → ¬ P x) → filter P l = [].
Proof.
  induction l as [|y l IH]; intros Hl; [done|].
  rewrite filter_cons, decide_False by (apply Hl; left).
  apply IH. intros x Hx. apply Hl. by right.
Qed.

Lemma run_online cs q r :
  online (server r) = true →
  run cs q r = (set_server (execute cs q (server r)).1 r, Ok (execute cs q (server r)).2).
Proof.
  intros Hon. unfold run, session_run. rewrite Hon.
  by destruct (execute cs q (server r)).
Qed.

End MemgraphRelationshipRepositoryFacts.

(** C9.  On an available graph backend, saving a relationship one of whose
    end nodes is not in the graph raises nothing and returns the
    relationship, creates no edge (the graph is as before), and a following
    [find_by_id] of its id returns [None]. *)
Theorem memgraph_save_without_endpoint_is_silent
    (cs : MemgraphRelationshipRepository.graph → option Z * option Z)
    (r : MemgraphRelationshipRepository.t) (rel : Relationship.t) :
  MemgraphRelationshipRepository._available r = true →
  MemgraphRelationshipRepository.online (MemgraphRelationshipRepository.server r) = true →
  Predicates.wf_graph (MemgraphRelationshipRepository.server r) →
  (Relationship.source_id rel
     ∉ MemgraphRelationshipRepository.node_ids (MemgraphRelationshipRepository.server r)
   ∨ Relationship.target_id rel
     ∉ MemgraphRelationshipRepository.node_ids (MemgraphRelationshipRepository.server r)) →
  (Relationship.relationship_id rel
     ∉ Relationship.relationship_id
         <$> MemgraphRelationshipRepository.edges (MemgraphRelationshipRepository.server r)) →
  ∃ r',
    MemgraphRelationshipRepository.save cs rel r = (r', Ok rel)
    ∧ MemgraphRelationshipRepository.server r' = MemgraphRelationshipRepository.server r
    ∧ (MemgraphRelationshipRepository.find_by_id cs (Relationship.relationship_id rel) r').2
      = Ok None.
Proof.
  intros Hav Hon Hwf Hmiss Hnew.
  assert (Hmatch :
    MemgraphRelationshipRepository.execute cs
      (MemgraphRelationshipRepository.MatchEdge (Relationship.source_id rel)
         (Relationship.target_id rel) (Relationship.relationship_type rel))
      (MemgraphRelationshipRepository.server r)
    = (MemgraphRelationshipRepository.server r, MemgraphRelationshipRepository.Edges [])).
  { cbn. f_equal. f_equal.
    apply MemgraphRelationshipRepositoryFacts.filter_nil_intro. intros e He (Hs & Ht & _).
    destruct (Hwf e He) as [Hse Hte]. rewrite Hs in Hse. rewrite Ht in Hte.
    destruct Hmiss; contradiction. }
  assert (Hcreate :
    MemgraphRelationshipRepository.execute cs
      (MemgraphRelationshipRepository.CreateEdge (Relationship.source_id rel)
         (Relationship.target_id rel)
         (MemgraphRelationshipRepository._relationship_to_edge rel))
      (MemgraphRelationshipRepository.server r)
    = (MemgraphRelationshipRepository.server r, MemgraphRelationshipRepository.Edges [])).
  { cbn. f_equal.
    assert (Hpairs :
      (MemgraphRelationshipRepository.occurrences (Relationship.source_id rel)
         (MemgraphRelationshipRepository.node_ids (MemgraphRelationshipRepository.server r))
       * MemgraphRelationshipRepository.occurrences (Relationship.target_id rel)
           (MemgraphRelationshipRepository.node_ids (MemgraphRelationshipRepository.server r))
       = 0)%nat).
    { destruct Hmiss as [H|H];
        rewrite (MemgraphRelationshipRepositoryFacts.occurrences_0 _ _ H); lia. }
    rewrite Hpairs. cbn. rewrite app_nil_r.
    by destruct (MemgraphRelationshipRepository.server r). }
  assert (Hbyid :
    MemgraphRelationshipRepository.execute cs
      (MemgraphRelationshipRepository.MatchEdgeById (Relationship.relationship_id rel))
      (MemgraphRelationshipRepository.server r)
    = (MemgraphRelationshipRepository.server r, MemgraphRelationshipRepository.Edges [])).
  { cbn. f_equal. f_equal.
    apply MemgraphRelationshipRepositoryFacts.filter_nil_intro. intros e He Hid. apply Hnew.
    rewrite <- Hid. apply list_elem_of_fmap. eauto. }
  exists (MemgraphRelationshipRepository.add_log
            (INFO, "Saved relationship " +:+ Relationship.relationship_id rel) r).
  split; [|split].
  - unfold MemgraphRelationshipRepository.save, MemgraphRelationshipRepository.with_fallback,
      MemgraphRelationshipRepository._use_fallback.
    rewrite Hav. cbn [negb andb]. unfold try_except. mrun.
    rewrite MemgraphRelationshipRepositoryFacts.run_online by exact Hon. rewrite Hmatch.
    cbn [fst snd MemgraphRelationshipRepository.edges_of]. mrun.
    rewrite bool_decide_eq_true_2 by reflexivity. mrun.
    rewrite MemgraphRelationshipRepositoryFacts.run_online by (destruct r; exact Hon).
    replace (MemgraphRelationshipRepository.server
               (MemgraphRelationshipRepository.set_server
                  (MemgraphRelationshipRepository.server r) r))
      with (MemgraphRelationshipRepository.server r) by (by destruct r).
    rewrite Hcreate. unfold MemgraphRelationshipRepository.logger. mrun.
    destruct r; reflexivity.
  - reflexivity.
  - unfold MemgraphRelationshipRepository.find_by_id,
      MemgraphRelationshipRepository.with_fallback,
      MemgraphRelationshipRepository._use_fallback.
    cbn [MemgraphRelationshipRepository.add_log MemgraphRelationshipRepository._available].
    rewrite Hav. cbn [negb andb]. unfold try_except. mrun.
    rewrite MemgraphRelationshipRepositoryFacts.run_online by exact Hon.
    cbn [MemgraphRelationshipRepository.add_log MemgraphRelationshipRepository.server].
    rewrite Hbyid. reflexivity.
Qed.

Lemma memgraph_save_without_endpoint_is_silent_witness :
  let cs : MemgraphRelationshipRepository.graph → option Z * option Z := λ _, (None, None) in
  let a1 := Sample.asset "a1" "compute" "aws" [("env", "prod")] in
  let g := MemgraphRelationshipRepository.mk_graph true [a1] [] in
  let r := MemgraphRelationshipRepository.mk g true None [] in
  let rel := Sample.relationship "rel-1" "a1" "a2" "depends_on" in
  MemgraphRelationshipRepository._available r = true
  ∧ MemgraphRelationshipRepository.online (MemgraphRelationshipRepository.server r) = true
  ∧ Predicates.wf_graph (MemgraphRelationshipRepository.server r)
  ∧ (Relationship.source_id rel
       ∉ MemgraphRelationshipRepository.node_ids (MemgraphRelationshipRepository.server r)
     ∨ Relationship.target_id rel
       ∉ MemgraphRelationshipRepository.node_ids (MemgraphRelationshipRepository.server r))
  ∧ (Relationship.relationship_id rel
       ∉ Relationship.relationship_id
           <$> MemgraphRelationshipRepository.edges (MemgraphRelationshipRepository.server r))
  ∧ ∃ r',
      MemgraphRelationshipRepository.save cs rel r = (r', Ok rel)
      ∧ MemgraphRelationshipRepository.server r' = MemgraphRelationshipRepository.server r
      ∧ (MemgraphRelationshipRepository.find_by_id cs (Relationship.relationship_id rel) r').2
        = Ok None.
Proof.
  intros cs a1 g r rel.
  assert (H1 : MemgraphRelationshipRepository._available r = true) by reflexivity.
  assert (H2 : MemgraphRelationshipRepository.online
                 (MemgraphRelationshipRepository.server r) = true) by reflexivity.
  assert (H3 : Predicates.wf_graph
                 (MemgraphRelationshipRepository.server r)).
  { intros e He. cbn in He. by apply elem_of_nil in He. }
  assert (H4 : Relationship.source_id rel
                 ∉ MemgraphRelationshipRepository.node_ids
                     (MemgraphRelationshipRepository.server r)
               ∨ Relationship.target_id rel
                 ∉ MemgraphRelationshipRepository.node_ids
                     (MemgraphRelationshipRepository.server r)).
  { right. cbn. intros Hin. apply list_elem_of_singleton in Hin. discriminate Hin. }
  assert (H5 : Relationship.relationship_id rel
                 ∉ Relationship.relationship_id
                     <$> MemgraphRelationshipRepository.edges
                           (MemgraphRelationshipRepository.server r)).
  { cbn. apply not_elem_of_nil. }
  repeat (split; [assumption|]).
  exact (memgraph_save_without_endpoint_is_silent cs r rel H1 H2 H3 H4 H5).
Defined.

(** ** Relationships whose target asset is not stored *)

Module FileBasedRelationshipRepositoryFacts.
Import FileBasedRelationshipRepository Predicates.

(** Adding to the three indices cannot fail. *)
Lemma update_index_add r rel :
  _update_index rel false r =
    (set_type_index
       (index_add (Relationship.relationship_type rel) (Relationship.relationship_id rel)
                  (type_index r))
       (set_target_index
          (index_add (Relationship.target_id rel) (Relationship.relationship_id rel)
                     (target_index r))
          (set_source_index
             (index_add (Relationship.source_id rel) (Relationship.relationship_id rel)
                        (source_index r)) r)),
     Ok tt).
Proof. reflexivity. Qed.

Lemma save_new r rel :
  new_to_store r rel →
  ∃ r',
    save rel r = (r', Ok rel)
    ∧ files r' = <[_get_relationship_path r (Relationship.relationship_id rel)
                   := Relationship.to_dict rel]> (files r)
    ∧ compress r' = compress r.
Proof.
  intros [Hpath Hexact]. eexists.
  unfold save, try_except, path_exists. mrun.
  rewrite bool_decide_eq_false_2 by (rewrite Hpath; apply is_Some_None).
  mrun. rewrite Hexact. mrun.
  unfold _write_json. mrun. rewrite update_index_add.
  unfold logger. mrun. split; [reflexivity|]. split; reflexivity.
Qed.

Lemma find_by_id_stored r rel :
  files r !! _get_relationship_path r (Relationship.relationship_id rel)
    = Some (Relationship.to_dict rel) →
  Relationship.validate rel = Ok true →
  find_by_id (Relationship.relationship_id rel) r = (r, Ok (Some rel)).
Proof.
  intros Hfile Hvalid.
  unfold find_by_id, try_except, path_exists, _read_json. mrun.
  rewrite bool_decide_eq_true_2 by (rewrite Hfile; eauto). mrun.
  rewrite Hfile. mrun.
  unfold Relationship.from_dict. cbn [Relationship.to_dict Relationship.d_fields].
  rewrite Hvalid. reflexivity.
Qed.

End FileBasedRelationshipRepositoryFacts.

Module SQLiteRelationshipRepositoryFacts.
Import SQLite SQLiteRelationshipRepository Predicates.

Lemma save_dangling w rel :
  foreign_keys w = true →
  Relationship.target_id rel ∉ asset_ids (db w) →
  ∃ e,
    (save rel w).2 = Raise e
    ∧ isinstance e RepositoryError = true
    ∧ db (save rel w).1 = db w
    ∧ (new_to_database (db w) rel →
       e = Exn RepositoryError "Failed to save relationship: FOREIGN KEY constraint failed").
Proof.
  intros Hfk Hdangling.
  unfold save, try_except, get_connection, select_relationship_exists,
    insert_relationship, integrity_error. mrun.
  destruct (bool_decide (Relationship.relationship_id rel
              ∈ Relationship.relationship_id <$> relationships (db w))) eqn:Hid.
  - mrun. eexists. split; [reflexivity|]. split; [reflexivity|]. split; [by destruct w|].
    intros [Hn _]. apply bool_decide_eq_true_1 in Hid. contradiction.
  - mrun. unfold _relationship_to_row. rewrite Hid.
    destruct (bool_decide (Exists (same_edge rel) (relationships (db w)))) eqn:Hedge.
    + mrun. eexists. split; [reflexivity|]. split; [reflexivity|]. split; [by destruct w|].
      intros [_ Hn]. apply bool_decide_eq_true_1 in Hedge. contradiction.
    + rewrite Hfk.
      rewrite (bool_decide_eq_false_2 (Relationship.target_id rel ∈ _)) by exact Hdangling.
      rewrite andb_false_r. cbn [negb andb]. mrun.
      eexists. split; [reflexivity|]. split; [reflexivity|]. split; [by destruct w|].
      intros _. reflexivity.
Qed.

End SQLiteRelationshipRepositoryFacts.

(** ** The graph store over an unreachable server *)

Module MemgraphAssetRepositoryFacts.
Import AssetRepository MemgraphAssetRepository Predicates.

Section degraded.

Context {G : Type}.
Variable session_run : query → G → G * result answer.
Variable st_size : Asset.dict → Z.

Lemma agrees_on_fallback {A} (fm : M FileBasedAssetRepository.t A) :
  agrees (G := G) (on_fallback fm) fm.
Proof.
  intros r f Hf. unfold on_fallback. rewrite Hf. by destruct (fm f).
Qed.

Lemma agrees_logged {A} lvl msg (m : M (t G) A) fm :
  agrees m fm → agrees (logger lvl msg;; m) fm.
Proof.
  intros Hm r f Hf. unfold logger. mrun. apply Hm. by destruct r.
Qed.

Lemma agrees_fmap {A B} (h : A → B) (m : M (t G) A) fm :
  agrees m fm → agrees (h <$> m) (h <$> fm).
Proof.
  intros Hm r f Hf. destruct (Hm r f Hf) as [Hres Hfb].
  rewrite !run_fmap. destruct (m r) as [r' [a|e]], (fm f) as [f' [a'|e']];
    cbn in *; split; congruence.
Qed.

Lemma agrees_ext {A} (m : M (t G) A) (fm fm' : M FileBasedAssetRepository.t A) :
  (∀ f, fm f = fm' f) → agrees m fm → agrees m fm'.
Proof. intros Hext Hm r f Hf. rewrite <- Hext. by apply Hm. Qed.

Lemma fmap_fmap_run {S A B C} (h : B → C) (k : A → B) (m : M S A) (s : S) :
  (h <$> (k <$> m)) s = ((λ a, h (k a)) <$> m) s.
Proof. rewrite !run_fmap. by destruct (m s) as [s' [a|e]]. Qed.

Lemma fails_bind {A B} (m : M (t G) A) (k : A → M (t G) B) :
  fails m → fails (m ≫= k).
Proof.
  intros Hm r. destruct (Hm r) as (e & Hres & Hfb). rewrite run_bind.
  destruct (m r) as [r' [a|e']]; cbn in *; [discriminate|]. exists e'. done.
Qed.

Lemma fails_logged {A} lvl msg (m : M (t G) A) : fails m → fails (logger lvl msg;; m).
Proof.
  intros Hm r. unfold logger. mrun.
  destruct (Hm (add_log (lvl, msg) r)) as (e & Hres & Hfb).
  exists e. split; [exact Hres|]. rewrite Hfb. by destruct r.
Qed.

Lemma fails_reraise {A} e : fails (reraise e : M (t G) A).
Proof. intros r. by exists e. Qed.

Lemma fails_try_except {A} (body : M (t G) A) handler :
  fails body → (∀ e, fails (handler e)) → fails (try_except body handler).
Proof.
  intros Hb Hh r. unfold try_except. destruct (Hb r) as (e & Hres & Hfb).
  destruct (body r) as [r' [a|e']]; cbn in Hres, Hfb; [discriminate|].
  destruct (Hh e' r') as (e'' & Hres' & Hfb'). exists e''. split; [exact Hres'|]. congruence.
Qed.

(** A method whose graph path always raises is answered by its fallback
    branches, whether the repository knows it is degraded or finds out in
    the [except] clause. *)
Lemma agrees_with_fallback {A} what wrapped (primary degraded recovery : M (t G) A) fm :
  fails primary → agrees degraded fm → agrees recovery fm →
  agrees (with_fallback what wrapped primary degraded recovery) fm.
Proof.
  intros Hp Hd Hr r f Hf. unfold with_fallback.
  destruct (_use_fallback r); [by apply Hd|].
  unfold try_except. destruct (Hp r) as (e & Hres & Hfb).
  destruct (primary r) as [r' [a|e']]; cbn in Hres, Hfb; [discriminate|].
  unfold logger. mrun.
  assert (Hf' : fallback_repository (add_log (ERROR, what +:+ ": " +:+ exn_msg e') r') = Some f).
  { destruct r'; cbn in *. congruence. }
  rewrite Hf'. rewrite bool_decide_eq_true_2 by eauto.
  by apply Hr.
Qed.

Lemma agrees_delegating {A} what wrapped (primary : M (t G) A) fm :
  fails primary →
  agrees (with_fallback what wrapped primary (on_fallback fm) (on_fallback fm)) fm.
Proof.
  intros Hp. apply agrees_with_fallback; [exact Hp| |]; apply agrees_on_fallback.
Qed.

Hypothesis Hun : unreachable session_run.

Lemma fails_run q : fails (run session_run q).
Proof.
  intros r. unfold run. destruct (Hun q (server r)) as [e ->].
  exists e. split; [reflexivity|]. by destruct r.
Qed.

Lemma agrees_save asset :
  agrees (save session_run asset) (FileBasedAssetRepository.save asset).
Proof.
  unfold save. apply agrees_with_fallback.
  - apply fails_bind, fails_run.
  - apply agrees_on_fallback.
  - apply agrees_logged, agrees_on_fallback.
Qed.

Lemma fails_save_batch_loop asset rest :
  fails (save_batch_loop session_run (asset :: rest) []).
Proof.
  cbn [save_batch_loop]. apply fails_bind, fails_try_except.
  - apply fails_bind, fails_run.
  - intros e. apply fails_logged. cbn. apply fails_reraise.
Qed.

(** An empty batch never reaches the server: the graph path returns [[]],
    as the file store does. *)
Lemma agrees_save_batch assets :
  agrees (save_batch session_run assets) (FileBasedAssetRepository.save_batch assets).
Proof.
  unfold save_batch. destruct assets as [|asset rest].
  - intros r f Hf. unfold with_fallback.
    destruct (_use_fallback r); [by apply agrees_on_fallback|].
    cbn. split; [reflexivity|]. exact Hf.
  - apply agrees_delegating, fails_save_batch_loop.
Qed.

Lemma fails_update_batch_loop now asset rest :
  fails (update_batch_loop session_run now (asset :: rest) []).
Proof.
  cbn [update_batch_loop]. apply fails_bind, fails_try_except.
  - apply fails_bind, fails_run.
  - intros e. apply fails_logged. cbn. apply fails_reraise.
Qed.

Lemma agrees_update_batch now assets :
  agrees (update_batch session_run now assets)
         (FileBasedAssetRepository.update_batch now assets).
Proof.
  unfold update_batch. destruct assets as [|asset rest].
  - intros r f Hf. unfold with_fallback.
    destruct (_use_fallback r); [by apply agrees_on_fallback|].
    cbn. split; [reflexivity|]. exact Hf.
  - apply agrees_delegating, fails_update_batch_loop.
Qed.

Lemma agrees_find_all filters limit offset :
  agrees (find_all session_run filters limit offset)
         (FileBasedAssetRepository.find_all filters limit offset).
Proof. apply agrees_delegating, fails_bind, fails_run. Qed.

Lemma agrees_invoke c :
  c ≠ GetStatistics →
  agrees (invoke session_run st_size c) (file_backed st_size (delegated c)).
Proof.
  intros Hc. destruct c; cbn [invoke file_backed delegated]; try done.
  - apply agrees_fmap, agrees_save.
  - apply agrees_fmap, agrees_save_batch.
  - apply agrees_fmap, agrees_delegating, fails_bind, fails_run.
  - apply agrees_fmap, agrees_find_all.
  - apply agrees_fmap, agrees_find_all.
  - apply agrees_fmap, agrees_find_all.
  - apply agrees_fmap, agrees_delegating, fails_bind, fails_run.
  - apply agrees_fmap, agrees_delegating, fails_bind, fails_run.
  - apply agrees_fmap, agrees_update_batch.
  - apply agrees_fmap, agrees_delegating, fails_bind, fails_run.
  - eapply agrees_ext; [intros f; apply fmap_fmap_run|].
    apply agrees_fmap, agrees_delegating, fails_bind, fails_run.
  - eapply agrees_ext; [intros f; apply fmap_fmap_run|].
    apply agrees_fmap, agrees_delegating, fails_bind, fails_run.
  - apply agrees_fmap, agrees_delegating, fails_bind, fails_run.
  - apply agrees_fmap, agrees_delegating, fails_bind, fails_run.
Qed.

End degraded.

(** Construction keeps the file store when the configuration asks for one,
    whatever the connection attempt does. *)
Lemma init_with_file_fallback {G} (connect : G → result unit) (g : G)
    (connection_config fallback_config : pydict) :
  fallback_config ≠ ∅ →
  config_get "type" "file" fallback_config = "file" →
  ∃ r0,
    init connect g connection_config (Some fallback_config) = Ok r0
    ∧ fallback_repository r0
      = Some (FileBasedAssetRepository.init
                (config_get "path" "./fallback/assets" fallback_config) true).
Proof.
  intros Hne Hty. unfold init.
  rewrite (bool_decide_eq_false_2 (fallback_config = ∅)) by exact Hne.
  rewrite Hty. cbn [negb andb]. rewrite bool_decide_eq_true_2 by reflexivity.
  destruct (connect g); eexists; split; reflexivity.
Qed.

End MemgraphAssetRepositoryFacts.

(** C4 (amended).  A graph store built over an unreachable endpoint with a
    file fallback is constructed without error, and every call other than
    [get_statistics] returns what the internal file-backed store returns for
    the call it is delegated to, and leaves the store as that call leaves it.
    The delegated call is the same call, except for [find_by_type] and
    [find_by_provider], which reach the file store as [find_all] with a
    one-key filter.  This holds in every state of the repository that holds
    the store, so also after any sequence of such calls. *)
Theorem degraded_graph_store_answers_as_its_file_store
    {G : Type} (connect : G → result unit)
    (session_run : MemgraphAssetRepository.query → G → G * result MemgraphAssetRepository.answer)
    (st_size : Asset.dict → Z) (g : G) (connection_config fallback_config : pydict) :
  Predicates.unreachable session_run →
  fallback_config ≠ ∅ →
  config_get "type" "file" fallback_config = "file" →
  ∃ r0,
    MemgraphAssetRepository.init connect g connection_config (Some fallback_config) = Ok r0
    ∧ MemgraphAssetRepository.fallback_repository r0
      = Some (FileBasedAssetRepository.init
                (config_get "path" "./fallback/assets" fallback_config) true)
    ∧ ∀ (r : MemgraphAssetRepository.t G) (f : FileBasedAssetRepository.t)
        (c : AssetRepository.call),
        MemgraphAssetRepository.fallback_repository r = Some f →
        c ≠ AssetRepository.GetStatistics →
        (MemgraphAssetRepository.invoke session_run st_size c r).2
        = (AssetRepository.file_backed st_size (Predicates.delegated c) f).2
        ∧ MemgraphAssetRepository.fallback_repository
            (MemgraphAssetRepository.invoke session_run st_size c r).1
          = Some (AssetRepository.file_backed st_size
                    (Predicates.delegated c) f).1.
Proof.
  intros Hun Hne Hty.
  destruct (MemgraphAssetRepositoryFacts.init_with_file_fallback
              connect g connection_config fallback_config Hne Hty) as (r0 & Hinit & Hfb).
  exists r0. split; [exact Hinit|]. split; [exact Hfb|].
  intros r f c Hf Hc.
  by apply (MemgraphAssetRepositoryFacts.agrees_invoke session_run st_size Hun c Hc).
Qed.

Lemma degraded_graph_store_answers_as_its_file_store_witness :
  Predicates.unreachable Unreachable.session_run
  ∧ Unreachable.fallback_config ≠ ∅
  ∧ config_get "type" "file" Unreachable.fallback_config = "file"
  ∧ ∃ r0,
      MemgraphAssetRepository.init Unreachable.connect tt Unreachable.connection_config
        (Some Unreachable.fallback_config) = Ok r0
      ∧ MemgraphAssetRepository.fallback_repository r0
        = Some (FileBasedAssetRepository.init
                  (config_get "path" "./fallback/assets" Unreachable.fallback_config) true)
      ∧ ∀ (r : MemgraphAssetRepository.t unit) (f : FileBasedAssetRepository.t)
          (c : AssetRepository.call),
          MemgraphAssetRepository.fallback_repository r = Some f →
          c ≠ AssetRepository.GetStatistics →
          (MemgraphAssetRepository.invoke Unreachable.session_run Unreachable.st_size c r).2
          = (AssetRepository.file_backed Unreachable.st_size
               (Predicates.delegated c) f).2
          ∧ MemgraphAssetRepository.fallback_repository
              (MemgraphAssetRepository.invoke Unreachable.session_run Unreachable.st_size c r).1
            = Some (AssetRepository.file_backed Unreachable.st_size
                      (Predicates.delegated c) f).1.
Proof.
  assert (H1 : Predicates.unreachable Unreachable.session_run).
  { intros q g. eexists. reflexivity. }
  assert (H2 : Unreachable.fallback_config ≠ ∅).
  { apply (bool_decide_eq_false_1 (Unreachable.fallback_config = ∅)).
    vm_compute. reflexivity. }
  assert (H3 : config_get "type" "file" Unreachable.fallback_config = "file").
  { vm_compute. reflexivity. }
  split; [exact H1|]. split; [exact H2|]. split; [exact H3|].
  exact (degraded_graph_store_answers_as_its_file_store
           Unreachable.connect Unreachable.session_run Unreachable.st_size tt
           Unreachable.connection_config Unreachable.fallback_config H1 H2 H3).
Defined.

(** C4 (as stated) fails at [find_by_type] and [find_by_provider].  The
    graph store answers both through its own [find_all], which in degraded
    mode is the file store's [find_all]: a walk over the shard directories
    that skips the hidden ones.  The file store's own [find_by_type] and
    [find_by_provider] read the index.  An asset whose id starts with a dot
    lies in a hidden shard: saved through the degraded graph store, it is
    found by the file store's two queries and not by the graph store's. *)
Lemma degraded_find_by_type_is_not_the_file_stores :
  let h1 := Sample.asset ".h1" "compute" "aws" [] in
  let r1 := (MemgraphAssetRepository.invoke Unreachable.session_run Unreachable.st_size
               (AssetRepository.Save h1) Unreachable.repository).1 in
  let f1 := (AssetRepository.file_backed Unreachable.st_size
               (AssetRepository.Save h1) Unreachable.store).1 in
  MemgraphAssetRepository.init Unreachable.connect tt Unreachable.connection_config
    (Some Unreachable.fallback_config) = Ok Unreachable.repository
  ∧ (MemgraphAssetRepository.invoke Unreachable.session_run Unreachable.st_size
       (AssetRepository.Save h1) Unreachable.repository).2
    = Ok (AssetRepository.AnAsset h1)
  ∧ MemgraphAssetRepository.fallback_repository r1 = Some f1
  ∧ (MemgraphAssetRepository.invoke Unreachable.session_run Unreachable.st_size
       (AssetRepository.FindByType "compute") r1).2
    = Ok (AssetRepository.Assets [])
  ∧ (AssetRepository.file_backed Unreachable.st_size
       (AssetRepository.FindByType "compute") f1).2
    = Ok (AssetRepository.Assets [h1])
  ∧ (MemgraphAssetRepository.invoke Unreachable.session_run Unreachable.st_size
       (AssetRepository.FindByProvider "aws") r1).2
    = Ok (AssetRepository.Assets [])
  ∧ (AssetRepository.file_backed Unreachable.st_size
       (AssetRepository.FindByProvider "aws") f1).2
    = Ok (AssetRepository.Assets [h1]).
Proof. repeat split; vm_compute; reflexivity. Qed.

(** [get_statistics] is the call the statement above leaves out.  On the
    repository built over the unreachable server, after one asset has been
    saved through the fallback, the file store answers [get_statistics] with
    its dictionary (one asset in total), while the graph repository raises
    [KeyError]: it looks up the key [storage], which the file store's
    dictionary does not have. *)
Lemma degraded_get_statistics_is_not_the_file_stores :
  let a1 := Sample.asset "a1" "compute" "aws" [("env", "prod")] in
  let r1 := (MemgraphAssetRepository.invoke Unreachable.session_run Unreachable.st_size
               (AssetRepository.Save a1) Unreachable.repository).1 in
  let f1 := (AssetRepository.file_backed Unreachable.st_size
               (AssetRepository.Save a1) Unreachable.store).1 in
  MemgraphAssetRepository.init Unreachable.connect tt Unreachable.connection_config
    (Some Unreachable.fallback_config) = Ok Unreachable.repository
  ∧ MemgraphAssetRepository.fallback_repository r1 = Some f1
  ∧ (∃ stats,
       (AssetRepository.file_backed Unreachable.st_size AssetRepository.GetStatistics f1).2
       = Ok (AssetRepository.Statistics stats)
       ∧ dict_get "total_assets" stats = Some (PInt 1)
       ∧ dict_get "storage" stats = None)
  ∧ (MemgraphAssetRepository.invoke Unreachable.session_run Unreachable.st_size
       AssetRepository.GetStatistics r1).2
    = Raise (Exn KeyError "'storage'").
Proof.
  intros a1 r1 f1.
  split; [vm_compute; reflexivity|].
  split; [vm_compute; reflexivity|].
  split; [|vm_compute; reflexivity].
  eexists. split; [vm_compute; reflexivity|]. split; vm_compute; reflexivity.
Qed.

(** ** A failure in the middle of an index update *)

Example collision_store_is_consistent :
  (FileBasedAssetRepository.find_by_id "x1" Collision.store).2 = Ok (Some Collision.x)
  ∧ FileBasedAssetRepository.type_index Collision.store = {[ "compute" := ["x1"; "y1"] ]}
  ∧ FileBasedAssetRepository.provider_index Collision.store = {[ "aws" := ["x1"; "y1"] ]}
  ∧ FileBasedAssetRepository.tag_index Collision.store = {[ "a=b=c" := ["x1"; "y1"] ]}.
Proof. repeat split; vm_compute; reflexivity. Qed.

(** C1.  The claim asks that a mutating call that raises leaves the store
    as it was.  The file-backed [update] of [Collision.x] raises
    [RepositoryError] after it has rewritten the entity file and the type and
    provider indices: the file now holds the new asset, the id is gone from
    [by_type] and [by_provider], and [by_tags] still lists it.  Nothing is
    rolled back. *)
Theorem file_update_failure_leaves_partial_state :
  let before := Collision.store in
  let after := (FileBasedAssetRepository.update 7 Collision.x' before).1 in
  raised_class (FileBasedAssetRepository.update 7 Collision.x' before).2
    = Some RepositoryError
  ∧ (FileBasedAssetRepository.find_by_id "x1" before).2 = Ok (Some Collision.x)
  ∧ (FileBasedAssetRepository.find_by_id "x1" after).2
    = Ok (Some (Asset.set_updated_at 7 Collision.x'))
  ∧ FileBasedAssetRepository.type_index before !! "compute" = Some ["x1"; "y1"]
  ∧ FileBasedAssetRepository.type_index after !! "compute" = Some ["y1"]
  ∧ FileBasedAssetRepository.provider_index after !! "aws" = Some ["y1"]
  ∧ FileBasedAssetRepository.tag_index after = FileBasedAssetRepository.tag_index before.
Proof. repeat split; vm_compute; reflexivity. Qed.

(** C6.  The claim asks that after [delete] the id is in no secondary
    index.  The file-backed [delete] of [Collision.x] removes the entity file
    ([find_by_id] returns [None]) and the id from [by_type] and
    [by_provider], then raises inside the tag loop before [by_tags] is
    written: the id stays under its tag key. *)
Theorem file_delete_leaves_id_in_tag_index :
  let after := (FileBasedAssetRepository.delete "x1" Collision.store).1 in
  raised_class (FileBasedAssetRepository.delete "x1" Collision.store).2
    = Some RepositoryError
  ∧ (FileBasedAssetRepository.find_by_id "x1" after).2 = Ok None
  ∧ FileBasedAssetRepository.type_index after !! "compute" = Some ["y1"]
  ∧ FileBasedAssetRepository.provider_index after !! "aws" = Some ["y1"]
  ∧ FileBasedAssetRepository.tag_index after !! "a=b=c" = Some ["x1"; "y1"].
Proof. repeat split; vm_compute; reflexivity. Qed.

(** ** Index maintenance on update *)

Module FileBasedAssetRepositoryIndexFacts.
Import FileBasedAssetRepository.

(** [_update_index] step by step: each index file is written before the
    next one is read, so a failure keeps the files written so far. *)
Lemma update_index_run asset remove r :
  _update_index asset remove r =
    match index_update remove (Asset.asset_type asset) (Asset.asset_id asset) (type_index r) with
    | Raise e => (r, Raise e)
    | Ok ti =>
        match index_update remove (Asset.provider asset) (Asset.asset_id asset)
                (provider_index r) with
        | Raise e => (set_type_index ti r, Raise e)
        | Ok pi =>
            match update_tag_index remove (Asset.tags asset) (Asset.asset_id asset)
                    (tag_index r) with
            | Raise e => (set_provider_index pi (set_type_index ti r), Raise e)
            | Ok gi => (set_tag_index gi (set_provider_index pi (set_type_index ti r)), Ok tt)
            end
        end
    end.
Proof.
  unfold _update_index. mrun.
  destruct (index_update remove (Asset.asset_type asset) _ _) as [ti|e]; [|reflexivity].
  mrun. cbn [provider_index set_type_index].
  destruct (index_update remove (Asset.provider asset) _ _) as [pi|e]; [|reflexivity].
  mrun. cbn [tag_index set_type_index set_provider_index].
  destruct (update_tag_index remove (Asset.tags asset) _ _) as [gi|e]; reflexivity.
Qed.

Lemma fold_index_add_ok id (kvs : list (string * string)) :
  ∀ idx, ∃ idx',
    fold_result (λ idx kv, index_update false (tag_str kv) id idx) idx kvs = Ok idx'.
Proof.
  induction kvs as [|kv kvs IH]; intros idx; [by eexists|].
  cbn [fold_result]. unfold index_update at 1. cbn [mbind result_mbind result_bind].
  apply IH.
Qed.

(** Adding to the tag index cannot fail. *)
Lemma update_tag_index_add_ok tags id idx :
  ∃ idx', update_tag_index false tags id idx = Ok idx'.
Proof. apply fold_index_add_ok. Qed.

Lemma not_elem_of_remove_first (x : string) l : NoDup l → x ∉ remove_first x l.
Proof.
  induction 1 as [|y l Hy Hnd IH]; cbn; [apply not_elem_of_nil|].
  case_bool_decide as Hxy.
  - by subst.
  - apply not_elem_of_cons. split; [exact Hxy|exact IH].
Qed.


(** [update] once the stored asset has been read and the new one written. *)
Lemma update_stored r now asset d old :
  files r !! _get_asset_path r (Asset.asset_id asset) = Some d →
  Asset.from_dict d = Ok old →
  update now asset r =
    try_except
      ((if indexed_fields_differ old (Asset.set_updated_at now asset)
        then _update_index old true;; _update_index (Asset.set_updated_at now asset) false
        else mret tt);;
       logger INFO ("Updated asset " +:+ Asset.asset_id asset);;
       mret (Asset.set_updated_at now asset))
      (λ e,
       logger ERROR ("Failed to update asset " +:+ Asset.asset_id asset +:+ ": "
                     +:+ exn_msg e);;
       raise RepositoryError ("Failed to update asset: " +:+ exn_msg e))
      (set_files (<[_get_asset_path r (Asset.asset_id asset)
                    := Asset.to_dict (Asset.set_updated_at now asset)]> (files r)) r).
Proof.
  intros Hfile Hold. unfold update, try_except, path_exists, _read_json, _write_json. mrun.
  rewrite bool_decide_eq_true_2 by (rewrite Hfile; eauto). mrun.
  rewrite Hfile. mrun. rewrite Hold. mrun. reflexivity.
Qed.

End FileBasedAssetRepositoryIndexFacts.




(** ** Where the file-backed [delete] does clear the indices *)

Module FileBasedAssetRepositoryDeleteFacts.
Import FileBasedAssetRepository Predicates.

Lemma elem_of_remove_first_ne (x y : string) l : x ≠ y → y ∈ remove_first x l ↔ y ∈ l.
Proof.
  intros Hne. induction l as [|z l IH]; cbn; [done|].
  case_bool_decide as Hxz.
  - subst. rewrite elem_of_cons. split; [by right|]. intros [->|]; done.
  - rewrite !elem_of_cons, IH. done.
Qed.

Lemma NoDup_remove_first (x : string) l : NoDup l → NoDup (remove_first x l).
Proof.
  induction 1 as [|z l Hz Hnd IH]; cbn; [constructor|].
  case_bool_decide as Hxz; [done|].
  constructor; [|exact IH].
  rewrite elem_of_remove_first_ne by done. exact Hz.
Qed.

(** Removing the id under one of its keys succeeds and leaves it listed
    under the others. *)
Lemma index_remove_indexed idx id k keys :
  k ∉ keys →
  indexed_under idx id (k :: keys) →
  ∃ idx', index_remove k id idx = Ok idx' ∧ indexed_under idx' id keys.
Proof.
  intros Hk [Hdom Hinv].
  destruct (Hdom k) as [ids Hids]; [by left|].
  destruct (Hinv k ids Hids) as (Hnd & Hne & Hin).
  assert (Hid : id ∈ ids) by (apply Hin; by left).
  unfold index_remove, list_remove. rewrite Hids.
  rewrite bool_decide_eq_true_2 by exact Hid. cbn.
  eexists. split; [reflexivity|].
  pose proof (FileBasedAssetRepositoryIndexFacts.not_elem_of_remove_first id ids Hnd) as Hout.
  split.
  - intros k' Hk'. assert (k' ≠ k) by (intros ->; contradiction).
    case_bool_decide.
    + rewrite lookup_delete_ne by done. apply Hdom. by right.
    + rewrite lookup_insert_ne by done. apply Hdom. by right.
  - intros k' ids' Hlook.
    destruct (decide (k' = k)) as [->|Hne'].
    + case_bool_decide as Hnil.
      * rewrite lookup_delete_eq in Hlook. discriminate.
      * rewrite lookup_insert_eq in Hlook. injection Hlook as <-.
        split; [by apply NoDup_remove_first|]. split; [exact Hnil|].
        split; [intros; contradiction|intros; contradiction].
    + assert (Hl : idx !! k' = Some ids').
      { case_bool_decide;
          [by rewrite lookup_delete_ne in Hlook|by rewrite lookup_insert_ne in Hlook]. }
      destruct (Hinv k' ids' Hl) as (Hnd' & Hne'' & Hin').
      split; [exact Hnd'|]. split; [exact Hne''|].
      rewrite Hin', elem_of_cons. split; [intros [|]; done|by right].
Qed.

(** The tag loop, when the tags render to distinct keys. *)
Lemma fold_index_remove_indexed id (kvs : list (string * string)) :
  ∀ idx,
    NoDup (tag_str <$> kvs) →
    indexed_under idx id (tag_str <$> kvs) →
    ∃ idx', fold_result (λ idx kv, index_update true (tag_str kv) id idx) idx kvs = Ok idx'
            ∧ indexed_under idx' id [].
Proof.
  induction kvs as [|kv kvs IH]; intros idx Hnd Hinv.
  - exists idx. done.
  - cbn in Hnd. apply list.NoDup_cons in Hnd as [Hk Hnd].
    destruct (index_remove_indexed idx id (tag_str kv) (tag_str <$> kvs) Hk Hinv)
      as (idx1 & Hrem & Hinv1).
    cbn [fold_result index_update]. rewrite Hrem. cbn [mbind result_mbind result_bind].
    by apply IH.
Qed.

Lemma indexed_under_nil idx id : indexed_under idx id [] → unindexed idx id.
Proof.
  intros [_ Hinv] k ids Hl. destruct (Hinv k ids Hl) as (_ & Hne & Hin).
  split; [|exact Hne]. rewrite Hin. apply not_elem_of_nil.
Qed.

End FileBasedAssetRepositoryDeleteFacts.

(** In a store whose indices are consistent with the stored asset, and for
    an asset whose tags render to distinct index keys, [delete] returns
    [True], [find_by_id] then returns [None], and the id is left in no list
    of the three indices, none of which keeps an empty list.  For [delete] to
    fail in the tag loop, two tags of one asset must render to the same
    key. *)
Theorem file_delete_clears_every_index_of_a_consistent_store
    (r : FileBasedAssetRepository.t) (asset : Asset.t) (d : Asset.dict) :
  FileBasedAssetRepository.files r
    !! FileBasedAssetRepository._get_asset_path r (Asset.asset_id asset) = Some d →
  Asset.from_dict d = Ok asset →
  Predicates.consistent r asset →
  ∃ r',
    FileBasedAssetRepository.delete (Asset.asset_id asset) r = (r', Ok true)
    ∧ (FileBasedAssetRepository.find_by_id (Asset.asset_id asset) r').2 = Ok None
    ∧ Predicates.unindexed (FileBasedAssetRepository.type_index r') (Asset.asset_id asset)
    ∧ Predicates.unindexed (FileBasedAssetRepository.provider_index r') (Asset.asset_id asset)
    ∧ Predicates.unindexed (FileBasedAssetRepository.tag_index r') (Asset.asset_id asset).
Proof.
  intros Hfile Hd (Hty & Hprov & Htags & Hnd).
  destruct (FileBasedAssetRepositoryDeleteFacts.index_remove_indexed
              _ _ _ [] (not_elem_of_nil _) Hty) as (ti & Hti & Hti').
  destruct (FileBasedAssetRepositoryDeleteFacts.index_remove_indexed
              _ _ _ [] (not_elem_of_nil _) Hprov) as (pi & Hpi & Hpi').
  destruct (FileBasedAssetRepositoryDeleteFacts.fold_index_remove_indexed
              _ _ _ Hnd Htags) as (gi & Hgi & Hgi').
  eexists. split; [|split; [|split; [|split]]].
  - unfold FileBasedAssetRepository.delete, try_except, FileBasedAssetRepository.path_exists,
      FileBasedAssetRepository._read_json, FileBasedAssetRepository.unlink. mrun.
    rewrite bool_decide_eq_true_2 by (rewrite Hfile; eauto). mrun.
    rewrite Hfile. mrun. rewrite Hd. mrun.
    rewrite FileBasedAssetRepositoryIndexFacts.update_index_run.
    cbn [FileBasedAssetRepository.type_index FileBasedAssetRepository.provider_index
           FileBasedAssetRepository.tag_index FileBasedAssetRepository.set_files
           index_update].
    rewrite Hti, Hpi. unfold update_tag_index. rewrite Hgi.
    unfold FileBasedAssetRepository.logger. mrun. reflexivity.
  - unfold FileBasedAssetRepository.find_by_id, try_except,
      FileBasedAssetRepository.path_exists. mrun.
    rewrite bool_decide_eq_false_2; [reflexivity|].
    unfold FileBasedAssetRepository._get_asset_path, FileBasedAssetRepository.extension.
    cbn [FileBasedAssetRepository.compress FileBasedAssetRepository.set_files
           FileBasedAssetRepository.files FileBasedAssetRepository.add_log
           FileBasedAssetRepository.set_tag_index
           FileBasedAssetRepository.set_provider_index
           FileBasedAssetRepository.set_type_index].
    rewrite lookup_delete_eq. apply is_Some_None.
  - by apply FileBasedAssetRepositoryDeleteFacts.indexed_under_nil.
  - by apply FileBasedAssetRepositoryDeleteFacts.indexed_under_nil.
  - by apply FileBasedAssetRepositoryDeleteFacts.indexed_under_nil.
Qed.

(** ** The relational store on the same inputs *)

Module SQLiteAssetRepositoryFacts.
Import SQLite SQLiteAssetRepository Predicates.

(** Whatever a connection's body did is undone when it raises. *)
Lemma get_connection_rolls_back {A} (body : M SQLite.t A) w e :
  (get_connection body w).2 = Raise e → db (get_connection body w).1 = db w.
Proof.
  unfold get_connection. destruct (body w) as [w' [a|e']]; [discriminate|].
  intros _. by destruct w'.
Qed.

(** Here [DuplicateAssetError] passes the [except sqlite3.Error] clause. *)
Lemma sqlite_save_stored w asset :
  Asset.asset_id asset ∈ asset_ids (db w) →
  save asset w
  = (w, Raise (Exn DuplicateAssetError
                 ("Asset " +:+ Asset.asset_id asset +:+ " already exists"))).
Proof.
  intros Hin. unfold save, try_except, get_connection, select_asset_exists. mrun.
  rewrite bool_decide_eq_true_2 by exact Hin. mrun. cbn.
  by destruct w.
Qed.

Lemma sqlite_save_batch_loop_stored assets :
  ∀ w saved,
    Forall (λ a, Asset.asset_id a ∈ asset_ids (db w)) assets →
    save_batch_loop assets saved w
    = (mk (pragmas w) (db w) (log w ++ skipped assets)%list, Ok saved).
Proof.
  induction assets as [|asset rest IH]; intros w saved Hall.
  - cbn. rewrite app_nil_r. by destruct w.
  - inversion Hall as [|? ? Hin Hrest]; subst.
    cbn [save_batch_loop]. unfold try_except, select_asset_exists, logger. mrun.
    rewrite bool_decide_eq_true_2 by exact Hin. mrun.
    rewrite IH by exact Hrest.
    cbn [pragmas db log add_log skipped fmap list_fmap]. by rewrite <- app_assoc.
Qed.

End SQLiteAssetRepositoryFacts.

(** The SQLite [save] of a stored id raises [DuplicateAssetError] and
    changes nothing. *)
Theorem sqlite_save_duplicate_raises_duplicate_error (w : SQLite.t) (asset : Asset.t) :
  Asset.asset_id asset ∈ SQLite.asset_ids (SQLite.db w) →
  ∃ e, SQLiteAssetRepository.save asset w = (w, Raise e)
       ∧ isinstance e DuplicateAssetError = true.
Proof.
  intros Hin. rewrite (SQLiteAssetRepositoryFacts.sqlite_save_stored w asset Hin).
  eexists. split; reflexivity.
Qed.

(** X1.  The SQLite [save_batch] of stored ids returns the empty list, logs
    one warning per asset and nothing else, and leaves the database as it was. *)
Theorem sqlite_save_batch_of_duplicates_returns_nothing
    (w : SQLite.t) (assets : list Asset.t) :
  Forall (λ a, Asset.asset_id a ∈ SQLite.asset_ids (SQLite.db w)) assets →
  SQLiteAssetRepository.save_batch assets w
  = (SQLite.mk (SQLite.pragmas w) (SQLite.db w)
       (SQLite.log w ++ Predicates.skipped assets)%list, Ok []).
Proof.
  intros Hall. unfold SQLiteAssetRepository.save_batch, try_except, SQLite.get_connection.
  by rewrite SQLiteAssetRepositoryFacts.sqlite_save_batch_loop_stored.
Qed.

Module DomainFacts.
Import Predicates.

Lemma not_elem_of_by_computation (x : string) (l : list string) :
  bool_decide (x ∈ l) = false → x ∉ l.
Proof. apply bool_decide_eq_false_1. Qed.

Ltac in_list := apply (bool_decide_unpack _); vm_compute; exact I.
Ltac not_in_list := apply not_elem_of_by_computation; vm_compute; reflexivity.

End DomainFacts.

(** [validate] accepts an asset exactly when its type, provider and status are
    allowed ones, its name is not empty and its risk score is between 0 and
    100; in every other case it raises [ValueError]. *)
Theorem asset_validate_accepts_exactly (a : Asset.t) :
  (Asset.validate a = Ok true ↔
     Asset.asset_type a ∈ Asset.allowed_types
     ∧ Asset.provider a ∈ Asset.allowed_providers
     ∧ Asset.name a ≠ ""
     ∧ Asset.status a ∈ Asset.allowed_statuses
     ∧ (0 ≤ Asset.risk_score a)%Qc ∧ (Asset.risk_score a ≤ Qc_of_Z 100)%Qc)
  ∧ (Asset.validate a = Ok true
     ∨ ∃ msg, Asset.validate a = Raise (Exn ValueError msg)).
Proof.
  assert (Hty : "" ∉ Asset.allowed_types) by DomainFacts.not_in_list.
  assert (Hpr : "" ∉ Asset.allowed_providers) by DomainFacts.not_in_list.
  unfold Asset.validate, Asset.value_error.
  repeat (case_bool_decide; cbn [negb]); (split; [split|]); try (intros; discriminate);
    try (right; eexists; reflexivity); try (left; reflexivity);
    try (intros (? & ? & ? & ? & ? & ?); congruence);
    try (intros (? & ? & ? & ? & ? & ?); tauto).
  intros _. tauto.
Qed.

(** [validate] accepts a relationship exactly when its ends are not empty and
    differ, its type and discovery method are allowed ones and its confidence
    is between 0 and 1; in every other case it raises [ValueError]. *)
Theorem relationship_validate_accepts_exactly (r : Relationship.t) :
  (Relationship.validate r = Ok true ↔
     Relationship.source_id r ≠ ""
     ∧ Relationship.target_id r ≠ ""
     ∧ Relationship.source_id r ≠ Relationship.target_id r
     ∧ Relationship.relationship_type r ∈ Relationship.allowed_types
     ∧ (0 ≤ Relationship.confidence r)%Qc ∧ (Relationship.confidence r ≤ 1)%Qc
     ∧ Relationship.discovery_method r ∈ Relationship.allowed_methods)
  ∧ (Relationship.validate r = Ok true
     ∨ ∃ msg, Relationship.validate r = Raise (Exn ValueError msg)).
Proof.
  assert (Hty : "" ∉ Relationship.allowed_types) by DomainFacts.not_in_list.
  unfold Relationship.validate, Relationship.value_error.
  repeat (case_bool_decide; cbn [negb]); (split; [split|]); try (intros; discriminate);
    try (right; eexists; reflexivity); try (left; reflexivity);
    try (intros (? & ? & ? & ? & ? & ? & ?); congruence);
    try (intros (? & ? & ? & ? & ? & ? & ?); tauto).
  intros _. tauto.
Qed.

Module DirectionFacts.
Import Predicates.

Lemma allowed_types_split (ty : string) :
  ty ∈ Relationship.allowed_types ↔
    ty ∈ [ "depends_on"; "uses"; "contains"; "manages"; "secures";
           "backs_up"; "replicates_to"; "load_balances"; "monitors"; "owns" ]
    ∨ ty ∈ [ "used_by"; "contained_by"; "managed_by"; "secured_by"; "backed_up_by";
             "replicated_from"; "load_balanced_by"; "monitored_by"; "owned_by" ]
    ∨ ty = "connects_to".
Proof.
  unfold Relationship.allowed_types. rewrite !elem_of_cons, !elem_of_nil. tauto.
Qed.

End DirectionFacts.

(** X2.  [get_direction] answers [unknown] exactly for the relationship types
    that [validate] rejects, so a valid relationship has one of the three
    directions; it never answers anything but the four strings. *)
Theorem get_direction_unknown_iff_type_not_allowed (r : Relationship.t) :
  (Relationship.get_direction r = "unknown"
   ↔ Relationship.relationship_type r ∉ Relationship.allowed_types)
  ∧ Relationship.get_direction r ∈ ["outbound"; "inbound"; "bidirectional"; "unknown"].
Proof.
  rewrite DirectionFacts.allowed_types_split. unfold Relationship.get_direction.
  repeat case_bool_decide; split; try (split; [discriminate | tauto]);
    try (split; [intros _; tauto | done]);
    rewrite !elem_of_cons; tauto.
Qed.

Module InverseFacts.
Import Predicates.

Lemma inverse_types_directions (ty ty' : string) (r1 r2 : Relationship.t) :
  assoc_get ty Relationship.inverse_types = Some ty' →
  Relationship.relationship_type r1 = ty →
  Relationship.relationship_type r2 = ty' →
  Relationship.get_direction r1 = "outbound" ∧ Relationship.get_direction r2 = "inbound".
Proof.
  intros Hget H1 H2. unfold Relationship.get_direction. rewrite H1, H2. clear H1 H2.
  unfold Relationship.inverse_types in Hget. cbn [assoc_get] in Hget.
  repeat match type of Hget with
         | (if bool_decide ?P then _ else _) = _ =>
             destruct (decide P) as [Hk|Hk];
             [ rewrite (bool_decide_eq_true_2 _ Hk) in Hget;
               injection Hget as <-; rewrite Hk; split; reflexivity
             | rewrite (bool_decide_eq_false_2 _ Hk) in Hget; clear Hk ]
         end.
  discriminate.
Qed.

End InverseFacts.

Lemma is_inverse_of_swap (r1 r2 : Relationship.t) :
  Relationship.is_inverse_of r1 r2 = Relationship.is_inverse_of r2 r1
  ∧ (Relationship.source_id r1 ≠ Relationship.target_id r1 →
     Relationship.is_inverse_of r1 r1 = false).
Proof.
  unfold Relationship.is_inverse_of. split.
  - repeat (case_bool_decide; cbn [andb]); congruence.
  - intros Hne. rewrite (bool_decide_eq_false_2 _ Hne). reflexivity.
Qed.

Lemma is_inverse_of_directions (r1 r2 : Relationship.t) :
  Relationship.is_inverse_of r1 r2 = true →
  Relationship.source_id r1 = Relationship.target_id r2
  ∧ Relationship.target_id r1 = Relationship.source_id r2
  ∧ ((Relationship.get_direction r1 = "outbound"
      ∧ Relationship.get_direction r2 = "inbound")
     ∨ (Relationship.get_direction r1 = "inbound"
        ∧ Relationship.get_direction r2 = "outbound")).
Proof.
  unfold Relationship.is_inverse_of.
  case_bool_decide as Hs; [|discriminate]. case_bool_decide as Ht; [|discriminate].
  cbn [andb]. intros H. split; [exact Hs|]. split; [exact Ht|].
  case_bool_decide as H12.
  - left. by eapply InverseFacts.inverse_types_directions.
  - case_bool_decide as H21; [|discriminate].
    right. apply and_comm. by eapply InverseFacts.inverse_types_directions.
Qed.

(** X3.  [is_inverse_of] does not depend on which of the two relationships is
    asked, no relationship with two different ends is its own inverse, and two
    relationships that are inverses join the same two assets in opposite
    senses, one of an outbound type and the other of an inbound type. *)
Theorem is_inverse_of_is_symmetric_and_reverses_direction (r1 r2 : Relationship.t) :
  Relationship.is_inverse_of r1 r2 = Relationship.is_inverse_of r2 r1
  ∧ (Relationship.source_id r1 ≠ Relationship.target_id r1 →
     Relationship.is_inverse_of r1 r1 = false)
  ∧ (Relationship.is_inverse_of r1 r2 = true →
     Relationship.source_id r1 = Relationship.target_id r2
     ∧ Relationship.target_id r1 = Relationship.source_id r2
     ∧ ((Relationship.get_direction r1 = "outbound"
         ∧ Relationship.get_direction r2 = "inbound")
        ∨ (Relationship.get_direction r1 = "inbound"
           ∧ Relationship.get_direction r2 = "outbound"))).
Proof.
  destruct (is_inverse_of_swap r1 r2) as [Hsym Hself].
  split; [exact Hsym|]. split; [exact Hself|]. apply is_inverse_of_directions.
Qed.

Module AssetFacts.
Import Predicates.

Lemma validate_same_fields (a b : Asset.t) :
  Asset.asset_type a = Asset.asset_type b →
  Asset.provider a = Asset.provider b →
  Asset.name a = Asset.name b →
  Asset.status a = Asset.status b →
  Asset.risk_score a = Asset.risk_score b →
  Asset.validate a = Asset.validate b.
Proof. intros H1 H2 H3 H4 H5. unfold Asset.validate. by rewrite H1, H2, H3, H4, H5. Qed.

Lemma raw_risk_score_bounds now a :
  (0 ≤ Asset.raw_risk_score now a)%Qc ∧ (Asset.raw_risk_score now a ≤ Qc_of_Z 90)%Qc
  ∧ Asset.Qc_min (Qc_of_Z 100) (Asset.Qc_max 0%Qc (Asset.raw_risk_score now a))
    = Asset.raw_risk_score now a.
Proof.
  unfold Asset.raw_risk_score, Asset.compliance_scores, Asset.health_scores.
  cbn [Asset.score_get].
  repeat case_bool_decide;
    (split; [|split]);
    solve [ apply (bool_decide_unpack _); vm_compute; exact I
          | vm_compute; reflexivity ].
Qed.

Lemma validate_set_risk_score a q :
  Asset.validate a = Ok true → (0 ≤ q)%Qc → (q ≤ Qc_of_Z 100)%Qc →
  Asset.validate (Asset.set_risk_score q a) = Ok true.
Proof.
  unfold Asset.validate, Asset.value_error. cbn.
  intros H H0 H100.
  repeat (case_bool_decide; cbn [negb] in * ); try discriminate; try reflexivity.
  tauto.
Qed.

Lemma same_link_key r1 r2 : Asset.same_link r1 r2 = bool_decide (link_key r1 = link_key r2).
Proof.
  unfold Asset.same_link, link_key.
  repeat case_bool_decide; cbn; try reflexivity; congruence.
Qed.

Lemma existsb_same_link rel rs :
  existsb (λ existing, Asset.same_link existing rel) rs = bool_decide (link_key rel ∈ link_key <$> rs).
Proof.
  induction rs as [|r rs IH]; cbn.
  - symmetry. apply bool_decide_eq_false_2. apply not_elem_of_nil.
  - rewrite IH, same_link_key.
    repeat case_bool_decide; cbn; try reflexivity; exfalso;
      rewrite elem_of_cons in *; intuition congruence.
Qed.

End AssetFacts.

(** X4.  [calculate_risk_score] returns a score between 0 and 90 whatever the
    asset and the clock: the clamp to the range from 0 to 100 never changes
    the sum of the factors.  The score is stored in [risk_score] and nothing
    else of the asset changes. *)
Theorem calculate_risk_score_is_between_0_and_90 (now : Z) (a : Asset.t) :
  let score := (Asset.calculate_risk_score now a).2 in
  (0 ≤ score)%Qc ∧ (score ≤ Qc_of_Z 90)%Qc
  ∧ score = Asset.raw_risk_score now a
  ∧ (Asset.calculate_risk_score now a).1 = Asset.set_risk_score score a.
Proof.
  destruct (AssetFacts.raw_risk_score_bounds now a) as (H0 & H90 & Hclamp).
  unfold Asset.calculate_risk_score. cbn [fst snd]. rewrite Hclamp. done.
Qed.

(** X5.  An asset that [validate] accepts is still accepted after [add_tag],
    [remove_tag], [update_properties], [add_relationship] (when it does not
    raise), [remove_relationship] and [calculate_risk_score]. *)
Theorem asset_mutators_keep_validity (now : Z) (a : Asset.t) :
  Asset.validate a = Ok true →
  (∀ k v, Asset.validate (Asset.add_tag now k v a) = Ok true)
  ∧ (∀ k, Asset.validate (Asset.remove_tag now k a).1 = Ok true)
  ∧ (∀ ps, Asset.validate (Asset.update_properties now ps a) = Ok true)
  ∧ (∀ rel a', Asset.add_relationship now rel a = Ok a' → Asset.validate a' = Ok true)
  ∧ (∀ id, Asset.validate (Asset.remove_relationship now id a).1 = Ok true)
  ∧ Asset.validate (Asset.calculate_risk_score now a).1 = Ok true.
Proof.
  intros Hv. repeat split.
  - intros k v. by rewrite <- Hv.
  - intros k. unfold Asset.remove_tag. case_bool_decide; by rewrite <- Hv.
  - intros ps. by rewrite <- Hv.
  - intros rel a'. unfold Asset.add_relationship, Asset.value_error.
    destruct (_ && _); [discriminate|].
    destruct (existsb _ _); intros [= <-]; by rewrite <- Hv.
  - intros id. unfold Asset.remove_relationship. cbn. case_bool_decide; by rewrite <- Hv.
  - destruct (AssetFacts.raw_risk_score_bounds now a) as (H0 & H90 & Hclamp).
    unfold Asset.calculate_risk_score. cbn [fst]. rewrite Hclamp.
    apply AssetFacts.validate_set_risk_score; [exact Hv|exact H0|].
    eapply Qcle_trans; [exact H90|]. apply (bool_decide_unpack _). vm_compute. exact I.
Qed.

Lemma asset_mutators_keep_validity_witness :
  let a := Inventory.a1 in
  Asset.validate a = Ok true
  ∧ (∀ k v, Asset.validate (Asset.add_tag 7 k v a) = Ok true)
  ∧ (∀ k, Asset.validate (Asset.remove_tag 7 k a).1 = Ok true)
  ∧ (∀ ps, Asset.validate (Asset.update_properties 7 ps a) = Ok true)
  ∧ (∀ rel a', Asset.add_relationship 7 rel a = Ok a' → Asset.validate a' = Ok true)
  ∧ (∀ id, Asset.validate (Asset.remove_relationship 7 id a).1 = Ok true)
  ∧ Asset.validate (Asset.calculate_risk_score 7 a).1 = Ok true.
Proof.
  intros a.
  assert (H : Asset.validate a = Ok true) by (vm_compute; reflexivity).
  split; [exact H|]. exact (asset_mutators_keep_validity 7 a H).
Defined.

(** X6.  [add_relationship] raises [ValueError] exactly when the asset is
    neither end of the relationship.  Otherwise the link (source, target,
    type) is among the asset's relationships afterwards, no link is held twice
    if none was before, and adding the same relationship again changes
    nothing. *)
Theorem add_relationship_keeps_links_unique (now : Z) (rel : Relationship.t) (a : Asset.t) :
  NoDup (Predicates.link_key <$> Asset.relationships a) →
  match Asset.add_relationship now rel a with
  | Ok a' =>
      (Relationship.source_id rel = Asset.asset_id a
       ∨ Relationship.target_id rel = Asset.asset_id a)
      ∧ NoDup (Predicates.link_key <$> Asset.relationships a')
      ∧ Predicates.link_key rel ∈ Predicates.link_key <$> Asset.relationships a'
      ∧ (∀ now', Asset.add_relationship now' rel a' = Ok a')
  | Raise e =>
      e = Exn ValueError "Relationship must involve this asset"
      ∧ Relationship.source_id rel ≠ Asset.asset_id a
      ∧ Relationship.target_id rel ≠ Asset.asset_id a
  end.
Proof.
  intros Hnd. unfold Asset.add_relationship, Asset.value_error.
  case_bool_decide as Hs; case_bool_decide as Ht; cbn [negb andb]; try done.
  all: rewrite AssetFacts.existsb_same_link.
  all: case_bool_decide as Hin.
  all: (split; [tauto|]).
  all: cbn [Asset.relationships Asset.set_relationships Asset.set_updated_at Asset.asset_id].
  all: try (split; [exact Hnd|]; split; [exact Hin|]; intros now';
            rewrite ?(bool_decide_eq_true_2 _ Hs), ?(bool_decide_eq_true_2 _ Ht),
              ?(bool_decide_eq_false_2 _ Hs), ?(bool_decide_eq_false_2 _ Ht);
            cbn [negb andb]; rewrite AssetFacts.existsb_same_link;
            by rewrite (bool_decide_eq_true_2 _ Hin)).
  all: assert (Hin' : Predicates.link_key rel ∈ Predicates.link_key <$> (Asset.relationships a ++ [rel])%list)
         by (rewrite fmap_app, elem_of_app; right; cbn; apply list_elem_of_singleton; done).
  all: split; [rewrite fmap_app; apply list.NoDup_app; split; [exact Hnd|]; split;
               [intros k Hk; cbn; rewrite list_elem_of_singleton; intros ->; done
               |cbn; apply NoDup_singleton]|].
  all: split; [exact Hin'|]; intros now';
       rewrite ?(bool_decide_eq_true_2 _ Hs), ?(bool_decide_eq_true_2 _ Ht),
         ?(bool_decide_eq_false_2 _ Hs), ?(bool_decide_eq_false_2 _ Ht);
       cbn [negb andb]; rewrite AssetFacts.existsb_same_link;
       cbn [Asset.relationships];
       by rewrite (bool_decide_eq_true_2 _ Hin').
Qed.

Lemma add_relationship_keeps_links_unique_witness :
  let a := Inventory.a1 in
  let rel := Sample.relationship "rel-1" "a1" "a2" "depends_on" in
  NoDup (Predicates.link_key <$> Asset.relationships a)
  ∧ match Asset.add_relationship 7 rel a with
    | Ok a' =>
        (Relationship.source_id rel = Asset.asset_id a
         ∨ Relationship.target_id rel = Asset.asset_id a)
        ∧ NoDup (Predicates.link_key <$> Asset.relationships a')
        ∧ Predicates.link_key rel ∈ Predicates.link_key <$> Asset.relationships a'
        ∧ (∀ now', Asset.add_relationship now' rel a' = Ok a')
    | Raise e =>
        e = Exn ValueError "Relationship must involve this asset"
        ∧ Relationship.source_id rel ≠ Asset.asset_id a
        ∧ Relationship.target_id rel ≠ Asset.asset_id a
    end.
Proof.
  intros a rel.
  assert (H : NoDup (Predicates.link_key <$> Asset.relationships a)) by constructor.
  split; [exact H|]. exact (add_relationship_keeps_links_unique 7 rel a H).
Defined.

(** [remove_relationship] returns whether a relationship of the id was held,
    drops every relationship of that id, and leaves the asset untouched when
    there was none. *)
Theorem remove_relationship_reports_whether_found (now : Z) (id : string) (a : Asset.t) :
  let res := Asset.remove_relationship now id a in
  (res.2 = true ↔ id ∈ Relationship.relationship_id <$> Asset.relationships a)
  ∧ Asset.relationships res.1
    = filter (λ r, Relationship.relationship_id r ≠ id) (Asset.relationships a)
  ∧ (id ∉ Relationship.relationship_id <$> Asset.relationships res.1)
  ∧ (res.2 = false → res.1 = a).
Proof.
  cbn zeta. unfold Asset.remove_relationship.
  assert (Hfilter : ∀ rs : list Relationship.t,
            (length (filter (λ r, Relationship.relationship_id r ≠ id) rs) ≤ length rs)%nat
            ∧ ((length (filter (λ r, Relationship.relationship_id r ≠ id) rs) < length rs)%nat
               ↔ id ∈ Relationship.relationship_id <$> rs)
            ∧ (id ∉ Relationship.relationship_id <$> rs
               → filter (λ r, Relationship.relationship_id r ≠ id) rs = rs)).
  { induction rs as [|r rs (IH1 & IH2 & IH3)].
    - cbn. split; [lia|]. split; [|done]. split; [lia|]. intros H. by apply elem_of_nil in H.
    - rewrite filter_cons, fmap_cons.
      destruct (decide (Relationship.relationship_id r ≠ id)) as [Hne|Heq]; cbn [length].
      + split; [lia|]. split.
        * rewrite elem_of_cons, <- IH2.
          split; [intros; right; lia|intros [?|?]; [congruence|lia]].
        * intros H. apply not_elem_of_cons in H as [_ H]. by rewrite IH3.
      + apply dec_stable in Heq. split; [lia|]. split.
        * rewrite elem_of_cons. split; [by left|lia].
        * intros H. apply not_elem_of_cons in H as [H _]. congruence. }
  destruct (Hfilter (Asset.relationships a)) as (H1 & H2 & H3).
  assert (Hout : id ∉ Relationship.relationship_id
                   <$> filter (λ r, Relationship.relationship_id r ≠ id) (Asset.relationships a)).
  { rewrite list_elem_of_fmap. intros (r & -> & Hr). apply list_elem_of_filter in Hr. tauto. }
  cbn [Asset.relationships Asset.set_relationships].
  case_bool_decide as Hlt; cbn [fst snd Asset.relationships Asset.set_updated_at].
  - split; [tauto|]. split; [done|]. split; [exact Hout|]. discriminate.
  - split; [split; [discriminate|tauto]|]. split; [done|]. split; [exact Hout|].
    intros _. rewrite H3 by tauto. by destruct a.
Qed.

(** [remove_tag] returns whether the key was a tag, deletes it, leaves the
    asset untouched when it was not, and undoes an [add_tag] of a new key but
    for the time stamp. *)
Theorem remove_tag_reports_whether_found (now : Z) (key : string) (a : Asset.t) :
  let res := Asset.remove_tag now key a in
  (res.2 = true ↔ is_Some (Asset.tags a !! key))
  ∧ Asset.tags res.1 = delete key (Asset.tags a)
  ∧ (res.2 = false → res.1 = a)
  ∧ (∀ value now', Asset.tags a !! key = None →
       Asset.remove_tag now' key (Asset.add_tag now key value a)
       = (Asset.set_updated_at now' a, true)).
Proof.
  cbn zeta. unfold Asset.remove_tag, Asset.add_tag.
  split; [|split; [|split]].
  - case_bool_decide; cbn; [tauto|]. split; [discriminate|tauto].
  - case_bool_decide as H; cbn; [done|].
    symmetry. apply delete_id. by apply eq_None_not_Some.
  - case_bool_decide; cbn; [discriminate|done].
  - intros value now' Hnone. cbn [Asset.tags Asset.set_tags Asset.set_updated_at].
    rewrite bool_decide_eq_true_2 by (rewrite lookup_insert_eq; eauto).
    f_equal. destruct a; cbn in *. unfold Asset.set_updated_at, Asset.set_tags. cbn.
    rewrite delete_insert_eq. by rewrite delete_id.
Qed.

Module StringFacts.
Import Predicates.

Lemma append_cons c s t : String c s +:+ t = String c (s +:+ t).
Proof. reflexivity. Qed.

Lemma append_nil t : "" +:+ t = t.
Proof. reflexivity. Qed.

Lemma length_append s t : String.length (s +:+ t) = (String.length s + String.length t)%nat.
Proof. induction s as [|c s IH]; [done|]. rewrite append_cons. cbn. by rewrite IH. Qed.

Lemma append_inj_l s1 : ∀ s2 t, s1 +:+ t = s2 +:+ t → s1 = s2.
Proof.
  induction s1 as [|c s1 IH]; intros [|c' s2] t H; [done| | |].
  - apply (f_equal String.length) in H. rewrite append_nil, length_append in H. cbn in H. lia.
  - apply (f_equal String.length) in H. rewrite append_nil, length_append in H. cbn in H. lia.
  - rewrite !append_cons in H. injection H as -> H. f_equal. by eapply IH.
Qed.

End StringFacts.

Module IndexFacts.
Import Predicates.

Lemma index_lists_iff idx (R R' : string → string → Prop) :
  (∀ k id, R k id ↔ R' k id) → index_lists idx R → index_lists idx R'.
Proof. intros HR [H1 H2]. split; [exact H1|]. intros k id. by rewrite H2. Qed.

Lemma index_lists_empty (R : string → string → Prop) :
  (∀ k id, ¬ R k id) → index_lists ∅ R.
Proof.
  intros HR. split.
  - intros k ids H. by rewrite lookup_empty in H.
  - intros k id. rewrite lookup_empty. cbn. split; [intros H; by apply elem_of_nil in H|].
    intros H. by apply HR in H.
Qed.

Lemma index_add_lists idx R k id :
  index_lists idx R →
  index_lists (index_add k id idx) (λ k' id', R k' id' ∨ (k' = k ∧ id' = id)).
Proof.
  intros [Hwf Hmem]. unfold index_add.
  destruct (idx !! k) as [ids|] eqn:Hk; cbn.
  - destruct (Hwf k ids Hk) as [Hnd Hne].
    case_bool_decide as Hin.
    + rewrite insert_id by exact Hk. split; [exact Hwf|].
      intros k' id'. rewrite Hmem. split; [tauto|]. intros [H|[-> ->]]; [exact H|].
      apply Hmem. by rewrite Hk.
    + split.
      * intros k' ids'. destruct (decide (k' = k)) as [->|Hne'].
        -- rewrite lookup_insert_eq. intros [= <-]. split.
           ++ apply list.NoDup_app. split; [exact Hnd|]. split; [|apply NoDup_singleton].
              intros x Hx. rewrite list_elem_of_singleton. intros ->. done.
           ++ intros H. apply app_eq_nil in H as [_ H]. discriminate.
        -- rewrite lookup_insert_ne by done. apply Hwf.
      * intros k' id'. destruct (decide (k' = k)) as [->|Hne'].
        -- rewrite lookup_insert_eq. cbn.
           rewrite elem_of_app, list_elem_of_singleton, <- Hmem, Hk. cbn. tauto.
        -- rewrite lookup_insert_ne by done. rewrite Hmem. tauto.
  - rewrite bool_decide_eq_false_2 by apply not_elem_of_nil. cbn. split.
    + intros k' ids'. destruct (decide (k' = k)) as [->|Hne'].
      * rewrite lookup_insert_eq. intros [= <-]. split; [apply NoDup_singleton|done].
      * rewrite lookup_insert_ne by done. apply Hwf.
    + intros k' id'. destruct (decide (k' = k)) as [->|Hne'].
      * rewrite lookup_insert_eq. cbn. rewrite list_elem_of_singleton.
        rewrite <- Hmem, Hk. cbn. rewrite elem_of_nil. tauto.
      * rewrite lookup_insert_ne by done. rewrite Hmem. tauto.
Qed.

Lemma elem_of_remove_first (x y : string) l :
  NoDup l → y ∈ remove_first x l ↔ y ∈ l ∧ y ≠ x.
Proof.
  induction 1 as [|z l Hz Hnd IH]; cbn.
  - rewrite elem_of_nil. tauto.
  - case_bool_decide as Hxz.
    + subst z. rewrite elem_of_cons. split.
      * intros Hy. split; [by right|]. intros ->. done.
      * intros [[->|Hy] Hne]; done.
    + rewrite !elem_of_cons, IH. split.
      * intros [->|[? ?]]; [split; [by left|congruence]|tauto].
      * intros [[->|?] ?]; tauto.
Qed.

Lemma index_remove_lists idx R k id :
  index_lists idx R → R k id →
  ∃ idx', index_remove k id idx = Ok idx'
          ∧ index_lists idx' (λ k' id', R k' id' ∧ ¬ (k' = k ∧ id' = id)).
Proof.
  intros [Hwf Hmem] HR.
  pose proof (proj2 (Hmem k id) HR) as Hin.
  destruct (idx !! k) as [ids|] eqn:Hk; cbn in Hin; [|by apply elem_of_nil in Hin].
  destruct (Hwf k ids Hk) as [Hnd Hne].
  unfold index_remove, list_remove. rewrite Hk.
  rewrite bool_decide_eq_true_2 by exact Hin. cbn.
  eexists. split; [reflexivity|].
  case_bool_decide as Hnil.
  - split.
    + intros k' ids'. destruct (decide (k' = k)) as [->|Hne'].
      * by rewrite lookup_delete_eq.
      * rewrite lookup_delete_ne by done. apply Hwf.
    + intros k' id'. destruct (decide (k' = k)) as [->|Hne'].
      * rewrite lookup_delete_eq. cbn. rewrite elem_of_nil.
        rewrite <- Hmem, Hk. cbn.
        pose proof (elem_of_remove_first id id' ids Hnd) as Hrf. rewrite Hnil in Hrf.
        rewrite elem_of_nil in Hrf. tauto.
      * rewrite lookup_delete_ne by done. rewrite Hmem. tauto.
  - split.
    + intros k' ids'. destruct (decide (k' = k)) as [->|Hne'].
      * rewrite lookup_insert_eq. intros [= <-]. split; [by apply FileBasedAssetRepositoryDeleteFacts.NoDup_remove_first|done].
      * rewrite lookup_insert_ne by done. apply Hwf.
    + intros k' id'. destruct (decide (k' = k)) as [->|Hne'].
      * rewrite lookup_insert_eq. cbn.
        rewrite elem_of_remove_first by done. rewrite <- Hmem, Hk. cbn. tauto.
      * rewrite lookup_insert_ne by done. rewrite Hmem. tauto.
Qed.

(** The tag loop, adding. *)
Lemma fold_index_add_lists id (kvs : list (string * string)) :
  ∀ idx R, index_lists idx R →
    ∃ idx', fold_result (λ idx kv, index_update false (tag_str kv) id idx) idx kvs = Ok idx'
            ∧ index_lists idx' (λ k' id', R k' id' ∨ (k' ∈ tag_str <$> kvs ∧ id' = id)).
Proof.
  induction kvs as [|kv kvs IH]; intros idx R Hidx.
  - exists idx. split; [done|]. eapply index_lists_iff; [|exact Hidx].
    intros k i. cbn. rewrite elem_of_nil. tauto.
  - cbn [fold_result]. unfold index_update at 1. cbn [mbind result_mbind result_bind].
    destruct (IH _ _ (index_add_lists idx R (tag_str kv) id Hidx)) as (idx' & Hf & Hl).
    exists idx'. split; [exact Hf|]. eapply index_lists_iff; [|exact Hl].
    intros k i. cbn. rewrite elem_of_cons. tauto.
Qed.

(** The tag loop, removing: the keys must be distinct. *)
Lemma fold_index_remove_lists id (kvs : list (string * string)) :
  ∀ idx R, index_lists idx R → NoDup (tag_str <$> kvs) →
    (∀ k, k ∈ tag_str <$> kvs → R k id) →
    ∃ idx', fold_result (λ idx kv, index_update true (tag_str kv) id idx) idx kvs = Ok idx'
            ∧ index_lists idx' (λ k' id', R k' id' ∧ ¬ (k' ∈ tag_str <$> kvs ∧ id' = id)).
Proof.
  induction kvs as [|kv kvs IH]; intros idx R Hidx Hnd HR.
  - exists idx. split; [done|]. eapply index_lists_iff; [|exact Hidx].
    intros k i. cbn. rewrite elem_of_nil. tauto.
  - cbn in Hnd. apply list.NoDup_cons in Hnd as [Hk Hnd].
    destruct (index_remove_lists idx R (tag_str kv) id Hidx) as (idx1 & Hrem & Hl1).
    { apply HR. cbn. by left. }
    cbn [fold_result index_update]. rewrite Hrem. cbn [mbind result_mbind result_bind].
    destruct (IH _ _ Hl1 Hnd) as (idx' & Hf & Hl).
    { intros k Hin. split; [apply HR; cbn; by right|]. intros [-> _]. done. }
    exists idx'. split; [exact Hf|]. eapply index_lists_iff; [|exact Hl].
    intros k i. cbn. rewrite elem_of_cons. tauto.
Qed.

End IndexFacts.

Module RefinementFacts.
Import FileBasedAssetRepository Predicates.

Lemma path_inj r id1 id2 : _get_asset_path r id1 = _get_asset_path r id2 → id1 = id2.
Proof.
  unfold _get_asset_path. intros [= _ H]. by apply StringFacts.append_inj_l in H.
Qed.

Lemma rep_lookup_none r ents id :
  represents r ents → ents !! id = None → files r !! _get_asset_path r id = None.
Proof.
  intros Hrep Hnone. destruct (files r !! _) as [d|] eqn:Hf; [|done].
  destruct (rep_files _ _ Hrep _ _ Hf) as [Hent Hp]. apply path_inj in Hp. subst. congruence.
Qed.

Lemma strip_id a : Asset.relationships a = [] → Asset.set_relationships [] a = a.
Proof. destruct a; cbn. by intros ->. Qed.

Lemma rep_decode r ents id a :
  represents r ents → ents !! id = Some a →
  ∃ d, files r !! _get_asset_path r id = Some d ∧ Asset.from_dict d = Ok a.
Proof.
  intros Hrep Ha. destruct (rep_stored _ _ Hrep id a Ha) as (d & Hd & Hf).
  destruct (rep_entities _ _ Hrep id a Ha) as (Hid & _ & Hrel & Hv & _).
  exists d. split; [exact Hd|]. unfold Asset.from_dict. rewrite Hf.
  rewrite (strip_id a Hrel), Hv. reflexivity.
Qed.

Lemma find_by_id_rep r ents id :
  represents r ents → find_by_id id r = (r, Ok (ents !! id)).
Proof.
  intros Hrep. unfold find_by_id, try_except, path_exists, _read_json. mrun.
  destruct (ents !! id) as [a|] eqn:Ha.
  - destruct (rep_decode r ents id a Hrep Ha) as (d & Hd & Hdec).
    rewrite Hd. rewrite bool_decide_eq_true_2 by eauto. mrun. rewrite Hd. mrun.
    rewrite Hdec. reflexivity.
  - rewrite (rep_lookup_none r ents id Hrep Ha).
    rewrite bool_decide_eq_false_2 by apply is_Some_None. reflexivity.
Qed.

(** Entities after an insertion or a deletion, seen from an index. *)
Lemma listed_insert {A} (ents : gmap string A) id a (P : A → string → Prop) k id' :
  ents !! id = None →
  (∃ a', <[id := a]> ents !! id' = Some a' ∧ P a' k)
  ↔ (∃ a', ents !! id' = Some a' ∧ P a' k) ∨ (P a k ∧ id' = id).
Proof.
  intros Hnone. destruct (decide (id' = id)) as [->|Hne].
  - rewrite lookup_insert_eq. rewrite Hnone. split.
    + intros (a' & [= <-] & HP). tauto.
    + intros [(a' & ? & _)|[HP _]]; [done|eauto].
  - rewrite lookup_insert_ne by done. tauto.
Qed.

Lemma listed_delete {A} (ents : gmap string A) id a (P : A → string → Prop) k id' :
  ents !! id = Some a →
  (∃ a', base.delete id ents !! id' = Some a' ∧ P a' k)
  ↔ (∃ a', ents !! id' = Some a' ∧ P a' k) ∧ ¬ (P a k ∧ id' = id).
Proof.
  intros Hsome. destruct (decide (id' = id)) as [->|Hne].
  - rewrite lookup_delete_eq. rewrite Hsome. split.
    + intros (a' & ? & _). done.
    + intros [(a' & [= <-] & HP) Hn]. tauto.
  - rewrite lookup_delete_ne by done. tauto.
Qed.

Lemma represents_add_log r ents rec : represents r ents → represents (add_log rec r) ents.
Proof. intros []. by constructor. Qed.

(** [save] of an asset new to the store. *)
Lemma save_rep r ents a :
  represents r ents → ents !! Asset.asset_id a = None →
  Asset.asset_id a ≠ "" →
  Asset.validate a = Ok true → NoDup (tag_keys a) →
  ∃ r', save a r = (r', Ok a)
        ∧ represents r' (<[Asset.asset_id a := Asset.set_relationships [] a]> ents).
Proof.
  intros Hrep Hnone Hne0 Hv Hnd.
  pose proof (rep_lookup_none r ents _ Hrep Hnone) as Hfile.
  destruct (IndexFacts.fold_index_add_lists (Asset.asset_id a) (map_to_list (Asset.tags a))
              _ _ (rep_tags _ _ Hrep)) as (gi & Hgi & Hgl).
  eexists. split.
  - unfold save, try_except, path_exists, _write_json. mrun.
    rewrite Hfile. rewrite bool_decide_eq_false_2 by apply is_Some_None. mrun.
    rewrite FileBasedAssetRepositoryIndexFacts.update_index_run.
    cbn [type_index provider_index tag_index set_files index_update].
    unfold update_tag_index. rewrite Hgi. unfold logger. mrun. reflexivity.
  - constructor; cbn [files type_index provider_index tag_index add_log set_tag_index
                        set_provider_index set_type_index set_files].
    + intros id' a'. destruct (decide (id' = Asset.asset_id a)) as [->|Hne].
      * rewrite lookup_insert_eq. intros [= <-].
        split; [done|]. split; [exact Hne0|]. split; [done|]. split; [exact Hv|exact Hnd].
      * rewrite lookup_insert_ne by done. apply (rep_entities _ _ Hrep).
    + intros p d. change (_get_asset_path (add_log _ _)) with (_get_asset_path r).
      destruct (decide (p = _get_asset_path r (Asset.asset_id a))) as [->|Hne].
      * rewrite lookup_insert_eq. intros [= <-]. cbn. by rewrite lookup_insert_eq.
      * rewrite lookup_insert_ne by done. intros Hd.
        destruct (rep_files _ _ Hrep _ _ Hd) as [Hent Hp]. split; [|exact Hp].
        rewrite lookup_insert_ne; [exact Hent|]. intros Heq. rewrite Heq in Hnone. congruence.
    + intros id' a'. change (_get_asset_path (add_log _ _)) with (_get_asset_path r).
      destruct (decide (id' = Asset.asset_id a)) as [->|Hne].
      * rewrite !lookup_insert_eq. intros [= <-]. eauto.
      * rewrite lookup_insert_ne by done. intros Ha'.
        rewrite lookup_insert_ne; [by apply (rep_stored _ _ Hrep)|].
        intros Heq. apply path_inj in Heq. done.
    + eapply IndexFacts.index_lists_iff;
        [|exact (IndexFacts.index_add_lists _ _ (Asset.asset_type a) (Asset.asset_id a)
                   (rep_type _ _ Hrep))].
      intros k id'. cbn beta.
      rewrite (listed_insert ents _ _ (λ a' k, Asset.asset_type a' = k)) by done.
      cbn. intuition congruence.
    + eapply IndexFacts.index_lists_iff;
        [|exact (IndexFacts.index_add_lists _ _ (Asset.provider a) (Asset.asset_id a)
                   (rep_provider _ _ Hrep))].
      intros k id'. cbn beta.
      rewrite (listed_insert ents _ _ (λ a' k, Asset.provider a' = k)) by done.
      cbn. intuition congruence.
    + eapply IndexFacts.index_lists_iff; [|exact Hgl].
      intros k id'. cbn beta.
      rewrite (listed_insert ents _ _ (λ a' k, k ∈ tag_keys a')) by done.
      unfold tag_keys. cbn. tauto.
Qed.

Lemma listed_replace {A} (ents : gmap string A) id old new
    (P : A → string → Prop) k id' :
  ents !! id = Some old →
  (∃ a', <[id := new]> ents !! id' = Some a' ∧ P a' k)
  ↔ ((∃ a', ents !! id' = Some a' ∧ P a' k) ∧ ¬ (P old k ∧ id' = id))
    ∨ (P new k ∧ id' = id).
Proof.
  intros Hsome. destruct (decide (id' = id)) as [->|Hne].
  - rewrite lookup_insert_eq. rewrite Hsome. split.
    + intros (a' & [= <-] & HP). tauto.
    + intros [[(a' & [= <-] & HP) Hn]|[HP _]]; [tauto|eauto].
  - rewrite lookup_insert_ne by done. tauto.
Qed.

Lemma listed_same {A} (ents : gmap string A) id old new
    (P : A → string → Prop) k id' :
  ents !! id = Some old → (P new k ↔ P old k) →
  (∃ a', <[id := new]> ents !! id' = Some a' ∧ P a' k)
  ↔ (∃ a', ents !! id' = Some a' ∧ P a' k).
Proof.
  intros Hsome HP. destruct (decide (id' = id)) as [->|Hne].
  - rewrite lookup_insert_eq. rewrite Hsome. split.
    + intros (a' & [= <-] & H). exists old. tauto.
    + intros (a' & [= <-] & H). exists new. tauto.
  - rewrite lookup_insert_ne by done. tauto.
Qed.

(** [delete]: the entity and its index entries go; an unknown id changes
    nothing. *)
Lemma delete_rep r ents id :
  represents r ents →
  ∃ r', delete id r = (r', Ok (bool_decide (is_Some (ents !! id))))
        ∧ represents r' (base.delete id ents).
Proof.
  intros Hrep. destruct (ents !! id) as [a|] eqn:Ha.
  - destruct (rep_decode r ents id a Hrep Ha) as (d & Hd & Hdec).
    destruct (rep_entities _ _ Hrep id a Ha) as (Hid & _ & Hrel & Hv & Hnd). subst id.
    destruct (IndexFacts.index_remove_lists _ _ (Asset.asset_type a) (Asset.asset_id a)
                (rep_type _ _ Hrep)) as (ti & Hti & Htl); [eauto|].
    destruct (IndexFacts.index_remove_lists _ _ (Asset.provider a) (Asset.asset_id a)
                (rep_provider _ _ Hrep)) as (pi & Hpi & Hpl); [eauto|].
    destruct (IndexFacts.fold_index_remove_lists (Asset.asset_id a)
                (map_to_list (Asset.tags a)) _ _ (rep_tags _ _ Hrep) Hnd)
      as (gi & Hgi & Hgl); [eauto|].
    eexists. split.
    + unfold delete, try_except, path_exists, _read_json, unlink. mrun.
      rewrite Hd. rewrite bool_decide_eq_true_2 by eauto. mrun. rewrite Hd. mrun.
      rewrite Hdec. mrun.
      rewrite FileBasedAssetRepositoryIndexFacts.update_index_run.
      cbn [type_index provider_index tag_index set_files index_update].
      rewrite Hti, Hpi. unfold update_tag_index. rewrite Hgi.
      unfold logger. mrun. rewrite bool_decide_eq_true_2 by eauto. reflexivity.
    + constructor; cbn [files type_index provider_index tag_index add_log set_tag_index
                          set_provider_index set_type_index set_files].
      * intros id' a'. rewrite lookup_delete_Some. intros [_ H].
        by apply (rep_entities _ _ Hrep).
      * intros p d'. change (_get_asset_path (add_log _ _)) with (_get_asset_path r).
        rewrite lookup_delete_Some. intros [Hp Hd'].
        destruct (rep_files _ _ Hrep _ _ Hd') as [Hent Hp']. split; [|exact Hp'].
        rewrite lookup_delete_ne; [exact Hent|]. intros Heq. rewrite Heq in Hp. done.
      * intros id' a'. change (_get_asset_path (add_log _ _)) with (_get_asset_path r).
        rewrite lookup_delete_Some. intros [Hne Ha'].
        rewrite lookup_delete_ne; [by apply (rep_stored _ _ Hrep)|].
        intros Heq. apply path_inj in Heq. done.
      * eapply IndexFacts.index_lists_iff; [|exact Htl].
        intros k id'. cbn beta.
        rewrite (listed_delete ents _ a (λ a' k, Asset.asset_type a' = k)) by done.
        cbn. split; intros [H Hn]; (split; [exact H|intros [? ?]; apply Hn; split; congruence]).
      * eapply IndexFacts.index_lists_iff; [|exact Hpl].
        intros k id'. cbn beta.
        rewrite (listed_delete ents _ a (λ a' k, Asset.provider a' = k)) by done.
        cbn. split; intros [H Hn]; (split; [exact H|intros [? ?]; apply Hn; split; congruence]).
      * eapply IndexFacts.index_lists_iff; [|exact Hgl].
        intros k id'. cbn beta.
        rewrite (listed_delete ents _ a (λ a' k, k ∈ tag_keys a')) by done.
        unfold tag_keys. cbn. tauto.
  - exists r. split.
    + unfold delete, try_except, path_exists. mrun.
      rewrite (rep_lookup_none r ents id Hrep Ha).
      rewrite !bool_decide_eq_false_2 by apply is_Some_None. reflexivity.
    + by rewrite delete_id.
Qed.

(** [update] of a stored asset. *)
Lemma update_rep r ents now a old :
  represents r ents → ents !! Asset.asset_id a = Some old →
  Asset.validate a = Ok true → NoDup (tag_keys a) →
  ∃ r', update now a r = (r', Ok (Asset.set_updated_at now a))
        ∧ represents r'
            (<[Asset.asset_id a := Asset.set_relationships [] (Asset.set_updated_at now a)]>
               ents).
Proof.
  intros Hrep Hold Hv Hnd.
  destruct (rep_decode r ents _ old Hrep Hold) as (d & Hd & Hdec).
  destruct (rep_entities _ _ Hrep _ old Hold) as (Hid & Hne0 & Hrel & Hvo & Hndo).
  rewrite (FileBasedAssetRepositoryIndexFacts.update_stored r now a d old Hd Hdec).
  set (new := Asset.set_updated_at now a).
  set (ents' := <[Asset.asset_id a := Asset.set_relationships [] new]> ents).
  assert (HE : ∀ id' a', ents' !! id' = Some a' →
             Asset.asset_id a' = id' ∧ id' ≠ "" ∧ Asset.relationships a' = []
             ∧ Asset.validate a' = Ok true ∧ NoDup (tag_keys a')).
  { intros id' a'. unfold ents'. destruct (decide (id' = Asset.asset_id a)) as [->|Hne].
    - rewrite lookup_insert_eq. intros [= <-].
      split; [done|]. split; [exact Hne0|]. split; [done|]. split; [exact Hv|exact Hnd].
    - rewrite lookup_insert_ne by done. apply (rep_entities _ _ Hrep). }
  assert (HF : ∀ p d',
             <[_get_asset_path r (Asset.asset_id a) := Asset.to_dict new]> (files r) !! p
             = Some d' →
             ents' !! Asset.asset_id (Asset.d_fields d') = Some (Asset.d_fields d')
             ∧ p = _get_asset_path r (Asset.asset_id (Asset.d_fields d'))).
  { intros p d'. unfold ents'.
    destruct (decide (p = _get_asset_path r (Asset.asset_id a))) as [->|Hne].
    - rewrite lookup_insert_eq. intros [= <-]. cbn. by rewrite lookup_insert_eq.
    - rewrite lookup_insert_ne by done. intros Hd'.
      destruct (rep_files _ _ Hrep _ _ Hd') as [Hent Hp]. split; [|exact Hp].
      rewrite lookup_insert_ne; [exact Hent|]. intros Heq. rewrite Heq in Hne. done. }
  assert (HS : ∀ id' a', ents' !! id' = Some a' →
             ∃ d', <[_get_asset_path r (Asset.asset_id a) := Asset.to_dict new]> (files r)
                     !! _get_asset_path r id' = Some d'
                   ∧ Asset.d_fields d' = a').
  { intros id' a'. unfold ents'. destruct (decide (id' = Asset.asset_id a)) as [->|Hne].
    - rewrite !lookup_insert_eq. intros [= <-]. eauto.
    - rewrite lookup_insert_ne by done. intros Ha'.
      rewrite lookup_insert_ne; [by apply (rep_stored _ _ Hrep)|].
      intros Heq. apply path_inj in Heq. done. }
  destruct (indexed_fields_differ old new) eqn:Hdiff.
  - destruct (IndexFacts.index_remove_lists _ _ (Asset.asset_type old) (Asset.asset_id a)
                (rep_type _ _ Hrep)) as (ti & Hti & Htl); [eauto|].
    destruct (IndexFacts.index_remove_lists _ _ (Asset.provider old) (Asset.asset_id a)
                (rep_provider _ _ Hrep)) as (pi & Hpi & Hpl); [eauto|].
    destruct (IndexFacts.fold_index_remove_lists (Asset.asset_id a)
                (map_to_list (Asset.tags old)) _ _ (rep_tags _ _ Hrep) Hndo)
      as (gi & Hgi & Hgl); [eauto|].
    destruct (IndexFacts.fold_index_add_lists (Asset.asset_id a)
                (map_to_list (Asset.tags a)) _ _ Hgl) as (gi' & Hgi' & Hgl').
    eexists. split.
    + unfold try_except. mrun.
      rewrite FileBasedAssetRepositoryIndexFacts.update_index_run.
      rewrite Hid.
      cbn [type_index provider_index tag_index set_files index_update].
      rewrite Hti, Hpi. unfold update_tag_index. rewrite Hgi.
      rewrite FileBasedAssetRepositoryIndexFacts.update_index_run.
      cbn [type_index provider_index tag_index set_files set_type_index
             set_provider_index set_tag_index index_update
             Asset.asset_id Asset.asset_type Asset.provider Asset.tags
             Asset.set_updated_at new].
      unfold update_tag_index. rewrite Hgi'. unfold logger. mrun. reflexivity.
    + constructor; cbn [files type_index provider_index tag_index add_log set_tag_index
                          set_provider_index set_type_index set_files].
      * exact HE.
      * exact HF.
      * exact HS.
      * eapply IndexFacts.index_lists_iff;
          [|exact (IndexFacts.index_add_lists _ _ (Asset.asset_type a) (Asset.asset_id a) Htl)].
        intros k id'. cbn beta. unfold ents'.
        rewrite (listed_replace ents _ old _ (λ a' k, Asset.asset_type a' = k)) by done.
        cbn. split; (intros [[H Hn]|[? ?]];
                     [left; split; [exact H|intros [? ?]; apply Hn; split; congruence]
                     |right; split; congruence]).
      * eapply IndexFacts.index_lists_iff;
          [|exact (IndexFacts.index_add_lists _ _ (Asset.provider a) (Asset.asset_id a) Hpl)].
        intros k id'. cbn beta. unfold ents'.
        rewrite (listed_replace ents _ old _ (λ a' k, Asset.provider a' = k)) by done.
        cbn. split; (intros [[H Hn]|[? ?]];
                     [left; split; [exact H|intros [? ?]; apply Hn; split; congruence]
                     |right; split; congruence]).
      * eapply IndexFacts.index_lists_iff; [|exact Hgl'].
        intros k id'. cbn beta. unfold ents'.
        rewrite (listed_replace ents _ old _ (λ a' k, k ∈ tag_keys a')) by done.
        unfold tag_keys. cbn. tauto.
  - unfold indexed_fields_differ in Hdiff.
    apply orb_false_elim in Hdiff as [Hdiff Htags].
    apply orb_false_elim in Hdiff as [Hty Hprov].
    apply negb_false_iff, bool_decide_eq_true_1 in Hty, Hprov, Htags.
    cbn in Hty, Hprov, Htags.
    eexists. split.
    + unfold try_except, logger. mrun. reflexivity.
    + constructor; cbn [files type_index provider_index tag_index add_log set_tag_index
                          set_provider_index set_type_index set_files].
      * exact HE.
      * exact HF.
      * exact HS.
      * eapply IndexFacts.index_lists_iff; [|exact (rep_type _ _ Hrep)].
        intros k id'. cbn beta. unfold ents'. symmetry.
        apply (listed_same ents _ old _ (λ a' k, Asset.asset_type a' = k)); [done|].
        cbn. by rewrite Hty.
      * eapply IndexFacts.index_lists_iff; [|exact (rep_provider _ _ Hrep)].
        intros k id'. cbn beta. unfold ents'. symmetry.
        apply (listed_same ents _ old _ (λ a' k, Asset.provider a' = k)); [done|].
        cbn. by rewrite Hprov.
      * eapply IndexFacts.index_lists_iff; [|exact (rep_tags _ _ Hrep)].
        intros k id'. cbn beta. unfold ents'. symmetry.
        apply (listed_same ents _ old _ (λ a' k, k ∈ tag_keys a')); [done|].
        unfold tag_keys. cbn. by rewrite Htags.
Qed.

End RefinementFacts.

Module QueryFacts.
Import FileBasedAssetRepository RefinementFacts Predicates.

Lemma find_each_rep r ents ids :
  represents r ents →
  ∀ acc, find_each ids acc r = (r, Ok (acc ++ omap (λ id, ents !! id) ids)%list).
Proof.
  intros Hrep. induction ids as [|id ids IH]; intros acc.
  - cbn. by rewrite app_nil_r.
  - cbn [find_each]. mrun. rewrite (find_by_id_rep r ents id Hrep). cbn beta iota.
    rewrite IH. cbn [omap list_omap]. destruct (ents !! id) as [a|]; [|done].
    by rewrite <- app_assoc.
Qed.

(** The assets found from a duplicate-free list of ids that lists exactly
    the ids of the stored assets satisfying [Q]. *)
Lemma listed_assets r ents ids (Q : Asset.t → Prop) :
  represents r ents → NoDup ids →
  (∀ id, id ∈ ids ↔ ∃ a, ents !! id = Some a ∧ Q a) →
  NoDup (omap (λ id, ents !! id) ids)
  ∧ ∀ a, a ∈ omap (λ id, ents !! id) ids ↔ ents !! Asset.asset_id a = Some a ∧ Q a.
Proof.
  intros Hrep Hnd Hids. split.
  - clear Hids. induction Hnd as [|id ids Hid Hnd IH]; cbn; [constructor|].
    destruct (ents !! id) as [a|] eqn:Ha; [|exact IH].
    constructor; [|exact IH].
    rewrite list_elem_of_omap. intros (id' & Hin & Ha').
    destruct (rep_entities _ _ Hrep _ _ Ha) as [<- _].
    destruct (rep_entities _ _ Hrep _ _ Ha') as [<- _]. done.
  - intros a. rewrite list_elem_of_omap. split.
    + intros (id & Hin & Ha). destruct (rep_entities _ _ Hrep _ _ Ha) as [<- _].
      split; [exact Ha|]. apply Hids in Hin as (a' & Ha' & HQ). congruence.
    + intros [Ha HQ]. exists (Asset.asset_id a). split; [|exact Ha]. apply Hids. eauto.
Qed.

Lemma index_list_NoDup idx R k : index_lists idx R → NoDup (default [] (idx !! k)).
Proof.
  intros [Hwf _]. destruct (idx !! k) as [ids|] eqn:Hk; cbn; [|constructor].
  by destruct (Hwf k ids Hk).
Qed.

Lemma find_by_type_rep r ents ty :
  represents r ents →
  ∃ l, find_by_type ty r = (r, Ok l)
       ∧ NoDup l
       ∧ ∀ a, a ∈ l ↔ ents !! Asset.asset_id a = Some a ∧ Asset.asset_type a = ty.
Proof.
  intros Hrep. eexists. split.
  - unfold find_by_type, try_except. mrun. rewrite (find_each_rep r ents _ Hrep). reflexivity.
  - cbn [app]. apply (listed_assets r ents _ (λ a, Asset.asset_type a = ty) Hrep).
    + eapply index_list_NoDup, (rep_type _ _ Hrep).
    + intros id. apply (rep_type _ _ Hrep).
Qed.

Lemma find_by_provider_rep r ents p :
  represents r ents →
  ∃ l, find_by_provider p r = (r, Ok l)
       ∧ NoDup l
       ∧ ∀ a, a ∈ l ↔ ents !! Asset.asset_id a = Some a ∧ Asset.provider a = p.
Proof.
  intros Hrep. eexists. split.
  - unfold find_by_provider, try_except. mrun.
    rewrite (find_each_rep r ents _ Hrep). reflexivity.
  - cbn [app]. apply (listed_assets r ents _ (λ a, Asset.provider a = p) Hrep).
    + eapply index_list_NoDup, (rep_provider _ _ Hrep).
    + intros id. apply (rep_provider _ _ Hrep).
Qed.

Lemma matching_ids_some idx kvs :
  ∀ S, ∃ S', foldl (matching_ids_step idx) (Some S) kvs = Some S'
             ∧ ∀ id, id ∈ S' ↔ id ∈ S ∧ ∀ kv, kv ∈ kvs → id ∈ default [] (idx !! tag_str kv).
Proof.
  induction kvs as [|kv kvs IH]; intros S.
  - exists S. split; [done|]. intros id. split; [|tauto]. intros H. split; [exact H|].
    intros kv Hkv. by apply elem_of_nil in Hkv.
  - cbn [foldl matching_ids_step]. destruct (IH (S ∩ list_to_set (default [] (idx !! tag_str kv))))
      as (S' & HS' & Hmem).
    exists S'. split; [exact HS'|]. intros id. rewrite Hmem, elem_of_intersection,
      elem_of_list_to_set. split.
    + intros [[HS Hk] Hrest]. split; [exact HS|]. intros kv' Hin.
      apply elem_of_cons in Hin as [->|Hin]; auto.
    + intros [HS Hall]. split; [split; [exact HS|]|].
      * apply Hall. by left.
      * intros kv' Hin. apply Hall. by right.
Qed.

Lemma matching_ids_none idx kv kvs :
  ∃ S', foldl (matching_ids_step idx) None (kv :: kvs) = Some S'
        ∧ ∀ id, id ∈ S' ↔ ∀ kv', kv' ∈ kv :: kvs → id ∈ default [] (idx !! tag_str kv').
Proof.
  cbn [foldl matching_ids_step].
  destruct (matching_ids_some idx kvs (list_to_set (default [] (idx !! tag_str kv))))
    as (S' & HS' & Hmem).
  exists S'. split; [exact HS'|]. intros id. rewrite Hmem, elem_of_list_to_set. split.
  - intros [Hk Hrest] kv' Hin. apply elem_of_cons in Hin as [->|Hin]; auto.
  - intros Hall. split; [apply Hall; by left|]. intros kv' Hin. apply Hall. by right.
Qed.

Lemma find_by_tags_rep r ents (tags : gmap string string) :
  represents r ents →
  ∃ l, find_by_tags tags r = (r, Ok l)
       ∧ NoDup l
       ∧ ∀ a, a ∈ l ↔
           tags ≠ ∅ ∧ ents !! Asset.asset_id a = Some a
           ∧ ∀ k v, tags !! k = Some v → tag_str (k, v) ∈ tag_keys a.
Proof.
  intros Hrep. unfold find_by_tags, try_except. mrun.
  destruct (map_to_list tags) as [|kv kvs] eqn:Hl.
  - apply map_to_list_empty_iff in Hl. subst tags. exists []. cbn. split; [done|].
    split; [constructor|]. intros a. rewrite elem_of_nil. tauto.
  - assert (Hne : tags ≠ ∅).
    { intros ->. by rewrite map_to_list_empty in Hl. }
    destruct (matching_ids_none (tag_index r) kv kvs) as (S' & HS' & Hmem).
    rewrite HS'.
    assert (Hids : ∀ id, id ∈ S' ↔
              ∃ a, ents !! id = Some a
                   ∧ ∀ k v, tags !! k = Some v → tag_str (k, v) ∈ tag_keys a).
    { intros id. rewrite Hmem. rewrite <- Hl. split.
      - intros Hall. assert (kv ∈ map_to_list tags) as Hkv by (rewrite Hl; by left).
        pose proof (Hall kv Hkv) as Hfirst.
        apply (rep_tags _ _ Hrep) in Hfirst as (a & Ha & _).
        exists a. split; [exact Ha|]. intros k v Hkv'.
        apply elem_of_map_to_list in Hkv'. apply Hall in Hkv'.
        apply (rep_tags _ _ Hrep) in Hkv' as (a' & Ha' & Hin). congruence.
      - intros (a & Ha & Hall) [k v] Hin. apply elem_of_map_to_list in Hin.
        apply (rep_tags _ _ Hrep). eauto. }
    case_bool_decide as Hempty.
    + exists []. split; [done|]. split; [constructor|]. intros a. rewrite elem_of_nil.
      split; [done|]. intros (_ & Ha & Hall).
      assert (Asset.asset_id a ∈ S') as Hin by (apply Hids; eauto).
      rewrite Hempty in Hin. by apply elem_of_empty in Hin.
    + eexists. split; [rewrite (find_each_rep r ents _ Hrep); reflexivity|]. cbn [app].
      destruct (listed_assets r ents (elements S')
                  (λ a, ∀ k v, tags !! k = Some v → tag_str (k, v) ∈ tag_keys a) Hrep)
        as [Hnd Hin].
      * apply NoDup_elements.
      * intros id. rewrite elem_of_elements. apply Hids.
      * split; [exact Hnd|]. intros a. rewrite Hin. tauto.
Qed.

Lemma exists_rep r ents id :
  represents r ents → exists_ id r = (r, Ok (bool_decide (is_Some (ents !! id)))).
Proof.
  intros Hrep. unfold exists_, path_exists. mrun. do 2 f_equal.
  destruct (ents !! id) as [a|] eqn:Ha.
  - destruct (rep_stored _ _ Hrep _ _ Ha) as (d & -> & _).
    rewrite !bool_decide_eq_true_2 by eauto. done.
  - rewrite (rep_lookup_none r ents id Hrep Ha).
    rewrite !bool_decide_eq_false_2 by apply is_Some_None. done.
Qed.

End QueryFacts.

Module ListingFacts.
Import FileBasedAssetRepository RefinementFacts Predicates.

Lemma substring_whole t : String.substring 0 (String.length t) t = t.
Proof. induction t as [|c t IH]; cbn; [done|]. by rewrite IH. Qed.

Lemma substring_append s n t :
  String.substring (String.length s) n (s +:+ t) = String.substring 0 n t.
Proof. induction s as [|c s IH]; [done|]. rewrite StringFacts.append_cons. cbn. exact IH. Qed.

Lemma ends_with_append s t : ends_with t (s +:+ t) = true.
Proof.
  unfold ends_with. rewrite StringFacts.length_append.
  rewrite bool_decide_eq_true_2 by lia.
  replace (String.length s + String.length t - String.length t)%nat
    with (String.length s) by lia.
  rewrite substring_append, substring_whole. by rewrite bool_decide_eq_true_2.
Qed.

Lemma elem_of_listing r p :
  p ∈ listing r ↔
    is_Some (files r !! p) ∧ ¬ String.prefix "." p.1 ∧ ends_with (extension r) p.2.
Proof.
  unfold listing. rewrite list_elem_of_bind. split.
  - intros (sd & Hp & Hsd). apply list_elem_of_filter in Hp as [[<- Hext] Hp].
    apply list_elem_of_filter in Hsd as [Hdot _].
    split; [|done]. apply list_elem_of_fmap in Hp as ([p' d] & -> & Hin).
    apply elem_of_map_to_list in Hin. cbn. eauto.
  - intros ([d Hd] & Hdot & Hext).
    assert (p ∈ (map_to_list (files r)).*1) as Hin.
    { apply list_elem_of_fmap. exists (p, d). split; [done|]. by apply elem_of_map_to_list. }
    exists p.1. split.
    + apply list_elem_of_filter. done.
    + apply list_elem_of_filter. split; [exact Hdot|].
      apply elem_of_remove_dups. apply list_elem_of_fmap. eauto.
Qed.

Lemma NoDup_listing r : NoDup (listing r).
Proof.
  unfold listing. apply NoDup_bind.
  - intros sd1 sd2 p _ _ H1 H2.
    apply list_elem_of_filter in H1 as [[<- _] _].
    apply list_elem_of_filter in H2 as [[<- _] _]. done.
  - intros sd _. apply list.NoDup_filter, NoDup_fst_map_to_list.
  - apply list.NoDup_filter, NoDup_remove_dups.
Qed.


Lemma rep_file_decodes r ents p d :
  represents r ents → files r !! p = Some d → Asset.from_dict d = Ok (Asset.d_fields d).
Proof.
  intros Hrep Hd. destruct (rep_files _ _ Hrep _ _ Hd) as [Hent _].
  destruct (rep_entities _ _ Hrep _ _ Hent) as (_ & _ & Hrel & Hv & _).
  unfold Asset.from_dict. rewrite (strip_id _ Hrel), Hv. reflexivity.
Qed.

Lemma find_all_loop_rep r ents filters limit offset entries :
  represents r ents →
  (∀ p, p ∈ entries → is_Some (files r !! p)) →
  ∀ count acc,
    ∃ l, find_all_loop entries filters limit offset count acc r = (r, Ok (acc ++ l)%list)
         ∧ sublist l (filter (λ a, _matches_filters a filters) (decoded r entries))
         ∧ (∀ lim, truthy limit = Some lim → (length acc ≤ lim)%nat →
            (length (acc ++ l) ≤ lim)%nat)
         ∧ (truthy limit = None → truthy offset = None →
            l = filter (λ a, _matches_filters a filters) (decoded r entries)).
Proof.
  intros Hrep. induction entries as [|p entries IH]; intros Hall count acc.
  - exists []. cbn. rewrite app_nil_r. split; [done|]. split; [constructor|].
    split; [intros; lia|done].
  - destruct (Hall p) as [d Hd]; [by left|].
    assert (Hrest : ∀ p', p' ∈ entries → is_Some (files r !! p')).
    { intros p' Hp'. apply Hall. by right. }
    assert (Hdec : decoded r (p :: entries) = Asset.d_fields d :: decoded r entries).
    { unfold decoded. cbn. by rewrite Hd. }
    rewrite Hdec, filter_cons.
    cbn [find_all_loop].
    destruct (from_option (λ off, bool_decide (count < off)%nat) false (truthy offset)) eqn:Hoff.
    { destruct (IH Hrest (S count) acc) as (l & Hrun & Hsub & Hlen & Hfull).
      exists l. split; [exact Hrun|]. split.
      - destruct (decide _); [by apply sublist_cons|exact Hsub].
      - split; [exact Hlen|]. intros _ Hnooff. rewrite Hnooff in Hoff. discriminate. }
    destruct (from_option (λ lim, bool_decide (lim ≤ length acc)%nat) false (truthy limit))
      eqn:Hlim.
    { exists []. rewrite app_nil_r. split; [done|]. split; [apply sublist_nil_l|].
      split; [intros; lia|]. intros Hnolim _. rewrite Hnolim in Hlim. discriminate. }
    unfold _read_json. mrun. rewrite Hd. mrun.
    rewrite (rep_file_decodes r ents p d Hrep Hd). mrun.
    destruct (_matches_filters (Asset.d_fields d) filters) eqn:Hm.
    + destruct (IH Hrest (S count) (acc ++ [Asset.d_fields d])%list)
        as (l & Hrun & Hsub & Hlen & Hfull).
      exists (Asset.d_fields d :: l). split.
      { rewrite Hrun. by rewrite <- app_assoc. }
      rewrite decide_True by done.
      split; [by apply sublist_skip|]. split.
      * intros lim Hl Hacc.
        replace (acc ++ Asset.d_fields d :: l)%list
          with ((acc ++ [Asset.d_fields d]) ++ l)%list by (by rewrite <- app_assoc).
        apply Hlen; [exact Hl|]. rewrite Hl in Hlim. cbn in Hlim.
        apply bool_decide_eq_false_1 in Hlim. rewrite length_app. cbn. lia.
      * intros H1 H2. by rewrite (Hfull H1 H2).
    + destruct (IH Hrest (S count) acc) as (l & Hrun & Hsub & Hlen & Hfull).
      exists l. split; [exact Hrun|].
      rewrite decide_False by (by intros []).
      done.
Qed.

Lemma decoded_listing r ents :
  represents r ents →
  NoDup (decoded r (listing r))
  ∧ ∀ a, a ∈ decoded r (listing r) ↔
      ents !! Asset.asset_id a = Some a
      ∧ ¬ String.prefix "." (_get_asset_path r (Asset.asset_id a)).1.
Proof.
  intros Hrep. split.
  - unfold decoded. pose proof (NoDup_listing r) as Hnd.
    induction Hnd as [|p ps Hp Hnd IH]; cbn; [constructor|].
    destruct (files r !! p) as [d|] eqn:Hd; cbn; [|exact IH].
    constructor; [|exact IH].
    rewrite list_elem_of_omap. intros (p' & Hin & Hp').
    destruct (files r !! p') as [d'|] eqn:Hd'; [|discriminate]. cbn in Hp'.
    injection Hp' as Heq.
    destruct (rep_files _ _ Hrep _ _ Hd) as [_ ->].
    destruct (rep_files _ _ Hrep _ _ Hd') as [_ ->].
    rewrite Heq in Hin. done.
  - intros a. unfold decoded. rewrite list_elem_of_omap. split.
    + intros (p & Hin & Hp). apply elem_of_listing in Hin as (_ & Hdot & _).
      destruct (files r !! p) as [d|] eqn:Hd; [|discriminate]. cbn in Hp.
      injection Hp as <-. destruct (rep_files _ _ Hrep _ _ Hd) as [Hent ->]. done.
    + intros [Ha Hdot]. destruct (rep_stored _ _ Hrep _ _ Ha) as (d & Hd & Hf).
      exists (_get_asset_path r (Asset.asset_id a)). split.
      * apply elem_of_listing. split; [eauto|]. split; [exact Hdot|].
        unfold _get_asset_path. cbn. by rewrite ends_with_append.
      * rewrite Hd. cbn. by rewrite Hf.
Qed.

End ListingFacts.

Module FileBasedAssetRepositoryErrorFacts.
Import FileBasedAssetRepository Predicates.

(** [save] on a free path: it never validates and the index updates cannot
    fail. *)
Lemma save_free_path r a :
  files r !! _get_asset_path r (Asset.asset_id a) = None →
  ∃ r', save a r = (r', Ok a)
        ∧ files r' = <[_get_asset_path r (Asset.asset_id a) := Asset.to_dict a]> (files r)
        ∧ compress r' = compress r.
Proof.
  intros Hfile.
  destruct (FileBasedAssetRepositoryIndexFacts.update_tag_index_add_ok
              (Asset.tags a) (Asset.asset_id a) (tag_index r)) as (gi & Hgi).
  eexists. split.
  - unfold save, try_except, path_exists, _write_json. mrun.
    rewrite Hfile. rewrite bool_decide_eq_false_2 by apply is_Some_None. mrun.
    rewrite FileBasedAssetRepositoryIndexFacts.update_index_run.
    cbn [type_index provider_index tag_index set_files index_update].
    rewrite Hgi. unfold logger. mrun. reflexivity.
  - done.
Qed.

Lemma find_all_loop_undecodable r filters p d e entries :
  p ∈ entries → files r !! p = Some d → Asset.from_dict d = Raise e →
  ∀ count acc, ∃ e', find_all_loop entries filters None None count acc r = (r, Raise e').
Proof.
  intros Hin Hd Hdec. induction entries as [|q entries IH]; intros count acc.
  - by apply elem_of_nil in Hin.
  - cbn [find_all_loop truthy from_option]. unfold _read_json. mrun.
    destruct (files r !! q) as [dq|] eqn:Hq; [|eauto].
    mrun. destruct (Asset.from_dict dq) as [aq|eq] eqn:Hdq; [|eauto].
    mrun. apply IH. apply elem_of_cons in Hin as [->|Hin]; [congruence|exact Hin].
Qed.

Lemma update_missing r now a :
  files r !! _get_asset_path r (Asset.asset_id a) = None →
  update now a r
  = (add_log (ERROR, "Failed to update asset " +:+ Asset.asset_id a +:+ ": "
                     +:+ ("Asset " +:+ Asset.asset_id a +:+ " not found")) r,
     Raise (Exn RepositoryError
              ("Failed to update asset: " +:+ ("Asset " +:+ Asset.asset_id a +:+ " not found")))).
Proof.
  intros Hfile. unfold update, try_except, path_exists, logger. mrun.
  rewrite Hfile. rewrite bool_decide_eq_false_2 by apply is_Some_None. mrun. reflexivity.
Qed.


Lemma update_batch_loop_missing now assets :
  ∀ r updated errors,
    Forall (λ a, files r !! _get_asset_path r (Asset.asset_id a) = None) assets →
    ∃ r', update_batch_loop now assets updated errors r
          = (r', Ok (updated, (errors ++ (update_error <$> assets))%list))
          ∧ files r' = files r ∧ compress r' = compress r
          ∧ type_index r' = type_index r ∧ provider_index r' = provider_index r
          ∧ tag_index r' = tag_index r.
Proof.
  induction assets as [|a rest IH]; intros r updated errors Hall.
  - exists r. cbn. rewrite app_nil_r. done.
  - inversion Hall as [|? ? Ha Hrest]; subst.
    cbn [update_batch_loop]. unfold try_except. mrun.
    rewrite (update_missing r now a Ha).
    assert (Hi : ∀ m, isinstance (Exn RepositoryError m) AssetNotFoundError = false)
      by reflexivity.
    rewrite Hi. mrun. cbn [fst snd exn_msg].
    edestruct IH as (r' & Hrun & Hf & Hc & Ht & Hp & Hg); [|rewrite Hrun].
    { rewrite Forall_forall in Hrest |- *. intros x Hx. exact (Hrest x Hx). }
    exists r'. split; [|done].
    by rewrite <- app_assoc.
Qed.

Lemma search_loop_limit q n assets :
  ∀ results, (length results < S n)%nat →
             (length (search_loop q (Some (S n)) assets results) ≤ S n)%nat.
Proof.
  induction assets as [|a assets IH]; intros results Hlen; cbn [search_loop]; [lia|].
  assert (Hstep : ∀ rs : list Asset.t, (length rs < S n)%nat →
            (length (rs ++ [a]) ≤ S n)%nat
            ∧ (limit_reached (Some (S n)) (rs ++ [a])%list = false →
               (length (rs ++ [a]) < S n)%nat)).
  { intros rs Hrs. rewrite length_app. cbn. split; [lia|].
    unfold limit_reached. cbn. rewrite length_app. cbn.
    intros H. apply bool_decide_eq_false_1 in H. lia. }
  destruct (contains q (lower (Asset.name a))).
  - destruct (Hstep results Hlen) as [H1 H2].
    destruct (limit_reached _ _) eqn:Hr; [exact H1|]. apply IH. by apply H2.
  - destruct (existsb _ (map_to_list (Asset.properties a))); cbn [andb].
    + destruct (Hstep results Hlen) as [H1 H2].
      destruct (limit_reached _ (results ++ [a])%list) eqn:Hr; [exact H1|].
      specialize (H2 eq_refl).
      destruct (existsb _ (map_to_list (Asset.tags a))); cbn [andb].
      * destruct (Hstep _ H2) as [H3 H4].
        destruct (limit_reached _ ((results ++ [a]) ++ [a])%list) eqn:Hr';
          [exact H3|]. apply IH. by apply H4.
      * by apply IH.
    + destruct (existsb _ (map_to_list (Asset.tags a))); cbn [andb].
      * destruct (Hstep results Hlen) as [H1 H2].
        destruct (limit_reached _ _) eqn:Hr; [exact H1|]. apply IH. by apply H2.
      * by apply IH.
Qed.

End FileBasedAssetRepositoryErrorFacts.

Module StatisticsFacts.
Import FileBasedAssetRepository RefinementFacts Predicates.

Lemma elem_of_concat {A} (x : A) (ls : list (list A)) :
  x ∈ concat ls ↔ ∃ l, l ∈ ls ∧ x ∈ l.
Proof.
  induction ls as [|l ls IH]; cbn.
  - rewrite elem_of_nil. split; [done|]. intros (l & H & _). by apply elem_of_nil in H.
  - rewrite elem_of_app, IH. split.
    + intros [H|(l' & H1 & H2)]; [exists l; split; [by left|done]|].
      exists l'. split; [by right|done].
    + intros (l' & H1 & H2). apply elem_of_cons in H1 as [->|H1]; [by left|].
      right. eauto.
Qed.

Lemma indexed_ids_dom r ents :
  represents r ents →
  list_to_set (C := gset string) (concat (map_to_list (type_index r)).*2) = dom ents.
Proof.
  intros Hrep. apply set_eq. intros id.
  rewrite elem_of_list_to_set, elem_of_concat, elem_of_dom. split.
  - intros (ids & Hids & Hin). apply list_elem_of_fmap in Hids as ([k ids'] & -> & Hk).
    apply elem_of_map_to_list in Hk. cbn in Hin.
    assert (id ∈ default [] (type_index r !! k)) as H by (by rewrite Hk).
    apply (rep_type _ _ Hrep) in H as (a & Ha & _). eauto.
  - intros [a Ha].
    assert (id ∈ default [] (type_index r !! Asset.asset_type a)) as H
      by (apply (rep_type _ _ Hrep); eauto).
    destruct (type_index r !! Asset.asset_type a) as [ids|] eqn:Hk;
      [|by apply elem_of_nil in H].
    exists ids. split; [|exact H].
    apply list_elem_of_fmap. exists (Asset.asset_type a, ids). split; [done|].
    by apply elem_of_map_to_list.
Qed.

Lemma represents_init base c : represents (init base c) ∅.
Proof.
  constructor; cbn.
  - intros id a H. by rewrite lookup_empty in H.
  - intros p d H. by rewrite lookup_empty in H.
  - intros id a H. by rewrite lookup_empty in H.
  - apply IndexFacts.index_lists_empty. intros k id (a & H & _). by rewrite lookup_empty in H.
  - apply IndexFacts.index_lists_empty. intros k id (a & H & _). by rewrite lookup_empty in H.
  - apply IndexFacts.index_lists_empty. intros k id (a & H & _). by rewrite lookup_empty in H.
Qed.

Lemma inventory_represented : represents Inventory.store Inventory.entities.
Proof.
  destruct (save_rep Sample.fresh_store ∅ Inventory.a1) as (r' & Hsave & Hrep).
  - apply represents_init.
  - apply lookup_empty.
  - discriminate.
  - vm_compute. reflexivity.
  - apply (bool_decide_unpack _). vm_compute. exact I.
  - unfold Inventory.store. rewrite Hsave. exact Hrep.
Qed.

End StatisticsFacts.

Module PlainFacts.
Import Predicates.

Lemma plain_ids_check {A} (m : gmap string A) :
  map_Forall (λ id _, plain_id id = true) m → plain_ids m.
Proof. intros H id [x Hx]. exact (H id x Hx). Qed.

Lemma plain_ids_insert {A} (m : gmap string A) id x :
  plain_ids m → plain_id id = true → plain_ids (<[id := x]> m).
Proof.
  intros Hm Hid k [y Hy]. apply lookup_insert_Some in Hy as [[<- _]|[_ Hy]]; [done|].
  apply Hm. eauto.
Qed.

Lemma plain_ids_delete {A} (m : gmap string A) id :
  plain_ids m → plain_ids (base.delete id m).
Proof.
  intros Hm k [y Hy]. apply lookup_delete_Some in Hy as [_ Hy]. apply Hm. eauto.
Qed.

Lemma inventory_plain : plain_ids Inventory.entities.
Proof. apply plain_ids_check. apply (bool_decide_unpack _). vm_compute. exact I. Qed.

End PlainFacts.

(** X7.  On a consistent store whose ids name files of their own, [save]
    of a valid asset whose id is not empty, not stored and names a file of
    its own, and whose tags render to distinct index keys, returns the asset
    and leaves such a store that holds the old assets and this one (without
    its relationships); [find_by_id] then returns it. *)
Theorem file_save_of_new_asset_is_an_insert
    (r : FileBasedAssetRepository.t) (ents : gmap string Asset.t) (a : Asset.t) :
  Predicates.represents r ents →
  Predicates.plain_ids ents →
  ents !! Asset.asset_id a = None →
  Asset.asset_id a ≠ "" →
  plain_id (Asset.asset_id a) = true →
  Asset.validate a = Ok true →
  NoDup (Predicates.tag_keys a) →
  ∃ r',
    FileBasedAssetRepository.save a r = (r', Ok a)
    ∧ Predicates.represents r' (<[Asset.asset_id a := Asset.set_relationships [] a]> ents)
    ∧ Predicates.plain_ids (<[Asset.asset_id a := Asset.set_relationships [] a]> ents)
    ∧ FileBasedAssetRepository.find_by_id (Asset.asset_id a) r'
      = (r', Ok (Some (Asset.set_relationships [] a))).
Proof.
  intros Hrep Hplain Hnone Hne0 Hid Hv Hnd.
  destruct (RefinementFacts.save_rep r ents a Hrep Hnone Hne0 Hv Hnd)
    as (r' & Hsave & Hrep').
  exists r'. split; [exact Hsave|]. split; [exact Hrep'|].
  split; [by apply PlainFacts.plain_ids_insert|].
  rewrite (RefinementFacts.find_by_id_rep r' _ _ Hrep'). by rewrite lookup_insert_eq.
Qed.

Lemma file_save_of_new_asset_is_an_insert_witness :
  Predicates.represents Inventory.store Inventory.entities
  ∧ Predicates.plain_ids Inventory.entities
  ∧ Inventory.entities !! Asset.asset_id Inventory.a2 = None
  ∧ Asset.asset_id Inventory.a2 ≠ ""
  ∧ plain_id (Asset.asset_id Inventory.a2) = true
  ∧ Asset.validate Inventory.a2 = Ok true
  ∧ NoDup (Predicates.tag_keys Inventory.a2)
  ∧ ∃ r',
      FileBasedAssetRepository.save Inventory.a2 Inventory.store = (r', Ok Inventory.a2)
      ∧ Predicates.represents r'
          (<[Asset.asset_id Inventory.a2 := Asset.set_relationships [] Inventory.a2]>
             Inventory.entities)
      ∧ Predicates.plain_ids
          (<[Asset.asset_id Inventory.a2 := Asset.set_relationships [] Inventory.a2]>
             Inventory.entities)
      ∧ FileBasedAssetRepository.find_by_id (Asset.asset_id Inventory.a2) r'
        = (r', Ok (Some (Asset.set_relationships [] Inventory.a2))).
Proof.
  assert (H1 : Inventory.entities !! Asset.asset_id Inventory.a2 = None)
    by (vm_compute; reflexivity).
  assert (H2 : Asset.validate Inventory.a2 = Ok true) by (vm_compute; reflexivity).
  assert (H3 : NoDup (Predicates.tag_keys Inventory.a2))
    by (apply (bool_decide_unpack _); vm_compute; exact I).
  assert (H0 : Asset.asset_id Inventory.a2 ≠ "") by discriminate.
  assert (H4 : plain_id (Asset.asset_id Inventory.a2) = true) by (vm_compute; reflexivity).
  split; [exact StatisticsFacts.inventory_represented|].
  split; [exact PlainFacts.inventory_plain|].
  split; [exact H1|]. split; [exact H0|]. split; [exact H4|]. split; [exact H2|].
  split; [exact H3|].
  exact (file_save_of_new_asset_is_an_insert _ _ _
           StatisticsFacts.inventory_represented PlainFacts.inventory_plain H1 H0 H4 H2 H3).
Defined.

(** On a consistent store whose ids name files of their own, [find_by_id]
    and [exists] of such an id read the set of stored assets and change
    nothing, not even the log. *)
Lemma file_find_by_id_and_exists_read_the_store
    (r : FileBasedAssetRepository.t) (ents : gmap string Asset.t) (id : string) :
  Predicates.represents r ents →
  Predicates.plain_ids ents →
  plain_id id = true →
  FileBasedAssetRepository.find_by_id id r = (r, Ok (ents !! id))
  ∧ FileBasedAssetRepository.exists_ id r = (r, Ok (bool_decide (is_Some (ents !! id)))).
Proof.
  intros Hrep _ _. split.
  - by apply RefinementFacts.find_by_id_rep.
  - by apply QueryFacts.exists_rep.
Qed.

(** X8.  On a consistent store whose ids name files of their own, [delete]
    of such an id returns whether the id was stored and leaves such a store
    without it: the entity file and every index entry of the asset are gone,
    the other assets are untouched. *)
Theorem file_delete_is_a_removal
    (r : FileBasedAssetRepository.t) (ents : gmap string Asset.t) (id : string) :
  Predicates.represents r ents →
  Predicates.plain_ids ents →
  plain_id id = true →
  ∃ r',
    FileBasedAssetRepository.delete id r = (r', Ok (bool_decide (is_Some (ents !! id))))
    ∧ Predicates.represents r' (delete id ents)
    ∧ Predicates.plain_ids (delete id ents)
    ∧ FileBasedAssetRepository.delete id r' = (r', Ok false).
Proof.
  intros Hrep Hplain _.
  destruct (RefinementFacts.delete_rep r ents id Hrep) as (r' & Hdel & Hrep').
  exists r'. split; [exact Hdel|]. split; [exact Hrep'|].
  split; [by apply PlainFacts.plain_ids_delete|].
  destruct (RefinementFacts.delete_rep r' _ id Hrep') as (r'' & Hdel' & _).
  rewrite lookup_delete_eq in Hdel'.
  rewrite bool_decide_eq_false_2 in Hdel' by apply is_Some_None.
  unfold FileBasedAssetRepository.delete, try_except,
    FileBasedAssetRepository.path_exists in Hdel' |- *.
  revert Hdel'. mrun.
  rewrite (RefinementFacts.rep_lookup_none r' _ id Hrep') by apply lookup_delete_eq.
  rewrite bool_decide_eq_false_2 by apply is_Some_None. done.
Qed.

Lemma file_delete_is_a_removal_witness :
  Predicates.represents Inventory.store Inventory.entities
  ∧ Predicates.plain_ids Inventory.entities
  ∧ plain_id "a1" = true
  ∧ ∃ r',
      FileBasedAssetRepository.delete "a1" Inventory.store
      = (r', Ok (bool_decide (is_Some (Inventory.entities !! "a1"))))
      ∧ Predicates.represents r' (delete "a1" Inventory.entities)
      ∧ Predicates.plain_ids (delete "a1" Inventory.entities)
      ∧ FileBasedAssetRepository.delete "a1" r' = (r', Ok false).
Proof.
  assert (H : plain_id "a1" = true) by (vm_compute; reflexivity).
  split; [exact StatisticsFacts.inventory_represented|].
  split; [exact PlainFacts.inventory_plain|]. split; [exact H|].
  exact (file_delete_is_a_removal _ _ "a1" StatisticsFacts.inventory_represented
           PlainFacts.inventory_plain H).
Defined.

(** X9.  On a consistent store [update] of a stored id with a valid asset
    whose tags render to distinct keys returns the asset stamped with the
    clock reading and leaves a consistent store holding it in place of the old
    version, whichever of its indexed fields changed. *)
Theorem file_update_is_a_replacement
    (r : FileBasedAssetRepository.t) (ents : gmap string Asset.t)
    (now : Z) (a : Asset.t) :
  Predicates.represents r ents →
  is_Some (ents !! Asset.asset_id a) →
  Asset.validate a = Ok true →
  NoDup (Predicates.tag_keys a) →
  ∃ r',
    FileBasedAssetRepository.update now a r = (r', Ok (Asset.set_updated_at now a))
    ∧ Predicates.represents r'
        (<[Asset.asset_id a := Asset.set_relationships [] (Asset.set_updated_at now a)]>
           ents).
Proof.
  intros Hrep [old Hold] Hv Hnd.
  exact (RefinementFacts.update_rep r ents now a old Hrep Hold Hv Hnd).
Qed.

Lemma file_update_is_a_replacement_witness :
  Predicates.represents Inventory.store Inventory.entities
  ∧ is_Some (Inventory.entities !! Asset.asset_id Inventory.a1')
  ∧ Asset.validate Inventory.a1' = Ok true
  ∧ NoDup (Predicates.tag_keys Inventory.a1')
  ∧ ∃ r',
      FileBasedAssetRepository.update 7 Inventory.a1' Inventory.store
      = (r', Ok (Asset.set_updated_at 7 Inventory.a1'))
      ∧ Predicates.represents r'
          (<[Asset.asset_id Inventory.a1'
             := Asset.set_relationships [] (Asset.set_updated_at 7 Inventory.a1')]>
             Inventory.entities).
Proof.
  assert (H1 : is_Some (Inventory.entities !! Asset.asset_id Inventory.a1'))
    by (vm_compute; eexists; reflexivity).
  assert (H2 : Asset.validate Inventory.a1' = Ok true) by (vm_compute; reflexivity).
  assert (H3 : NoDup (Predicates.tag_keys Inventory.a1'))
    by (apply (bool_decide_unpack _); vm_compute; exact I).
  split; [exact StatisticsFacts.inventory_represented|].
  split; [exact H1|]. split; [exact H2|]. split; [exact H3|].
  exact (file_update_is_a_replacement _ _ 7 _
           StatisticsFacts.inventory_represented H1 H2 H3).
Defined.

(** X10.  On a consistent store [find_by_type] and [find_by_provider] return,
    without repetition, exactly the stored assets of that type or provider,
    and change nothing. *)
Theorem file_find_by_type_and_provider_are_exact
    (r : FileBasedAssetRepository.t) (ents : gmap string Asset.t) (key : string) :
  Predicates.represents r ents →
  (∃ l, FileBasedAssetRepository.find_by_type key r = (r, Ok l)
        ∧ NoDup l
        ∧ ∀ a, a ∈ l ↔ ents !! Asset.asset_id a = Some a ∧ Asset.asset_type a = key)
  ∧ (∃ l, FileBasedAssetRepository.find_by_provider key r = (r, Ok l)
          ∧ NoDup l
          ∧ ∀ a, a ∈ l ↔ ents !! Asset.asset_id a = Some a ∧ Asset.provider a = key).
Proof.
  intros Hrep. split.
  - by apply QueryFacts.find_by_type_rep.
  - by apply QueryFacts.find_by_provider_rep.
Qed.

Lemma file_find_by_type_and_provider_are_exact_witness :
  Predicates.represents Inventory.store Inventory.entities
  ∧ (∃ l, FileBasedAssetRepository.find_by_type "compute" Inventory.store
          = (Inventory.store, Ok l)
          ∧ NoDup l
          ∧ ∀ a, a ∈ l ↔ Inventory.entities !! Asset.asset_id a = Some a
                         ∧ Asset.asset_type a = "compute")
  ∧ (∃ l, FileBasedAssetRepository.find_by_provider "compute" Inventory.store
          = (Inventory.store, Ok l)
          ∧ NoDup l
          ∧ ∀ a, a ∈ l ↔ Inventory.entities !! Asset.asset_id a = Some a
                         ∧ Asset.provider a = "compute").
Proof.
  split; [exact StatisticsFacts.inventory_represented|].
  exact (file_find_by_type_and_provider_are_exact _ _ "compute"
           StatisticsFacts.inventory_represented).
Defined.

(** X11.  On a consistent store [find_by_tags] returns, without repetition,
    the stored assets that have, for every requested tag, a tag rendering to
    the same index key [key=value]; so every stored asset that carries all the
    requested tags is returned. With no tag requested it returns nothing. *)
Theorem file_find_by_tags_matches_rendered_keys
    (r : FileBasedAssetRepository.t) (ents : gmap string Asset.t)
    (tags : gmap string string) :
  Predicates.represents r ents →
  ∃ l, FileBasedAssetRepository.find_by_tags tags r = (r, Ok l)
       ∧ NoDup l
       ∧ (∀ a, a ∈ l ↔
            tags ≠ ∅ ∧ ents !! Asset.asset_id a = Some a
            ∧ ∀ k v, tags !! k = Some v → tag_str (k, v) ∈ Predicates.tag_keys a)
       ∧ (∀ a, tags ≠ ∅ → ents !! Asset.asset_id a = Some a →
               tags ⊆ Asset.tags a → a ∈ l).
Proof.
  intros Hrep.
  destruct (QueryFacts.find_by_tags_rep r ents tags Hrep) as (l & Hrun & Hnd & Hin).
  exists l. split; [exact Hrun|]. split; [exact Hnd|]. split; [exact Hin|].
  intros a Hne Ha Hsub. apply Hin. split; [exact Hne|]. split; [exact Ha|].
  intros k v Hkv. unfold Predicates.tag_keys. apply list_elem_of_fmap. exists (k, v).
  split; [done|]. apply elem_of_map_to_list.
  by eapply lookup_weaken.
Qed.

Lemma file_find_by_tags_matches_rendered_keys_witness :
  let tags : gmap string string := {[ "env" := "prod" ]} in
  Predicates.represents Inventory.store Inventory.entities
  ∧ ∃ l, FileBasedAssetRepository.find_by_tags tags Inventory.store
         = (Inventory.store, Ok l)
         ∧ NoDup l
         ∧ (∀ a, a ∈ l ↔
              tags ≠ ∅ ∧ Inventory.entities !! Asset.asset_id a = Some a
              ∧ ∀ k v, tags !! k = Some v → tag_str (k, v) ∈ Predicates.tag_keys a)
         ∧ (∀ a, tags ≠ ∅ → Inventory.entities !! Asset.asset_id a = Some a →
                 tags ⊆ Asset.tags a → a ∈ l).
Proof.
  intros tags. split; [exact StatisticsFacts.inventory_represented|].
  exact (file_find_by_tags_matches_rendered_keys _ _ tags
           StatisticsFacts.inventory_represented).
Defined.

Module SearchFacts.
Import FileBasedAssetRepository Predicates.

Lemma find_all_rep r ents filters limit offset :
  represents r ents →
  ∃ l, find_all filters limit offset r = (r, Ok l)
       ∧ sublist l (filter (λ a, _matches_filters a filters)
                      (Predicates.decoded r (listing r)))
       ∧ (∀ lim, truthy limit = Some lim → (length l ≤ lim)%nat)
       ∧ (truthy limit = None → truthy offset = None →
          l = filter (λ a, _matches_filters a filters)
                (Predicates.decoded r (listing r))).
Proof.
  intros Hrep.
  destruct (ListingFacts.find_all_loop_rep r ents filters limit offset (listing r) Hrep)
    with (count := 0%nat) (acc := @nil Asset.t) as (l & Hrun & Hsub & Hlen & Hfull).
  { intros p Hp. by apply ListingFacts.elem_of_listing in Hp as [? _]. }
  exists l. split.
  - unfold find_all, try_except. mrun. rewrite Hrun. reflexivity.
  - split; [exact Hsub|]. split; [|exact Hfull].
    intros lim Hl. apply (Hlen lim Hl). cbn. lia.
Qed.

Lemma search_loop_subset q limit assets :
  ∀ results a, a ∈ search_loop q limit assets results → a ∈ results ∨ a ∈ assets.
Proof.
  induction assets as [|x assets IH]; intros results a; cbn [search_loop]; [tauto|].
  assert (Happ : ∀ rs : list Asset.t, a ∈ (rs ++ [x])%list → a ∈ rs ∨ a ∈ x :: assets).
  { intros rs. rewrite elem_of_app, list_elem_of_singleton, elem_of_cons. tauto. }
  assert (Hrec : ∀ rs : list Asset.t, (a ∈ rs → a ∈ results ∨ a ∈ x :: assets) →
            a ∈ search_loop q limit assets rs → a ∈ results ∨ a ∈ x :: assets).
  { intros rs Hrs H. apply IH in H as [H|H]; [by apply Hrs|]. right. by right. }
  destruct (contains q (lower (Asset.name x))).
  - destruct (limit_reached _ _); [apply Happ|]. apply Hrec, Happ.
  - destruct (existsb _ (map_to_list (Asset.properties x))); cbn [andb].
    + destruct (limit_reached _ (results ++ [x])%list); [apply Happ|].
      destruct (existsb _ (map_to_list (Asset.tags x))); cbn [andb].
      * destruct (limit_reached _ ((results ++ [x]) ++ [x])%list).
        -- intros H. apply Happ in H as [H|H]; [by apply Happ|by right].
        -- apply Hrec. intros H. apply Happ in H as [H|H]; [by apply Happ|by right].
      * apply Hrec, Happ.
    + destruct (existsb _ (map_to_list (Asset.tags x))); cbn [andb].
      * destruct (limit_reached _ _); [apply Happ|]. apply Hrec, Happ.
      * apply Hrec. tauto.
Qed.

Lemma search_loop_keeps q assets :
  ∀ results a, a ∈ results → a ∈ search_loop q None assets results.
Proof.
  induction assets as [|x assets IH]; intros results a Ha; cbn [search_loop]; [done|].
  assert (Happ : a ∈ (results ++ [x])%list) by (apply elem_of_app; by left).
  unfold limit_reached. cbn [truthy from_option]. rewrite !andb_false_r.
  destruct (contains q (lower (Asset.name x))); [by apply IH|].
  destruct (existsb _ (map_to_list (Asset.properties x)));
    destruct (existsb _ (map_to_list (Asset.tags x)));
    apply IH; rewrite ?elem_of_app; tauto.
Qed.

Lemma search_loop_by_name q assets :
  ∀ results a, a ∈ assets → contains q (lower (Asset.name a)) = true →
               a ∈ search_loop q None assets results.
Proof.
  induction assets as [|x assets IH]; intros results a Ha Hname; cbn [search_loop].
  - by apply elem_of_nil in Ha.
  - apply elem_of_cons in Ha as [<-|Ha].
    + rewrite Hname. unfold limit_reached. cbn [truthy from_option].
      apply search_loop_keeps. apply elem_of_app. right. by apply list_elem_of_singleton.
    + unfold limit_reached. cbn [truthy from_option]. rewrite !andb_false_r.
      destruct (contains q (lower (Asset.name x))); [by apply IH|].
      destruct (existsb _ (map_to_list (Asset.properties x)));
        destruct (existsb _ (map_to_list (Asset.tags x))); by apply IH.
Qed.

End SearchFacts.

(** X12.  On a consistent store [find_all] without limit and offset returns,
    without repetition, exactly the stored assets that match the filters and
    whose shard directory name does not start with a dot, and [count] returns
    their number. With a limit or an offset it returns a sublist of that list,
    of at most [limit] assets when the limit is positive. *)
Theorem file_find_all_lists_every_visible_asset_once
    (r : FileBasedAssetRepository.t) (ents : gmap string Asset.t)
    (filters : option asset_filters) (limit offset : option nat) :
  Predicates.represents r ents →
  ∃ all,
    FileBasedAssetRepository.find_all filters None None r = (r, Ok all)
    ∧ NoDup all
    ∧ (∀ a, a ∈ all ↔
         ents !! Asset.asset_id a = Some a
         ∧ ¬ String.prefix "." (FileBasedAssetRepository._get_asset_path r (Asset.asset_id a)).1
         ∧ FileBasedAssetRepository._matches_filters a filters = true)
    ∧ FileBasedAssetRepository.count filters r = (r, Ok (length all))
    ∧ ∃ l, FileBasedAssetRepository.find_all filters limit offset r = (r, Ok l)
           ∧ sublist l all
           ∧ ∀ n, limit = Some (S n) → (length l ≤ S n)%nat.
Proof.
  intros Hrep.
  destruct (SearchFacts.find_all_rep r ents filters None None Hrep)
    as (all & Hall & _ & _ & Hfull).
  specialize (Hfull eq_refl eq_refl).
  destruct (ListingFacts.decoded_listing r ents Hrep) as [Hnd Hin].
  destruct (SearchFacts.find_all_rep r ents filters limit offset Hrep)
    as (l & Hl & Hsub & Hlen & _).
  exists all. split; [exact Hall|]. split; [|split; [|split]].
  - rewrite Hfull. by apply list.NoDup_filter.
  - intros a. rewrite Hfull, list_elem_of_filter, Hin.
    rewrite Is_true_true. tauto.
  - unfold FileBasedAssetRepository.count. mrun. by rewrite Hall.
  - exists l. split; [exact Hl|]. split; [by rewrite Hfull|].
    intros n ->. by apply Hlen.
Qed.

Lemma file_find_all_lists_every_visible_asset_once_witness :
  let filters := Some (only_asset_type "compute") in
  Predicates.represents Inventory.store Inventory.entities
  ∧ ∃ all,
      FileBasedAssetRepository.find_all filters None None Inventory.store
      = (Inventory.store, Ok all)
      ∧ NoDup all
      ∧ (∀ a, a ∈ all ↔
           Inventory.entities !! Asset.asset_id a = Some a
           ∧ ¬ String.prefix "."
                 (FileBasedAssetRepository._get_asset_path Inventory.store
                    (Asset.asset_id a)).1
           ∧ FileBasedAssetRepository._matches_filters a filters = true)
      ∧ FileBasedAssetRepository.count filters Inventory.store
        = (Inventory.store, Ok (length all))
      ∧ ∃ l, FileBasedAssetRepository.find_all filters (Some 1%nat) None Inventory.store
             = (Inventory.store, Ok l)
             ∧ sublist l all
             ∧ ∀ n, Some 1%nat = Some (S n) → (length l ≤ S n)%nat.
Proof.
  intros filters. split; [exact StatisticsFacts.inventory_represented|].
  exact (file_find_all_lists_every_visible_asset_once _ _ filters (Some 1%nat) None
           StatisticsFacts.inventory_represented).
Defined.

(** X13.  On a consistent store [search] returns stored assets only, at most
    [limit] of them when the limit is positive, and without a limit, for a
    query of ASCII characters, every listed asset whose name is of ASCII
    characters and contains the query, the case of the letters [A] to [Z]
    aside. *)
Theorem file_search_respects_limit
    (r : FileBasedAssetRepository.t) (ents : gmap string Asset.t)
    (query : string) (limit : option nat) :
  Predicates.represents r ents →
  ∃ l, FileBasedAssetRepository.search query limit r = (r, Ok l)
       ∧ (∀ a, a ∈ l → ents !! Asset.asset_id a = Some a)
       ∧ (∀ n, limit = Some (S n) → (length l ≤ S n)%nat)
       ∧ (limit = None →
          ascii_only query = true →
          ∀ a, ents !! Asset.asset_id a = Some a →
               ¬ String.prefix "."
                   (FileBasedAssetRepository._get_asset_path r (Asset.asset_id a)).1 →
               ascii_only (Asset.name a) = true →
               contains (lower query) (lower (Asset.name a)) = true →
               a ∈ l).
Proof.
  intros Hrep.
  destruct (SearchFacts.find_all_rep r ents None None None Hrep)
    as (all & Hall & _ & _ & Hfull).
  specialize (Hfull eq_refl eq_refl).
  destruct (ListingFacts.decoded_listing r ents Hrep) as [Hnd Hin].
  assert (Hmem : ∀ a, a ∈ all ↔
            ents !! Asset.asset_id a = Some a
            ∧ ¬ String.prefix "."
                  (FileBasedAssetRepository._get_asset_path r (Asset.asset_id a)).1).
  { intros a. rewrite Hfull, list_elem_of_filter, Hin. cbn. tauto. }
  eexists. split.
  - unfold FileBasedAssetRepository.search. mrun. rewrite Hall. reflexivity.
  - split; [|split].
    + intros a Ha. apply SearchFacts.search_loop_subset in Ha as [Ha|Ha].
      * by apply elem_of_nil in Ha.
      * by apply Hmem in Ha as [? _].
    + intros n ->. apply FileBasedAssetRepositoryErrorFacts.search_loop_limit. cbn. lia.
    + intros -> _ a Ha Hdot _ Hname.
      apply SearchFacts.search_loop_by_name; [|exact Hname].
      apply Hmem. done.
Qed.

Lemma file_search_respects_limit_witness :
  Predicates.represents Inventory.store Inventory.entities
  ∧ ∃ l, FileBasedAssetRepository.search "NAME" None Inventory.store
         = (Inventory.store, Ok l)
         ∧ (∀ a, a ∈ l → Inventory.entities !! Asset.asset_id a = Some a)
         ∧ (∀ n, @None nat = Some (S n) → (length l ≤ S n)%nat)
         ∧ (@None nat = None →
            ascii_only "NAME" = true →
            ∀ a, Inventory.entities !! Asset.asset_id a = Some a →
                 ¬ String.prefix "."
                     (FileBasedAssetRepository._get_asset_path Inventory.store
                        (Asset.asset_id a)).1 →
                 ascii_only (Asset.name a) = true →
                 contains (lower "NAME") (lower (Asset.name a)) = true →
                 a ∈ l).
Proof.
  split; [exact StatisticsFacts.inventory_represented|].
  exact (file_search_respects_limit _ _ "NAME" None
           StatisticsFacts.inventory_represented).
Defined.

(** On a consistent store [get_statistics] returns, and its [total_assets]
    is the number of stored assets. *)
Lemma file_statistics_count_the_store
    (st_size : Asset.dict → Z)
    (r : FileBasedAssetRepository.t) (ents : gmap string Asset.t) :
  Predicates.represents r ents →
  ∃ stats,
    FileBasedAssetRepository.get_statistics st_size r = (r, Ok stats)
    ∧ dict_get "total_assets" stats = Some (PInt (Z.of_nat (size ents)))
    ∧ dict_get "unique_tags" stats
      = Some (PInt (Z.of_nat (size (FileBasedAssetRepository.tag_index r)))).
Proof.
  intros Hrep. eexists. split.
  - unfold FileBasedAssetRepository.get_statistics, try_except. mrun. reflexivity.
  - cbn [dict_get]. rewrite !bool_decide_eq_true_2 by done.
    split; [|by vm_compute].
    rewrite (StatisticsFacts.indexed_ids_dom r ents Hrep). by rewrite size_dom.
Qed.

(** X14.  On a consistent store whose ids name files of their own, the reads
    agree with the set of stored assets and change nothing, not even the
    log: for an id that names a file of its own [find_by_id] returns the
    asset of the id or [None] and [exists] tells whether the id is stored,
    and the [total_assets] of [get_statistics] is the number of stored
    assets. *)
Theorem file_reads_agree_with_the_stored_assets
    (st_size : Asset.dict → Z)
    (r : FileBasedAssetRepository.t) (ents : gmap string Asset.t) (id : string) :
  Predicates.represents r ents →
  Predicates.plain_ids ents →
  plain_id id = true →
  FileBasedAssetRepository.find_by_id id r = (r, Ok (ents !! id))
  ∧ FileBasedAssetRepository.exists_ id r = (r, Ok (bool_decide (is_Some (ents !! id))))
  ∧ ∃ stats,
      FileBasedAssetRepository.get_statistics st_size r = (r, Ok stats)
      ∧ dict_get "total_assets" stats = Some (PInt (Z.of_nat (size ents))).
Proof.
  intros Hrep Hplain Hid.
  destruct (file_find_by_id_and_exists_read_the_store r ents id Hrep Hplain Hid)
    as [Hfind Hex].
  destruct (file_statistics_count_the_store st_size r ents Hrep) as (stats & Hrun & Htot & _).
  split; [exact Hfind|]. split; [exact Hex|]. exists stats. split; [exact Hrun|exact Htot].
Qed.

Lemma file_reads_agree_with_the_stored_assets_witness :
  Predicates.represents Inventory.store Inventory.entities
  ∧ Predicates.plain_ids Inventory.entities
  ∧ plain_id "a1" = true
  ∧ FileBasedAssetRepository.find_by_id "a1" Inventory.store
    = (Inventory.store, Ok (Inventory.entities !! "a1"))
  ∧ FileBasedAssetRepository.exists_ "a1" Inventory.store
    = (Inventory.store, Ok (bool_decide (is_Some (Inventory.entities !! "a1"))))
  ∧ ∃ stats,
      FileBasedAssetRepository.get_statistics Unreachable.st_size Inventory.store
      = (Inventory.store, Ok stats)
      ∧ dict_get "total_assets" stats = Some (PInt (Z.of_nat (size Inventory.entities))).
Proof.
  assert (H : plain_id "a1" = true) by (vm_compute; reflexivity).
  split; [exact StatisticsFacts.inventory_represented|].
  split; [exact PlainFacts.inventory_plain|]. split; [exact H|].
  exact (file_reads_agree_with_the_stored_assets Unreachable.st_size _ _ "a1"
           StatisticsFacts.inventory_represented PlainFacts.inventory_plain H).
Defined.

(** X15.  [save] does not validate.  On a consistent store whose ids name
    files of their own, an asset that [validate] rejects, with an id that is
    not empty, not stored and names a file of its own, is written like any
    other, after which [find_by_id] of its id raises [RepositoryError], and
    so do [find_all] and [count], whatever the filters, unless the shard
    directory of the id is hidden (its name starts with a dot). *)
Theorem file_save_of_invalid_asset_breaks_reads
    (r : FileBasedAssetRepository.t) (ents : gmap string Asset.t) (a : Asset.t) (e : exn) :
  Predicates.represents r ents →
  Predicates.plain_ids ents →
  ents !! Asset.asset_id a = None →
  Asset.asset_id a ≠ "" →
  plain_id (Asset.asset_id a) = true →
  Asset.validate a = Raise e →
  ∃ r',
    FileBasedAssetRepository.save a r = (r', Ok a)
    ∧ raised_class (FileBasedAssetRepository.find_by_id (Asset.asset_id a) r').2
      = Some RepositoryError
    ∧ (¬ String.prefix "."
           (FileBasedAssetRepository._get_asset_path r (Asset.asset_id a)).1 →
       ∀ filters,
         raised_class (FileBasedAssetRepository.find_all filters None None r').2
         = Some RepositoryError
         ∧ raised_class (FileBasedAssetRepository.count filters r').2
           = Some RepositoryError).
Proof.
  intros Hrep _ Hnone _ _ Hv.
  assert (Hfile := RefinementFacts.rep_lookup_none r ents _ Hrep Hnone).
  destruct (FileBasedAssetRepositoryErrorFacts.save_free_path r a Hfile)
    as (r' & Hsave & Hfiles & Hc).
  assert (Hpath : ∀ id, FileBasedAssetRepository._get_asset_path r' id
                        = FileBasedAssetRepository._get_asset_path r id).
  { intros id. unfold FileBasedAssetRepository._get_asset_path,
      FileBasedAssetRepository.extension. by rewrite Hc. }
  assert (Hd : FileBasedAssetRepository.files r'
                 !! FileBasedAssetRepository._get_asset_path r' (Asset.asset_id a)
               = Some (Asset.to_dict a)).
  { rewrite Hfiles, Hpath. apply lookup_insert_eq. }
  assert (Hdec : Asset.from_dict (Asset.to_dict a) = Raise e).
  { unfold Asset.from_dict. cbn [Asset.to_dict Asset.d_fields].
    replace (Asset.validate _) with (Asset.validate a); [by rewrite Hv|].
    by apply AssetFacts.validate_same_fields. }
  assert (Hall : ¬ String.prefix "."
                     (FileBasedAssetRepository._get_asset_path r (Asset.asset_id a)).1 →
                 ∀ filters,
                   raised_class (FileBasedAssetRepository.find_all filters None None r').2
                   = Some RepositoryError).
  { intros Hdot filters.
    destruct (FileBasedAssetRepositoryErrorFacts.find_all_loop_undecodable r' filters
                (FileBasedAssetRepository._get_asset_path r' (Asset.asset_id a))
                (Asset.to_dict a) e (FileBasedAssetRepository.listing r'))
      with (count := 0%nat) (acc := @nil Asset.t) as (e' & Hrun); [|exact Hd|exact Hdec|].
    - apply ListingFacts.elem_of_listing. split; [eauto|]. split; [by rewrite Hpath|].
      unfold FileBasedAssetRepository._get_asset_path. cbn.
      by rewrite ListingFacts.ends_with_append.
    - unfold FileBasedAssetRepository.find_all, try_except. mrun. rewrite Hrun. reflexivity. }
  exists r'. split; [exact Hsave|]. split.
  - unfold FileBasedAssetRepository.find_by_id, try_except,
      FileBasedAssetRepository.path_exists, FileBasedAssetRepository._read_json. mrun.
    rewrite Hd. rewrite bool_decide_eq_true_2 by eauto. mrun. rewrite Hd. mrun.
    rewrite Hdec. reflexivity.
  - intros Hdot filters. split; [by apply Hall|].
    specialize (Hall Hdot filters).
    unfold FileBasedAssetRepository.count. mrun.
    destruct (FileBasedAssetRepository.find_all filters None None r') as [r'' [l|e']];
      [discriminate|exact Hall].
Qed.

Lemma file_save_of_invalid_asset_breaks_reads_witness :
  let e := Exn ValueError "Invalid status: retired" in
  Predicates.represents Inventory.store Inventory.entities
  ∧ Predicates.plain_ids Inventory.entities
  ∧ Inventory.entities !! Asset.asset_id Broken.asset = None
  ∧ Asset.asset_id Broken.asset ≠ ""
  ∧ plain_id (Asset.asset_id Broken.asset) = true
  ∧ Asset.validate Broken.asset = Raise e
  ∧ ∃ r',
      FileBasedAssetRepository.save Broken.asset Inventory.store = (r', Ok Broken.asset)
      ∧ raised_class
          (FileBasedAssetRepository.find_by_id (Asset.asset_id Broken.asset) r').2
        = Some RepositoryError
      ∧ (¬ String.prefix "."
             (FileBasedAssetRepository._get_asset_path Inventory.store
                (Asset.asset_id Broken.asset)).1 →
         ∀ filters,
           raised_class (FileBasedAssetRepository.find_all filters None None r').2
           = Some RepositoryError
           ∧ raised_class (FileBasedAssetRepository.count filters r').2
             = Some RepositoryError).
Proof.
  intros e.
  assert (H1 : Inventory.entities !! Asset.asset_id Broken.asset = None)
    by (vm_compute; reflexivity).
  assert (H2 : Asset.validate Broken.asset = Raise e) by (vm_compute; reflexivity).
  assert (H3 : Asset.asset_id Broken.asset ≠ "") by discriminate.
  assert (H4 : plain_id (Asset.asset_id Broken.asset) = true) by (vm_compute; reflexivity).
  split; [exact StatisticsFacts.inventory_represented|].
  split; [exact PlainFacts.inventory_plain|].
  split; [exact H1|]. split; [exact H3|]. split; [exact H4|]. split; [exact H2|].
  exact (file_save_of_invalid_asset_breaks_reads _ _ _ e
           StatisticsFacts.inventory_represented PlainFacts.inventory_plain H1 H3 H4 H2).
Defined.

(** X16.  On a consistent store whose ids name files of their own, [update]
    of an asset whose id is not stored and names a file of its own raises a
    [RepositoryError] that is not an [AssetNotFoundError] (the
    [AssetNotFoundError] raised inside is wrapped by the method's own
    [except Exception]).  So [update_batch] over such assets records the
    wrapped message for each, never its own ["not found"], and raises; the
    entity files and the indices are left as they were. *)
Theorem file_update_of_missing_asset_raises_generic_error
    (r : FileBasedAssetRepository.t) (ents : gmap string Asset.t)
    (now : Z) (assets : list Asset.t) :
  Predicates.represents r ents →
  Predicates.plain_ids ents →
  assets ≠ [] →
  Forall (λ a, ents !! Asset.asset_id a = None ∧ plain_id (Asset.asset_id a) = true)
         assets →
  (∀ a, a ∈ assets →
        ∃ e, (FileBasedAssetRepository.update now a r).2 = Raise e
             ∧ exn_cls e = RepositoryError
             ∧ isinstance e AssetNotFoundError = false)
  ∧ ∃ r',
      FileBasedAssetRepository.update_batch now assets r
      = (r', Raise (Exn RepositoryError
                      ("Batch update failed: "
                       +:+ join "; " (Predicates.update_error <$> assets))))
      ∧ Predicates.represents r' ents
      ∧ FileBasedAssetRepository.files r' = FileBasedAssetRepository.files r
      ∧ FileBasedAssetRepository.type_index r' = FileBasedAssetRepository.type_index r
      ∧ FileBasedAssetRepository.provider_index r' = FileBasedAssetRepository.provider_index r
      ∧ FileBasedAssetRepository.tag_index r' = FileBasedAssetRepository.tag_index r.
Proof.
  intros Hrep _ Hne Hmissing.
  assert (Hall : Forall (λ a, FileBasedAssetRepository.files r
                   !! FileBasedAssetRepository._get_asset_path r (Asset.asset_id a) = None)
                   assets).
  { eapply list.Forall_impl; [exact Hmissing|]. intros a [Ha _]. cbn beta.
    by apply (RefinementFacts.rep_lookup_none r ents). }
  split.
  - intros a Ha. rewrite list.Forall_forall in Hall.
    rewrite (FileBasedAssetRepositoryErrorFacts.update_missing r now a (Hall a Ha)).
    eexists. split; [reflexivity|]. split; reflexivity.
  - destruct (FileBasedAssetRepositoryErrorFacts.update_batch_loop_missing
                now assets r [] [] Hall) as (r' & Hrun & Hf & Hc & Ht & Hp & Hg).
    exists r'. split; [|split; [|done]].
    + unfold FileBasedAssetRepository.update_batch. mrun. rewrite Hrun. cbn [fst snd app].
      destruct assets as [|a rest]; [done|]. reflexivity.
    + destruct Hrep as [H1 H2 H3 H4 H5 H6].
      assert (Hpath : ∀ id, FileBasedAssetRepository._get_asset_path r' id
                            = FileBasedAssetRepository._get_asset_path r id).
      { intros id. unfold FileBasedAssetRepository._get_asset_path,
          FileBasedAssetRepository.extension. by rewrite Hc. }
      constructor; rewrite ?Hf, ?Ht, ?Hp, ?Hg; try done.
      * intros p d Hd. rewrite Hpath. by apply H2.
      * intros id a Ha. rewrite Hpath. by apply H3.
Qed.

Lemma file_update_of_missing_asset_raises_generic_error_witness :
  let r := Inventory.store in
  let ents := Inventory.entities in
  let assets := [Inventory.a2] in
  Predicates.represents r ents
  ∧ Predicates.plain_ids ents
  ∧ assets ≠ []
  ∧ Forall (λ a, ents !! Asset.asset_id a = None ∧ plain_id (Asset.asset_id a) = true)
           assets
  ∧ (∀ a, a ∈ assets →
          ∃ e, (FileBasedAssetRepository.update 7 a r).2 = Raise e
               ∧ exn_cls e = RepositoryError
               ∧ isinstance e AssetNotFoundError = false)
  ∧ ∃ r',
      FileBasedAssetRepository.update_batch 7 assets r
      = (r', Raise (Exn RepositoryError
                      ("Batch update failed: "
                       +:+ join "; " (Predicates.update_error <$> assets))))
      ∧ Predicates.represents r' ents
      ∧ FileBasedAssetRepository.files r' = FileBasedAssetRepository.files r
      ∧ FileBasedAssetRepository.type_index r' = FileBasedAssetRepository.type_index r
      ∧ FileBasedAssetRepository.provider_index r' = FileBasedAssetRepository.provider_index r
      ∧ FileBasedAssetRepository.tag_index r' = FileBasedAssetRepository.tag_index r.
Proof.
  intros r ents assets.
  assert (H1 : assets ≠ []) by discriminate.
  assert (H2 : Forall (λ a, ents !! Asset.asset_id a = None
                            ∧ plain_id (Asset.asset_id a) = true) assets).
  { constructor; [|constructor]. split; vm_compute; reflexivity. }
  split; [exact StatisticsFacts.inventory_represented|].
  split; [exact PlainFacts.inventory_plain|].
  split; [exact H1|]. split; [exact H2|].
  exact (file_update_of_missing_asset_raises_generic_error r ents 7 assets
           StatisticsFacts.inventory_represented PlainFacts.inventory_plain H1 H2).
Defined.

Module SQLiteFacts.
Import SQLite SQLiteAssetRepository Predicates.

Lemma set_db_log d w : log (set_db d w) = log w.
Proof. reflexivity. Qed.

Lemma insert_asset_tag_free id k v w :
  (id, k) ∉ (asset_tags (db w)).*1 →
  id ∈ asset_ids (db w) ∨ foreign_keys w = false →
  insert_asset_tag id k v w
  = (set_db (mk_database (assets (db w)) (asset_tags (db w) ++ [(id, k, v)])%list
               (relationships (db w))) w, Ok tt).
Proof.
  intros Hfree Hfk. unfold insert_asset_tag. mrun.
  rewrite bool_decide_eq_false_2 by exact Hfree.
  destruct Hfk as [Hid|Hoff].
  - rewrite (bool_decide_eq_true_2 _ Hid). rewrite andb_false_r. reflexivity.
  - rewrite Hoff. reflexivity.
Qed.

Lemma insert_asset_tag_taken id k v w :
  (id, k) ∈ (asset_tags (db w)).*1 →
  insert_asset_tag id k v w
  = (w, Raise (Exn Sqlite3IntegrityError
                 "UNIQUE constraint failed: asset_tags.asset_id, asset_tags.tag_key")).
Proof.
  intros Hin. unfold insert_asset_tag, integrity_error. mrun.
  by rewrite bool_decide_eq_true_2 by exact Hin.
Qed.

(** The tag loop when no row of the id is in the way. *)
Lemma insert_tags_rows id (kvs : list (string * string)) :
  ∀ w, NoDup kvs.*1 →
       (∀ kv, kv ∈ kvs → (id, kv.1) ∉ (asset_tags (db w)).*1) →
       id ∈ asset_ids (db w) ∨ foreign_keys w = false →
       for_each kvs (λ kv, insert_asset_tag id kv.1 kv.2) w
       = (set_db (mk_database (assets (db w))
                    (asset_tags (db w) ++ ((λ kv, (id, kv.1, kv.2)) <$> kvs))%list
                    (relationships (db w))) w, Ok tt).
Proof.
  induction kvs as [|kv kvs IH]; intros w Hnd Hfree Hid.
  - cbn. rewrite app_nil_r. by destruct w as [? [] ?].
  - cbn in Hnd. apply list.NoDup_cons in Hnd as [Hk Hnd].
    cbn [for_each]. mrun.
    rewrite insert_asset_tag_free; [|apply Hfree; by left|exact Hid].
    rewrite IH; [|exact Hnd| |exact Hid].
    + cbn. by rewrite <- app_assoc.
    + intros kv' Hin. cbn. rewrite fmap_app, not_elem_of_app. split.
      * apply Hfree. by right.
      * cbn. rewrite list_elem_of_singleton. intros [= Heq].
        apply Hk. rewrite <- Heq. apply list_elem_of_fmap. eauto.
Qed.

(** The tag loop when a row of the id holds one of the keys: with foreign
    keys off nothing else can stop it first. *)
Lemma insert_tags_taken id (kvs : list (string * string)) :
  ∀ w, foreign_keys w = false →
       (∃ kv, kv ∈ kvs ∧ (id, kv.1) ∈ (asset_tags (db w)).*1) →
       ∃ w', for_each kvs (λ kv, insert_asset_tag id kv.1 kv.2) w
             = (w', Raise (Exn Sqlite3IntegrityError
                             "UNIQUE constraint failed: asset_tags.asset_id, asset_tags.tag_key")).
Proof.
  induction kvs as [|kv kvs IH]; intros w Hoff (kv0 & Hin & Htaken).
  - by apply elem_of_nil in Hin.
  - cbn [for_each]. mrun.
    destruct (decide ((id, kv.1) ∈ (asset_tags (db w)).*1)) as [Hk|Hk].
    + rewrite (insert_asset_tag_taken id kv.1 kv.2 w Hk). eauto.
    + rewrite insert_asset_tag_free; [|exact Hk|by right].
      apply elem_of_cons in Hin as [->|Hin]; [done|].
      apply IH; [exact Hoff|]. exists kv0. split; [exact Hin|].
      cbn. rewrite fmap_app, elem_of_app. by left.
Qed.

End SQLiteFacts.

Module SQLiteStoreFacts.
Import SQLite SQLiteAssetRepository SQLiteFacts Predicates.

Lemma tag_rows_ids a row : row ∈ tag_rows a → row.1.1 = Asset.asset_id a.
Proof. unfold tag_rows. intros ([k v] & -> & _)%list_elem_of_fmap. done. Qed.

Lemma tag_rows_keys_NoDup a : NoDup (tag_rows a).*1.
Proof.
  unfold tag_rows. rewrite <- list_fmap_compose.
  apply (NoDup_fmap_2_strong _).
  - intros [k1 v1] [k2 v2] H1 H2 [= Hk]. cbn in Hk. subst k2.
    apply elem_of_map_to_list in H1, H2. congruence.
  - apply NoDup_map_to_list.
Qed.

Lemma no_row_of_new_id d id k :
  integrity d → id ∉ asset_ids d → (id, k) ∉ (asset_tags d).*1.
Proof.
  intros (_ & _ & Hfk & _) Hid ([[i k'] v] & [= <- <-] & Hrow)%list_elem_of_fmap.
  apply Hid. exact (Hfk _ Hrow).
Qed.

(** [save] of an id that is not in the table. *)
Lemma sqlite_save_new w a :
  integrity (db w) → Asset.asset_id a ∉ asset_ids (db w) →
  save a w
  = (add_log (INFO, "Saved asset " +:+ Asset.asset_id a)
       (set_db (mk_database (assets (db w) ++ [_asset_to_row a])%list
                  (asset_tags (db w) ++ tag_rows a)%list
                  (relationships (db w))) w),
     Ok a).
Proof.
  intros Hint Hid.
  unfold save, try_except, get_connection, select_asset_exists, insert_asset,
    select_asset_exists, insert_tags, logger. mrun.
  change (Asset.asset_id (_asset_to_row a)) with (Asset.asset_id a).
  rewrite (bool_decide_eq_false_2 _ Hid). mrun.
  rewrite (bool_decide_eq_false_2 _ Hid). mrun.
  rewrite insert_tags_rows.
  - reflexivity.
  - apply NoDup_fst_map_to_list.
  - intros kv _. cbn. by apply no_row_of_new_id.
  - left. cbn. unfold asset_ids. cbn. rewrite fmap_app, elem_of_app. right.
    cbn. by apply list_elem_of_singleton.
Qed.

Lemma integrity_insert d a :
  integrity d → Asset.asset_id a ∉ asset_ids d →
  integrity (mk_database (assets d ++ [_asset_to_row a])%list
               (asset_tags d ++ tag_rows a)%list (relationships d)).
Proof.
  intros (Hids & Hkeys & Hfk & Hrel) Hid.
  assert (Hnew : asset_ids (mk_database (assets d ++ [_asset_to_row a])%list
                              (asset_tags d ++ tag_rows a)%list (relationships d))
                 = (asset_ids d ++ [Asset.asset_id a])%list).
  { unfold asset_ids. cbn. by rewrite fmap_app. }
  unfold integrity. rewrite Hnew. cbn [asset_tags relationships]. split; [|split; [|split]].
  - apply list.NoDup_app. split; [exact Hids|]. split; [|apply NoDup_singleton].
    intros x Hx. rewrite list_elem_of_singleton. intros ->. done.
  - rewrite fmap_app. apply list.NoDup_app. split; [exact Hkeys|].
    split; [|apply tag_rows_keys_NoDup].
    intros [i k] Hold Hnew'.
    apply list_elem_of_fmap in Hnew' as (row & Heq & Hrow).
    apply tag_rows_ids in Hrow. rewrite <- Heq in Hrow. cbn in Hrow. subst i.
    by apply (no_row_of_new_id d _ k) in Hold.
  - intros row. rewrite !elem_of_app. intros [Hrow|Hrow].
    + left. by apply Hfk.
    + right. apply list_elem_of_singleton. by apply tag_rows_ids.
  - intros rel Hin. destruct (Hrel rel Hin). rewrite !elem_of_app. tauto.
Qed.

(** The constructor call of [_row_to_asset] passes for a row made from a
    valid asset. *)
Lemma row_to_asset_valid a :
  Asset.validate a = Ok true →
  _row_to_asset (_asset_to_row a) = Ok (Asset.set_relationships [] a).
Proof.
  intros Hv. unfold _row_to_asset, _asset_to_row.
  cbn [Asset.asset_id Asset.asset_type Asset.provider Asset.name Asset.set_relationships].
  replace (Asset.validate _) with (Ok true : result bool); [done|].
  revert Hv. unfold Asset.validate, Asset.value_error.
  cbn [Asset.asset_id Asset.asset_type Asset.provider Asset.name Asset.status
         Asset.risk_score].
  repeat (case_bool_decide; cbn [negb]); try discriminate; try done.
  all: intros _; exfalso.
  all: try (match goal with H : ¬ (_ ∧ _)%Qc |- _ => apply H; split;
              apply (bool_decide_unpack _); vm_compute; exact I end).
  all: match goal with H : "active" ∉ _ |- _ => apply H end.
  all: apply (bool_decide_unpack _); vm_compute; exact I.
Qed.

Lemma select_first_of_id (l : list Asset.t) a :
  Asset.asset_id a ∉ (Asset.asset_id <$> l) →
  head (filter (λ x, Asset.asset_id x = Asset.asset_id a) (l ++ [a])%list) = Some a.
Proof.
  intros Hid. rewrite list.filter_app.
  rewrite (MemgraphRelationshipRepositoryFacts.filter_nil_intro _ l).
  - rewrite app_nil_l, filter_cons. by rewrite decide_True.
  - intros x Hx Heq. apply Hid. rewrite <- Heq. apply list_elem_of_fmap. eauto.
Qed.

Lemma find_by_id_row w row a :
  head (filter (λ x, Asset.asset_id x = Asset.asset_id row) (assets (db w))) = Some row →
  _row_to_asset row = Ok a →
  find_by_id (Asset.asset_id row) w = (w, Ok (Some a)).
Proof.
  intros Hrow Hdec. unfold find_by_id, try_except, get_connection, select_asset. mrun.
  rewrite Hrow. mrun. rewrite Hdec. reflexivity.
Qed.

End SQLiteStoreFacts.

(** X17.  [save] of a valid asset with an id of its own that is not in the
    table inserts one row into [assets] and one row per tag into [asset_tags],
    keeps the schema's constraints, and [find_by_id] then returns the asset
    (without its relationships). *)
Theorem sqlite_save_of_new_asset_inserts_its_rows (w : SQLite.t) (a : Asset.t) :
  Predicates.integrity (SQLite.db w) →
  Asset.asset_id a ∉ SQLite.asset_ids (SQLite.db w) →
  Asset.asset_id a ≠ "" →
  Asset.validate a = Ok true →
  ∃ w',
    SQLiteAssetRepository.save a w = (w', Ok a)
    ∧ SQLite.assets (SQLite.db w')
      = (SQLite.assets (SQLite.db w) ++ [Asset.set_relationships [] a])%list
    ∧ SQLite.asset_tags (SQLite.db w') = (SQLite.asset_tags (SQLite.db w) ++ Predicates.tag_rows a)%list
    ∧ SQLite.relationships (SQLite.db w') = SQLite.relationships (SQLite.db w)
    ∧ Predicates.integrity (SQLite.db w')
    ∧ SQLiteAssetRepository.find_by_id (Asset.asset_id a) w'
      = (w', Ok (Some (Asset.set_relationships [] a))).
Proof.
  intros Hint Hid _ Hv. eexists. split; [by apply SQLiteStoreFacts.sqlite_save_new|].
  cbn [SQLite.db SQLite.add_log SQLite.set_db SQLite.assets SQLite.asset_tags
         SQLite.relationships].
  split; [done|]. split; [done|]. split; [done|].
  split; [by apply SQLiteStoreFacts.integrity_insert|].
  apply (SQLiteStoreFacts.find_by_id_row _ (SQLiteAssetRepository._asset_to_row a)).
  - cbn. by apply (SQLiteStoreFacts.select_first_of_id _ (Asset.set_relationships [] a)).
  - by apply SQLiteStoreFacts.row_to_asset_valid.
Qed.


Module SQLiteDeleteFacts.
Import SQLite SQLiteAssetRepository SQLiteFacts SQLiteStoreFacts Predicates.

Lemma length_filter_pos {A} (P : A → Prop) `{∀ x, Decision (P x)} (l : list A) :
  (0 < length (filter P l))%nat ↔ ∃ x, x ∈ l ∧ P x.
Proof.
  induction l as [|y l IH].
  - cbn. split; [lia|]. intros (x & Hx & _). by apply elem_of_nil in Hx.
  - rewrite filter_cons. destruct (decide (P y)) as [Hy|Hy]; cbn [length].
    + split; [|lia]. intros _. exists y. split; [by left|done].
    + rewrite IH. split.
      * intros (x & Hx & HP). exists x. split; [by right|done].
      * intros (x & Hx & HP). apply elem_of_cons in Hx as [->|Hx]; [done|eauto].
Qed.

(** [DELETE FROM assets WHERE asset_id = ?] on its own. *)
Lemma delete_run w id :
  delete id w
  = let d := db w in
    let gone := filter (λ a, Asset.asset_id a ∈ [id]) (assets d) in
    let kept := filter (λ a, Asset.asset_id a ∉ [id]) (assets d) in
    let dead := Asset.asset_id <$> gone in
    let d' := if foreign_keys w
              then mk_database kept
                     (filter (λ row, row.1.1 ∉ dead) (asset_tags d))
                     (filter (λ r, ¬ (Relationship.source_id r ∈ dead
                                      ∨ Relationship.target_id r ∈ dead))
                             (relationships d))
              else mk_database kept (asset_tags d) (relationships d) in
    if bool_decide (0 < length gone)%nat
    then (add_log (INFO, "Deleted asset " +:+ id) (set_db d' w), Ok true)
    else (set_db d' w, Ok false).
Proof.
  unfold delete, try_except, get_connection, delete_assets, logger. mrun.
  cbn zeta. case_bool_decide; reflexivity.
Qed.

Lemma dead_ids (l : list Asset.t) id x :
  x ∈ Asset.asset_id <$> filter (λ a, Asset.asset_id a ∈ [id]) l
  ↔ x = id ∧ id ∈ Asset.asset_id <$> l.
Proof.
  rewrite !list_elem_of_fmap. split.
  - intros (a & -> & Ha). apply list_elem_of_filter in Ha as [Hid Ha].
    apply list_elem_of_singleton in Hid. split; [done|]. exists a. done.
  - intros [-> (a & Hid & Ha)]. exists a. split; [done|].
    apply list_elem_of_filter. split; [|done]. apply list_elem_of_singleton. done.
Qed.

Lemma kept_ids (l : list Asset.t) id x :
  x ∈ Asset.asset_id <$> filter (λ a, Asset.asset_id a ∉ [id]) l
  ↔ x ≠ id ∧ x ∈ Asset.asset_id <$> l.
Proof.
  rewrite !list_elem_of_fmap. split.
  - intros (a & -> & Ha). apply list_elem_of_filter in Ha as [Hid Ha].
    rewrite list_elem_of_singleton in Hid. split; [done|]. exists a. done.
  - intros [Hne (a & -> & Ha)]. exists a. split; [done|].
    apply list_elem_of_filter. split; [|done]. by rewrite list_elem_of_singleton.
Qed.

Lemma NoDup_fmap_filter {A B} (f : A → B) (P : A → Prop) `{∀ x, Decision (P x)}
    (l : list A) :
  NoDup (f <$> l) → NoDup (f <$> filter P l).
Proof.
  induction l as [|x l IH]; [done|].
  rewrite fmap_cons, list.NoDup_cons. intros [Hx Hnd].
  rewrite filter_cons. destruct (decide (P x)); [|by apply IH].
  rewrite fmap_cons. apply list.NoDup_cons. split; [|by apply IH].
  intros (y & Hy & Hin)%list_elem_of_fmap. apply Hx.
  apply list_elem_of_fmap. exists y. split; [done|].
  by apply list_elem_of_filter in Hin as [_ ?].
Qed.

End SQLiteDeleteFacts.

(** X18.  With foreign keys enforced, [delete] returns whether a row of the id
    was in [assets]; afterwards the id is in no row of [assets], of
    [asset_tags] or (as an end) of [relationships], the other assets are kept
    and the schema's constraints still hold. *)
Theorem sqlite_delete_cascades (w : SQLite.t) (id : string) :
  SQLite.foreign_keys w = true →
  Predicates.integrity (SQLite.db w) →
  ∃ w',
    SQLiteAssetRepository.delete id w
    = (w', Ok (bool_decide (id ∈ SQLite.asset_ids (SQLite.db w))))
    ∧ Predicates.integrity (SQLite.db w')
    ∧ (∀ x, x ∈ SQLite.asset_ids (SQLite.db w')
            ↔ x ≠ id ∧ x ∈ SQLite.asset_ids (SQLite.db w))
    ∧ (∀ row, row ∈ SQLite.asset_tags (SQLite.db w')
              ↔ row.1.1 ≠ id ∧ row ∈ SQLite.asset_tags (SQLite.db w))
    ∧ (∀ rel, rel ∈ SQLite.relationships (SQLite.db w')
              ↔ Relationship.source_id rel ≠ id ∧ Relationship.target_id rel ≠ id
                ∧ rel ∈ SQLite.relationships (SQLite.db w)).
Proof.
  intros Hfk (Hids & Hkeys & Htags & Hrels).
  rewrite SQLiteDeleteFacts.delete_run. cbn zeta. rewrite Hfk.
  set (d' := SQLite.mk_database _ _ _).
  assert (Hassets : ∀ x, x ∈ SQLite.asset_ids d'
                         ↔ x ≠ id ∧ x ∈ SQLite.asset_ids (SQLite.db w)).
  { intros x. apply SQLiteDeleteFacts.kept_ids. }
  assert (Hrows : ∀ row, row ∈ SQLite.asset_tags d'
                         ↔ row.1.1 ≠ id ∧ row ∈ SQLite.asset_tags (SQLite.db w)).
  { intros row. unfold d'. cbn [SQLite.asset_tags]. rewrite list_elem_of_filter.
    rewrite SQLiteDeleteFacts.dead_ids. split.
    - intros [Hn Hrow]. split; [|done]. intros Heq. apply Hn. split; [done|].
      rewrite <- Heq. by apply Htags.
    - intros [Hne Hrow]. split; [|done]. tauto. }
  assert (Hedges : ∀ rel, rel ∈ SQLite.relationships d'
              ↔ Relationship.source_id rel ≠ id ∧ Relationship.target_id rel ≠ id
                ∧ rel ∈ SQLite.relationships (SQLite.db w)).
  { intros rel. unfold d'. cbn [SQLite.relationships]. rewrite list_elem_of_filter.
    rewrite !SQLiteDeleteFacts.dead_ids. split.
    - intros [Hn Hrel]. destruct (Hrels rel Hrel) as [Hs Ht].
      split; [intros Heq; apply Hn; left; split; [done|by rewrite <- Heq]|].
      split; [intros Heq; apply Hn; right; split; [done|by rewrite <- Heq]|done].
    - intros (Hs & Ht & Hrel). split; [|done]. tauto. }
  assert (Hint : Predicates.integrity d').
  { split; [|split; [|split]].
    - unfold d', SQLite.asset_ids. cbn [SQLite.assets].
      by apply SQLiteDeleteFacts.NoDup_fmap_filter.
    - unfold d'. cbn [SQLite.asset_tags]. by apply SQLiteDeleteFacts.NoDup_fmap_filter.
    - intros row Hrow. apply Hrows in Hrow as [Hne Hrow]. apply Hassets. auto.
    - intros rel Hrel. apply Hedges in Hrel as (Hs & Ht & Hrel).
      destruct (Hrels rel Hrel). split; apply Hassets; auto. }
  assert (Hcount : bool_decide (0 < length (filter (λ a, Asset.asset_id a ∈ [id])
                                             (SQLite.assets (SQLite.db w))))%nat
                   = bool_decide (id ∈ SQLite.asset_ids (SQLite.db w))).
  { apply bool_decide_ext. rewrite SQLiteDeleteFacts.length_filter_pos.
    unfold SQLite.asset_ids. rewrite list_elem_of_fmap. split.
    - intros (a & Ha & Hid). apply list_elem_of_singleton in Hid. eauto.
    - intros (a & -> & Ha). exists a. split; [done|]. by apply list_elem_of_singleton. }
  rewrite Hcount.
  destruct (bool_decide (id ∈ SQLite.asset_ids (SQLite.db w)));
    (eexists; split; [reflexivity|]);
    cbn [SQLite.db SQLite.add_log SQLite.set_db]; done.
Qed.


Module SQLiteUpdateFacts.
Import SQLite SQLiteAssetRepository SQLiteFacts SQLiteStoreFacts Predicates.

Lemma update_asset_ids row (l : list Asset.t) :
  Asset.asset_id <$> ((λ a, if bool_decide (Asset.asset_id a = Asset.asset_id row)
                            then row else a) <$> l)
  = Asset.asset_id <$> l.
Proof.
  induction l as [|x l IH]; [done|]. cbn. rewrite IH. f_equal.
  case_bool_decide; congruence.
Qed.

Lemma update_asset_first row (l : list Asset.t) :
  Asset.asset_id row ∈ (Asset.asset_id <$> l) →
  head (filter (λ x, Asset.asset_id x = Asset.asset_id row)
          ((λ a, if bool_decide (Asset.asset_id a = Asset.asset_id row)
                 then row else a) <$> l))
  = Some row.
Proof.
  induction l as [|x l IH].
  - intros H. by apply elem_of_nil in H.
  - intros H. rewrite !fmap_cons in *. rewrite filter_cons.
    destruct (decide (Asset.asset_id x = Asset.asset_id row)) as [Hx|Hx].
    + rewrite (bool_decide_eq_true_2 _ Hx). by rewrite decide_True.
    + rewrite (bool_decide_eq_false_2 _ Hx). rewrite decide_False by done. apply IH.
      apply elem_of_cons in H as [H|H]; [congruence|done].
Qed.

(** [update] of an id that is in the table. *)
Lemma sqlite_update_stored w now a :
  Asset.asset_id a ∈ asset_ids (db w) →
  update now a w
  = (add_log (INFO, "Updated asset " +:+ Asset.asset_id a)
       (set_db (mk_database
                  ((λ x, if bool_decide (Asset.asset_id x = Asset.asset_id a)
                         then _asset_to_row (Asset.set_updated_at now a) else x)
                     <$> assets (db w))
                  (filter (λ row, row.1.1 ≠ Asset.asset_id a) (asset_tags (db w))
                   ++ tag_rows a)%list
                  (relationships (db w))) w),
     Ok (Asset.set_updated_at now a)).
Proof.
  intros Hid.
  unfold update, try_except, get_connection, select_asset_exists, update_asset,
    delete_asset_tags, insert_tags, logger. mrun.
  rewrite (bool_decide_eq_true_2 _ Hid). mrun.
  cbn [Asset.asset_id Asset.tags Asset.set_updated_at _asset_to_row Asset.set_relationships].
  rewrite insert_tags_rows.
  - reflexivity.
  - apply NoDup_fst_map_to_list.
  - intros kv _. cbn. intros ([[i k] v] & [= <- _] & Hrow)%list_elem_of_fmap.
    by apply list_elem_of_filter in Hrow as [Hne _].
  - left. cbn. unfold asset_ids. cbn.
    rewrite (update_asset_ids (_asset_to_row (Asset.set_updated_at now a))). exact Hid.
Qed.

End SQLiteUpdateFacts.

(** X19.  [update] of an id that is in the table returns the asset stamped
    with the clock reading, replaces its row and its tag rows, leaves every
    other row and the relationships alone and keeps the schema's constraints;
    [find_by_id] then returns the new version. *)
Theorem sqlite_update_replaces_row_and_tags (w : SQLite.t) (now : Z) (a : Asset.t) :
  Predicates.integrity (SQLite.db w) →
  Asset.asset_id a ∈ SQLite.asset_ids (SQLite.db w) →
  Asset.asset_id a ≠ "" →
  Asset.validate a = Ok true →
  ∃ w',
    SQLiteAssetRepository.update now a w = (w', Ok (Asset.set_updated_at now a))
    ∧ Predicates.integrity (SQLite.db w')
    ∧ SQLite.asset_ids (SQLite.db w') = SQLite.asset_ids (SQLite.db w)
    ∧ (∀ row, row ∈ SQLite.asset_tags (SQLite.db w')
              ↔ (row.1.1 ≠ Asset.asset_id a ∧ row ∈ SQLite.asset_tags (SQLite.db w))
                ∨ row ∈ Predicates.tag_rows a)
    ∧ SQLite.relationships (SQLite.db w') = SQLite.relationships (SQLite.db w)
    ∧ SQLiteAssetRepository.find_by_id (Asset.asset_id a) w'
      = (w', Ok (Some (Asset.set_relationships [] (Asset.set_updated_at now a)))).
Proof.
  intros (Hids & Hkeys & Htags & Hrels) Hid Hne Hv.
  eexists. split; [by apply SQLiteUpdateFacts.sqlite_update_stored|].
  cbn [SQLite.db SQLite.add_log SQLite.set_db SQLite.assets SQLite.asset_tags
         SQLite.relationships].
  assert (Hsame : SQLite.asset_ids
                    (SQLite.mk_database
                       ((λ x, if bool_decide (Asset.asset_id x = Asset.asset_id a)
                              then SQLiteAssetRepository._asset_to_row
                                     (Asset.set_updated_at now a) else x)
                          <$> SQLite.assets (SQLite.db w))
                       (filter (λ row, row.1.1 ≠ Asset.asset_id a)
                               (SQLite.asset_tags (SQLite.db w)) ++ Predicates.tag_rows a)%list
                       (SQLite.relationships (SQLite.db w)))
                  = SQLite.asset_ids (SQLite.db w)).
  { unfold SQLite.asset_ids. cbn [SQLite.assets].
    apply (SQLiteUpdateFacts.update_asset_ids
             (SQLiteAssetRepository._asset_to_row (Asset.set_updated_at now a))). }
  split; [|split; [exact Hsame|split; [|split; [done|]]]].
  - unfold Predicates.integrity. rewrite Hsame. cbn [SQLite.asset_tags SQLite.relationships].
    split; [exact Hids|]. split; [|split; [|exact Hrels]].
    + rewrite fmap_app. apply list.NoDup_app.
      split; [by apply SQLiteDeleteFacts.NoDup_fmap_filter|].
      split; [|apply SQLiteStoreFacts.tag_rows_keys_NoDup].
      intros [i k] Hold Hnew.
      apply list_elem_of_fmap in Hnew as (row & Heq & Hrow).
      apply SQLiteStoreFacts.tag_rows_ids in Hrow. rewrite <- Heq in Hrow. cbn in Hrow.
      apply list_elem_of_fmap in Hold as ([[i' k'] v'] & [= -> ->] & Hold).
      apply list_elem_of_filter in Hold as [Hne' _]. cbn in Hne'. congruence.
    + intros row. rewrite elem_of_app, list_elem_of_filter. intros [[_ Hrow]|Hrow].
      * by apply Htags.
      * apply SQLiteStoreFacts.tag_rows_ids in Hrow. by rewrite Hrow.
  - intros row. rewrite elem_of_app, list_elem_of_filter. tauto.
  - apply (SQLiteStoreFacts.find_by_id_row _
             (SQLiteAssetRepository._asset_to_row (Asset.set_updated_at now a))).
    + cbn [SQLite.db SQLite.add_log SQLite.set_db SQLite.assets].
      apply (SQLiteUpdateFacts.update_asset_first
               (SQLiteAssetRepository._asset_to_row (Asset.set_updated_at now a))).
      exact Hid.
    + by apply SQLiteStoreFacts.row_to_asset_valid.
Qed.


Module PragmaFacts.
Import SQLite Predicates.

Lemma filter_none {A} (P : A → Prop) `{∀ x, Decision (P x)} (l : list A) :
  (∀ x, x ∈ l → ¬ P x) → filter P l = [].
Proof.
  induction l as [|x l IH]; intros Hl; [done|].
  rewrite filter_cons_False by (apply Hl; left).
  apply IH. intros y Hy. apply Hl. by right.
Qed.

Lemma unset_foreign_keys w : foreign_keys_unset w → foreign_keys w = false.
Proof.
  intros Hw. unfold foreign_keys.
  rewrite filter_none; [done|].
  intros kv Hkv. specialize (Hw kv Hkv).
  assert (Hall : Forall (λ kv : string * string, lower kv.1 ≠ "foreign_keys") other_pragmas).
  { apply (bool_decide_unpack _). vm_compute. exact I. }
  rewrite list.Forall_forall in Hall. by apply Hall.
Qed.

End PragmaFacts.

(** X20.  On a connection made with pragmas that say nothing on foreign
    keys, so that the engine does not enforce them, [delete] leaves the tag
    rows of the deleted asset in [asset_tags], and a later [save] of an
    asset of the same id that has a tag of one of those keys raises
    [RepositoryError] for the primary key of [asset_tags], storing nothing. *)
Theorem sqlite_delete_without_foreign_keys_keeps_tag_rows
    (w : SQLite.t) (id k v : string) (a' : Asset.t) :
  Predicates.foreign_keys_unset w →
  id ∈ SQLite.asset_ids (SQLite.db w) →
  (id, k, v) ∈ SQLite.asset_tags (SQLite.db w) →
  Asset.asset_id a' = id →
  is_Some (Asset.tags a' !! k) →
  ∃ w1 w2,
    SQLiteAssetRepository.delete id w = (w1, Ok true)
    ∧ (id ∉ SQLite.asset_ids (SQLite.db w1))
    ∧ SQLite.asset_tags (SQLite.db w1) = SQLite.asset_tags (SQLite.db w)
    ∧ SQLiteAssetRepository.save a' w1
      = (w2, Raise (Exn RepositoryError
                      ("Failed to save asset: "
                       +:+ "UNIQUE constraint failed: asset_tags.asset_id, asset_tags.tag_key")))
    ∧ SQLite.db w2 = SQLite.db w1.
Proof.
  intros Hunset Hid Hrow Hid' [v' Hk].
  assert (Hfk := PragmaFacts.unset_foreign_keys w Hunset).
  rewrite SQLiteDeleteFacts.delete_run. cbn zeta. rewrite Hfk.
  rewrite bool_decide_eq_true_2.
  2:{ apply SQLiteDeleteFacts.length_filter_pos.
      apply list_elem_of_fmap in Hid as (x & -> & Hx). exists x. split; [done|].
      by apply list_elem_of_singleton. }
  set (w1 := SQLite.add_log _ _).
  assert (Hgone : id ∉ SQLite.asset_ids (SQLite.db w1)).
  { unfold w1, SQLite.asset_ids. cbn. rewrite SQLiteDeleteFacts.kept_ids. tauto. }
  assert (Hoff : ∀ l, SQLite.foreign_keys (SQLite.mk (SQLite.pragmas w) (SQLite.db w1) l)
                      = false).
  { intros l. exact Hfk. }
  destruct (SQLiteFacts.insert_tags_taken id (map_to_list (Asset.tags a'))
              (SQLite.set_db
                 (SQLite.mk_database
                    (SQLite.assets (SQLite.db w1) ++ [SQLiteAssetRepository._asset_to_row a'])%list
                    (SQLite.asset_tags (SQLite.db w1)) (SQLite.relationships (SQLite.db w1)))
                 w1)) as (w2 & Hloop).
  { exact Hfk. }
  { exists (k, v'). split; [by apply elem_of_map_to_list|].
    cbn. apply list_elem_of_fmap. exists (id, k, v). done. }
  exists w1. eexists. split; [reflexivity|]. split; [exact Hgone|]. split; [done|].
  split.
  - unfold SQLiteAssetRepository.save, try_except, SQLite.get_connection,
      SQLite.select_asset_exists, SQLite.insert_asset, SQLite.select_asset_exists,
      SQLiteAssetRepository.insert_tags. mrun. rewrite Hid'.
    rewrite (bool_decide_eq_false_2 _ Hgone). mrun.
    change (Asset.asset_id (SQLiteAssetRepository._asset_to_row a')) with (Asset.asset_id a').
    rewrite Hid'. rewrite (bool_decide_eq_false_2 _ Hgone). mrun.
    rewrite Hloop. unfold SQLiteAssetRepository.except_sqlite3, SQLite.logger.
    cbn [isinstance issubclass exn_cls base_class]. mrun. reflexivity.
  - reflexivity.
Qed.

Lemma sqlite_delete_without_foreign_keys_keeps_tag_rows_witness :
  let w := WithoutForeignKeys.store in
  let a' := Sample.asset "a1" "storage" "aws" [("env", "dev")] in
  Predicates.foreign_keys_unset w
  ∧ "a1" ∈ SQLite.asset_ids (SQLite.db w)
  ∧ ("a1", "env", "prod") ∈ SQLite.asset_tags (SQLite.db w)
  ∧ Asset.asset_id a' = "a1"
  ∧ is_Some (Asset.tags a' !! "env")
  ∧ ∃ w1 w2,
      SQLiteAssetRepository.delete "a1" w = (w1, Ok true)
      ∧ ("a1" ∉ SQLite.asset_ids (SQLite.db w1))
      ∧ SQLite.asset_tags (SQLite.db w1) = SQLite.asset_tags (SQLite.db w)
      ∧ SQLiteAssetRepository.save a' w1
        = (w2, Raise (Exn RepositoryError
                        ("Failed to save asset: "
                         +:+ "UNIQUE constraint failed: asset_tags.asset_id, asset_tags.tag_key")))
      ∧ SQLite.db w2 = SQLite.db w1.
Proof.
  intros w a'.
  assert (H1 : Predicates.foreign_keys_unset w).
  { unfold Predicates.foreign_keys_unset. rewrite <- list.Forall_forall.
    apply (bool_decide_unpack _). vm_compute. exact I. }
  assert (H2 : "a1" ∈ SQLite.asset_ids (SQLite.db w))
    by (apply (bool_decide_unpack _); vm_compute; exact I).
  assert (H3 : ("a1", "env", "prod") ∈ SQLite.asset_tags (SQLite.db w))
    by (apply (bool_decide_unpack _); vm_compute; exact I).
  assert (H4 : Asset.asset_id a' = "a1") by reflexivity.
  assert (H5 : is_Some (Asset.tags a' !! "env")) by (vm_compute; eexists; reflexivity).
  split; [exact H1|]. split; [exact H2|]. split; [exact H3|]. split; [exact H4|].
  split; [exact H5|].
  exact (sqlite_delete_without_foreign_keys_keeps_tag_rows w "a1" "env" "prod" a'
           H1 H2 H3 H4 H5).
Defined.

Module SQLiteRollbackFacts.
Import SQLite SQLiteAssetRepository Predicates.

(** A method of the shape [try: with get_connection(): body; except
    sqlite3.Error: log and wrap] leaves the database as it was whenever it
    raises. *)
Lemma guarded_rolls_back {A} (body : M SQLite.t A) what wrapped w e :
  (try_except (get_connection body) (except_sqlite3 what wrapped) w).2 = Raise e →
  db (try_except (get_connection body) (except_sqlite3 what wrapped) w).1 = db w.
Proof.
  unfold try_except.
  pose proof (SQLiteAssetRepositoryFacts.get_connection_rolls_back body w) as Hrb.
  destruct (get_connection body w) as [w' [a|e']]; [discriminate|].
  intros _. specialize (Hrb e' eq_refl). cbn in Hrb.
  unfold except_sqlite3. destruct (isinstance e' Sqlite3Error); [|exact Hrb].
  unfold logger. mrun. cbn. exact Hrb.
Qed.

Lemma sample_integrity : integrity (db GraphStatistics.database).
Proof.
  unfold integrity. split; [|split; [|split]].
  - apply (bool_decide_unpack _). vm_compute. exact I.
  - apply (bool_decide_unpack _). vm_compute. exact I.
  - apply list.Forall_forall. apply (bool_decide_unpack _). vm_compute. exact I.
  - apply list.Forall_forall. apply (bool_decide_unpack _). vm_compute. exact I.
Qed.

Lemma empty_integrity pragmas : integrity (db (init pragmas)).
Proof.
  unfold integrity. cbn. split; [constructor|]. split; [constructor|].
  split; intros x Hx; by apply elem_of_nil in Hx.
Qed.

End SQLiteRollbackFacts.

(** X21.  Every method of the SQLite asset repository that writes leaves the
    database exactly as it was when it raises: the connection rolls back
    whatever the method had done. *)
Theorem sqlite_writes_roll_back_on_failure
    (w : SQLite.t) (now : Z) (a : Asset.t) (assets : list Asset.t)
    (id : string) (ids : list string) (e : exn) :
  ((SQLiteAssetRepository.save a w).2 = Raise e →
   SQLite.db (SQLiteAssetRepository.save a w).1 = SQLite.db w)
  ∧ ((SQLiteAssetRepository.save_batch assets w).2 = Raise e →
     SQLite.db (SQLiteAssetRepository.save_batch assets w).1 = SQLite.db w)
  ∧ ((SQLiteAssetRepository.update now a w).2 = Raise e →
     SQLite.db (SQLiteAssetRepository.update now a w).1 = SQLite.db w)
  ∧ ((SQLiteAssetRepository.delete id w).2 = Raise e →
     SQLite.db (SQLiteAssetRepository.delete id w).1 = SQLite.db w)
  ∧ ((SQLiteAssetRepository.delete_batch ids w).2 = Raise e →
     SQLite.db (SQLiteAssetRepository.delete_batch ids w).1 = SQLite.db w).
Proof.
  repeat split; apply SQLiteRollbackFacts.guarded_rolls_back.
Qed.

Lemma sqlite_writes_roll_back_on_failure_witness :
  let w := GraphStatistics.database in
  let a := Sample.asset "a1" "compute" "aws" [] in
  let e := Exn DuplicateAssetError "Asset a1 already exists" in
  (SQLiteAssetRepository.save a w).2 = Raise e
  ∧ SQLite.db (SQLiteAssetRepository.save a w).1 = SQLite.db w.
Proof.
  intros w a e.
  assert (H : (SQLiteAssetRepository.save a w).2 = Raise e) by (vm_compute; reflexivity).
  split; [exact H|].
  exact (proj1 (sqlite_writes_roll_back_on_failure w 0 a [] "" [] e) H).
Defined.

(** The theorems above at the stores of the examples. *)

Lemma sqlite_save_of_new_asset_inserts_its_rows_witness :
  let w := SQLite.init None in
  let a := Inventory.a2 in
  Predicates.integrity (SQLite.db w)
  ∧ (Asset.asset_id a ∉ SQLite.asset_ids (SQLite.db w))
  ∧ Asset.asset_id a ≠ ""
  ∧ Asset.validate a = Ok true
  ∧ ∃ w',
      SQLiteAssetRepository.save a w = (w', Ok a)
      ∧ SQLite.assets (SQLite.db w')
        = (SQLite.assets (SQLite.db w) ++ [Asset.set_relationships [] a])%list
      ∧ SQLite.asset_tags (SQLite.db w')
        = (SQLite.asset_tags (SQLite.db w) ++ Predicates.tag_rows a)%list
      ∧ SQLite.relationships (SQLite.db w') = SQLite.relationships (SQLite.db w)
      ∧ Predicates.integrity (SQLite.db w')
      ∧ SQLiteAssetRepository.find_by_id (Asset.asset_id a) w'
        = (w', Ok (Some (Asset.set_relationships [] a))).
Proof.
  intros w a.
  assert (H1 : Predicates.integrity (SQLite.db w))
    by apply SQLiteRollbackFacts.empty_integrity.
  assert (H2 : Asset.asset_id a ∉ SQLite.asset_ids (SQLite.db w)) by apply not_elem_of_nil.
  assert (H3 : Asset.asset_id a ≠ "") by discriminate.
  assert (H4 : Asset.validate a = Ok true) by (vm_compute; reflexivity).
  split; [exact H1|]. split; [exact H2|]. split; [exact H3|]. split; [exact H4|].
  exact (sqlite_save_of_new_asset_inserts_its_rows w a H1 H2 H3 H4).
Defined.

Lemma sqlite_delete_cascades_witness :
  let w := GraphStatistics.database in
  let id := "a1" in
  SQLite.foreign_keys w = true
  ∧ Predicates.integrity (SQLite.db w)
  ∧ ∃ w',
      SQLiteAssetRepository.delete id w
      = (w', Ok (bool_decide (id ∈ SQLite.asset_ids (SQLite.db w))))
      ∧ Predicates.integrity (SQLite.db w')
      ∧ (∀ x, x ∈ SQLite.asset_ids (SQLite.db w')
              ↔ x ≠ id ∧ x ∈ SQLite.asset_ids (SQLite.db w))
      ∧ (∀ row, row ∈ SQLite.asset_tags (SQLite.db w')
                ↔ row.1.1 ≠ id ∧ row ∈ SQLite.asset_tags (SQLite.db w))
      ∧ (∀ rel, rel ∈ SQLite.relationships (SQLite.db w')
                ↔ Relationship.source_id rel ≠ id ∧ Relationship.target_id rel ≠ id
                  ∧ rel ∈ SQLite.relationships (SQLite.db w)).
Proof.
  intros w id.
  assert (H1 : SQLite.foreign_keys w = true) by (vm_compute; reflexivity).
  split; [exact H1|]. split; [exact SQLiteRollbackFacts.sample_integrity|].
  exact (sqlite_delete_cascades w id H1 SQLiteRollbackFacts.sample_integrity).
Defined.

Lemma sqlite_update_replaces_row_and_tags_witness :
  let w := GraphStatistics.database in
  let a := Inventory.a1' in
  Predicates.integrity (SQLite.db w)
  ∧ Asset.asset_id a ∈ SQLite.asset_ids (SQLite.db w)
  ∧ Asset.asset_id a ≠ ""
  ∧ Asset.validate a = Ok true
  ∧ ∃ w',
      SQLiteAssetRepository.update 7 a w = (w', Ok (Asset.set_updated_at 7 a))
      ∧ Predicates.integrity (SQLite.db w')
      ∧ SQLite.asset_ids (SQLite.db w') = SQLite.asset_ids (SQLite.db w)
      ∧ (∀ row, row ∈ SQLite.asset_tags (SQLite.db w')
                ↔ (row.1.1 ≠ Asset.asset_id a ∧ row ∈ SQLite.asset_tags (SQLite.db w))
                  ∨ row ∈ Predicates.tag_rows a)
      ∧ SQLite.relationships (SQLite.db w') = SQLite.relationships (SQLite.db w)
      ∧ SQLiteAssetRepository.find_by_id (Asset.asset_id a) w'
        = (w', Ok (Some (Asset.set_relationships [] (Asset.set_updated_at 7 a)))).
Proof.
  intros w a.
  assert (H2 : Asset.asset_id a ∈ SQLite.asset_ids (SQLite.db w))
    by (apply (bool_decide_unpack _); vm_compute; exact I).
  assert (H3 : Asset.asset_id a ≠ "") by discriminate.
  assert (H4 : Asset.validate a = Ok true) by (vm_compute; reflexivity).
  split; [exact SQLiteRollbackFacts.sample_integrity|].
  split; [exact H2|]. split; [exact H3|]. split; [exact H4|].
  exact (sqlite_update_replaces_row_and_tags w 7 a
           SQLiteRollbackFacts.sample_integrity H2 H3 H4).
Defined.

Lemma sqlite_save_batch_of_duplicates_returns_nothing_witness :
  let w := GraphStatistics.database in
  let assets := [Inventory.a1; Inventory.a2] in
  Forall (λ a, Asset.asset_id a ∈ SQLite.asset_ids (SQLite.db w)) assets
  ∧ SQLiteAssetRepository.save_batch assets w
    = (SQLite.mk (SQLite.pragmas w) (SQLite.db w)
         (SQLite.log w ++ Predicates.skipped assets)%list, Ok []).
Proof.
  intros w assets.
  assert (H : Forall (λ a, Asset.asset_id a ∈ SQLite.asset_ids (SQLite.db w)) assets)
    by (apply (bool_decide_unpack _); vm_compute; exact I).
  split; [exact H|]. exact (sqlite_save_batch_of_duplicates_returns_nothing w assets H).
Defined.

(** X22.  On a graph store whose server answers and already holds a node of
    the id, [save] never raises [DuplicateAssetError]: the error raised inside
    is caught by the method's [except Exception]. Without a fallback store it
    leaves as a plain [RepositoryError]; with one, the asset is handed to the
    fallback store's [save], whose result (for a store that does not hold the
    id, the asset as saved) is what the caller gets. *)
Theorem memgraph_save_of_duplicate_is_diverted_to_the_fallback
    {G : Type}
    (session_run : MemgraphAssetRepository.query → G → G * result MemgraphAssetRepository.answer)
    (a : Asset.t) (r : MemgraphAssetRepository.t G) (g' : G)
    (node : Asset.t) (nodes : list Asset.t) :
  MemgraphAssetRepository._available r = true →
  session_run (MemgraphAssetRepository.MatchAsset (Asset.asset_id a))
              (MemgraphAssetRepository.server r)
  = (g', Ok (MemgraphAssetRepository.Nodes (node :: nodes))) →
  (MemgraphAssetRepository.fallback_repository r = None →
   (MemgraphAssetRepository.save session_run a r).2
   = Raise (Exn RepositoryError
              ("Failed to save asset: "
               +:+ ("Asset " +:+ Asset.asset_id a +:+ " already exists"))))
  ∧ (∀ f, MemgraphAssetRepository.fallback_repository r = Some f →
          (MemgraphAssetRepository.save session_run a r).2
          = (FileBasedAssetRepository.save a f).2
          ∧ MemgraphAssetRepository.fallback_repository
              (MemgraphAssetRepository.save session_run a r).1
            = Some (FileBasedAssetRepository.save a f).1
          ∧ MemgraphAssetRepository.server
              (MemgraphAssetRepository.save session_run a r).1 = g').
Proof.
  intros Hav Hrun.
  assert (Hnofb : MemgraphAssetRepository._use_fallback r = false).
  { unfold MemgraphAssetRepository._use_fallback. by rewrite Hav. }
  split.
  - intros Hnone.
    unfold MemgraphAssetRepository.save, MemgraphAssetRepository.with_fallback.
    rewrite Hnofb. unfold try_except, MemgraphAssetRepository.run,
      MemgraphAssetRepository.logger. mrun. rewrite Hrun. mrun. cbn. mrun. cbn.
    rewrite Hnone. rewrite bool_decide_eq_false_2 by apply is_Some_None. reflexivity.
  - intros f Hf.
    unfold MemgraphAssetRepository.save, MemgraphAssetRepository.with_fallback.
    rewrite Hnofb. unfold try_except, MemgraphAssetRepository.run,
      MemgraphAssetRepository.logger, MemgraphAssetRepository.on_fallback. mrun.
    rewrite Hrun. mrun. cbn. mrun. cbn.
    rewrite Hf. rewrite bool_decide_eq_true_2 by eauto. mrun. cbn. rewrite Hf.
    destruct (FileBasedAssetRepository.save a f) as [f' res]. done.
Qed.

Lemma memgraph_save_of_duplicate_is_diverted_to_the_fallback_witness :
  let session_run (q : MemgraphAssetRepository.query) (g : unit) :=
    (g, Ok (MemgraphAssetRepository.Nodes [Inventory.a1])) in
  let r := MemgraphAssetRepository.mk "bolt://localhost:7687" tt true
             (Some Sample.fresh_store) [] in
  let a := Inventory.a1 in
  MemgraphAssetRepository._available r = true
  ∧ session_run (MemgraphAssetRepository.MatchAsset (Asset.asset_id a))
                (MemgraphAssetRepository.server r)
    = (tt, Ok (MemgraphAssetRepository.Nodes (Inventory.a1 :: [])))
  ∧ (MemgraphAssetRepository.fallback_repository r = None →
     (MemgraphAssetRepository.save session_run a r).2
     = Raise (Exn RepositoryError
                ("Failed to save asset: "
                 +:+ ("Asset " +:+ Asset.asset_id a +:+ " already exists"))))
  ∧ (∀ f, MemgraphAssetRepository.fallback_repository r = Some f →
          (MemgraphAssetRepository.save session_run a r).2
          = (FileBasedAssetRepository.save a f).2
          ∧ MemgraphAssetRepository.fallback_repository
              (MemgraphAssetRepository.save session_run a r).1
            = Some (FileBasedAssetRepository.save a f).1
          ∧ MemgraphAssetRepository.server
              (MemgraphAssetRepository.save session_run a r).1 = tt).
Proof.
  intros session_run r a.
  assert (H1 : MemgraphAssetRepository._available r = true) by reflexivity.
  assert (H2 : session_run (MemgraphAssetRepository.MatchAsset (Asset.asset_id a))
                 (MemgraphAssetRepository.server r)
               = (tt, Ok (MemgraphAssetRepository.Nodes (Inventory.a1 :: []))))
    by reflexivity.
  split; [exact H1|]. split; [exact H2|].
  exact (memgraph_save_of_duplicate_is_diverted_to_the_fallback
           session_run a r tt Inventory.a1 [] H1 H2).
Defined.

Module MemgraphEdgeFacts.
Import MemgraphRelationshipRepository Predicates.

Lemma occurrences_1 (x : string) (l : list string) :
  NoDup l → x ∈ l → occurrences x l = 1%nat.
Proof.
  unfold occurrences. induction 1 as [|y l Hy Hnd IH]; intros Hx.
  - by apply elem_of_nil in Hx.
  - rewrite filter_cons. destruct (decide (y = x)) as [->|Hne].
    + cbn. f_equal. apply (MemgraphRelationshipRepositoryFacts.occurrences_0 x l Hy).
    + apply IH. apply elem_of_cons in Hx as [->|Hx]; done.
Qed.

End MemgraphEdgeFacts.

(** X23.  On an available graph store whose server answers, with node ids
    unique (the constraint of [_init_database]), [save] of a valid
    relationship whose two end nodes are in the graph, whose id is new and
    which duplicates no edge creates exactly one edge, and [find_by_id] then
    returns the relationship. *)
Theorem memgraph_save_with_both_endpoints_creates_one_edge
    (cs : MemgraphRelationshipRepository.graph → option Z * option Z)
    (r : MemgraphRelationshipRepository.t) (rel : Relationship.t) :
  MemgraphRelationshipRepository._available r = true →
  MemgraphRelationshipRepository.online (MemgraphRelationshipRepository.server r) = true →
  NoDup (MemgraphRelationshipRepository.node_ids (MemgraphRelationshipRepository.server r)) →
  Relationship.source_id rel
    ∈ MemgraphRelationshipRepository.node_ids (MemgraphRelationshipRepository.server r) →
  Relationship.target_id rel
    ∈ MemgraphRelationshipRepository.node_ids (MemgraphRelationshipRepository.server r) →
  (Relationship.relationship_id rel
     ∉ Relationship.relationship_id
         <$> MemgraphRelationshipRepository.edges (MemgraphRelationshipRepository.server r)) →
  (∀ e, e ∈ MemgraphRelationshipRepository.edges (MemgraphRelationshipRepository.server r) →
        ¬ (Relationship.source_id e = Relationship.source_id rel
           ∧ Relationship.target_id e = Relationship.target_id rel
           ∧ Relationship.relationship_type e = Relationship.relationship_type rel)) →
  Relationship.relationship_id rel ≠ "" →
  Relationship.validate rel = Ok true →
  ∃ r',
    MemgraphRelationshipRepository.save cs rel r = (r', Ok rel)
    ∧ MemgraphRelationshipRepository.edges (MemgraphRelationshipRepository.server r')
      = (MemgraphRelationshipRepository.edges (MemgraphRelationshipRepository.server r)
         ++ [rel])%list
    ∧ MemgraphRelationshipRepository.nodes (MemgraphRelationshipRepository.server r')
      = MemgraphRelationshipRepository.nodes (MemgraphRelationshipRepository.server r)
    ∧ MemgraphRelationshipRepository.find_by_id cs (Relationship.relationship_id rel) r'
      = (r', Ok (Some rel)).
Proof.
  intros Hav Hon Hnd Hsrc Htgt Hnew Hnodup Hne Hv.
  set (g := MemgraphRelationshipRepository.server r).
  set (g1 := MemgraphRelationshipRepository.mk_graph
               (MemgraphRelationshipRepository.online g)
               (MemgraphRelationshipRepository.nodes g)
               (MemgraphRelationshipRepository.edges g ++ [rel])%list).
  assert (Hmatch :
    MemgraphRelationshipRepository.execute cs
      (MemgraphRelationshipRepository.MatchEdge (Relationship.source_id rel)
         (Relationship.target_id rel) (Relationship.relationship_type rel)) g
    = (g, MemgraphRelationshipRepository.Edges [])).
  { cbn. f_equal. f_equal.
    apply MemgraphRelationshipRepositoryFacts.filter_nil_intro. exact Hnodup. }
  assert (Hcreate :
    MemgraphRelationshipRepository.execute cs
      (MemgraphRelationshipRepository.CreateEdge (Relationship.source_id rel)
         (Relationship.target_id rel)
         (MemgraphRelationshipRepository._relationship_to_edge rel)) g
    = (g1, MemgraphRelationshipRepository.Edges [])).
  { cbn. f_equal. unfold g.
    rewrite (MemgraphEdgeFacts.occurrences_1 _ _ Hnd Hsrc).
    rewrite (MemgraphEdgeFacts.occurrences_1 _ _ Hnd Htgt). reflexivity. }
  assert (Hbyid :
    MemgraphRelationshipRepository.execute cs
      (MemgraphRelationshipRepository.MatchEdgeById (Relationship.relationship_id rel)) g1
    = (g1, MemgraphRelationshipRepository.Edges [rel])).
  { cbn. f_equal. f_equal. rewrite list.filter_app.
    rewrite (MemgraphRelationshipRepositoryFacts.filter_nil_intro _
               (MemgraphRelationshipRepository.edges g)).
    - rewrite app_nil_l, filter_cons. by rewrite decide_True.
    - intros e He Hid. apply Hnew. rewrite <- Hid. apply list_elem_of_fmap. eauto. }
  exists (MemgraphRelationshipRepository.add_log
            (INFO, "Saved relationship " +:+ Relationship.relationship_id rel)
            (MemgraphRelationshipRepository.set_server g1 r)).
  split; [|split; [reflexivity|split; [reflexivity|]]].
  - unfold MemgraphRelationshipRepository.save, MemgraphRelationshipRepository.with_fallback,
      MemgraphRelationshipRepository._use_fallback.
    rewrite Hav. cbn [negb andb]. unfold try_except. mrun.
    rewrite MemgraphRelationshipRepositoryFacts.run_online by exact Hon.
    fold g. rewrite Hmatch.
    cbn [fst snd MemgraphRelationshipRepository.edges_of]. mrun.
    rewrite bool_decide_eq_true_2 by reflexivity. mrun.
    rewrite MemgraphRelationshipRepositoryFacts.run_online by (destruct r; exact Hon).
    replace (MemgraphRelationshipRepository.server
               (MemgraphRelationshipRepository.set_server g r))
      with g by (by destruct r).
    rewrite Hcreate. unfold MemgraphRelationshipRepository.logger. mrun.
    destruct r; reflexivity.
  - unfold MemgraphRelationshipRepository.find_by_id,
      MemgraphRelationshipRepository.with_fallback,
      MemgraphRelationshipRepository._use_fallback.
    cbn [MemgraphRelationshipRepository.add_log MemgraphRelationshipRepository._available
           MemgraphRelationshipRepository.set_server].
    rewrite Hav. cbn [negb andb]. unfold try_except. mrun.
    rewrite MemgraphRelationshipRepositoryFacts.run_online by exact Hon.
    cbn [MemgraphRelationshipRepository.add_log MemgraphRelationshipRepository.server
           MemgraphRelationshipRepository.set_server].
    rewrite Hbyid.
    cbn [fst snd MemgraphRelationshipRepository.edges_of]. mrun.
    unfold MemgraphRelationshipRepository._edge_to_relationship. rewrite Hv. reflexivity.
Qed.

Lemma memgraph_save_with_both_endpoints_creates_one_edge_witness :
  let cs := GraphStatistics.no_components in
  let r := GraphStatistics.graph_store in
  let rel := Sample.relationship "rel-2" "a2" "a3" "uses" in
  MemgraphRelationshipRepository._available r = true
  ∧ MemgraphRelationshipRepository.online (MemgraphRelationshipRepository.server r) = true
  ∧ NoDup (MemgraphRelationshipRepository.node_ids (MemgraphRelationshipRepository.server r))
  ∧ Relationship.source_id rel
      ∈ MemgraphRelationshipRepository.node_ids (MemgraphRelationshipRepository.server r)
  ∧ Relationship.target_id rel
      ∈ MemgraphRelationshipRepository.node_ids (MemgraphRelationshipRepository.server r)
  ∧ (Relationship.relationship_id rel
       ∉ Relationship.relationship_id
           <$> MemgraphRelationshipRepository.edges (MemgraphRelationshipRepository.server r))
  ∧ (∀ e, e ∈ MemgraphRelationshipRepository.edges (MemgraphRelationshipRepository.server r) →
          ¬ (Relationship.source_id e = Relationship.source_id rel
             ∧ Relationship.target_id e = Relationship.target_id rel
             ∧ Relationship.relationship_type e = Relationship.relationship_type rel))
  ∧ Relationship.relationship_id rel ≠ ""
  ∧ Relationship.validate rel = Ok true
  ∧ ∃ r',
      MemgraphRelationshipRepository.save cs rel r = (r', Ok rel)
      ∧ MemgraphRelationshipRepository.edges (MemgraphRelationshipRepository.server r')
        = (MemgraphRelationshipRepository.edges (MemgraphRelationshipRepository.server r)
           ++ [rel])%list
      ∧ MemgraphRelationshipRepository.nodes (MemgraphRelationshipRepository.server r')
        = MemgraphRelationshipRepository.nodes (MemgraphRelationshipRepository.server r)
      ∧ MemgraphRelationshipRepository.find_by_id cs (Relationship.relationship_id rel) r'
        = (r', Ok (Some rel)).
Proof.
  intros cs r rel.
  assert (H1 : MemgraphRelationshipRepository._available r = true) by reflexivity.
  assert (H2 : MemgraphRelationshipRepository.online
                 (MemgraphRelationshipRepository.server r) = true) by reflexivity.
  assert (H3 : NoDup (MemgraphRelationshipRepository.node_ids
                        (MemgraphRelationshipRepository.server r)))
    by (apply (bool_decide_unpack _); vm_compute; exact I).
  assert (H4 : Relationship.source_id rel
                 ∈ MemgraphRelationshipRepository.node_ids
                     (MemgraphRelationshipRepository.server r))
    by (apply (bool_decide_unpack _); vm_compute; exact I).
  assert (H5 : Relationship.target_id rel
                 ∈ MemgraphRelationshipRepository.node_ids
                     (MemgraphRelationshipRepository.server r))
    by (apply (bool_decide_unpack _); vm_compute; exact I).
  assert (H6 : Relationship.relationship_id rel
                 ∉ Relationship.relationship_id
                     <$> MemgraphRelationshipRepository.edges
                           (MemgraphRelationshipRepository.server r))
    by (apply (bool_decide_eq_false_1 _); vm_compute; reflexivity).
  assert (H7 : ∀ e, e ∈ MemgraphRelationshipRepository.edges
                          (MemgraphRelationshipRepository.server r) →
          ¬ (Relationship.source_id e = Relationship.source_id rel
             ∧ Relationship.target_id e = Relationship.target_id rel
             ∧ Relationship.relationship_type e = Relationship.relationship_type rel)).
  { apply list.Forall_forall. apply (bool_decide_unpack _). vm_compute. exact I. }
  assert (H8 : Relationship.relationship_id rel ≠ "") by discriminate.
  assert (H9 : Relationship.validate rel = Ok true) by (vm_compute; reflexivity).
  split; [exact H1|]. split; [exact H2|]. split; [exact H3|]. split; [exact H4|].
  split; [exact H5|]. split; [exact H6|]. split; [exact H7|]. split; [exact H8|].
  split; [exact H9|].
  exact (memgraph_save_with_both_endpoints_creates_one_edge cs r rel
           H1 H2 H3 H4 H5 H6 H7 H8 H9).
Defined.

Module LinkStoreFacts.
Import FileBasedRelationshipRepository Predicates RefinementFacts.

Lemma rel_path_inj r id1 id2 :
  _get_relationship_path r id1 = _get_relationship_path r id2 → id1 = id2.
Proof.
  unfold _get_relationship_path. intros [= _ H]. by apply StringFacts.append_inj_l in H.
Qed.

Lemma links_lookup_none r rels id :
  represents_links r rels → rels !! id = None →
  files r !! _get_relationship_path r id = None.
Proof.
  intros Hrep Hnone. destruct (files r !! _) as [d|] eqn:Hf; [|done].
  destruct (links_files _ _ Hrep _ _ Hf) as (x & Hx & _ & Hp).
  apply rel_path_inj in Hp. subst. congruence.
Qed.

Lemma links_decode r rels id x :
  represents_links r rels → rels !! id = Some x →
  files r !! _get_relationship_path r id = Some (Relationship.to_dict x)
  ∧ Relationship.from_dict (Relationship.to_dict x) = Ok x.
Proof.
  intros Hrep Hx. split; [by apply (links_stored _ _ Hrep)|].
  destruct (links_entities _ _ Hrep id x Hx) as (_ & _ & Hv).
  unfold Relationship.from_dict. cbn. by rewrite Hv.
Qed.

Lemma find_by_id_links r rels id :
  represents_links r rels → find_by_id id r = (r, Ok (rels !! id)).
Proof.
  intros Hrep. unfold find_by_id, try_except, path_exists, _read_json. mrun.
  destruct (rels !! id) as [x|] eqn:Hx.
  - destruct (links_decode r rels id x Hrep Hx) as [Hd Hdec].
    rewrite Hd. rewrite bool_decide_eq_true_2 by eauto. mrun. rewrite Hd. mrun.
    rewrite Hdec. reflexivity.
  - rewrite (links_lookup_none r rels id Hrep Hx).
    rewrite bool_decide_eq_false_2 by apply is_Some_None. reflexivity.
Qed.

Lemma find_each_links r rels ids :
  represents_links r rels →
  ∀ acc, find_each ids acc r = (r, Ok (acc ++ omap (λ id, rels !! id) ids)%list).
Proof.
  intros Hrep. induction ids as [|id ids IH]; intros acc.
  - cbn. by rewrite app_nil_r.
  - cbn [find_each]. mrun. rewrite (find_by_id_links r rels id Hrep). cbn beta iota.
    rewrite IH. cbn [omap list_omap]. destruct (rels !! id) as [a|]; [|done].
    by rewrite <- app_assoc.
Qed.

(** The relationships found from a duplicate-free list of ids that lists
    exactly the ids of the stored relationships satisfying [Q]. *)
Lemma listed_links r rels ids (Q : Relationship.t → Prop) :
  represents_links r rels → NoDup ids →
  (∀ id, id ∈ ids ↔ ∃ x, rels !! id = Some x ∧ Q x) →
  NoDup (omap (λ id, rels !! id) ids)
  ∧ ∀ x, x ∈ omap (λ id, rels !! id) ids
         ↔ rels !! Relationship.relationship_id x = Some x ∧ Q x.
Proof.
  intros Hrep Hnd Hids. split.
  - clear Hids. induction Hnd as [|id ids Hid Hnd IH]; cbn; [constructor|].
    destruct (rels !! id) as [a|] eqn:Ha; [|exact IH].
    constructor; [|exact IH].
    rewrite list_elem_of_omap. intros (id' & Hin & Ha').
    destruct (links_entities _ _ Hrep _ _ Ha) as [<- _].
    destruct (links_entities _ _ Hrep _ _ Ha') as [<- _]. done.
  - intros a. rewrite list_elem_of_omap. split.
    + intros (id & Hin & Ha). destruct (links_entities _ _ Hrep _ _ Ha) as [<- _].
      split; [exact Ha|]. apply Hids in Hin as (a' & Ha' & HQ). congruence.
    + intros [Ha HQ]. exists (Relationship.relationship_id a). split; [|exact Ha].
      apply Hids. eauto.
Qed.

Lemma find_by_source_links r rels k :
  represents_links r rels →
  ∃ l, find_by_source k r = (r, Ok l)
       ∧ NoDup l
       ∧ ∀ x, x ∈ l ↔ rels !! Relationship.relationship_id x = Some x
                      ∧ Relationship.source_id x = k.
Proof.
  intros Hrep. eexists. split.
  - unfold find_by_source, try_except. mrun. rewrite (find_each_links r rels _ Hrep).
    reflexivity.
  - cbn [app]. apply (listed_links r rels _ (λ x, Relationship.source_id x = k) Hrep).
    + eapply QueryFacts.index_list_NoDup, (links_source _ _ Hrep).
    + intros id. apply (links_source _ _ Hrep).
Qed.

Lemma find_by_target_links r rels k :
  represents_links r rels →
  ∃ l, find_by_target k r = (r, Ok l)
       ∧ NoDup l
       ∧ ∀ x, x ∈ l ↔ rels !! Relationship.relationship_id x = Some x
                      ∧ Relationship.target_id x = k.
Proof.
  intros Hrep. eexists. split.
  - unfold find_by_target, try_except. mrun. rewrite (find_each_links r rels _ Hrep).
    reflexivity.
  - cbn [app]. apply (listed_links r rels _ (λ x, Relationship.target_id x = k) Hrep).
    + eapply QueryFacts.index_list_NoDup, (links_target _ _ Hrep).
    + intros id. apply (links_target _ _ Hrep).
Qed.

Lemma find_by_type_links r rels k :
  represents_links r rels →
  ∃ l, find_by_type k r = (r, Ok l)
       ∧ NoDup l
       ∧ ∀ x, x ∈ l ↔ rels !! Relationship.relationship_id x = Some x
                      ∧ Relationship.relationship_type x = k.
Proof.
  intros Hrep. eexists. split.
  - unfold find_by_type, try_except. mrun. rewrite (find_each_links r rels _ Hrep).
    reflexivity.
  - cbn [app]. apply (listed_links r rels _ (λ x, Relationship.relationship_type x = k) Hrep).
    + eapply QueryFacts.index_list_NoDup, (links_type _ _ Hrep).
    + intros id. apply (links_type _ _ Hrep).
Qed.

Lemma head_filter_None {A} (P : A → Prop) `{∀ x, Decision (P x)} (l : list A) :
  head (filter P l) = None ↔ ∀ x, x ∈ l → ¬ P x.
Proof.
  induction l as [|y l IH].
  - split; [|done]. intros _ x Hx. by apply elem_of_nil in Hx.
  - rewrite filter_cons. destruct (decide (P y)) as [Hy|Hy]; cbn.
    + split; [done|]. intros Hall. exfalso. apply (Hall y); [by left|done].
    + rewrite IH. split.
      * intros Hall x Hx. apply elem_of_cons in Hx as [->|Hx]; [done|by apply Hall].
      * intros Hall x Hx. apply Hall. by right.
Qed.

Lemma head_filter_Some {A} (P : A → Prop) `{∀ x, Decision (P x)} (l : list A) y :
  head (filter P l) = Some y → y ∈ l ∧ P y.
Proof.
  intros Hh. assert (y ∈ filter P l) as Hin.
  { destruct (filter P l) as [|z t]; [done|]. injection Hh as ->. by left. }
  by apply list_elem_of_filter in Hin as [? ?].
Qed.

(** [_find_exact_relationship] on a represented store. *)
Lemma find_exact_links r rels s t ty :
  represents_links r rels →
  ∃ found, _find_exact_relationship s t ty r = (r, Ok found)
    ∧ match found with
      | Some y => rels !! Relationship.relationship_id y = Some y
                  ∧ link_key y = (s, t, ty)
      | None => ∀ y, rels !! Relationship.relationship_id y = Some y →
                     link_key y ≠ (s, t, ty)
      end.
Proof.
  intros Hrep. destruct (find_by_source_links r rels s Hrep) as (l & Hrun & _ & Hmem).
  eexists. split.
  - unfold _find_exact_relationship. mrun. rewrite Hrun. mrun. reflexivity.
  - destruct (head _) as [y|] eqn:Hh.
    + apply head_filter_Some in Hh as [Hin [Ht Hty]]. apply Hmem in Hin as [Hy Hs].
      split; [exact Hy|]. unfold link_key. by rewrite Hs, Ht, Hty.
    + intros y Hy Hk. unfold link_key in Hk. injection Hk as Hs Ht Hty.
      rewrite head_filter_None in Hh. apply (Hh y); [|done]. apply Hmem. done.
Qed.

Lemma links_add_log r rels rec :
  represents_links r rels → represents_links (add_log rec r) rels.
Proof. intros []. by constructor. Qed.

(** [_update_index] with [remove] step by step. *)
Lemma update_index_remove rel r :
  _update_index rel true r =
    match index_remove (Relationship.source_id rel) (Relationship.relationship_id rel)
            (source_index r) with
    | Raise e => (r, Raise e)
    | Ok si =>
        match index_remove (Relationship.target_id rel) (Relationship.relationship_id rel)
                (target_index r) with
        | Raise e => (set_source_index si r, Raise e)
        | Ok ti =>
            match index_remove (Relationship.relationship_type rel)
                    (Relationship.relationship_id rel) (type_index r) with
            | Raise e => (set_target_index ti (set_source_index si r), Raise e)
            | Ok yi =>
                (set_type_index yi (set_target_index ti (set_source_index si r)), Ok tt)
            end
        end
    end.
Proof.
  unfold _update_index. mrun. cbn [index_update].
  destruct (index_remove (Relationship.source_id rel) _ _) as [si|e]; [|reflexivity].
  mrun. cbn [target_index set_source_index].
  destruct (index_remove (Relationship.target_id rel) _ _) as [ti|e]; [|reflexivity].
  mrun. cbn [type_index set_target_index set_source_index].
  destruct (index_remove (Relationship.relationship_type rel) _ _) as [yi|e]; reflexivity.
Qed.

(** The parts of [represents_links] that speak of the files, after a
    relationship is written under its id. *)
Lemma links_written r rels id x :
  represents_links r rels →
  Relationship.relationship_id x = id → id ≠ "" → Relationship.validate x = Ok true →
  (∀ id' y, <[id := x]> rels !! id' = Some y →
     Relationship.relationship_id y = id' ∧ id' ≠ "" ∧ Relationship.validate y = Ok true)
  ∧ (∀ p d, <[_get_relationship_path r id := Relationship.to_dict x]> (files r) !! p
            = Some d →
       ∃ y, <[id := x]> rels !! Relationship.relationship_id y = Some y
            ∧ d = Relationship.to_dict y
            ∧ p = _get_relationship_path r (Relationship.relationship_id y))
  ∧ (∀ id' y, <[id := x]> rels !! id' = Some y →
       <[_get_relationship_path r id := Relationship.to_dict x]> (files r)
         !! _get_relationship_path r id' = Some (Relationship.to_dict y)).
Proof.
  intros Hrep Hid Hne Hv. split; [|split].
  - intros id' y. destruct (decide (id' = id)) as [->|Hne'].
    + rewrite lookup_insert_eq. intros [= <-]. done.
    + rewrite lookup_insert_ne by done. apply (links_entities _ _ Hrep).
  - intros p d. destruct (decide (p = _get_relationship_path r id)) as [->|Hne'].
    + rewrite lookup_insert_eq. intros [= <-]. exists x. rewrite Hid.
      by rewrite lookup_insert_eq.
    + rewrite lookup_insert_ne by done. intros Hd.
      destruct (links_files _ _ Hrep _ _ Hd) as (y & Hy & -> & ->).
      exists y. split; [|done]. rewrite lookup_insert_ne; [exact Hy|].
      intros Heq. rewrite Heq in Hne'. done.
  - intros id' y. destruct (decide (id' = id)) as [->|Hne'].
    + rewrite !lookup_insert_eq. by intros [= <-].
    + rewrite lookup_insert_ne by done. intros Hy.
      rewrite lookup_insert_ne; [by apply (links_stored _ _ Hrep)|].
      intros Heq. apply rel_path_inj in Heq. done.
Qed.

(** [save] of a relationship whose id and whose link are new. *)
Lemma save_links r rels rel :
  represents_links r rels → rels !! Relationship.relationship_id rel = None →
  Relationship.relationship_id rel ≠ "" →
  Relationship.validate rel = Ok true →
  (∀ y, rels !! Relationship.relationship_id y = Some y → link_key y ≠ link_key rel) →
  ∃ r', save rel r = (r', Ok rel)
        ∧ represents_links r' (<[Relationship.relationship_id rel := rel]> rels).
Proof.
  intros Hrep Hnone Hne0 Hv Hnew.
  pose proof (links_lookup_none r rels _ Hrep Hnone) as Hfile.
  destruct (find_exact_links r rels (Relationship.source_id rel) (Relationship.target_id rel)
              (Relationship.relationship_type rel) Hrep) as (found & Hrun & Hfound).
  destruct found as [y|].
  { destruct Hfound as [Hy Hk]. exfalso. by apply (Hnew y Hy). }
  destruct (links_written r rels _ rel Hrep eq_refl Hne0 Hv) as (HE & HF & HS).
  eexists. split.
  - unfold save, try_except, path_exists, _write_json. mrun.
    rewrite Hfile. rewrite bool_decide_eq_false_2 by apply is_Some_None. mrun.
    rewrite Hrun. mrun.
    rewrite FileBasedRelationshipRepositoryFacts.update_index_add.
    unfold logger. mrun. reflexivity.
  - constructor; cbn [files source_index target_index type_index add_log set_type_index
                        set_target_index set_source_index set_files].
    + exact HE.
    + exact HF.
    + exact HS.
    + eapply IndexFacts.index_lists_iff;
        [|exact (IndexFacts.index_add_lists _ _ (Relationship.source_id rel)
                   (Relationship.relationship_id rel) (links_source _ _ Hrep))].
      intros k id'. cbn beta.
      rewrite (listed_insert rels _ _ (λ a' k, Relationship.source_id a' = k)) by done.
      cbn. intuition congruence.
    + eapply IndexFacts.index_lists_iff;
        [|exact (IndexFacts.index_add_lists _ _ (Relationship.target_id rel)
                   (Relationship.relationship_id rel) (links_target _ _ Hrep))].
      intros k id'. cbn beta.
      rewrite (listed_insert rels _ _ (λ a' k, Relationship.target_id a' = k)) by done.
      cbn. intuition congruence.
    + eapply IndexFacts.index_lists_iff;
        [|exact (IndexFacts.index_add_lists _ _ (Relationship.relationship_type rel)
                   (Relationship.relationship_id rel) (links_type _ _ Hrep))].
      intros k id'. cbn beta.
      rewrite (listed_insert rels _ _ (λ a' k, Relationship.relationship_type a' = k)) by done.
      cbn. intuition congruence.
Qed.

(** [save] of a stored id, or of a stored link: only the log changes. *)
Lemma save_rejected r rels rel :
  represents_links r rels → known_link rels rel →
  ∃ msg, save rel r
         = (add_log (ERROR, "Failed to save relationship: " +:+ msg) r,
            Raise (Exn RepositoryError ("Failed to save relationship: " +:+ msg)))
    ∧ (msg = "Relationship " +:+ Relationship.relationship_id rel +:+ " already exists"
       ∨ ∃ y, rels !! Relationship.relationship_id y = Some y
              ∧ link_key y = link_key rel
              ∧ msg = "Relationship already exists: " +:+ Relationship.relationship_id y).
Proof.
  intros Hrep Hdup. unfold known_link in Hdup.
  destruct (rels !! Relationship.relationship_id rel) as [x|] eqn:Hx.
  - destruct (links_decode r rels _ x Hrep Hx) as [Hd _].
    eexists. split.
    + unfold save, try_except, path_exists. mrun.
      rewrite Hd. rewrite bool_decide_eq_true_2 by eauto. mrun.
      unfold logger. mrun. reflexivity.
    + by left.
  - destruct Hdup as [[? [=]]|(y & Hy & Hk)].
    pose proof (links_lookup_none r rels _ Hrep Hx) as Hfile.
    destruct (find_exact_links r rels (Relationship.source_id rel)
                (Relationship.target_id rel) (Relationship.relationship_type rel) Hrep)
      as (found & Hrun & Hfound).
    destruct found as [z|]; [|exfalso; by apply (Hfound y Hy)].
    destruct Hfound as [Hz Hkz].
    eexists. split.
    + unfold save, try_except, path_exists. mrun.
      rewrite Hfile. rewrite bool_decide_eq_false_2 by apply is_Some_None. mrun.
      rewrite Hrun. mrun. unfold logger. mrun. reflexivity.
    + right. exists z. done.
Qed.

(** [delete]: the file and the index entries go; an unknown id changes
    nothing. *)
Lemma delete_links r rels id :
  represents_links r rels →
  ∃ r', delete id r = (r', Ok (bool_decide (is_Some (rels !! id))))
        ∧ represents_links r' (base.delete id rels).
Proof.
  intros Hrep. destruct (rels !! id) as [x|] eqn:Hx.
  - destruct (links_decode r rels id x Hrep Hx) as [Hd Hdec].
    destruct (links_entities _ _ Hrep id x Hx) as (Hid & _ & Hv). subst id.
    destruct (IndexFacts.index_remove_lists _ _ (Relationship.source_id x)
                (Relationship.relationship_id x) (links_source _ _ Hrep))
      as (si & Hsi & Hsl); [eauto|].
    destruct (IndexFacts.index_remove_lists _ _ (Relationship.target_id x)
                (Relationship.relationship_id x) (links_target _ _ Hrep))
      as (ti & Hti & Htl); [eauto|].
    destruct (IndexFacts.index_remove_lists _ _ (Relationship.relationship_type x)
                (Relationship.relationship_id x) (links_type _ _ Hrep))
      as (yi & Hyi & Hyl); [eauto|].
    eexists. split.
    + unfold delete, try_except, path_exists, _read_json, unlink. mrun.
      rewrite Hd. rewrite bool_decide_eq_true_2 by eauto. mrun. rewrite Hd. mrun.
      rewrite Hdec. mrun. rewrite update_index_remove.
      cbn [source_index target_index type_index set_files].
      rewrite Hsi, Hti, Hyi. unfold logger. mrun.
      rewrite bool_decide_eq_true_2 by eauto. reflexivity.
    + constructor; cbn [files source_index target_index type_index add_log set_type_index
                          set_target_index set_source_index set_files].
      * intros id' a'. rewrite lookup_delete_Some. intros [_ H].
        by apply (links_entities _ _ Hrep).
      * intros p d'. change (_get_relationship_path (add_log _ _))
          with (_get_relationship_path r).
        rewrite lookup_delete_Some. intros [Hp Hd'].
        destruct (links_files _ _ Hrep _ _ Hd') as (y & Hy & -> & ->).
        exists y. split; [|done]. rewrite lookup_delete_ne; [exact Hy|].
        intros Heq. rewrite Heq in Hp. done.
      * intros id' a'. change (_get_relationship_path (add_log _ _))
          with (_get_relationship_path r).
        rewrite lookup_delete_Some. intros [Hne Ha'].
        rewrite lookup_delete_ne; [by apply (links_stored _ _ Hrep)|].
        intros Heq. apply rel_path_inj in Heq. done.
      * eapply IndexFacts.index_lists_iff; [|exact Hsl].
        intros k id'. cbn beta.
        rewrite (listed_delete rels _ x (λ a' k, Relationship.source_id a' = k)) by done.
        cbn. split; intros [H Hn]; (split; [exact H|intros [? ?]; apply Hn; split; congruence]).
      * eapply IndexFacts.index_lists_iff; [|exact Htl].
        intros k id'. cbn beta.
        rewrite (listed_delete rels _ x (λ a' k, Relationship.target_id a' = k)) by done.
        cbn. split; intros [H Hn]; (split; [exact H|intros [? ?]; apply Hn; split; congruence]).
      * eapply IndexFacts.index_lists_iff; [|exact Hyl].
        intros k id'. cbn beta.
        rewrite (listed_delete rels _ x (λ a' k, Relationship.relationship_type a' = k))
          by done.
        cbn. split; intros [H Hn]; (split; [exact H|intros [? ?]; apply Hn; split; congruence]).
  - exists r. split.
    + unfold delete, try_except, path_exists. mrun.
      rewrite (links_lookup_none r rels id Hrep Hx).
      rewrite !bool_decide_eq_false_2 by apply is_Some_None. reflexivity.
    + by rewrite delete_id.
Qed.

(** [update] of a stored relationship. *)
Lemma update_links r rels now rel old :
  represents_links r rels → rels !! Relationship.relationship_id rel = Some old →
  Relationship.validate rel = Ok true →
  ∃ r', update now rel r = (r', Ok (Relationship.set_updated_at now rel))
        ∧ represents_links r'
            (<[Relationship.relationship_id rel := Relationship.set_updated_at now rel]>
               rels).
Proof.
  intros Hrep Hold Hv.
  destruct (links_decode r rels _ old Hrep Hold) as [Hd Hdec].
  destruct (links_entities _ _ Hrep _ old Hold) as (Hid & Hne0 & Hvo).
  set (new := Relationship.set_updated_at now rel).
  assert (Hvn : Relationship.validate new = Ok true) by exact Hv.
  destruct (links_written r rels (Relationship.relationship_id rel) new Hrep eq_refl Hne0 Hvn)
    as (HE & HF & HS).
  destruct (indexed_fields_differ old new) eqn:Hdiff.
  - destruct (IndexFacts.index_remove_lists _ _ (Relationship.source_id old)
                (Relationship.relationship_id rel) (links_source _ _ Hrep))
      as (si & Hsi & Hsl); [eauto|].
    destruct (IndexFacts.index_remove_lists _ _ (Relationship.target_id old)
                (Relationship.relationship_id rel) (links_target _ _ Hrep))
      as (ti & Hti & Htl); [eauto|].
    destruct (IndexFacts.index_remove_lists _ _ (Relationship.relationship_type old)
                (Relationship.relationship_id rel) (links_type _ _ Hrep))
      as (yi & Hyi & Hyl); [eauto|].
    eexists. split.
    + unfold update, try_except, path_exists, _read_json, _write_json. mrun.
      rewrite Hd. rewrite bool_decide_eq_true_2 by eauto. mrun. rewrite Hd. mrun.
      rewrite Hdec. mrun. fold new. rewrite Hdiff. mrun.
      rewrite update_index_remove. rewrite Hid.
      cbn [source_index target_index type_index set_files].
      rewrite Hsi, Hti, Hyi.
      rewrite FileBasedRelationshipRepositoryFacts.update_index_add.
      unfold logger. mrun. reflexivity.
    + constructor; cbn [files source_index target_index type_index add_log set_type_index
                          set_target_index set_source_index set_files].
      * exact HE.
      * exact HF.
      * exact HS.
      * eapply IndexFacts.index_lists_iff;
          [|exact (IndexFacts.index_add_lists _ _ (Relationship.source_id new)
                     (Relationship.relationship_id new) Hsl)].
        intros k id'. cbn beta.
        rewrite (listed_replace rels _ old _ (λ a' k, Relationship.source_id a' = k)) by done.
        cbn. split; (intros [[H Hn]|[? ?]];
                     [left; split; [exact H|intros [? ?]; apply Hn; split; congruence]
                     |right; split; congruence]).
      * eapply IndexFacts.index_lists_iff;
          [|exact (IndexFacts.index_add_lists _ _ (Relationship.target_id new)
                     (Relationship.relationship_id new) Htl)].
        intros k id'. cbn beta.
        rewrite (listed_replace rels _ old _ (λ a' k, Relationship.target_id a' = k)) by done.
        cbn. split; (intros [[H Hn]|[? ?]];
                     [left; split; [exact H|intros [? ?]; apply Hn; split; congruence]
                     |right; split; congruence]).
      * eapply IndexFacts.index_lists_iff;
          [|exact (IndexFacts.index_add_lists _ _ (Relationship.relationship_type new)
                     (Relationship.relationship_id new) Hyl)].
        intros k id'. cbn beta.
        rewrite (listed_replace rels _ old _ (λ a' k, Relationship.relationship_type a' = k))
          by done.
        cbn. split; (intros [[H Hn]|[? ?]];
                     [left; split; [exact H|intros [? ?]; apply Hn; split; congruence]
                     |right; split; congruence]).
  - pose proof Hdiff as Hdiff'. unfold indexed_fields_differ in Hdiff.
    apply orb_false_elim in Hdiff as [Hdiff Hty].
    apply orb_false_elim in Hdiff as [Hs Ht].
    apply negb_false_iff, bool_decide_eq_true_1 in Hs, Ht, Hty.
    eexists. split.
    + unfold update, try_except, path_exists, _read_json, _write_json. mrun.
      rewrite Hd. rewrite bool_decide_eq_true_2 by eauto. mrun. rewrite Hd. mrun.
      rewrite Hdec. mrun. fold new. rewrite Hdiff'. unfold logger. mrun. reflexivity.
    + constructor; cbn [files source_index target_index type_index add_log set_type_index
                          set_target_index set_source_index set_files].
      * exact HE.
      * exact HF.
      * exact HS.
      * eapply IndexFacts.index_lists_iff; [|exact (links_source _ _ Hrep)].
        intros k id'. cbn beta. symmetry.
        apply (listed_same rels _ old _ (λ a' k, Relationship.source_id a' = k)); [done|].
        cbn. by rewrite Hs.
      * eapply IndexFacts.index_lists_iff; [|exact (links_target _ _ Hrep)].
        intros k id'. cbn beta. symmetry.
        apply (listed_same rels _ old _ (λ a' k, Relationship.target_id a' = k)); [done|].
        cbn. by rewrite Ht.
      * eapply IndexFacts.index_lists_iff; [|exact (links_type _ _ Hrep)].
        intros k id'. cbn beta. symmetry.
        apply (listed_same rels _ old _ (λ a' k, Relationship.relationship_type a' = k));
          [done|].
        cbn. by rewrite Hty.
Qed.

(** [update] of an id that is not stored. *)
Lemma update_links_missing r rels now rel :
  represents_links r rels → rels !! Relationship.relationship_id rel = None →
  update now rel r
  = (add_log (ERROR, "Failed to update relationship: "
                     +:+ ("Relationship " +:+ Relationship.relationship_id rel
                          +:+ " not found")) r,
     Raise (Exn RepositoryError
              ("Failed to update relationship: "
               +:+ ("Relationship " +:+ Relationship.relationship_id rel +:+ " not found")))).
Proof.
  intros Hrep Hnone. unfold update, try_except, path_exists. mrun.
  rewrite (links_lookup_none r rels _ Hrep Hnone).
  rewrite bool_decide_eq_false_2 by apply is_Some_None. mrun.
  unfold logger. mrun. reflexivity.
Qed.

Lemma links_init base c : represents_links (init base c) ∅.
Proof.
  constructor; cbn.
  - intros id a H. by rewrite lookup_empty in H.
  - intros p d H. by rewrite lookup_empty in H.
  - intros id a H. by rewrite lookup_empty in H.
  - apply IndexFacts.index_lists_empty. intros k id (a & H & _). by rewrite lookup_empty in H.
  - apply IndexFacts.index_lists_empty. intros k id (a & H & _). by rewrite lookup_empty in H.
  - apply IndexFacts.index_lists_empty. intros k id (a & H & _). by rewrite lookup_empty in H.
Qed.

End LinkStoreFacts.

Module LinkQueryFacts.
Import FileBasedRelationshipRepository Predicates LinkStoreFacts.

Lemma valid_not_self x :
  Relationship.validate x = Ok true → Relationship.source_id x ≠ Relationship.target_id x.
Proof.
  unfold Relationship.validate, Relationship.value_error.
  repeat case_bool_decide; cbn; try discriminate. done.
Qed.

Lemma unseen_fresh l : ∀ seen acc,
  NoDup (Relationship.relationship_id <$> l) →
  (∀ x, x ∈ l → Relationship.relationship_id x ∉ seen) →
  unseen l seen acc = (acc ++ l)%list.
Proof.
  induction l as [|x l IH]; intros seen acc Hnd Hfresh; cbn [unseen].
  - by rewrite app_nil_r.
  - rewrite fmap_cons in Hnd. apply list.NoDup_cons in Hnd as [Hx Hnd].
    rewrite bool_decide_eq_false_2 by (apply Hfresh; left).
    rewrite IH; [by rewrite <- app_assoc|exact Hnd|].
    intros y Hy. rewrite elem_of_union, elem_of_singleton. intros [Heq|Hin].
    + apply Hx. rewrite <- Heq. apply list_elem_of_fmap. eauto.
    + apply (Hfresh y); [by right|done].
Qed.

Lemma stored_ids_NoDup (rels : gmap string Relationship.t) l :
  (∀ x, x ∈ l → rels !! Relationship.relationship_id x = Some x) →
  NoDup l → NoDup (Relationship.relationship_id <$> l).
Proof.
  intros Hst. apply NoDup_fmap_2_strong. intros x y Hx Hy Heq.
  apply Hst in Hx, Hy. rewrite Heq in Hx. congruence.
Qed.

Lemma find_by_asset_links r rels a :
  represents_links r rels →
  ∃ l, find_by_asset a r = (r, Ok l)
       ∧ NoDup l
       ∧ ∀ x, x ∈ l ↔ rels !! Relationship.relationship_id x = Some x ∧ involves a x.
Proof.
  intros Hrep.
  destruct (find_by_source_links r rels a Hrep) as (ls & Hs & Hnds & Hms).
  destruct (find_by_target_links r rels a Hrep) as (lt & Ht & Hndt & Hmt).
  assert (Hmem : ∀ x, x ∈ (ls ++ lt)%list
                      ↔ rels !! Relationship.relationship_id x = Some x ∧ involves a x).
  { intros x. rewrite elem_of_app, Hms, Hmt. unfold involves. tauto. }
  assert (Hnd : NoDup (ls ++ lt)%list).
  { apply list.NoDup_app. split; [exact Hnds|]. split; [|exact Hndt].
    intros x Hx Hx'. apply Hms in Hx as [Hst Hsrc]. apply Hmt in Hx' as [_ Htgt].
    destruct (links_entities _ _ Hrep _ _ Hst) as (_ & _ & Hv).
    apply valid_not_self in Hv. congruence. }
  exists (ls ++ lt)%list. split; [|done].
  unfold find_by_asset. mrun. rewrite Hs. mrun. rewrite Ht. mrun.
  rewrite unseen_fresh; [done| |intros; set_solver].
  apply (stored_ids_NoDup rels); [|exact Hnd]. intros x Hx. by apply Hmem in Hx as [? _].
Qed.

Lemma find_between_links r rels a b :
  represents_links r rels →
  ∃ l, find_between a b r = (r, Ok l)
       ∧ NoDup l
       ∧ ∀ x, x ∈ l ↔ rels !! Relationship.relationship_id x = Some x
                      ∧ ((Relationship.source_id x = a ∧ Relationship.target_id x = b)
                         ∨ (Relationship.source_id x = b ∧ Relationship.target_id x = a)).
Proof.
  intros Hrep.
  destruct (find_by_source_links r rels a Hrep) as (la & Ha & Hnda & Hma).
  destruct (find_by_source_links r rels b Hrep) as (lb & Hb & Hndb & Hmb).
  eexists. split; [|split].
  - unfold find_between. mrun. rewrite Ha. mrun. rewrite Hb. mrun. reflexivity.
  - apply list.NoDup_app. split; [by apply list.NoDup_filter|].
    split; [|by apply list.NoDup_filter].
    intros x Hx Hx'. apply list_elem_of_filter in Hx as [Htb Hx].
    apply list_elem_of_filter in Hx' as [Hta Hx'].
    apply Hma in Hx as [Hst Hsa]. apply Hmb in Hx' as [_ Hsb].
    destruct (links_entities _ _ Hrep _ _ Hst) as (_ & _ & Hv).
    apply valid_not_self in Hv. congruence.
  - intros x. rewrite elem_of_app, !list_elem_of_filter, Hma, Hmb. tauto.
Qed.

(** The loop of [delete_by_asset] over stored relationships of distinct
    ids. *)
Lemma delete_each_links l :
  ∀ r rels n,
    represents_links r rels →
    NoDup (Relationship.relationship_id <$> l) →
    (∀ x, x ∈ l → rels !! Relationship.relationship_id x = Some x) →
    ∃ r', delete_each l n r = (r', Ok (n + length l)%nat)
          ∧ represents_links r'
              (filter (λ kv, kv.1 ∉ Relationship.relationship_id <$> l) rels).
Proof.
  induction l as [|x l IH]; intros r rels n Hrep Hnd Hst.
  - exists r. split; [cbn; by rewrite Nat.add_0_r|].
    rewrite map_filter_id; [exact Hrep|]. intros k y _. cbn. apply not_elem_of_nil.
  - rewrite fmap_cons in Hnd. apply list.NoDup_cons in Hnd as [Hx Hnd].
    destruct (delete_links r rels (Relationship.relationship_id x) Hrep) as (r1 & Hdel & Hrep1).
    rewrite bool_decide_eq_true_2 in Hdel by (rewrite (Hst x); [eauto|by left]).
    destruct (IH r1 _ (S n) Hrep1 Hnd) as (r' & Hrun & Hrep').
    { intros y Hy. rewrite lookup_delete_ne; [apply Hst; by right|].
      intros Heq. apply Hx. rewrite Heq. apply list_elem_of_fmap. eauto. }
    exists r'. split.
    + cbn [delete_each]. mrun. rewrite Hdel. cbn beta iota. rewrite Hrun.
      cbn [length]. replace (S n + length l)%nat with (n + S (length l))%nat by lia. done.
    + replace (filter (λ kv, kv.1 ∉ Relationship.relationship_id <$> x :: l) rels)
        with (filter (λ kv : string * Relationship.t,
                        kv.1 ∉ Relationship.relationship_id <$> l)
                (base.delete (Relationship.relationship_id x) rels)); [exact Hrep'|].
      apply map_eq. intros k. apply option_eq. intros y.
      rewrite !map_lookup_filter_Some, lookup_delete_Some. cbn.
      rewrite not_elem_of_cons. intuition congruence.
Qed.

Lemma length_stored (rels : gmap string Relationship.t) l (Q : Relationship.t → Prop)
    `{∀ x, Decision (Q x)} :
  (∀ id x, rels !! id = Some x → Relationship.relationship_id x = id) →
  NoDup l →
  (∀ x, x ∈ l ↔ rels !! Relationship.relationship_id x = Some x ∧ Q x) →
  length l = size (filter (λ kv, Q kv.2) rels).
Proof.
  intros Hids Hnd Hmem.
  assert (Hnd' : NoDup (Relationship.relationship_id <$> l)).
  { apply (stored_ids_NoDup rels); [|exact Hnd]. intros x Hx. by apply Hmem in Hx as [? _]. }
  rewrite <- (length_fmap Relationship.relationship_id l).
  rewrite <- (size_list_to_set (C := gset string) _ Hnd'), <- size_dom. f_equal.
  apply set_eq. intros k. rewrite elem_of_list_to_set, elem_of_dom, list_elem_of_fmap.
  unfold is_Some. setoid_rewrite map_lookup_filter_Some. cbn. split.
  - intros (x & -> & Hx). exists x. by apply Hmem.
  - intros (x & Hx & HQ). exists x. pose proof (Hids _ _ Hx) as Hid. split; [done|].
    apply Hmem. by rewrite Hid.
Qed.

Lemma delete_by_asset_links r rels a :
  represents_links r rels →
  ∃ r', delete_by_asset a r
        = (r', Ok (size (filter (λ kv, involves a kv.2) rels)))
        ∧ represents_links r' (filter (λ kv, ¬ involves a kv.2) rels).
Proof.
  intros Hrep.
  destruct (find_by_asset_links r rels a Hrep) as (l & Hfind & Hnd & Hmem).
  assert (Hst : ∀ x, x ∈ l → rels !! Relationship.relationship_id x = Some x).
  { intros x Hx. by apply Hmem in Hx as [? _]. }
  destruct (delete_each_links l r rels 0 Hrep (stored_ids_NoDup rels l Hst Hnd) Hst)
    as (r' & Hrun & Hrep').
  exists r'. split.
  - unfold delete_by_asset. mrun. rewrite Hfind. cbn beta iota. rewrite Hrun.
    do 2 f_equal. cbn. apply (length_stored rels l (involves a)); [|done..].
    intros id x Hx. by destruct (links_entities _ _ Hrep _ _ Hx) as [? _].
  - replace (filter (λ kv, ¬ involves a kv.2) rels)
      with (filter (λ kv : string * Relationship.t,
                      kv.1 ∉ Relationship.relationship_id <$> l) rels); [exact Hrep'|].
    apply map_filter_ext. intros k x Hx. cbn.
    destruct (links_entities _ _ Hrep _ _ Hx) as (Hid & _). subst k.
    rewrite list_elem_of_fmap. split.
    + intros Hn Hinv. apply Hn. exists x. split; [done|]. by apply Hmem.
    + intros Hn (y & Heq & Hy). apply Hmem in Hy as [Hy Hinv].
      rewrite <- Heq in Hy. rewrite Hx in Hy. injection Hy as <-. done.
Qed.

(** ** Counting *)

Lemma length_concat_sum {A} (ls : list (list A)) :
  length (concat ls) = sum_list (length <$> ls).
Proof. induction ls as [|l ls IH]; cbn; [done|]. by rewrite length_app, IH. Qed.

Lemma concat_snd {A B} (l : list (A * list B)) : concat l.*2 = l ≫= snd.
Proof. induction l as [|[a b] l IH]; cbn; [done|]. by rewrite IH. Qed.

(** The lists of an index hold each listed id once. *)
Lemma index_total (idx : gmap string (list string)) (rels : gmap string Relationship.t)
    (key : Relationship.t → string) :
  index_lists idx (λ k id, ∃ x, rels !! id = Some x ∧ key x = k) →
  sum_list (length <$> (map_to_list idx).*2) = size rels.
Proof.
  intros [Hwf Hmem].
  rewrite <- length_concat_sum.
  assert (Hnd : NoDup (concat (map_to_list idx).*2)).
  { rewrite concat_snd. apply NoDup_bind.
    - intros [k1 ids1] [k2 ids2] id H1 H2 Hin1 Hin2. cbn in Hin1, Hin2.
      apply elem_of_map_to_list in H1, H2.
      assert (id ∈ default [] (idx !! k1)) as Hl1 by (by rewrite H1).
      assert (id ∈ default [] (idx !! k2)) as Hl2 by (by rewrite H2).
      apply Hmem in Hl1 as (x1 & Hx1 & <-). apply Hmem in Hl2 as (x2 & Hx2 & <-).
      assert (x1 = x2) as -> by congruence. congruence.
    - intros [k ids] Hk. apply elem_of_map_to_list in Hk. cbn.
      by destruct (Hwf k ids Hk).
    - apply NoDup_map_to_list. }
  rewrite <- (size_list_to_set (C := gset string) _ Hnd), <- size_dom. f_equal.
  apply set_eq. intros id.
  rewrite elem_of_list_to_set, StatisticsFacts.elem_of_concat, elem_of_dom. split.
  - intros (ids & Hids & Hin). apply list_elem_of_fmap in Hids as ([k ids'] & -> & Hk).
    apply elem_of_map_to_list in Hk. cbn in Hin.
    assert (id ∈ default [] (idx !! k)) as H by (by rewrite Hk).
    apply Hmem in H as (x & Hx & _). eauto.
  - intros [x Hx].
    assert (id ∈ default [] (idx !! key x)) as H by (apply Hmem; eauto).
    destruct (idx !! key x) as [ids|] eqn:Hk; [|by apply elem_of_nil in H].
    exists ids. split; [|exact H].
    apply list_elem_of_fmap. exists (key x, ids). split; [done|].
    by apply elem_of_map_to_list.
Qed.








(** ** Statistics *)

Lemma index_keys (idx : gmap string (list string)) (R : string → string → Prop) k :
  index_lists idx R → k ∈ dom idx ↔ ∃ id, R k id.
Proof.
  intros [Hwf Hmem]. rewrite elem_of_dom. split.
  - intros [ids Hk]. destruct (Hwf k ids Hk) as [_ Hne].
    destruct ids as [|id ids]; [done|]. exists id. apply Hmem. rewrite Hk. by left.
  - intros [id HR]. apply Hmem in HR. destruct (idx !! k) as [ids|]; [eauto|].
    by apply elem_of_nil in HR.
Qed.

Lemma sum_list_fmap_with {A} (f : A → nat) (l : list A) :
  sum_list (f <$> l) = sum_list_with f l.
Proof. induction l as [|x l IH]; cbn; [done|]. by rewrite IH. Qed.

Lemma sum_list_with_add {A} (f g : A → nat) (l : list A) :
  sum_list_with (λ x, f x + g x)%nat l = (sum_list_with f l + sum_list_with g l)%nat.
Proof. induction l as [|x l IH]; cbn; [done|]. rewrite IH. lia. Qed.

Lemma sum_list_with_ext_in {A} (f g : A → nat) (l : list A) :
  (∀ x, x ∈ l → f x = g x) → sum_list_with f l = sum_list_with g l.
Proof.
  induction l as [|x l IH]; intros Hfg; cbn; [done|].
  rewrite (Hfg x) by (by left). rewrite IH; [done|]. intros y Hy. apply Hfg. by right.
Qed.

(** The degrees of the nodes of a set that covers the keys of an index add
    up to the number of entries of the index. *)
Lemma degree_sum (idx : gmap string (list string)) :
  ∀ X : gset string, dom idx ⊆ X →
    sum_list_with (index_degree idx) (elements X)
    = sum_list (length <$> (map_to_list idx).*2).
Proof.
  induction idx as [|k ids m Hk Hfirst IH] using map_first_key_ind; intros X HX.
  - rewrite map_to_list_empty. cbn.
    rewrite (sum_list_with_ext_in _ (λ _, 0%nat)).
    + induction (elements X) as [|x l IHl]; cbn; [done|exact IHl].
    + intros n _. unfold index_degree. by rewrite lookup_empty.
  - assert (HkX : k ∈ X) by (apply HX; rewrite dom_insert; set_solver).
    assert (HXk : X = {[k]} ∪ (X ∖ {[k]})).
    { apply set_eq. intros n. rewrite elem_of_union, elem_of_difference, elem_of_singleton.
      destruct (decide (n = k)) as [->|]; tauto. }
    rewrite HXk at 1. clear HXk.
    rewrite (elements_union_singleton (X ∖ {[k]}) k)
      by (rewrite elem_of_difference, elem_of_singleton; tauto).
    rewrite map_to_list_insert_first_key by done. cbn [sum_list_with fmap list_fmap snd].
    unfold index_degree at 1. rewrite lookup_insert_eq. cbn [default]. f_equal.
    rewrite <- (IH (X ∖ {[k]})).
    + apply sum_list_with_ext_in. intros n Hn. apply elem_of_elements in Hn.
      apply elem_of_difference in Hn as [_ Hn]. rewrite elem_of_singleton in Hn.
      unfold index_degree. rewrite lookup_insert_ne; [done|]. congruence.
    + intros n Hn. apply elem_of_difference. split.
      * apply HX. rewrite dom_insert. set_solver.
      * rewrite elem_of_singleton. intros ->. apply elem_of_dom in Hn as [? Hn]. congruence.
Qed.

Lemma degrees_total r rels :
  represents_links r rels →
  sum_list ((λ node, (index_degree (source_index r) node
                      + index_degree (target_index r) node)%nat)
              <$> elements (dom (source_index r) ∪ dom (target_index r)))
  = (size rels + size rels)%nat.
Proof.
  intros Hrep. rewrite sum_list_fmap_with, sum_list_with_add.
  rewrite !degree_sum by set_solver.
  rewrite (index_total _ rels Relationship.source_id (links_source _ _ Hrep)).
  by rewrite (index_total _ rels Relationship.target_id (links_target _ _ Hrep)).
Qed.

Lemma graph_statistics_links r rels :
  represents_links r rels →
  ∃ stats (nodes : gset string),
    get_graph_statistics r = (r, Ok stats)
    ∧ dict_get "edge_count" stats = Some (PInt (Z.of_nat (size rels)))
    ∧ dict_get "node_count" stats = Some (PInt (Z.of_nat (size nodes)))
    ∧ (∀ n, n ∈ nodes ↔ ∃ x, rels !! Relationship.relationship_id x = Some x ∧ involves n x)
    ∧ dict_get "average_degree" stats
      = Some (if bool_decide (nodes = ∅) then PInt 0
              else PFloat (py_round (Qc_of_Z (2 * Z.of_nat (size rels))
                                     / Qc_of_Z (Z.of_nat (size nodes))) 2)).
Proof.
  intros Hrep. eexists. exists (dom (source_index r) ∪ dom (target_index r)).
  split; [unfold get_graph_statistics, try_except; mrun; reflexivity|].
  split; [cbn; by rewrite (index_total _ rels Relationship.source_id (links_source _ _ Hrep))|].
  split; [reflexivity|]. split.
  - intros n. rewrite elem_of_union.
    rewrite (index_keys _ _ n (links_source _ _ Hrep)).
    rewrite (index_keys _ _ n (links_target _ _ Hrep)). unfold involves. split.
    + intros [(id & x & Hx & Hk)|(id & x & Hx & Hk)];
        destruct (links_entities _ _ Hrep _ _ Hx) as (<- & _); eauto.
    + intros (x & Hx & [Hk|Hk]); eauto.
  - cbn [dict_get]. rewrite !bool_decide_eq_false_2 by done.
    rewrite bool_decide_eq_true_2 by done.
    rewrite (degrees_total r rels Hrep).
    replace (Z.of_nat (size rels + size rels)) with (2 * Z.of_nat (size rels))%Z by lia.
    reflexivity.
Qed.

(** ** Batches *)

Lemma save_batch_loop_rejected rels l :
  Forall (known_link rels) l →
  ∀ r errors, represents_links r rels →
    ∃ recs errors',
      save_batch_loop l [] errors r
      = (foldl (λ r rec, add_log rec r) r recs, Ok ([], (errors ++ errors')%list))
      ∧ length errors' = length l
      ∧ length recs = length l
      ∧ Forall (λ rec : log_record, rec.1 = ERROR) recs.
Proof.
  induction 1 as [|rel l Hrel Hall IH]; intros r errors Hrep.
  - exists [], []. cbn. by rewrite app_nil_r.
  - destruct (save_rejected r rels rel Hrep Hrel) as (msg & Hsave & _).
    cbn [save_batch_loop]. unfold try_except at 1. mrun. rewrite Hsave. cbn beta iota.
    assert (Hi : ∀ m, isinstance (Exn RepositoryError m) DuplicateRelationshipError = false)
      by reflexivity.
    rewrite Hi. mrun. cbn [fst snd].
    edestruct IH as (recs & errors' & Hrun & Hlen & Hlen' & Herr);
      [by apply links_add_log; exact Hrep|].
    rewrite Hrun. eexists (_ :: recs), (_ :: errors'). split; [|split; [|split]].
    + cbn [foldl]. by rewrite <- app_assoc.
    + cbn. by rewrite Hlen.
    + cbn. by rewrite Hlen'.
    + by constructor.
Qed.

Lemma links_add_logs r rels recs :
  represents_links r rels → represents_links (foldl (λ r rec, add_log rec r) r recs) rels.
Proof.
  revert r. induction recs as [|rec recs IH]; intros r Hrep; [exact Hrep|].
  cbn. by apply IH, links_add_log.
Qed.

Lemma save_batch_rejected r rels l :
  represents_links r rels → l ≠ [] →
  Forall (known_link rels) l →
  ∃ recs msg,
    save_batch l r
    = (foldl (λ r rec, add_log rec r) r recs,
       Raise (Exn RepositoryError ("Batch save failed: " +:+ msg)))
    ∧ length recs = length l
    ∧ Forall (λ rec : log_record, rec.1 = ERROR) recs.
Proof.
  intros Hrep Hne Hall.
  destruct (save_batch_loop_rejected rels l Hall r [] Hrep)
    as (recs & errs & Hrun & Hlen & Hlen' & Herr).
  exists recs, (join "; " errs). split; [|done].
  unfold save_batch. mrun. rewrite Hrun. cbn beta iota. cbn [fst snd app].
  destruct errs as [|e errs]; [destruct l; [done|discriminate]|].
  reflexivity.
Qed.

End LinkQueryFacts.

Module LinkExampleFacts.
Import FileBasedRelationshipRepository Predicates LinkStoreFacts LinkQueryFacts.

Lemma links_represented : represents_links Links.store Links.stored.
Proof.
  destruct (save_links (init "./data/relationships" true) ∅ Links.r1)
    as (r' & Hsave & Hrep).
  - apply links_init.
  - apply lookup_empty.
  - discriminate.
  - vm_compute. reflexivity.
  - intros y Hy. by rewrite lookup_empty in Hy.
  - unfold Links.store. rewrite Hsave. exact Hrep.
Qed.

Lemma unique_links_insert (rels : gmap string Relationship.t) rel :
  (∀ id x, rels !! id = Some x → Relationship.relationship_id x = id) →
  ¬ known_link rels rel →
  unique_links rels →
  unique_links (<[Relationship.relationship_id rel := rel]> rels).
Proof.
  intros Hids Hnew Huniq id1 id2 x y.
  destruct (decide (id1 = Relationship.relationship_id rel)) as [->|H1];
    destruct (decide (id2 = Relationship.relationship_id rel)) as [->|H2];
    rewrite ?lookup_insert_eq, ?lookup_insert_ne by done; [done| | |by apply Huniq].
  - intros [= <-] Hy Hk. exfalso. apply Hnew. right. exists y.
    by rewrite (Hids _ _ Hy).
  - intros Hx [= <-] Hk. exfalso. apply Hnew. right. exists x.
    by rewrite (Hids _ _ Hx).
Qed.

Lemma links_plain : plain_ids Links.stored.
Proof. apply PlainFacts.plain_ids_check. apply (bool_decide_unpack _). vm_compute. exact I. Qed.

End LinkExampleFacts.

(** X24.  On a consistent relationship store whose ids name files of their
    own, [save] of a valid relationship whose id is not empty and names a
    file of its own stores it exactly when neither its id nor its link
    (source, target and type) is stored: then the store holds one more
    relationship, [find_by_id] returns it, and links stay unique if they were.
    Otherwise it raises a plain [RepositoryError] and the stored relationships
    are as before. *)
Theorem file_relationship_save_stores_new_links_only
    (r : FileBasedRelationshipRepository.t) (rels : gmap string Relationship.t)
    (rel : Relationship.t) :
  Predicates.represents_links r rels →
  Predicates.plain_ids rels →
  Relationship.relationship_id rel ≠ "" →
  plain_id (Relationship.relationship_id rel) = true →
  Relationship.validate rel = Ok true →
  (¬ Predicates.known_link rels rel →
   ∃ r',
     FileBasedRelationshipRepository.save rel r = (r', Ok rel)
     ∧ Predicates.represents_links r' (<[Relationship.relationship_id rel := rel]> rels)
     ∧ Predicates.plain_ids (<[Relationship.relationship_id rel := rel]> rels)
     ∧ FileBasedRelationshipRepository.find_by_id (Relationship.relationship_id rel) r'
       = (r', Ok (Some rel))
     ∧ (Predicates.unique_links rels →
        Predicates.unique_links (<[Relationship.relationship_id rel := rel]> rels)))
  ∧ (Predicates.known_link rels rel →
     ∃ r' msg,
       FileBasedRelationshipRepository.save rel r
       = (r', Raise (Exn RepositoryError ("Failed to save relationship: " +:+ msg)))
       ∧ Predicates.represents_links r' rels).
Proof.
  intros Hrep Hplain Hne Hid Hv. split.
  - intros Hnew.
    destruct (LinkStoreFacts.save_links r rels rel Hrep) as (r' & Hsave & Hrep');
      [|done|done| |].
    { destruct (rels !! Relationship.relationship_id rel) eqn:Hx; [|done].
      exfalso. apply Hnew. left. eauto. }
    { intros y Hy Hk. apply Hnew. right. eauto. }
    exists r'. split; [exact Hsave|]. split; [exact Hrep'|].
    split; [by apply PlainFacts.plain_ids_insert|]. split.
    + rewrite (LinkStoreFacts.find_by_id_links r' _ _ Hrep'). by rewrite lookup_insert_eq.
    + apply LinkExampleFacts.unique_links_insert; [|exact Hnew].
      intros id x Hx. by destruct (Predicates.links_entities _ _ Hrep _ _ Hx) as [? _].
  - intros Hknown.
    destruct (LinkStoreFacts.save_rejected r rels rel Hrep Hknown) as (msg & Hsave & _).
    eexists _, msg. split; [exact Hsave|]. by apply LinkStoreFacts.links_add_log.
Qed.

Lemma file_relationship_save_stores_new_links_only_witness :
  let r := Links.store in
  let rels := Links.stored in
  let rel := Links.r2 in
  Predicates.represents_links r rels
  ∧ Predicates.plain_ids rels
  ∧ Relationship.relationship_id rel ≠ ""
  ∧ plain_id (Relationship.relationship_id rel) = true
  ∧ Relationship.validate rel = Ok true
  ∧ (¬ Predicates.known_link rels rel →
     ∃ r',
       FileBasedRelationshipRepository.save rel r = (r', Ok rel)
       ∧ Predicates.represents_links r' (<[Relationship.relationship_id rel := rel]> rels)
       ∧ Predicates.plain_ids (<[Relationship.relationship_id rel := rel]> rels)
       ∧ FileBasedRelationshipRepository.find_by_id (Relationship.relationship_id rel) r'
         = (r', Ok (Some rel))
       ∧ (Predicates.unique_links rels →
          Predicates.unique_links (<[Relationship.relationship_id rel := rel]> rels)))
  ∧ (Predicates.known_link rels rel →
     ∃ r' msg,
       FileBasedRelationshipRepository.save rel r
       = (r', Raise (Exn RepositoryError ("Failed to save relationship: " +:+ msg)))
       ∧ Predicates.represents_links r' rels).
Proof.
  intros r rels rel.
  assert (H2 : Relationship.relationship_id rel ≠ "") by discriminate.
  assert (H3 : Relationship.validate rel = Ok true) by (vm_compute; reflexivity).
  assert (H4 : plain_id (Relationship.relationship_id rel) = true)
    by (vm_compute; reflexivity).
  split; [exact LinkExampleFacts.links_represented|].
  split; [exact LinkExampleFacts.links_plain|].
  split; [exact H2|]. split; [exact H4|]. split; [exact H3|].
  exact (file_relationship_save_stores_new_links_only r rels rel
           LinkExampleFacts.links_represented LinkExampleFacts.links_plain H2 H4 H3).
Defined.

(** X25.  On a consistent relationship store, [save_batch] of relationships
    that are all refused (by id or by link) skips none of them as a duplicate:
    it raises [RepositoryError] for the whole batch, and the store is as
    before but for one error record in the log per relationship. *)
Theorem file_relationship_save_batch_of_known_links_raises
    (r : FileBasedRelationshipRepository.t) (rels : gmap string Relationship.t)
    (l : list Relationship.t) :
  Predicates.represents_links r rels →
  l ≠ [] →
  Forall (Predicates.known_link rels) l →
  ∃ recs msg,
    FileBasedRelationshipRepository.save_batch l r
    = (foldl (λ r rec, FileBasedRelationshipRepository.add_log rec r) r recs,
       Raise (Exn RepositoryError ("Batch save failed: " +:+ msg)))
    ∧ length recs = length l
    ∧ Forall (λ rec : log_record, rec.1 = ERROR) recs.
Proof. apply LinkQueryFacts.save_batch_rejected. Qed.

Lemma file_relationship_save_batch_of_known_links_raises_witness :
  let r := Links.store in
  let rels := Links.stored in
  let l := [Links.r1; Links.r1_again] in
  Predicates.represents_links r rels
  ∧ l ≠ []
  ∧ Forall (Predicates.known_link rels) l
  ∧ ∃ recs msg,
      FileBasedRelationshipRepository.save_batch l r
      = (foldl (λ r rec, FileBasedRelationshipRepository.add_log rec r) r recs,
         Raise (Exn RepositoryError ("Batch save failed: " +:+ msg)))
      ∧ length recs = length l
      ∧ Forall (λ rec : log_record, rec.1 = ERROR) recs.
Proof.
  intros r rels l.
  assert (H2 : l ≠ []) by discriminate.
  assert (H3 : Forall (Predicates.known_link rels) l).
  { constructor; [left; by eexists|]. constructor; [|constructor].
    right. exists Links.r1. split; reflexivity. }
  split; [exact LinkExampleFacts.links_represented|]. split; [exact H2|]. split; [exact H3|].
  exact (file_relationship_save_batch_of_known_links_raises r rels l
           LinkExampleFacts.links_represented H2 H3).
Defined.

(** X26.  On a consistent relationship store whose ids name files of their
    own, [delete] of such an id returns whether the id was stored and
    removes that relationship and nothing else, and [delete_by_asset]
    removes exactly the relationships that have the asset as an end, returns
    how many they were, and leaves none for [find_by_asset] to find. *)
Theorem file_relationship_delete_is_a_removal
    (r : FileBasedRelationshipRepository.t) (rels : gmap string Relationship.t) :
  Predicates.represents_links r rels →
  Predicates.plain_ids rels →
  (∀ id, plain_id id = true →
     ∃ r',
       FileBasedRelationshipRepository.delete id r
       = (r', Ok (bool_decide (is_Some (rels !! id))))
       ∧ Predicates.represents_links r' (delete id rels)
       ∧ Predicates.plain_ids (delete id rels))
  ∧ (∀ a, ∃ r',
       FileBasedRelationshipRepository.delete_by_asset a r
       = (r', Ok (size (filter (λ kv, Predicates.involves a kv.2) rels)))
       ∧ Predicates.represents_links r' (filter (λ kv, ¬ Predicates.involves a kv.2) rels)
       ∧ FileBasedRelationshipRepository.find_by_asset a r' = (r', Ok [])).
Proof.
  intros Hrep Hplain. split.
  - intros id _.
    destruct (LinkStoreFacts.delete_links r rels id Hrep) as (r' & Hrun & Hrep').
    exists r'. split; [exact Hrun|]. split; [exact Hrep'|].
    by apply PlainFacts.plain_ids_delete.
  - intros a.
    destruct (LinkQueryFacts.delete_by_asset_links r rels a Hrep) as (r' & Hrun & Hrep').
    exists r'. split; [exact Hrun|]. split; [exact Hrep'|].
    destruct (LinkQueryFacts.find_by_asset_links r' _ a Hrep') as (l & Hfind & _ & Hmem).
    rewrite Hfind. destruct l as [|x l]; [done|]. exfalso.
    destruct (proj1 (Hmem x)) as [Hx Hinv]; [by left|].
    apply map_lookup_filter_Some in Hx as [_ Hn]. by apply Hn.
Qed.

Lemma file_relationship_delete_is_a_removal_witness :
  let r := Links.store in
  let rels := Links.stored in
  Predicates.represents_links r rels
  ∧ Predicates.plain_ids rels
  ∧ (∀ id, plain_id id = true →
       ∃ r',
         FileBasedRelationshipRepository.delete id r
         = (r', Ok (bool_decide (is_Some (rels !! id))))
         ∧ Predicates.represents_links r' (delete id rels)
         ∧ Predicates.plain_ids (delete id rels))
  ∧ (∀ a, ∃ r',
       FileBasedRelationshipRepository.delete_by_asset a r
       = (r', Ok (size (filter (λ kv, Predicates.involves a kv.2) rels)))
       ∧ Predicates.represents_links r' (filter (λ kv, ¬ Predicates.involves a kv.2) rels)
       ∧ FileBasedRelationshipRepository.find_by_asset a r' = (r', Ok [])).
Proof.
  intros r rels. split; [exact LinkExampleFacts.links_represented|].
  split; [exact LinkExampleFacts.links_plain|].
  exact (file_relationship_delete_is_a_removal r rels LinkExampleFacts.links_represented
           LinkExampleFacts.links_plain).
Defined.

(** X27.  On a consistent relationship store whose ids name files of their
    own, [update] of a stored id with a valid relationship returns it stamped
    with the clock reading and replaces the stored one, moving its index
    entries; it does not look for the link among the other relationships, so
    it can store a link twice, which [save] refuses. [update] of an id that
    names a file of its own and is not stored raises a plain
    [RepositoryError] and the stored relationships are as before. *)
Theorem file_relationship_update_replaces_without_checking_the_link
    (r : FileBasedRelationshipRepository.t) (rels : gmap string Relationship.t)
    (now : Z) (rel : Relationship.t) :
  Predicates.represents_links r rels →
  Predicates.plain_ids rels →
  plain_id (Relationship.relationship_id rel) = true →
  Relationship.validate rel = Ok true →
  match rels !! Relationship.relationship_id rel with
  | Some old =>
      ∃ r',
        FileBasedRelationshipRepository.update now rel r
        = (r', Ok (Relationship.set_updated_at now rel))
        ∧ Predicates.represents_links r'
            (<[Relationship.relationship_id rel := Relationship.set_updated_at now rel]>
               rels)
        ∧ (∀ y, rels !! Relationship.relationship_id y = Some y →
                Relationship.relationship_id y ≠ Relationship.relationship_id rel →
                Predicates.link_key y = Predicates.link_key rel →
                ¬ Predicates.unique_links
                    (<[Relationship.relationship_id rel
                       := Relationship.set_updated_at now rel]> rels))
  | None =>
      ∃ r',
        FileBasedRelationshipRepository.update now rel r
        = (r', Raise (Exn RepositoryError
                        ("Failed to update relationship: "
                         +:+ ("Relationship " +:+ Relationship.relationship_id rel
                              +:+ " not found"))))
        ∧ Predicates.represents_links r' rels
  end.
Proof.
  intros Hrep _ _ Hv.
  destruct (rels !! Relationship.relationship_id rel) as [old|] eqn:Hold.
  - destruct (LinkStoreFacts.update_links r rels now rel old Hrep Hold Hv)
      as (r' & Hrun & Hrep').
    exists r'. split; [exact Hrun|]. split; [exact Hrep'|].
    intros y Hy Hne Hk Huniq. apply Hne.
    apply (Huniq _ _ y (Relationship.set_updated_at now rel)).
    + by rewrite lookup_insert_ne.
    + by rewrite lookup_insert_eq.
    + exact Hk.
  - eexists. split; [by apply (LinkStoreFacts.update_links_missing r rels)|].
    by apply LinkStoreFacts.links_add_log.
Qed.

Lemma file_relationship_update_replaces_without_checking_the_link_witness :
  let r := Links.store in
  let rels := Links.stored in
  let rel := Links.r1_moved in
  Predicates.represents_links r rels
  ∧ Predicates.plain_ids rels
  ∧ plain_id (Relationship.relationship_id rel) = true
  ∧ Relationship.validate rel = Ok true
  ∧ match rels !! Relationship.relationship_id rel with
    | Some old =>
        ∃ r',
          FileBasedRelationshipRepository.update 7 rel r
          = (r', Ok (Relationship.set_updated_at 7 rel))
          ∧ Predicates.represents_links r'
              (<[Relationship.relationship_id rel := Relationship.set_updated_at 7 rel]>
                 rels)
          ∧ (∀ y, rels !! Relationship.relationship_id y = Some y →
                  Relationship.relationship_id y ≠ Relationship.relationship_id rel →
                  Predicates.link_key y = Predicates.link_key rel →
                  ¬ Predicates.unique_links
                      (<[Relationship.relationship_id rel
                         := Relationship.set_updated_at 7 rel]> rels))
    | None =>
        ∃ r',
          FileBasedRelationshipRepository.update 7 rel r
          = (r', Raise (Exn RepositoryError
                          ("Failed to update relationship: "
                           +:+ ("Relationship " +:+ Relationship.relationship_id rel
                                +:+ " not found"))))
          ∧ Predicates.represents_links r' rels
    end.
Proof.
  intros r rels rel.
  assert (H2 : Relationship.validate rel = Ok true) by (vm_compute; reflexivity).
  assert (H3 : plain_id (Relationship.relationship_id rel) = true)
    by (vm_compute; reflexivity).
  split; [exact LinkExampleFacts.links_represented|].
  split; [exact LinkExampleFacts.links_plain|]. split; [exact H3|]. split; [exact H2|].
  exact (file_relationship_update_replaces_without_checking_the_link r rels 7 rel
           LinkExampleFacts.links_represented LinkExampleFacts.links_plain H3 H2).
Defined.

(** X28.  On a consistent relationship store whose ids name files of their
    own, [find_by_id] of such an id returns the relationship of the id or
    [None], and [find_by_source], [find_by_target] and [find_by_type] return,
    without repetition, exactly the stored relationships of that source,
    target or type; none of them changes the store. *)
Theorem file_relationship_index_queries_are_exact
    (r : FileBasedRelationshipRepository.t) (rels : gmap string Relationship.t)
    (key : string) :
  Predicates.represents_links r rels →
  Predicates.plain_ids rels →
  (plain_id key = true →
   FileBasedRelationshipRepository.find_by_id key r = (r, Ok (rels !! key)))
  ∧ (∃ l, FileBasedRelationshipRepository.find_by_source key r = (r, Ok l)
          ∧ NoDup l
          ∧ ∀ x, x ∈ l ↔ rels !! Relationship.relationship_id x = Some x
                         ∧ Relationship.source_id x = key)
  ∧ (∃ l, FileBasedRelationshipRepository.find_by_target key r = (r, Ok l)
          ∧ NoDup l
          ∧ ∀ x, x ∈ l ↔ rels !! Relationship.relationship_id x = Some x
                         ∧ Relationship.target_id x = key)
  ∧ (∃ l, FileBasedRelationshipRepository.find_by_type key r = (r, Ok l)
          ∧ NoDup l
          ∧ ∀ x, x ∈ l ↔ rels !! Relationship.relationship_id x = Some x
                         ∧ Relationship.relationship_type x = key).
Proof.
  intros Hrep _.
  split; [intros _; by apply LinkStoreFacts.find_by_id_links|].
  split; [by apply LinkStoreFacts.find_by_source_links|].
  split; [by apply LinkStoreFacts.find_by_target_links|].
  by apply LinkStoreFacts.find_by_type_links.
Qed.

Lemma file_relationship_index_queries_are_exact_witness :
  let r := Links.store in
  let rels := Links.stored in
  let key := "a1" in
  Predicates.represents_links r rels
  ∧ Predicates.plain_ids rels
  ∧ (plain_id key = true →
     FileBasedRelationshipRepository.find_by_id key r = (r, Ok (rels !! key)))
  ∧ (∃ l, FileBasedRelationshipRepository.find_by_source key r = (r, Ok l)
          ∧ NoDup l
          ∧ ∀ x, x ∈ l ↔ rels !! Relationship.relationship_id x = Some x
                         ∧ Relationship.source_id x = key)
  ∧ (∃ l, FileBasedRelationshipRepository.find_by_target key r = (r, Ok l)
          ∧ NoDup l
          ∧ ∀ x, x ∈ l ↔ rels !! Relationship.relationship_id x = Some x
                         ∧ Relationship.target_id x = key)
  ∧ (∃ l, FileBasedRelationshipRepository.find_by_type key r = (r, Ok l)
          ∧ NoDup l
          ∧ ∀ x, x ∈ l ↔ rels !! Relationship.relationship_id x = Some x
                         ∧ Relationship.relationship_type x = key).
Proof.
  intros r rels key. split; [exact LinkExampleFacts.links_represented|].
  split; [exact LinkExampleFacts.links_plain|].
  exact (file_relationship_index_queries_are_exact r rels key
           LinkExampleFacts.links_represented LinkExampleFacts.links_plain).
Defined.

(** X29.  On a consistent relationship store, [find_by_asset] returns, without
    repetition, exactly the stored relationships that have the asset as source
    or target, and [find_between] exactly those that join the two assets in
    either sense (none when the two are the same asset); neither changes the
    store. *)
Theorem file_relationship_find_by_asset_and_between_are_exact
    (r : FileBasedRelationshipRepository.t) (rels : gmap string Relationship.t)
    (a b : string) :
  Predicates.represents_links r rels →
  (∃ l, FileBasedRelationshipRepository.find_by_asset a r = (r, Ok l)
        ∧ NoDup l
        ∧ ∀ x, x ∈ l ↔ rels !! Relationship.relationship_id x = Some x
                       ∧ Predicates.involves a x)
  ∧ (∃ l, FileBasedRelationshipRepository.find_between a b r = (r, Ok l)
          ∧ NoDup l
          ∧ (∀ x, x ∈ l ↔
               rels !! Relationship.relationship_id x = Some x
               ∧ ((Relationship.source_id x = a ∧ Relationship.target_id x = b)
                  ∨ (Relationship.source_id x = b ∧ Relationship.target_id x = a)))
          ∧ (a = b → l = [])).
Proof.
  intros Hrep. split; [by apply LinkQueryFacts.find_by_asset_links|].
  destruct (LinkQueryFacts.find_between_links r rels a b Hrep) as (l & Hrun & Hnd & Hmem).
  exists l. split; [exact Hrun|]. split; [exact Hnd|]. split; [exact Hmem|].
  intros <-. destruct l as [|x l]; [done|]. exfalso.
  destruct (proj1 (Hmem x)) as [Hx Hends]; [by left|].
  destruct (Predicates.links_entities _ _ Hrep _ _ Hx) as (_ & _ & Hv).
  apply LinkQueryFacts.valid_not_self in Hv. destruct Hends as [[? ?]|[? ?]]; congruence.
Qed.

Lemma file_relationship_find_by_asset_and_between_are_exact_witness :
  let r := Links.store in
  let rels := Links.stored in
  let a := "a1" in
  let b := "a2" in
  Predicates.represents_links r rels
  ∧ (∃ l, FileBasedRelationshipRepository.find_by_asset a r = (r, Ok l)
          ∧ NoDup l
          ∧ ∀ x, x ∈ l ↔ rels !! Relationship.relationship_id x = Some x
                         ∧ Predicates.involves a x)
  ∧ (∃ l, FileBasedRelationshipRepository.find_between a b r = (r, Ok l)
          ∧ NoDup l
          ∧ (∀ x, x ∈ l ↔
               rels !! Relationship.relationship_id x = Some x
               ∧ ((Relationship.source_id x = a ∧ Relationship.target_id x = b)
                  ∨ (Relationship.source_id x = b ∧ Relationship.target_id x = a)))
          ∧ (a = b → l = [])).
Proof.
  intros r rels a b. split; [exact LinkExampleFacts.links_represented|].
  exact (file_relationship_find_by_asset_and_between_are_exact r rels a b
           LinkExampleFacts.links_represented).
Defined.



(** * The backends side by side *)

Module GraphStatisticsFacts.
Import Predicates.

(** Reading a dictionary built from a list of keys. *)
Lemma dict_get_keyed (g : string → pyvalue) (keys : list string) k :
  dict_get k ((λ k', (k', g k')) <$> keys) = if bool_decide (k ∈ keys) then Some (g k) else None.
Proof.
  induction keys as [|x keys IH]; cbn [fmap list_fmap dict_get]; [done|].
  destruct (decide (x = k)) as [->|Hx].
  - rewrite !bool_decide_eq_true_2; [done| |done]. apply elem_of_cons. by left.
  - rewrite (bool_decide_eq_false_2 (x = k)) by done. rewrite IH.
    destruct (decide (k ∈ keys)) as [Hk|Hk].
    + rewrite !bool_decide_eq_true_2; [done| |done]. apply elem_of_cons. by right.
    + rewrite !bool_decide_eq_false_2; [done| |done].
      intros Hin. apply elem_of_cons in Hin as [->|?]; done.
Qed.

Lemma filter_eq_nil (keys : list string) k :
  k ∉ keys → filter (λ k', k' = k) keys = [].
Proof.
  induction keys as [|x keys IH]; intros Hk; [done|].
  apply not_elem_of_cons in Hk as [Hne Hk].
  rewrite filter_cons_False by (intros ->; done). by apply IH.
Qed.

Lemma group_count_get (keys : list string) k :
  dict_get k (group_count keys)
  = let c := length (filter (λ k', k' = k) keys) in
    if bool_decide (c = 0%nat) then None else Some (PInt (Z.of_nat c)).
Proof.
  unfold group_count. rewrite dict_get_keyed. cbn zeta.
  destruct (decide (k ∈ keys)) as [Hin|Hout].
  - rewrite bool_decide_eq_true_2 by (by apply elem_of_remove_dups).
    rewrite bool_decide_eq_false_2; [done|].
    intros Hlen. apply length_zero_iff_nil in Hlen.
    assert (k ∈ filter (λ k', k' = k) keys) as Hk by (by apply list_elem_of_filter).
    rewrite Hlen in Hk. by apply elem_of_nil in Hk.
  - rewrite bool_decide_eq_false_2 by (by rewrite elem_of_remove_dups).
    rewrite filter_eq_nil by done. done.
Qed.

(** The rows of a column that hold [k], counted on the rows. *)
Lemma count_fmap {A} (f : A → string) (l : list A) k :
  length (filter (λ k', k' = k) (f <$> l)) = length (filter (λ x, f x = k) l).
Proof.
  induction l as [|x l IH]; [done|]. cbn [fmap list_fmap].
  destruct (decide (f x = k)) as [Hx|Hx].
  - rewrite !filter_cons_True by done. cbn. by rewrite <- IH.
  - rewrite !filter_cons_False by done. exact IH.
Qed.

(** Reading the cardinalities of an index. *)
Lemma index_cardinalities_get (idx : gmap string (list string)) k d :
  index_cardinalities idx = PDict d →
  dict_get k d = (λ ids, PInt (Z.of_nat (length ids))) <$> idx !! k.
Proof.
  unfold index_cardinalities. intros [= <-].
  pose proof (NoDup_fst_map_to_list idx) as Hnd.
  assert (Hin : ∀ kv, kv ∈ map_to_list idx → idx !! kv.1 = Some kv.2).
  { intros [k' v] H. by apply elem_of_map_to_list in H. }
  assert (Hout : k ∉ (map_to_list idx).*1 → idx !! k = None).
  { intros H. destruct (idx !! k) as [v|] eqn:Hk; [|done]. exfalso. apply H.
    apply list_elem_of_fmap. exists (k, v). split; [done|]. by apply elem_of_map_to_list. }
  induction (map_to_list idx) as [|[k' v] l IH]; cbn.
  - rewrite Hout; [done|]. apply not_elem_of_nil.
  - case_bool_decide as Hk.
    + subst. assert (Hkv : idx !! k = Some v).
      { apply (Hin (k, v)). apply elem_of_cons. by left. }
      by rewrite Hkv.
    + apply IH.
      * by inversion Hnd.
      * intros kv Hkv. apply Hin. apply elem_of_cons. by right.
      * intros H. apply Hout. cbn. intros Hc. apply elem_of_cons in Hc as [->|?]; done.
Qed.

(** The list an index keeps under a key is as long as the relationships
    with that key are many. *)
Lemma index_list_length (idx : gmap string (list string))
    (rels : gmap string Relationship.t) (key : Relationship.t → string) k :
  (∀ id x, rels !! id = Some x → Relationship.relationship_id x = id) →
  index_lists idx (λ k id, ∃ x, rels !! id = Some x ∧ key x = k) →
  length (default [] (idx !! k)) = size (filter (λ kv, key kv.2 = k) rels).
Proof.
  intros Hids [Hwf Hmem].
  assert (Hnd : NoDup (default [] (idx !! k))).
  { destruct (idx !! k) as [ids|] eqn:Hk; [by destruct (Hwf k ids Hk)|constructor]. }
  rewrite <- (size_list_to_set (C := gset string) _ Hnd), <- size_dom. f_equal.
  apply set_eq. intros id. rewrite elem_of_list_to_set, elem_of_dom, Hmem.
  unfold is_Some. setoid_rewrite map_lookup_filter_Some. cbn. split.
  - intros (x & Hx & Hk). eauto.
  - intros (x & Hx & Hk). eauto.
Qed.

(** Two different members of a duplicate-free list are two of its members. *)
Lemma touched_twice (ids : list string) (a b : string) :
  NoDup ids → a ∈ ids → b ∈ ids → a ≠ b →
  length (filter (λ id, a = id ∨ b = id) ids) = 2%nat.
Proof.
  induction 1 as [|x ids Hx Hnd IH]; intros Ha Hb Hab.
  - by apply elem_of_nil in Ha.
  - assert (Hone : ∀ c d : string, c ∈ ids → d ∉ ids →
              length (filter (λ id, c = id ∨ d = id) ids) = 1%nat
              ∧ length (filter (λ id, d = id ∨ c = id) ids) = 1%nat).
    { clear IH Ha Hb Hab Hx. intros c d Hc Hd.
      induction Hnd as [|y ids Hy Hnd IH]; [by apply elem_of_nil in Hc|].
      apply not_elem_of_cons in Hd as [Hdy Hd].
      apply elem_of_cons in Hc as [->|Hc].
      - rewrite !filter_cons_True by tauto. cbn.
        assert (Hnil : ∀ P : string → Prop, ∀ HP : ∀ x, Decision (P x),
                  (∀ id, id ∈ ids → ¬ P id) → length (filter P ids) = 0%nat).
        { intros P HP HPn. clear -HPn. induction ids as [|z ids IH]; [done|].
          rewrite filter_cons_False by (apply HPn; apply elem_of_cons; by left).
          apply IH. intros id Hid. apply HPn. apply elem_of_cons. by right. }
        rewrite !Hnil; [done| |].
        + intros id Hid [->| ->]; done.
        + intros id Hid [->| ->]; done.
      - assert (c ≠ y) by (intros ->; done).
        rewrite !filter_cons_False by (intros [?|?]; done). by apply IH. }
    apply elem_of_cons in Ha as [->|Ha]; apply elem_of_cons in Hb as [->|Hb].
    + done.
    + rewrite filter_cons_True by tauto. cbn. f_equal.
      by destruct (Hone b x Hb Hx) as [_ ->].
    + rewrite filter_cons_True by tauto. cbn. f_equal.
      by destruct (Hone a x Ha Hx) as [-> _].
    + assert (a ≠ x) by (intros ->; done). assert (b ≠ x) by (intros ->; done).
      rewrite filter_cons_False by (intros [?|?]; done). by apply IH.
Qed.

(** Every edge joins two different nodes of a duplicate-free list: the
    degrees add up to twice the number of edges. *)
Lemma handshake (ids : list string) (es : list Relationship.t) :
  NoDup ids →
  (∀ e, e ∈ es → Relationship.source_id e ∈ ids ∧ Relationship.target_id e ∈ ids
                 ∧ Relationship.source_id e ≠ Relationship.target_id e) →
  foldr Z.add 0%Z
    ((λ id, Z.of_nat (length (filter (λ e, Relationship.source_id e = id
                                           ∨ Relationship.target_id e = id) es))) <$> ids)
  = (2 * Z.of_nat (length es))%Z.
Proof.
  intros Hnd. induction es as [|e es IH]; intros Hes.
  - clear Hnd Hes. induction ids as [|x ids IHi]; [done|].
    cbn [fmap list_fmap foldr]. rewrite IHi. by rewrite filter_nil.
  - destruct (Hes e) as (Hs & Ht & Hne); [apply elem_of_cons; by left|].
    assert (Hstep : ∀ l : list string,
      foldr Z.add 0%Z
        ((λ id, Z.of_nat (length (filter (λ e0, Relationship.source_id e0 = id
                                    ∨ Relationship.target_id e0 = id) (e :: es)))) <$> l)
      = (Z.of_nat (length (filter (λ id, Relationship.source_id e = id
                                         ∨ Relationship.target_id e = id) l))
         + foldr Z.add 0%Z
             ((λ id, Z.of_nat (length (filter (λ e0, Relationship.source_id e0 = id
                                    ∨ Relationship.target_id e0 = id) es))) <$> l))%Z).
    { induction l as [|x l IHl]; [done|]. cbn [fmap list_fmap foldr]. rewrite IHl.
      destruct (decide (Relationship.source_id e = x ∨ Relationship.target_id e = x)) as [Hx|Hx].
      - rewrite !filter_cons_True by done. cbn [length]. lia.
      - rewrite !filter_cons_False by done. lia. }
    rewrite Hstep, IH.
    + replace (length (filter _ ids)) with 2%nat; [cbn [length]; lia|].
      rewrite <- (touched_twice ids _ _ Hnd Hs Ht Hne). f_equal.
    + intros e' He'. apply Hes. apply elem_of_cons. by right.
Qed.


(** Sums of integers, taken in the rationals. *)
Lemma Qc_of_Z_plus (a b : Z) : Qc_of_Z (a + b) = (Qc_of_Z a + Qc_of_Z b)%Qc.
Proof.
  unfold Qc_of_Z. apply Qc_is_canon. cbn.
  rewrite !Qred_correct. by rewrite inject_Z_plus.
Qed.

Lemma Qc_sum (l : list Z) :
  foldr Qcplus 0%Qc (Qc_of_Z <$> l) = Qc_of_Z (foldr Z.add 0%Z l).
Proof.
  induction l as [|x l IH]; cbn [fmap list_fmap foldr]; [by apply Qc_is_canon|].
  by rewrite IH, Qc_of_Z_plus.
Qed.

Lemma Qc_of_Z_eq_0 (a : Z) : Qc_of_Z a = 0%Qc → a = 0%Z.
Proof.
  unfold Qc_of_Z. intros H. apply (f_equal this) in H. cbn in H.
  assert (Hq : (inject_Z a == 0)%Q) by (by rewrite <- (Qred_correct (inject_Z a)), H).
  unfold Qeq in Hq. cbn in Hq. lia.
Qed.

Lemma Qc_quotient_eq_0 (a b : Z) :
  b ≠ 0%Z → (Qc_of_Z a / Qc_of_Z b = 0)%Qc ↔ a = 0%Z.
Proof.
  intros Hb. split.
  - intros H. unfold Qcdiv in H. apply Qcmult_integral in H as [H|H].
    + by apply Qc_of_Z_eq_0.
    + exfalso. assert (Hb' : Qc_of_Z b ≠ 0%Qc) by (intros Hz; by apply Qc_of_Z_eq_0 in Hz).
      pose proof (Qcmult_inv_r _ Hb') as Hinv. rewrite H, Qcmult_0_r in Hinv. discriminate.
  - intros ->. unfold Qcdiv. apply Qcmult_0_l.
Qed.

(** The degrees of the nodes of a graph add up to twice its edges. *)
Lemma degrees_of_graph (g : MemgraphRelationshipRepository.graph) :
  NoDup (MemgraphRelationshipRepository.node_ids g) →
  wf_graph g →
  (∀ e, e ∈ MemgraphRelationshipRepository.edges g →
        Relationship.source_id e ≠ Relationship.target_id e) →
  foldr Z.add 0%Z (MemgraphRelationshipRepository.degree g
                     <$> MemgraphRelationshipRepository.node_ids g)
  = (2 * Z.of_nat (length (MemgraphRelationshipRepository.edges g)))%Z.
Proof.
  intros Hnd Hwf Hloop. apply handshake; [exact Hnd|].
  intros e He. destruct (Hwf e He) as [Hs Ht]. split; [exact Hs|]. split; [exact Ht|].
  by apply Hloop.
Qed.

End GraphStatisticsFacts.

(** ** A relationship to an asset that is not stored *)

(** C5 (as stated) fails on the relational side when the connection does
    not enforce foreign keys.  [SQLiteConnection] takes its pragmas from the
    caller, and SQLite checks foreign keys only after
    [PRAGMA foreign_keys = ON]: on a database opened with
    [{"journal_mode": "DELETE"}] that holds the asset [a1], [save] of a
    relationship from [a1] to [a2], which is not stored, returns the
    relationship and inserts its row. *)
Lemma sqlite_without_foreign_keys_accepts_dangling_target :
  let a1 := Sample.asset "a1" "compute" "aws" [("env", "prod")] in
  let fresh := SQLite.init (Some [("journal_mode", "DELETE")]) in
  let w := (SQLiteAssetRepository.save a1 fresh).1 in
  let rel := Sample.relationship "rel-1" "a1" "a2" "depends_on" in
  SQLite.pragmas w = [("journal_mode", "DELETE")]
  ∧ (SQLiteAssetRepository.save a1 fresh).2 = Ok a1
  ∧ SQLite.asset_ids (SQLite.db w) = ["a1"]
  ∧ (Relationship.target_id rel ∉ SQLite.asset_ids (SQLite.db w))
  ∧ (SQLiteRelationshipRepository.save rel w).2 = Ok rel
  ∧ SQLite.relationships (SQLite.db (SQLiteRelationshipRepository.save rel w).1) = [rel]
  ∧ (SQLiteRelationshipRepository.find_by_id "rel-1"
       (SQLiteRelationshipRepository.save rel w).1).2 = Ok (Some rel).
Proof.
  cbv zeta.
  repeat match goal with
         | |- _ ∧ _ => split
         | |- _ ∉ _ => apply (bool_decide_eq_false_1 _)
         end; vm_compute; reflexivity.
Qed.

(** C5 (amended).  A relationship whose [target_id] names no stored asset.
    The relational store answers [save] with an error and stores nothing
    when its connection enforces foreign keys, as it does with the default
    pragmas (for a relationship new to the database the error is the
    wrapped foreign-key failure).  The file-backed store never looks at
    assets: on a consistent store whose ids name files of their own, it
    accepts a valid relationship whose id is not empty and names a file of
    its own, and whose id and link are not stored; it writes its file, and
    [find_by_id] returns it. *)
Theorem dangling_target_rejected_by_sqlite_accepted_by_file
    (w : SQLite.t) (r : FileBasedRelationshipRepository.t)
    (rels : gmap string Relationship.t) (rel : Relationship.t) :
  Relationship.target_id rel ∉ SQLite.asset_ids (SQLite.db w) →
  Predicates.represents_links r rels →
  Predicates.plain_ids rels →
  ¬ Predicates.known_link rels rel →
  Relationship.relationship_id rel ≠ "" →
  plain_id (Relationship.relationship_id rel) = true →
  Relationship.validate rel = Ok true →
  (SQLite.foreign_keys w = true →
   ∃ e,
     (SQLiteRelationshipRepository.save rel w).2 = Raise e
     ∧ isinstance e RepositoryError = true
     ∧ SQLite.db (SQLiteRelationshipRepository.save rel w).1 = SQLite.db w
     ∧ (Predicates.new_to_database (SQLite.db w) rel →
        e = Exn RepositoryError
              "Failed to save relationship: FOREIGN KEY constraint failed"))
  ∧ (∃ r',
       FileBasedRelationshipRepository.save rel r = (r', Ok rel)
       ∧ Predicates.represents_links r' (<[Relationship.relationship_id rel := rel]> rels)
       ∧ FileBasedRelationshipRepository.find_by_id (Relationship.relationship_id rel) r'
         = (r', Ok (Some rel))).
Proof.
  intros Hdangling Hrep _ Hnew Hne _ Hvalid. split.
  - intros Hfk. by apply SQLiteRelationshipRepositoryFacts.save_dangling.
  - destruct (LinkStoreFacts.save_links r rels rel Hrep) as (r' & Hsave & Hrep');
      [|done|done| |].
    { destruct (rels !! Relationship.relationship_id rel) eqn:Hx; [|done].
      exfalso. apply Hnew. left. eauto. }
    { intros y Hy Hk. apply Hnew. right. eauto. }
    exists r'. split; [exact Hsave|]. split; [exact Hrep'|].
    rewrite (LinkStoreFacts.find_by_id_links r' _ _ Hrep'). by rewrite lookup_insert_eq.
Qed.

Lemma dangling_target_rejected_by_sqlite_accepted_by_file_witness :
  let a1 := Sample.asset "a1" "compute" "aws" [("env", "prod")] in
  let w := (SQLiteAssetRepository.save a1 (SQLite.init None)).1 in
  let r := FileBasedRelationshipRepository.init "./data/relationships" true in
  let rel := Sample.relationship "rel-1" "a1" "a2" "depends_on" in
  (Relationship.target_id rel ∉ SQLite.asset_ids (SQLite.db w))
  ∧ Predicates.represents_links r ∅
  ∧ Predicates.plain_ids (∅ : gmap string Relationship.t)
  ∧ ¬ Predicates.known_link ∅ rel
  ∧ Relationship.relationship_id rel ≠ ""
  ∧ plain_id (Relationship.relationship_id rel) = true
  ∧ Relationship.validate rel = Ok true
  ∧ SQLite.foreign_keys w = true
  ∧ (∃ e,
       (SQLiteRelationshipRepository.save rel w).2 = Raise e
       ∧ isinstance e RepositoryError = true
       ∧ SQLite.db (SQLiteRelationshipRepository.save rel w).1 = SQLite.db w
       ∧ (Predicates.new_to_database (SQLite.db w) rel →
          e = Exn RepositoryError
                "Failed to save relationship: FOREIGN KEY constraint failed"))
  ∧ (∃ r',
       FileBasedRelationshipRepository.save rel r = (r', Ok rel)
       ∧ Predicates.represents_links r' (<[Relationship.relationship_id rel := rel]> ∅)
       ∧ FileBasedRelationshipRepository.find_by_id (Relationship.relationship_id rel) r'
         = (r', Ok (Some rel))).
Proof.
  intros a1 w r rel.
  assert (H1 : Relationship.target_id rel ∉ SQLite.asset_ids (SQLite.db w)).
  { apply (bool_decide_eq_false_1 (Relationship.target_id rel ∈ SQLite.asset_ids (SQLite.db w))).
    vm_compute. reflexivity. }
  assert (H2 : Predicates.represents_links r ∅) by apply LinkStoreFacts.links_init.
  assert (H3 : Predicates.plain_ids (∅ : gmap string Relationship.t)).
  { intros id [x Hx]. by rewrite lookup_empty in Hx. }
  assert (H4 : ¬ Predicates.known_link ∅ rel).
  { intros [[x Hx]|(y & Hy & _)]; by rewrite lookup_empty in *. }
  assert (H5 : Relationship.relationship_id rel ≠ "") by discriminate.
  assert (H6 : plain_id (Relationship.relationship_id rel) = true) by (vm_compute; reflexivity).
  assert (H7 : Relationship.validate rel = Ok true) by (vm_compute; reflexivity).
  assert (H8 : SQLite.foreign_keys w = true) by (vm_compute; reflexivity).
  repeat (split; [assumption|]).
  destruct (dangling_target_rejected_by_sqlite_accepted_by_file w r ∅ rel
              H1 H2 H3 H4 H5 H6 H7) as [Hsql Hfile].
  split; [exact (Hsql H8)|exact Hfile].
Defined.

(** ** Graph statistics *)

(** C8 (as stated) fails: not every backend's [get_graph_statistics]
    returns a minimum degree and a density.  The file-backed store returns six
    keys, with [average_degree] and [max_degree] only; the SQLite store has
    the three degree statistics and no density. *)
Lemma file_and_sqlite_graph_statistics_have_no_density :
  (∃ stats,
     (FileBasedRelationshipRepository.get_graph_statistics GraphStatistics.file_store).2
     = Ok stats
     ∧ dict_keys stats = GraphStatistics.file_keys
     ∧ GraphStatistics.has_density stats = false
     ∧ GraphStatistics.has_min_degree stats = false)
  ∧ (∃ stats,
       (SQLiteRelationshipRepository.get_graph_statistics GraphStatistics.database).2
       = Ok stats
       ∧ dict_keys stats = GraphStatistics.sqlite_keys
       ∧ GraphStatistics.has_density stats = false
       ∧ GraphStatistics.has_min_degree stats = true).
Proof.
  split; eexists; (split; [vm_compute; reflexivity|]);
    repeat split; vm_compute; reflexivity.
Qed.

(** C8 (amended).  What [get_graph_statistics] returns, backend by backend;
    each returns a node count, an edge count and a histogram of the
    relationship types, which gives for every type the number of
    relationships of that type and has no entry for the others.
    File, on a consistent store: six keys; the node count is the number of
    distinct ids that are the source or the target of a stored relationship,
    the edge count the number of stored relationships; [average_degree] is
    twice the edges over the nodes, rounded to two places; there is no minimum
    degree and no density.  SQLite: the node count is the number of distinct
    ids that are the source or the target of a row, the edge count the
    number of rows; [degree_statistics] has average, max and min; there is
    no density.  Memgraph (the server answering, on a graph whose nodes have
    distinct ids and whose edges join two different nodes of the graph): the
    node count is the number of [Asset] nodes, isolated ones included, the
    edge count the number of edges; [degree_statistics] has average, max and
    min, the average being twice the edges over the nodes rounded to two
    places; and [graph_properties] has the density
    [2 * edges / (nodes * (nodes - 1))] rounded to four places, [0] below
    two nodes.  Rounding is Python's [round] on the float of the quotient. *)
Theorem graph_statistics_by_backend :
  (∀ (r : FileBasedRelationshipRepository.t) (rels : gmap string Relationship.t),
     Predicates.represents_links r rels →
     ∃ stats (nodes : gset string),
       FileBasedRelationshipRepository.get_graph_statistics r = (r, Ok stats)
       ∧ dict_keys stats = GraphStatistics.file_keys
       ∧ (∀ n, n ∈ nodes ↔ ∃ x, rels !! Relationship.relationship_id x = Some x
                                ∧ Predicates.involves n x)
       ∧ dict_get "node_count" stats = Some (PInt (Z.of_nat (size nodes)))
       ∧ dict_get "edge_count" stats = Some (PInt (Z.of_nat (size rels)))
       ∧ (∀ ty, GraphStatistics.sub_get "by_type" ty stats
                = let c := size (filter (λ kv, Relationship.relationship_type kv.2 = ty) rels) in
                  if bool_decide (c = 0%nat) then None else Some (PInt (Z.of_nat c)))
       ∧ dict_get "average_degree" stats
         = Some (if bool_decide (nodes = ∅) then PInt 0
                 else PFloat (py_round (Qc_of_Z (2 * Z.of_nat (size rels))
                                        / Qc_of_Z (Z.of_nat (size nodes))) 2)))
  ∧ (∀ w : SQLite.t,
       let rows := SQLite.relationships (SQLite.db w) in
       ∃ stats (nodes : gset string),
         SQLiteRelationshipRepository.get_graph_statistics w = (w, Ok stats)
         ∧ dict_keys stats = GraphStatistics.sqlite_keys
         ∧ (∀ n, n ∈ nodes ↔ ∃ x, x ∈ rows ∧ Predicates.involves n x)
         ∧ dict_get "node_count" stats = Some (PInt (Z.of_nat (size nodes)))
         ∧ dict_get "edge_count" stats = Some (PInt (Z.of_nat (length rows)))
         ∧ (∀ ty, GraphStatistics.sub_get "by_type" ty stats
                  = let c := length (filter (λ x, Relationship.relationship_type x = ty) rows) in
                    if bool_decide (c = 0%nat) then None else Some (PInt (Z.of_nat c)))
         ∧ GraphStatistics.sub_keys "degree_statistics" stats
           = Some ["average"; "max"; "min"])
  ∧ (∀ cs (r : MemgraphRelationshipRepository.t),
       let g := MemgraphRelationshipRepository.server r in
       let n := Z.of_nat (length (MemgraphRelationshipRepository.nodes g)) in
       let m := Z.of_nat (length (MemgraphRelationshipRepository.edges g)) in
       MemgraphRelationshipRepository._available r = true →
       MemgraphRelationshipRepository.online g = true →
       NoDup (MemgraphRelationshipRepository.node_ids g) →
       Predicates.wf_graph g →
       (∀ e, e ∈ MemgraphRelationshipRepository.edges g →
             Relationship.source_id e ≠ Relationship.target_id e) →
       ∃ stats,
         MemgraphRelationshipRepository.get_graph_statistics cs r = (r, Ok stats)
         ∧ dict_keys stats = GraphStatistics.memgraph_keys
         ∧ dict_get "node_count" stats = Some (PInt n)
         ∧ dict_get "edge_count" stats = Some (PInt m)
         ∧ (∀ ty, GraphStatistics.sub_get "by_type" ty stats
                  = let c := length (filter (λ x, Relationship.relationship_type x = ty)
                                       (MemgraphRelationshipRepository.edges g)) in
                    if bool_decide (c = 0%nat) then None else Some (PInt (Z.of_nat c)))
         ∧ GraphStatistics.sub_keys "degree_statistics" stats
           = Some ["average"; "max"; "min"]
         ∧ GraphStatistics.sub_get "degree_statistics" "average" stats
           = Some (if bool_decide (m = 0)%Z then PInt 0
                   else PFloat (py_round (Qc_of_Z (2 * m) / Qc_of_Z n) 2))
         ∧ GraphStatistics.sub_get "graph_properties" "density" stats
           = Some (if bool_decide (1 < n)%Z
                   then PFloat (py_round (Qc_of_Z (2 * m) / Qc_of_Z (n * (n - 1))) 4)
                   else PInt 0)).
Proof.
  split; [|split].
  - intros r rels Hrep.
    destruct (LinkQueryFacts.graph_statistics_links r rels Hrep)
      as (stats & nodes & Hrun & He & Hn & Hnodes & Havg).
    exists stats, nodes. split; [exact Hrun|].
    assert (Hstats := Hrun).
    unfold FileBasedRelationshipRepository.get_graph_statistics, try_except in Hstats.
    revert Hstats. mrun. intros [= <-].
    split; [reflexivity|]. split; [exact Hnodes|]. split; [exact Hn|]. split; [exact He|].
    split; [|exact Havg].
    intros ty. unfold GraphStatistics.sub_get. cbn [dict_get].
    rewrite !bool_decide_eq_false_2 by discriminate.
    rewrite bool_decide_eq_true_2 by reflexivity.
    unfold index_cardinalities.
    rewrite (GraphStatisticsFacts.index_cardinalities_get _ ty _ eq_refl).
    pose proof (GraphStatisticsFacts.index_list_length
                  (FileBasedRelationshipRepository.type_index r) rels
                  Relationship.relationship_type ty) as Hlen.
    cbn zeta. rewrite <- Hlen.
    2:{ intros id x Hx. by destruct (Predicates.links_entities _ _ Hrep _ _ Hx). }
    2:{ exact (Predicates.links_type _ _ Hrep). }
    destruct (FileBasedRelationshipRepository.type_index r !! ty) as [ids|] eqn:Hty;
      cbn [fmap option_fmap option_map default length].
    + destruct (Predicates.links_type _ _ Hrep) as [Hwf _].
      destruct (Hwf ty ids Hty) as [_ Hne].
      rewrite bool_decide_eq_false_2; [done|]. intros H0. by apply length_zero_iff_nil in H0.
    + by rewrite bool_decide_eq_true_2.
  - intros w rows. eexists.
    exists (list_to_set (SQLiteRelationshipRepository.endpoints (SQLite.db w))).
    split.
    { unfold SQLiteRelationshipRepository.get_graph_statistics, try_except,
        SQLite.get_connection. mrun. reflexivity. }
    split; [reflexivity|]. split.
    { intros n. rewrite elem_of_list_to_set.
      unfold SQLiteRelationshipRepository.endpoints, Predicates.involves.
      rewrite elem_of_app, !list_elem_of_fmap. fold rows. split.
      - intros [(x & -> & Hx)|(x & -> & Hx)]; exists x; tauto.
      - intros (x & Hx & [<-|<-]); [left|right]; by exists x. }
    split.
    { cbn [dict_get]. rewrite bool_decide_eq_true_2 by reflexivity. do 3 f_equal.
      rewrite <- (size_list_to_set (C := gset string) _ (NoDup_remove_dups _)).
      f_equal. apply set_eq. intros n.
      by rewrite !elem_of_list_to_set, elem_of_remove_dups. }
    split; [reflexivity|]. split; [|reflexivity].
    intros ty. unfold GraphStatistics.sub_get. cbn [dict_get].
    rewrite !bool_decide_eq_false_2 by discriminate.
    rewrite bool_decide_eq_true_2 by reflexivity.
    rewrite GraphStatisticsFacts.group_count_get. cbn zeta.
    by rewrite GraphStatisticsFacts.count_fmap.
  - intros cs r g n m Hav Hon Hnd Hwf Hloop.
    pose proof (GraphStatisticsFacts.degrees_of_graph g Hnd Hwf Hloop) as Hsum.
    eexists. split.
    { unfold MemgraphRelationshipRepository.get_graph_statistics,
        MemgraphRelationshipRepository.with_fallback,
        MemgraphRelationshipRepository._use_fallback.
      rewrite Hav. cbn [negb andb]. unfold try_except. mrun.
      do 4 (rewrite MemgraphRelationshipRepositoryFacts.run_online by exact Hon;
            cbn [MemgraphRelationshipRepository.execute fst snd];
            replace (MemgraphRelationshipRepository.set_server
                       (MemgraphRelationshipRepository.server r) r)
              with r by (by destruct r);
            mrun).
      reflexivity. }
    fold g. rewrite Hsum.
    replace (2 * Z.of_nat (length (MemgraphRelationshipRepository.edges g)) / 2)%Z
      with m by (unfold m; rewrite Z.mul_comm, Z.div_mul; lia).
    split; [reflexivity|]. split; [reflexivity|]. split; [reflexivity|].
    split.
    { intros ty. unfold GraphStatistics.sub_get. cbn [dict_get].
      rewrite !bool_decide_eq_false_2 by discriminate.
      rewrite bool_decide_eq_true_2 by reflexivity.
      rewrite GraphStatisticsFacts.group_count_get. cbn zeta.
      by rewrite GraphStatisticsFacts.count_fmap. }
    split; [reflexivity|]. split; [|reflexivity].
    unfold GraphStatistics.sub_get. cbn [dict_get].
    rewrite !bool_decide_eq_false_2 by discriminate.
    rewrite !bool_decide_eq_true_2 by reflexivity. f_equal.
    cbn [dict_get]. rewrite bool_decide_eq_true_2 by reflexivity. f_equal.
    assert (Hlen : length (Qc_of_Z <$> (MemgraphRelationshipRepository.degree g
                             <$> MemgraphRelationshipRepository.node_ids g))
                   = length (MemgraphRelationshipRepository.nodes g)).
    { unfold MemgraphRelationshipRepository.node_ids. by rewrite !length_fmap. }
    assert (Havg : sql_avg (Qc_of_Z <$> (MemgraphRelationshipRepository.degree g
                              <$> MemgraphRelationshipRepository.node_ids g))
                   = if bool_decide (n = 0)%Z then None
                     else Some (Qc_of_Z (2 * m) / Qc_of_Z n)%Qc).
    { unfold sql_avg.
      destruct (Qc_of_Z <$> _) as [|q qs] eqn:Hqs.
      - rewrite bool_decide_eq_true_2; [done|]. unfold n. rewrite <- Hlen. done.
      - rewrite bool_decide_eq_false_2 by (unfold n; rewrite <- Hlen; cbn; lia).
        rewrite Hlen, <- Hqs, GraphStatisticsFacts.Qc_sum, Hsum. done. }
    rewrite Havg. unfold round_or_zero.
    destruct (decide (m = 0%Z)) as [Hm|Hm].
    + rewrite (bool_decide_eq_true_2 (m = 0%Z)) by done.
      case_bool_decide as Hn; [done|].
      rewrite bool_decide_eq_true_2; [done|].
      apply GraphStatisticsFacts.Qc_quotient_eq_0; [exact Hn|lia].
    + rewrite (bool_decide_eq_false_2 (m = 0%Z)) by done.
      assert (Hn : n ≠ 0%Z).
      { intros Hn. apply Hm. unfold m, n in *.
        destruct (MemgraphRelationshipRepository.edges g) as [|e es] eqn:He; [done|].
        destruct (Hwf e) as [Hs _]; [rewrite He; apply elem_of_cons; by left|].
        unfold MemgraphRelationshipRepository.node_ids in Hs.
        destruct (MemgraphRelationshipRepository.nodes g); [|cbn in Hn; lia].
        by apply elem_of_nil in Hs. }
      rewrite (bool_decide_eq_false_2 (n = 0%Z)) by done.
      rewrite bool_decide_eq_false_2; [done|].
      rewrite GraphStatisticsFacts.Qc_quotient_eq_0 by done. lia.
Qed.

Lemma graph_statistics_by_backend_witness :
  let r := GraphStatistics.graph_store in
  let g := MemgraphRelationshipRepository.server r in
  Predicates.represents_links Links.store Links.stored
  ∧ MemgraphRelationshipRepository._available r = true
  ∧ MemgraphRelationshipRepository.online g = true
  ∧ NoDup (MemgraphRelationshipRepository.node_ids g)
  ∧ Predicates.wf_graph g
  ∧ (∀ e, e ∈ MemgraphRelationshipRepository.edges g →
          Relationship.source_id e ≠ Relationship.target_id e)
  (* the file store with one relationship *)
  ∧ (∃ stats,
       FileBasedRelationshipRepository.get_graph_statistics Links.store
       = (Links.store, Ok stats)
       ∧ dict_keys stats = GraphStatistics.file_keys
       ∧ dict_get "edge_count" stats = Some (PInt 1)
       ∧ GraphStatistics.sub_get "by_type" "depends_on" stats = Some (PInt 1)
       ∧ GraphStatistics.sub_get "by_type" "uses" stats = None)
  (* the graph of three nodes and one edge *)
  ∧ (∃ stats,
       MemgraphRelationshipRepository.get_graph_statistics GraphStatistics.no_components r
       = (r, Ok stats)
       ∧ dict_keys stats = GraphStatistics.memgraph_keys
       ∧ dict_get "node_count" stats = Some (PInt 3)
       ∧ dict_get "edge_count" stats = Some (PInt 1)
       ∧ GraphStatistics.sub_get "by_type" "depends_on" stats = Some (PInt 1)
       ∧ GraphStatistics.sub_keys "degree_statistics" stats
         = Some ["average"; "max"; "min"]
       ∧ GraphStatistics.sub_get "degree_statistics" "average" stats
         = Some (PFloat (Q2Qc (67 # 100)))
       ∧ GraphStatistics.sub_get "graph_properties" "density" stats
         = Some (PFloat (Q2Qc (3333 # 10000)))).
Proof.
  intros r g.
  assert (H0 := LinkExampleFacts.links_represented).
  assert (H1 : MemgraphRelationshipRepository._available r = true) by reflexivity.
  assert (H2 : MemgraphRelationshipRepository.online g = true) by reflexivity.
  assert (H3 : NoDup (MemgraphRelationshipRepository.node_ids g)).
  { apply (bool_decide_unpack _). vm_compute. exact I. }
  assert (H4 : Predicates.wf_graph g).
  { intros e He. apply list_elem_of_singleton in He as ->.
    split; apply (bool_decide_unpack _); vm_compute; exact I. }
  assert (H5 : ∀ e, e ∈ MemgraphRelationshipRepository.edges g →
                    Relationship.source_id e ≠ Relationship.target_id e).
  { intros e He. apply list_elem_of_singleton in He as ->. discriminate. }
  repeat (split; [assumption|]).
  destruct graph_statistics_by_backend as (Hfile & _ & Hgraph). split.
  - destruct (Hfile Links.store Links.stored H0)
      as (stats & nodes & Hrun & Hkeys & _ & _ & He & Hty & _).
    exists stats. split; [exact Hrun|]. split; [exact Hkeys|].
    split; [rewrite He; vm_compute; reflexivity|].
    split; rewrite Hty; vm_compute; reflexivity.
  - destruct (Hgraph GraphStatistics.no_components r H1 H2 H3 H4 H5)
      as (stats & Hrun & Hkeys & Hn & He & Hty & Hdeg & Havg & Hden).
    exists stats. split; [exact Hrun|]. split; [exact Hkeys|].
    split; [exact Hn|]. split; [exact He|].
    split; [rewrite Hty; vm_compute; reflexivity|]. split; [exact Hdeg|].
    split; [rewrite Havg; vm_compute; reflexivity|].
    rewrite Hden. vm_compute. reflexivity.
Defined.

(** [round] works on the float of the quotient, not on the quotient: with
    13 edges on 65 nodes the density [0.00625] is a float slightly above
    that, and rounds up; with 43 edges on 80 nodes the average degree
    [1.075] is a float slightly below, and rounds down. *)
Example density_of_65_nodes_13_edges :
  MemgraphRelationshipRepository.density 65 13 = PFloat (Q2Qc (63 # 10000)).
Proof. vm_compute. reflexivity. Qed.

Example average_degree_of_80_nodes_43_edges :
  py_round (Qc_of_Z (2 * 43) / Qc_of_Z 80) 2 = Q2Qc (107 # 100).
Proof. vm_compute. reflexivity. Qed.

Example density_of_three_nodes_one_edge :
  MemgraphRelationshipRepository.density 3 1 = PFloat (Q2Qc (3333 # 10000)).
Proof. vm_compute. reflexivity. Qed.
